(** * Storage-controller emulation core of PCjs: FDC and HDC

    A shallow embedding of the Floppy Disk Controller
    ([src/unnamed/part_002], the FDC component) and of the Hard Disk
    Controller ([src/modules/pcjs/lib/hdc.js]), with the properties of the
    specification proved about it.

    JavaScript numbers that the controllers store are integers (port
    bytes, counters, CHS coordinates).  A property that always holds a
    number is a [Z]; a property that is [undefined] until a command
    programs it is a [JS.num], which also has [NaN], the result of
    arithmetic on [undefined].  The 32-bit conversion of the bitwise
    operators is written out ([JS.wrap32]).  A JS array of numbers is a
    [list JS.num], a cell that was never assigned being [Undef].  Objects
    are records, and a mutated object is passed along explicitly.  An
    exception of the source ([TypeError] on a property of [undefined]) and
    a value that a typed property cannot hold are explicit outcomes of the
    [result] monad. *)

From Stdlib Require Import ZArith List Bool Lia String.
From stdpp Require Import base option list.
Import ListNotations.
Open Scope Z_scope.

(** ** JavaScript values and operators *)

Module JS.

Local Unset Elimination Schemes.

(** The values stored in saved-state arrays. *)
Inductive jsval : Type :=
  | JUndef
  | JNull
  | JBool (b : bool)
  | JNaN
  | JNum (z : Z)
  | JStr (s : string)
  | JArr (l : list jsval).

Local Set Elimination Schemes.

(** [data[i]]: [undefined] out of range, and on anything that is not an
    array (the codec only indexes arrays). *)
Definition get (v : jsval) (i : nat) : jsval :=
  match v with
  | JArr l => default JUndef (l !! i)
  | _ => JUndef
  end.

(** Truthiness, as used by [if (x)], [x || y] and [x ? a : b]. *)
Definition truthy (v : jsval) : bool :=
  match v with
  | JUndef | JNull => false
  | JBool b => b
  | JNaN => false
  | JNum z => negb (z =? 0)
  | JStr s => negb (String.eqb s EmptyString)
  | JArr _ => true
  end.

(** [a === b] on values that are not arrays; two array values are
    distinct objects. *)
Definition seq (a b : jsval) : bool :=
  match a, b with
  | JUndef, JUndef | JNull, JNull => true
  | JBool x, JBool y => Bool.eqb x y
  | JNum x, JNum y => x =? y
  | JStr x, JStr y => String.eqb x y
  | _, _ => false
  end.

(** [a || b] *)
Definition or (a b : jsval) : jsval := if truthy a then a else b.

(** Truthiness of a number. *)
Definition truthyZ (z : Z) : bool := negb (z =? 0).

(** [ToInt32] on an integer: reduction modulo 2^32 into the signed range. *)
Definition wrap32 (z : Z) : Z := (z + 2^31) mod 2^32 - 2^31.

(** [a << n]: the shift count is taken modulo 32 and the result wraps. *)
Definition shl (a n : Z) : Z := wrap32 (Z.shiftl (wrap32 a) (n mod 32)).

(** [a & b], [a | b], [~a] and [a >> n] on integers: both operands are
    reduced by [ToInt32]. *)
Definition band (a b : Z) : Z := Z.land (wrap32 a) (wrap32 b).
Definition bor (a b : Z) : Z := Z.lor (wrap32 a) (wrap32 b).
Definition bnot (a : Z) : Z := Z.lnot (wrap32 a).
Definition shr (a n : Z) : Z := Z.shiftr (wrap32 a) (n mod 32).

(** A numeric property: [undefined], [NaN] or an integer. *)
Inductive num : Type :=
  | Undef
  | NaN
  | Num (z : Z).

(** [x + y], [x * y] and [x++]'s new value: [NaN] unless both are
    numbers. *)
Definition add (x y : num) : num :=
  match x, y with
  | Num a, Num b => Num (a + b)
  | _, _ => NaN
  end.

Definition mul (x y : num) : num :=
  match x, y with
  | Num a, Num b => Num (a * b)
  | _, _ => NaN
  end.

Definition inc (x : num) : num := add x (Num 1).

(** [x >= y] and [x < y]: false when either is not a number. *)
Definition geb (x y : num) : bool :=
  match x, y with
  | Num a, Num b => a >=? b
  | _, _ => false
  end.

Definition ltb (x y : num) : bool :=
  match x, y with
  | Num a, Num b => a <? b
  | _, _ => false
  end.

(** [x == y] on numeric properties. *)
Definition eqb (x y : num) : bool :=
  match x, y with
  | Num a, Num b => a =? b
  | Undef, Undef => true
  | _, _ => false
  end.

(** [ToInt32]: [0] for [undefined] and [NaN]. *)
Definition toInt32 (x : num) : Z :=
  match x with
  | Num a => wrap32 a
  | _ => 0
  end.

Definition truthyN (x : num) : bool :=
  match x with
  | Num a => truthyZ a
  | _ => false
  end.

(** A numeric property as a value of a saved-state array, and back. *)
Definition ofNum (x : num) : jsval :=
  match x with
  | Undef => JUndef
  | NaN => JNaN
  | Num a => JNum a
  end.

(** [a[i]] on an array of numbers: [undefined] out of range. *)
Definition aget (l : list num) (i : Z) : num :=
  if i <? 0 then Undef else default Undef (l !! Z.to_nat i).

(** [a[i] = v] on an array: assignment in range replaces the cell, an
    assignment at or past the length extends the array, leaving holes. *)
Definition set (l : list num) (i : nat) (v : num) : list num :=
  if (i <? length l)%nat then <[i := v]> l
  else l ++ replicate (i - length l) Undef ++ [v].

(** [new Array(n)] *)
Definition newArray (n : nat) : list num := replicate n Undef.

End JS.

Export JS(jsval(..), num(..)).

Coercion Num : Z >-> num.

(** ** Outcomes of a handler *)

(** What a call of the source can do besides returning. *)
Inductive failure : Type :=
  | TypeError      (* a property of [undefined] or [null] was accessed *)
  | RangeError     (* [new Array(n)] with a negative length *)
  | Untyped        (* a property typed as a number would receive [undefined],
                      [NaN] or an infinity *)
  | OutOfFuel.     (* the unrolling bound of a [do ... while (true)] loop was reached *)

Inductive result (A : Type) : Type :=
  | Ok (a : A)
  | Fail (e : failure).

Arguments Ok {A} a.
Arguments Fail {A} e.

#[global] Instance result_ret : MRet result := fun A a => Ok a.
#[global] Instance result_bind : MBind result := fun A B f m =>
  match m with
  | Ok a => f a
  | Fail e => Fail e
  end.

(** A numeric property where the typed model needs a number. *)
Definition number (x : JS.num) : result Z :=
  match x with
  | JS.Num b => Ok b
  | _ => Fail Untyped
  end.

(** [arr[i]] where a number is needed. *)
Definition cell (l : list JS.num) (i : Z) : result Z := number (JS.aget l i).

(** [obj.prop] where [obj] may be [undefined]. *)
Definition deref {A} (o : option A) : result A :=
  match o with
  | Some a => Ok a
  | None => Fail TypeError
  end.

(** [obj[i]] where [obj] may be [undefined] or [null]: a [TypeError]
    then. *)
Definition item (v : jsval) (i : nat) : result jsval :=
  match v with
  | JUndef | JNull => Fail TypeError
  | _ => Ok (JS.get v i)
  end.

(** Truthiness of an object reference that may be [undefined] or [null]. *)
Definition is_Some_b {A} (o : option A) : bool :=
  match o with
  | Some _ => true
  | None => false
  end.

(** ** External collaborators *)

(** The chipset (interrupt controller and DMA controller) and the disk
    image are components of the machine whose code is outside the two
    controllers.  The controllers are verified against their interfaces. *)

Inductive IRQ : Type := IRQ_FDC | IRQ_XTC | IRQ_ATC.

Inductive DMAChannel : Type := DMA_FDC | DMA_HDC.

(** The controller function that the DMA controller is connected to. *)
Inductive DMAFunc : Type :=
  | dmaRead_f | dmaWrite_f | dmaWriteBuffer_f | dmaFormat_f.

(** A call made by a controller on the chipset.  The chipset of a
    controller is the log of these calls, newest first; [None] is a
    controller without chipset ([this.chipset] undefined). *)
Inductive ChipCall : Type :=
  | SetIRR (irq : IRQ)
  | ClearIRR (irq : IRQ)
  | ConnectDMA (ch : DMAChannel) (f : DMAFunc) (iDrive : Z)
  | RequestDMA (ch : DMAChannel)
  | SetCMOSDriveType (iDrive : Z) (type : Z).

Definition ChipSet : Type := option (list ChipCall).

(** [if (this.chipset) this.chipset.call(...)] *)
Definition chip (call : ChipCall) (cs : ChipSet) : ChipSet :=
  match cs with
  | Some log => Some (call :: log)
  | None => None
  end.

(** Whether a log of calls holds [setIRR(irq)]. *)
Definition raised (irq : IRQ) (log : list ChipCall) : bool :=
  existsb (fun c => match c with
                    | SetIRR i => match i, irq with
                                  | IRQ_FDC, IRQ_FDC | IRQ_XTC, IRQ_XTC | IRQ_ATC, IRQ_ATC => true
                                  | _, _ => false
                                  end
                    | _ => false
                    end) log.

(** The disk image attached to a drive: [Disk.seek], [Disk.read],
    [Disk.write], [Disk.save] and [Disk.restore], over an abstract type of
    images and of sector handles.  [disk_seek] is the synchronous form (the
    [done] callback, when the source passes one, runs before [seek]
    returns); [disk_read] is [-1] past the end of the sector; [disk_write]
    tells whether the byte was stored; [disk_restore] is negative when the
    deltas belong to another image. *)
Class DiskPort (Disk Sector : Type) : Type := {
  disk_new : Disk;
  disk_seek : Disk -> JS.num -> JS.num -> JS.num -> option Sector;
  disk_read : Disk -> Sector -> JS.num -> Z;
  disk_write : Disk -> Sector -> JS.num -> Z -> bool * Disk;
  disk_fWriteProtected : Disk -> bool;
  disk_save : Disk -> jsval;
  disk_restore : Disk -> jsval -> Z * Disk
}.

(** ** Saved-state arrays *)

(** A controller saves its state as a positional array of values
  ([save], [saveController], [saveDrive]) and reads it back by position
  ([initController], [initDrive]).  Writing a typed property into an
  array cell is an injection into [jsval]; reading a cell into a typed
  property has the outcome [Untyped] when the cell holds a value of
  another type, which no [save] function writes there. *)
Module Codec.

Definition ofZ (z : Z) : jsval := JNum z.
Definition ofBool (b : bool) : jsval := JBool b.
Definition ofNums (l : list JS.num) : jsval := JArr (JS.ofNum <$> l).
Definition ofStr (s : string) : jsval := JStr s.
Definition ofOptStr (s : option string) : jsval :=
  match s with
  | Some s => JStr s
  | None => JUndef
  end.

Definition toZ (v : jsval) : result Z :=
  match v with
  | JNum z => Ok z
  | _ => Fail Untyped
  end.

Definition toNum (v : jsval) : result JS.num :=
  match v with
  | JUndef => Ok Undef
  | JNaN => Ok NaN
  | JNum z => Ok (Num z)
  | _ => Fail Untyped
  end.

Definition toBool (v : jsval) : result bool :=
  match v with
  | JBool b => Ok b
  | _ => Fail Untyped
  end.

Definition toStr (v : jsval) : result string :=
  match v with
  | JStr s => Ok s
  | _ => Fail Untyped
  end.

Definition toOptStr (v : jsval) : result (option string) :=
  match v with
  | JStr s => Ok (Some s)
  | JUndef => Ok None
  | _ => Fail Untyped
  end.

Fixpoint mapM {A B} (f : A -> result B) (l : list A) : result (list B) :=
  match l with
  | [] => Ok []
  | x :: l => y ← f x; ys ← mapM f l; Ok (y :: ys)
  end.

Definition toNums (v : jsval) : result (list JS.num) :=
  match v with
  | JArr l => mapM toNum l
  | _ => Fail Untyped
  end.

(** An array cell that holds an array of numbers or [undefined]. *)
Definition toOptNums (v : jsval) : result (option (list JS.num)) :=
  match v with
  | JUndef => Ok None
  | _ => l ← toNums v; Ok (Some l)
  end.

Definition ofOptNums (o : option (list JS.num)) : jsval :=
  match o with
  | Some l => ofNums l
  | None => JUndef
  end.

End Codec.

(** ** The geometry of a disk image *)

(** [disk.info()]: the cylinders, the heads, the sectors of a track and
    the bytes of a sector of an image.  [seekDrive] of both controllers
    reads it. *)
Class DiskGeometry (Disk : Type) : Type := {
  disk_info : Disk -> Z * Z * Z * Z
}.

(** [x - y] and [x -= y] on numeric properties: [NaN] unless both are
    numbers. *)
Definition num_sub (x y : JS.num) : JS.num :=
  match x, y with
  | Num a, Num b => Num (a - b)
  | _, _ => NaN
  end.

(** ** The Hard Disk Controller ([hdc.js]) *)

Module HDC.

(** *** Register constants *)

(** [HDC.ATC.STATUS], [HDC.ATC.ERROR], [HDC.ATC.DIAG], [HDC.ATC.DRVHD],
    [HDC.ATC.CYLHI], [HDC.ATC.COMMAND], [HDC.ATC.FDR] *)
Definition ATC_STATUS_BUSY : Z := 0x80.
Definition ATC_STATUS_READY : Z := 0x40.
Definition ATC_STATUS_SEEK_OK : Z := 0x10.
Definition ATC_STATUS_DATA_REQ : Z := 0x08.
Definition ATC_STATUS_ERROR : Z := 0x01.
Definition ATC_ERROR_NONE : Z := 0x00.
Definition ATC_ERROR_NO_CHS : Z := 0x10.
Definition ATC_DIAG_NO_ERROR : Z := 0x01.
Definition ATC_DRVHD_HEAD_MASK : Z := 0x0F.
Definition ATC_DRVHD_DRIVE_MASK : Z := 0x10.
Definition ATC_CYLHI_MASK : Z := 0x03.
Definition ATC_COMMAND_RESTORE : Z := 0x10.
Definition ATC_COMMAND_READ_DATA : Z := 0x20.
Definition ATC_COMMAND_WRITE_DATA : Z := 0x30.
Definition ATC_COMMAND_READ_VERF : Z := 0x40.
Definition ATC_COMMAND_FORMAT_TRK : Z := 0x50.
Definition ATC_COMMAND_SEEK : Z := 0x70.
Definition ATC_COMMAND_DIAGNOSE : Z := 0x90.
Definition ATC_COMMAND_SETPARMS : Z := 0x91.
Definition ATC_COMMAND_MASK : Z := 0xF0.
Definition ATC_FDR_INT_DISABLE : Z := 0x02.
Definition ATC_FDR_RESET : Z := 0x04.

(** [HDC.XTC.DATA]: the data "status byte" *)
Definition XTC_DATA_STATUS_OK : Z := 0x00.
Definition XTC_DATA_STATUS_ERROR : Z := 0x02.
Definition XTC_DATA_STATUS_UNIT : Z := 0x20.

(** [HDC.XTC.STATUS] *)
Definition XTC_STATUS_NONE : Z := 0x00.
Definition XTC_STATUS_REQ : Z := 0x01.
Definition XTC_STATUS_IOMODE : Z := 0x02.
Definition XTC_STATUS_BUS : Z := 0x04.
Definition XTC_STATUS_BUSY : Z := 0x08.
Definition XTC_STATUS_INTERRUPT : Z := 0x20.

(** [HDC.XTC.DATA.CMD] *)
Definition CMD_TEST_READY : Z := 0x00.
Definition CMD_RECALIBRATE : Z := 0x01.
Definition CMD_REQUEST_SENSE : Z := 0x03.
Definition CMD_READ_VERF : Z := 0x05.
Definition CMD_READ_DATA : Z := 0x08.
Definition CMD_WRITE_DATA : Z := 0x0A.
Definition CMD_INIT_DRIVE : Z := 0x0C.
Definition CMD_WRITE_BUFFER : Z := 0x0F.
Definition CMD_RAM_DIAGNOSTIC : Z := 0xE0.
Definition CMD_CTL_DIAGNOSTIC : Z := 0xE4.

(** [HDC.XTC.DATA.ERR] *)
Definition ERR_NONE : Z := 0x00.
Definition ERR_NOT_READY : Z := 0x04.
Definition ERR_NO_SECTOR : Z := 0x14.

(** [HDC.aDriveTypes[iHDC][type]]: cylinders and heads of a drive type. *)
Definition aDriveTypes (iHDC : Z) (type : Z) : option (Z * Z) :=
  if iHDC =? 0 then
    if type =? 0x00 then Some (306, 2) else
    if type =? 0x01 then Some (375, 8) else
    if type =? 0x02 then Some (306, 6) else
    if type =? 0x03 then Some (306, 4) else None
  else if iHDC =? 1 then
    if type =? 0x01 then Some (306, 4) else
    if type =? 0x02 then Some (615, 4) else
    if type =? 0x03 then Some (615, 6) else
    if type =? 0x04 then Some (940, 8) else
    if type =? 0x05 then Some (940, 6) else
    if type =? 0x06 then Some (615, 4) else
    if type =? 0x07 then Some (462, 8) else
    if type =? 0x08 then Some (733, 5) else
    if type =? 0x09 then Some (900, 15) else
    if type =? 0x0A then Some (820, 3) else
    if type =? 0x0B then Some (855, 5) else
    if type =? 0x0C then Some (855, 7) else
    if type =? 0x0D then Some (306, 8) else
    if type =? 0x0E then Some (733, 7) else None
  else None.

Section WithDisk.

Context {Disk Sector : Type} {DP : DiskPort Disk Sector}.

(** *** The drive object and the controller object *)

(** A drive object, as [initDrive] builds it.  The [name], [path] and
    [mode] strings of the drive configuration select and load the disk
    image; they are part of the disk image port and are left out. *)
#[projections(primitive)] Record Drive : Type := mkDrive {
  iDrive : Z;
  errorCode : Z;
  senseCode : Z;
  fRemovable : bool;
  abDriveParms : list JS.num;   (* parameters programmed by INIT_DRIVE *)
  abSector : option (list JS.num);   (* the sector buffer; undefined until WRITE_BUFFER *)
  bHead : JS.num;
  nHeads : JS.num;
  wCylinder : JS.num;
  bSector : JS.num;
  bSectorEnd : JS.num;   (* aka EOT *)
  nBytes : JS.num;
  bSectorBias : Z;   (* 0 on the ATC, 1 on the XTC *)
  type : Z;
  nSectors : Z;   (* sectors/track *)
  cbSector : Z;   (* bytes/sector *)
  nCylinders : JS.num;
  disk : option Disk;   (* null when no image is attached *)
  ibSector : JS.num;   (* location of the next byte in the current sector *)
  sector : option Sector;   (* null until a sector is located *)
  bControl : JS.num
}.

Definition set_errorCode (v : Z) (x : Drive) : Drive :=
  mkDrive (x.(iDrive)) v (x.(senseCode)) (x.(fRemovable)) (x.(abDriveParms))
    (x.(abSector)) (x.(bHead)) (x.(nHeads)) (x.(wCylinder)) (x.(bSector))
    (x.(bSectorEnd)) (x.(nBytes)) (x.(bSectorBias)) (x.(type))
    (x.(nSectors)) (x.(cbSector)) (x.(nCylinders)) (x.(disk)) (x.(ibSector))
    (x.(sector)) (x.(bControl)).
Definition set_senseCode (v : Z) (x : Drive) : Drive :=
  mkDrive (x.(iDrive)) (x.(errorCode)) v (x.(fRemovable)) (x.(abDriveParms))
    (x.(abSector)) (x.(bHead)) (x.(nHeads)) (x.(wCylinder)) (x.(bSector))
    (x.(bSectorEnd)) (x.(nBytes)) (x.(bSectorBias)) (x.(type))
    (x.(nSectors)) (x.(cbSector)) (x.(nCylinders)) (x.(disk)) (x.(ibSector))
    (x.(sector)) (x.(bControl)).
Definition set_abDriveParms (v : list JS.num) (x : Drive) : Drive :=
  mkDrive (x.(iDrive)) (x.(errorCode)) (x.(senseCode)) (x.(fRemovable)) v
    (x.(abSector)) (x.(bHead)) (x.(nHeads)) (x.(wCylinder)) (x.(bSector))
    (x.(bSectorEnd)) (x.(nBytes)) (x.(bSectorBias)) (x.(type))
    (x.(nSectors)) (x.(cbSector)) (x.(nCylinders)) (x.(disk)) (x.(ibSector))
    (x.(sector)) (x.(bControl)).
Definition set_abSector (v : option (list JS.num)) (x : Drive) : Drive :=
  mkDrive (x.(iDrive)) (x.(errorCode)) (x.(senseCode)) (x.(fRemovable))
    (x.(abDriveParms)) v (x.(bHead)) (x.(nHeads)) (x.(wCylinder))
    (x.(bSector)) (x.(bSectorEnd)) (x.(nBytes)) (x.(bSectorBias)) (x.(type))
    (x.(nSectors)) (x.(cbSector)) (x.(nCylinders)) (x.(disk)) (x.(ibSector))
    (x.(sector)) (x.(bControl)).
Definition set_bHead (v : JS.num) (x : Drive) : Drive :=
  mkDrive (x.(iDrive)) (x.(errorCode)) (x.(senseCode)) (x.(fRemovable))
    (x.(abDriveParms)) (x.(abSector)) v (x.(nHeads)) (x.(wCylinder))
    (x.(bSector)) (x.(bSectorEnd)) (x.(nBytes)) (x.(bSectorBias)) (x.(type))
    (x.(nSectors)) (x.(cbSector)) (x.(nCylinders)) (x.(disk)) (x.(ibSector))
    (x.(sector)) (x.(bControl)).
Definition set_nHeads (v : JS.num) (x : Drive) : Drive :=
  mkDrive (x.(iDrive)) (x.(errorCode)) (x.(senseCode)) (x.(fRemovable))
    (x.(abDriveParms)) (x.(abSector)) (x.(bHead)) v (x.(wCylinder))
    (x.(bSector)) (x.(bSectorEnd)) (x.(nBytes)) (x.(bSectorBias)) (x.(type))
    (x.(nSectors)) (x.(cbSector)) (x.(nCylinders)) (x.(disk)) (x.(ibSector))
    (x.(sector)) (x.(bControl)).
Definition set_wCylinder (v : JS.num) (x : Drive) : Drive :=
  mkDrive (x.(iDrive)) (x.(errorCode)) (x.(senseCode)) (x.(fRemovable))
    (x.(abDriveParms)) (x.(abSector)) (x.(bHead)) (x.(nHeads)) v
    (x.(bSector)) (x.(bSectorEnd)) (x.(nBytes)) (x.(bSectorBias)) (x.(type))
    (x.(nSectors)) (x.(cbSector)) (x.(nCylinders)) (x.(disk)) (x.(ibSector))
    (x.(sector)) (x.(bControl)).
Definition set_bSector (v : JS.num) (x : Drive) : Drive :=
  mkDrive (x.(iDrive)) (x.(errorCode)) (x.(senseCode)) (x.(fRemovable))
    (x.(abDriveParms)) (x.(abSector)) (x.(bHead)) (x.(nHeads))
    (x.(wCylinder)) v (x.(bSectorEnd)) (x.(nBytes)) (x.(bSectorBias))
    (x.(type)) (x.(nSectors)) (x.(cbSector)) (x.(nCylinders)) (x.(disk))
    (x.(ibSector)) (x.(sector)) (x.(bControl)).
Definition set_nBytes (v : JS.num) (x : Drive) : Drive :=
  mkDrive (x.(iDrive)) (x.(errorCode)) (x.(senseCode)) (x.(fRemovable))
    (x.(abDriveParms)) (x.(abSector)) (x.(bHead)) (x.(nHeads))
    (x.(wCylinder)) (x.(bSector)) (x.(bSectorEnd)) v (x.(bSectorBias))
    (x.(type)) (x.(nSectors)) (x.(cbSector)) (x.(nCylinders)) (x.(disk))
    (x.(ibSector)) (x.(sector)) (x.(bControl)).
Definition set_nSectors (v : Z) (x : Drive) : Drive :=
  mkDrive (x.(iDrive)) (x.(errorCode)) (x.(senseCode)) (x.(fRemovable))
    (x.(abDriveParms)) (x.(abSector)) (x.(bHead)) (x.(nHeads))
    (x.(wCylinder)) (x.(bSector)) (x.(bSectorEnd)) (x.(nBytes))
    (x.(bSectorBias)) (x.(type)) v (x.(cbSector)) (x.(nCylinders))
    (x.(disk)) (x.(ibSector)) (x.(sector)) (x.(bControl)).
Definition set_nCylinders (v : JS.num) (x : Drive) : Drive :=
  mkDrive (x.(iDrive)) (x.(errorCode)) (x.(senseCode)) (x.(fRemovable))
    (x.(abDriveParms)) (x.(abSector)) (x.(bHead)) (x.(nHeads))
    (x.(wCylinder)) (x.(bSector)) (x.(bSectorEnd)) (x.(nBytes))
    (x.(bSectorBias)) (x.(type)) (x.(nSectors)) (x.(cbSector)) v (x.(disk))
    (x.(ibSector)) (x.(sector)) (x.(bControl)).
Definition set_disk (v : option Disk) (x : Drive) : Drive :=
  mkDrive (x.(iDrive)) (x.(errorCode)) (x.(senseCode)) (x.(fRemovable))
    (x.(abDriveParms)) (x.(abSector)) (x.(bHead)) (x.(nHeads))
    (x.(wCylinder)) (x.(bSector)) (x.(bSectorEnd)) (x.(nBytes))
    (x.(bSectorBias)) (x.(type)) (x.(nSectors)) (x.(cbSector))
    (x.(nCylinders)) v (x.(ibSector)) (x.(sector)) (x.(bControl)).
Definition set_ibSector (v : JS.num) (x : Drive) : Drive :=
  mkDrive (x.(iDrive)) (x.(errorCode)) (x.(senseCode)) (x.(fRemovable))
    (x.(abDriveParms)) (x.(abSector)) (x.(bHead)) (x.(nHeads))
    (x.(wCylinder)) (x.(bSector)) (x.(bSectorEnd)) (x.(nBytes))
    (x.(bSectorBias)) (x.(type)) (x.(nSectors)) (x.(cbSector))
    (x.(nCylinders)) (x.(disk)) v (x.(sector)) (x.(bControl)).
Definition set_sector (v : option Sector) (x : Drive) : Drive :=
  mkDrive (x.(iDrive)) (x.(errorCode)) (x.(senseCode)) (x.(fRemovable))
    (x.(abDriveParms)) (x.(abSector)) (x.(bHead)) (x.(nHeads))
    (x.(wCylinder)) (x.(bSector)) (x.(bSectorEnd)) (x.(nBytes))
    (x.(bSectorBias)) (x.(type)) (x.(nSectors)) (x.(cbSector))
    (x.(nCylinders)) (x.(disk)) (x.(ibSector)) v (x.(bControl)).
Definition set_bControl (v : JS.num) (x : Drive) : Drive :=
  mkDrive (x.(iDrive)) (x.(errorCode)) (x.(senseCode)) (x.(fRemovable))
    (x.(abDriveParms)) (x.(abSector)) (x.(bHead)) (x.(nHeads))
    (x.(wCylinder)) (x.(bSector)) (x.(bSectorEnd)) (x.(nBytes))
    (x.(bSectorBias)) (x.(type)) (x.(nSectors)) (x.(cbSector))
    (x.(nCylinders)) (x.(disk)) (x.(ibSector)) (x.(sector)) v.

(** The [done] continuation that a DMA command leaves with the chipset:
    which command opened the session, on which drive, and the unit bit of
    the command block. *)
#[projections(primitive)] Record Session : Type := mkSession {
  s_func : DMAFunc;
  s_iDrive : nat;
  s_bDrive : Z
}.

(** The controller object.  An ATC instance uses the task-file registers,
    an XTC instance the data FIFO; [regConfig] is [undefined] on the ATC.
    [aDriveConfigs] holds the ['type'] of each configured drive. *)
#[projections(primitive)] Record Controller : Type := mkController {
  fATC : bool;
  aDriveConfigs : list (option Z);
  regError : Z;
  regWPreC : Z;
  regSecCnt : Z;
  regSecNum : Z;
  regCylLo : Z;
  regCylHi : Z;
  regDrvHd : Z;
  regStatus : Z;
  regCommand : Z;
  regFDR : Z;
  regConfig : JS.num;
  regDataArray : list JS.num;
  regDataIndex : Z;
  regDataTotal : Z;
  regReset : JS.num;
  regPulse : JS.num;
  regPattern : JS.num;
  iDriveAllowFail : Z;
  aDrives : list Drive;
  drive : option nat;   (* [this.drive]: the index of the drive it aliases *)
  chipset : ChipSet;
  dmaSession : option Session
}.

Definition set_regError (v : Z) (x : Controller) : Controller :=
  mkController (x.(fATC)) (x.(aDriveConfigs)) v (x.(regWPreC))
    (x.(regSecCnt)) (x.(regSecNum)) (x.(regCylLo)) (x.(regCylHi))
    (x.(regDrvHd)) (x.(regStatus)) (x.(regCommand)) (x.(regFDR))
    (x.(regConfig)) (x.(regDataArray)) (x.(regDataIndex)) (x.(regDataTotal))
    (x.(regReset)) (x.(regPulse)) (x.(regPattern)) (x.(iDriveAllowFail))
    (x.(aDrives)) (x.(drive)) (x.(chipset)) (x.(dmaSession)).
Definition set_regWPreC (v : Z) (x : Controller) : Controller :=
  mkController (x.(fATC)) (x.(aDriveConfigs)) (x.(regError)) v
    (x.(regSecCnt)) (x.(regSecNum)) (x.(regCylLo)) (x.(regCylHi))
    (x.(regDrvHd)) (x.(regStatus)) (x.(regCommand)) (x.(regFDR))
    (x.(regConfig)) (x.(regDataArray)) (x.(regDataIndex)) (x.(regDataTotal))
    (x.(regReset)) (x.(regPulse)) (x.(regPattern)) (x.(iDriveAllowFail))
    (x.(aDrives)) (x.(drive)) (x.(chipset)) (x.(dmaSession)).
Definition set_regSecCnt (v : Z) (x : Controller) : Controller :=
  mkController (x.(fATC)) (x.(aDriveConfigs)) (x.(regError)) (x.(regWPreC))
    v (x.(regSecNum)) (x.(regCylLo)) (x.(regCylHi)) (x.(regDrvHd))
    (x.(regStatus)) (x.(regCommand)) (x.(regFDR)) (x.(regConfig))
    (x.(regDataArray)) (x.(regDataIndex)) (x.(regDataTotal)) (x.(regReset))
    (x.(regPulse)) (x.(regPattern)) (x.(iDriveAllowFail)) (x.(aDrives))
    (x.(drive)) (x.(chipset)) (x.(dmaSession)).
Definition set_regSecNum (v : Z) (x : Controller) : Controller :=
  mkController (x.(fATC)) (x.(aDriveConfigs)) (x.(regError)) (x.(regWPreC))
    (x.(regSecCnt)) v (x.(regCylLo)) (x.(regCylHi)) (x.(regDrvHd))
    (x.(regStatus)) (x.(regCommand)) (x.(regFDR)) (x.(regConfig))
    (x.(regDataArray)) (x.(regDataIndex)) (x.(regDataTotal)) (x.(regReset))
    (x.(regPulse)) (x.(regPattern)) (x.(iDriveAllowFail)) (x.(aDrives))
    (x.(drive)) (x.(chipset)) (x.(dmaSession)).
Definition set_regCylLo (v : Z) (x : Controller) : Controller :=
  mkController (x.(fATC)) (x.(aDriveConfigs)) (x.(regError)) (x.(regWPreC))
    (x.(regSecCnt)) (x.(regSecNum)) v (x.(regCylHi)) (x.(regDrvHd))
    (x.(regStatus)) (x.(regCommand)) (x.(regFDR)) (x.(regConfig))
    (x.(regDataArray)) (x.(regDataIndex)) (x.(regDataTotal)) (x.(regReset))
    (x.(regPulse)) (x.(regPattern)) (x.(iDriveAllowFail)) (x.(aDrives))
    (x.(drive)) (x.(chipset)) (x.(dmaSession)).
Definition set_regCylHi (v : Z) (x : Controller) : Controller :=
  mkController (x.(fATC)) (x.(aDriveConfigs)) (x.(regError)) (x.(regWPreC))
    (x.(regSecCnt)) (x.(regSecNum)) (x.(regCylLo)) v (x.(regDrvHd))
    (x.(regStatus)) (x.(regCommand)) (x.(regFDR)) (x.(regConfig))
    (x.(regDataArray)) (x.(regDataIndex)) (x.(regDataTotal)) (x.(regReset))
    (x.(regPulse)) (x.(regPattern)) (x.(iDriveAllowFail)) (x.(aDrives))
    (x.(drive)) (x.(chipset)) (x.(dmaSession)).
Definition set_regDrvHd (v : Z) (x : Controller) : Controller :=
  mkController (x.(fATC)) (x.(aDriveConfigs)) (x.(regError)) (x.(regWPreC))
    (x.(regSecCnt)) (x.(regSecNum)) (x.(regCylLo)) (x.(regCylHi)) v
    (x.(regStatus)) (x.(regCommand)) (x.(regFDR)) (x.(regConfig))
    (x.(regDataArray)) (x.(regDataIndex)) (x.(regDataTotal)) (x.(regReset))
    (x.(regPulse)) (x.(regPattern)) (x.(iDriveAllowFail)) (x.(aDrives))
    (x.(drive)) (x.(chipset)) (x.(dmaSession)).
Definition set_regStatus (v : Z) (x : Controller) : Controller :=
  mkController (x.(fATC)) (x.(aDriveConfigs)) (x.(regError)) (x.(regWPreC))
    (x.(regSecCnt)) (x.(regSecNum)) (x.(regCylLo)) (x.(regCylHi))
    (x.(regDrvHd)) v (x.(regCommand)) (x.(regFDR)) (x.(regConfig))
    (x.(regDataArray)) (x.(regDataIndex)) (x.(regDataTotal)) (x.(regReset))
    (x.(regPulse)) (x.(regPattern)) (x.(iDriveAllowFail)) (x.(aDrives))
    (x.(drive)) (x.(chipset)) (x.(dmaSession)).
Definition set_regCommand (v : Z) (x : Controller) : Controller :=
  mkController (x.(fATC)) (x.(aDriveConfigs)) (x.(regError)) (x.(regWPreC))
    (x.(regSecCnt)) (x.(regSecNum)) (x.(regCylLo)) (x.(regCylHi))
    (x.(regDrvHd)) (x.(regStatus)) v (x.(regFDR)) (x.(regConfig))
    (x.(regDataArray)) (x.(regDataIndex)) (x.(regDataTotal)) (x.(regReset))
    (x.(regPulse)) (x.(regPattern)) (x.(iDriveAllowFail)) (x.(aDrives))
    (x.(drive)) (x.(chipset)) (x.(dmaSession)).
Definition set_regFDR (v : Z) (x : Controller) : Controller :=
  mkController (x.(fATC)) (x.(aDriveConfigs)) (x.(regError)) (x.(regWPreC))
    (x.(regSecCnt)) (x.(regSecNum)) (x.(regCylLo)) (x.(regCylHi))
    (x.(regDrvHd)) (x.(regStatus)) (x.(regCommand)) v (x.(regConfig))
    (x.(regDataArray)) (x.(regDataIndex)) (x.(regDataTotal)) (x.(regReset))
    (x.(regPulse)) (x.(regPattern)) (x.(iDriveAllowFail)) (x.(aDrives))
    (x.(drive)) (x.(chipset)) (x.(dmaSession)).
Definition set_regConfig (v : JS.num) (x : Controller) : Controller :=
  mkController (x.(fATC)) (x.(aDriveConfigs)) (x.(regError)) (x.(regWPreC))
    (x.(regSecCnt)) (x.(regSecNum)) (x.(regCylLo)) (x.(regCylHi))
    (x.(regDrvHd)) (x.(regStatus)) (x.(regCommand)) (x.(regFDR)) v
    (x.(regDataArray)) (x.(regDataIndex)) (x.(regDataTotal)) (x.(regReset))
    (x.(regPulse)) (x.(regPattern)) (x.(iDriveAllowFail)) (x.(aDrives))
    (x.(drive)) (x.(chipset)) (x.(dmaSession)).
Definition set_regDataArray (v : list JS.num) (x : Controller) : Controller :=
  mkController (x.(fATC)) (x.(aDriveConfigs)) (x.(regError)) (x.(regWPreC))
    (x.(regSecCnt)) (x.(regSecNum)) (x.(regCylLo)) (x.(regCylHi))
    (x.(regDrvHd)) (x.(regStatus)) (x.(regCommand)) (x.(regFDR))
    (x.(regConfig)) v (x.(regDataIndex)) (x.(regDataTotal)) (x.(regReset))
    (x.(regPulse)) (x.(regPattern)) (x.(iDriveAllowFail)) (x.(aDrives))
    (x.(drive)) (x.(chipset)) (x.(dmaSession)).
Definition set_regDataIndex (v : Z) (x : Controller) : Controller :=
  mkController (x.(fATC)) (x.(aDriveConfigs)) (x.(regError)) (x.(regWPreC))
    (x.(regSecCnt)) (x.(regSecNum)) (x.(regCylLo)) (x.(regCylHi))
    (x.(regDrvHd)) (x.(regStatus)) (x.(regCommand)) (x.(regFDR))
    (x.(regConfig)) (x.(regDataArray)) v (x.(regDataTotal)) (x.(regReset))
    (x.(regPulse)) (x.(regPattern)) (x.(iDriveAllowFail)) (x.(aDrives))
    (x.(drive)) (x.(chipset)) (x.(dmaSession)).
Definition set_regDataTotal (v : Z) (x : Controller) : Controller :=
  mkController (x.(fATC)) (x.(aDriveConfigs)) (x.(regError)) (x.(regWPreC))
    (x.(regSecCnt)) (x.(regSecNum)) (x.(regCylLo)) (x.(regCylHi))
    (x.(regDrvHd)) (x.(regStatus)) (x.(regCommand)) (x.(regFDR))
    (x.(regConfig)) (x.(regDataArray)) (x.(regDataIndex)) v (x.(regReset))
    (x.(regPulse)) (x.(regPattern)) (x.(iDriveAllowFail)) (x.(aDrives))
    (x.(drive)) (x.(chipset)) (x.(dmaSession)).
Definition set_regReset (v : JS.num) (x : Controller) : Controller :=
  mkController (x.(fATC)) (x.(aDriveConfigs)) (x.(regError)) (x.(regWPreC))
    (x.(regSecCnt)) (x.(regSecNum)) (x.(regCylLo)) (x.(regCylHi))
    (x.(regDrvHd)) (x.(regStatus)) (x.(regCommand)) (x.(regFDR))
    (x.(regConfig)) (x.(regDataArray)) (x.(regDataIndex)) (x.(regDataTotal))
    v (x.(regPulse)) (x.(regPattern)) (x.(iDriveAllowFail)) (x.(aDrives))
    (x.(drive)) (x.(chipset)) (x.(dmaSession)).
Definition set_regPulse (v : JS.num) (x : Controller) : Controller :=
  mkController (x.(fATC)) (x.(aDriveConfigs)) (x.(regError)) (x.(regWPreC))
    (x.(regSecCnt)) (x.(regSecNum)) (x.(regCylLo)) (x.(regCylHi))
    (x.(regDrvHd)) (x.(regStatus)) (x.(regCommand)) (x.(regFDR))
    (x.(regConfig)) (x.(regDataArray)) (x.(regDataIndex)) (x.(regDataTotal))
    (x.(regReset)) v (x.(regPattern)) (x.(iDriveAllowFail)) (x.(aDrives))
    (x.(drive)) (x.(chipset)) (x.(dmaSession)).
Definition set_regPattern (v : JS.num) (x : Controller) : Controller :=
  mkController (x.(fATC)) (x.(aDriveConfigs)) (x.(regError)) (x.(regWPreC))
    (x.(regSecCnt)) (x.(regSecNum)) (x.(regCylLo)) (x.(regCylHi))
    (x.(regDrvHd)) (x.(regStatus)) (x.(regCommand)) (x.(regFDR))
    (x.(regConfig)) (x.(regDataArray)) (x.(regDataIndex)) (x.(regDataTotal))
    (x.(regReset)) (x.(regPulse)) v (x.(iDriveAllowFail)) (x.(aDrives))
    (x.(drive)) (x.(chipset)) (x.(dmaSession)).
Definition set_iDriveAllowFail (v : Z) (x : Controller) : Controller :=
  mkController (x.(fATC)) (x.(aDriveConfigs)) (x.(regError)) (x.(regWPreC))
    (x.(regSecCnt)) (x.(regSecNum)) (x.(regCylLo)) (x.(regCylHi))
    (x.(regDrvHd)) (x.(regStatus)) (x.(regCommand)) (x.(regFDR))
    (x.(regConfig)) (x.(regDataArray)) (x.(regDataIndex)) (x.(regDataTotal))
    (x.(regReset)) (x.(regPulse)) (x.(regPattern)) v (x.(aDrives))
    (x.(drive)) (x.(chipset)) (x.(dmaSession)).
Definition set_aDrives (v : list Drive) (x : Controller) : Controller :=
  mkController (x.(fATC)) (x.(aDriveConfigs)) (x.(regError)) (x.(regWPreC))
    (x.(regSecCnt)) (x.(regSecNum)) (x.(regCylLo)) (x.(regCylHi))
    (x.(regDrvHd)) (x.(regStatus)) (x.(regCommand)) (x.(regFDR))
    (x.(regConfig)) (x.(regDataArray)) (x.(regDataIndex)) (x.(regDataTotal))
    (x.(regReset)) (x.(regPulse)) (x.(regPattern)) (x.(iDriveAllowFail)) v
    (x.(drive)) (x.(chipset)) (x.(dmaSession)).
Definition set_drive (v : option nat) (x : Controller) : Controller :=
  mkController (x.(fATC)) (x.(aDriveConfigs)) (x.(regError)) (x.(regWPreC))
    (x.(regSecCnt)) (x.(regSecNum)) (x.(regCylLo)) (x.(regCylHi))
    (x.(regDrvHd)) (x.(regStatus)) (x.(regCommand)) (x.(regFDR))
    (x.(regConfig)) (x.(regDataArray)) (x.(regDataIndex)) (x.(regDataTotal))
    (x.(regReset)) (x.(regPulse)) (x.(regPattern)) (x.(iDriveAllowFail))
    (x.(aDrives)) v (x.(chipset)) (x.(dmaSession)).
Definition set_chipset (v : ChipSet) (x : Controller) : Controller :=
  mkController (x.(fATC)) (x.(aDriveConfigs)) (x.(regError)) (x.(regWPreC))
    (x.(regSecCnt)) (x.(regSecNum)) (x.(regCylLo)) (x.(regCylHi))
    (x.(regDrvHd)) (x.(regStatus)) (x.(regCommand)) (x.(regFDR))
    (x.(regConfig)) (x.(regDataArray)) (x.(regDataIndex)) (x.(regDataTotal))
    (x.(regReset)) (x.(regPulse)) (x.(regPattern)) (x.(iDriveAllowFail))
    (x.(aDrives)) (x.(drive)) v (x.(dmaSession)).
Definition set_dmaSession (v : option Session) (x : Controller) : Controller :=
  mkController (x.(fATC)) (x.(aDriveConfigs)) (x.(regError)) (x.(regWPreC))
    (x.(regSecCnt)) (x.(regSecNum)) (x.(regCylLo)) (x.(regCylHi))
    (x.(regDrvHd)) (x.(regStatus)) (x.(regCommand)) (x.(regFDR))
    (x.(regConfig)) (x.(regDataArray)) (x.(regDataIndex)) (x.(regDataTotal))
    (x.(regReset)) (x.(regPulse)) (x.(regPattern)) (x.(iDriveAllowFail))
    (x.(aDrives)) (x.(drive)) (x.(chipset)) v.

Definition iHDC (c : Controller) : Z := if c.(fATC) then 1 else 0.
Definition iDriveTypeDefault (c : Controller) : Z := if c.(fATC) then 2 else 3.

(** [this.aDrives[iDrive]], and an update of the object found there. *)
Definition getDrive (i : nat) (c : Controller) : option Drive := c.(aDrives) !! i.

Definition updDrive (i : nat) (f : Drive -> Drive) (c : Controller) : Controller :=
  match c.(aDrives) !! i with
  | Some d => set_aDrives (<[i := f d]> c.(aDrives)) c
  | None => c
  end.

Definition putDrive (i : nat) (d : Drive) (c : Controller) : Controller :=
  set_aDrives (<[i := d]> c.(aDrives)) c.

(** *** Sector transfer *)

(** [this.assert(drive.wCylinder < drive.nCylinders)], the assertion at
    the head of [advanceSector].  An assertion reports; it does not
    change the drive. *)
Definition advanceSector_assert (drive : Drive) : bool :=
  JS.ltb drive.(wCylinder) drive.(nCylinders).

(** [advanceSector(drive)] *)
Definition advanceSector (drive : Drive) : Drive :=
  let drive := set_bSector (JS.inc drive.(bSector)) drive in
  let bSectorStart := 1 - drive.(bSectorBias) in
  if JS.geb drive.(bSector) (Num (drive.(nSectors) + bSectorStart)) then
    let drive := set_bSector (Num bSectorStart) drive in
    let drive := set_bHead (JS.inc drive.(bHead)) drive in
    if JS.geb drive.(bHead) drive.(nHeads) then
      let drive := set_bHead (Num 0) drive in
      set_wCylinder (JS.inc drive.(wCylinder)) drive
    else drive
  else drive.

(** [readByte(drive, done, fAutoInc)].  [fDone] tells whether a [done]
    callback is passed; the result is the drive and the byte [b] that is
    returned and, when there is a callback, handed to it. *)
Definition readByte (drive : Drive) (fDone fAutoInc : bool) : result (Drive * Z) :=
  if JS.truthyZ drive.(errorCode) then Ok (drive, -1)
  else
    let inc := if fAutoInc then 1 else 0 in
    '(drive, b) ← match drive.(sector) with
                  | Some sector =>
                      dk ← deref drive.(disk);
                      let b := disk_read dk sector drive.(ibSector) in
                      Ok (set_ibSector (JS.add drive.(ibSector) (Num inc)) drive, b)
                  | None => Ok (drive, -1)
                  end;
    if b >=? 0 then Ok (drive, b)
    else if fDone then
      match drive.(disk) with
      | Some dk =>
          match disk_seek dk drive.(wCylinder) drive.(bHead)
                          (JS.add drive.(bSector) (Num drive.(bSectorBias))) with
          | Some sector =>
              let drive := set_sector (Some sector) drive in
              let drive := set_ibSector (Num 0) drive in
              let drive := advanceSector drive in
              let b := disk_read dk sector drive.(ibSector) in
              Ok (set_ibSector (JS.add drive.(ibSector) (Num inc)) drive, b)
          | None =>
              Ok (set_errorCode ERR_NO_SECTOR (set_sector None drive), b)
          end
      | None => Ok (set_errorCode ERR_NO_SECTOR drive, b)
      end
    else Ok (drive, b).

(** [writeByte(drive, b)]: the [do ... while (true)] loop, unrolled at
    most [fuel] times. *)
Fixpoint writeByte_loop (fuel : nat) (drive : Drive) (b : Z) : result (Drive * Z) :=
  match fuel with
  | O => Fail OutOfFuel
  | S fuel =>
      '(drive, fBreak) ← match drive.(sector) with
                         | Some sector =>
                             dk ← deref drive.(disk);
                             let '(fOk, dk) := disk_write dk sector drive.(ibSector) b in
                             let drive := set_disk (Some dk) drive in
                             Ok (set_ibSector (JS.inc drive.(ibSector)) drive, fOk)
                         | None => Ok (drive, false)
                         end;
      if fBreak : bool then Ok (drive, b)
      else
        let drive :=
          match drive.(disk) with
          | Some dk =>
              set_sector (disk_seek dk drive.(wCylinder) drive.(bHead)
                                    (JS.add drive.(bSector) (Num drive.(bSectorBias)))) drive
          | None => drive
          end in
        match drive.(sector) with
        | None => Ok (set_errorCode ERR_NO_SECTOR drive, -1)
        | Some _ =>
            let drive := set_ibSector (Num 0) drive in
            let drive := advanceSector drive in
            writeByte_loop fuel drive b
        end
  end.

Definition writeByte (fuel : nat) (drive : Drive) (b : Z) : result (Drive * Z) :=
  if JS.truthyZ drive.(errorCode) then Ok (drive, -1)
  else writeByte_loop fuel drive b.

(** [writeBuffer(drive, b)] *)
Definition writeBuffer (drive : Drive) (b : Z) : result (Drive * Z) :=
  abSector ← deref drive.(abSector);
  if JS.ltb drive.(ibSector) (Num (Z.of_nat (length abSector))) then
    ib ← number drive.(ibSector);
    if ib <? 0 then Fail Untyped
    else
      let drive := set_abSector (Some (JS.set abSector (Z.to_nat ib) (Num b))) drive in
      Ok (set_ibSector (JS.inc drive.(ibSector)) drive, b)
  else Ok (set_errorCode ERR_NO_SECTOR drive, -1).

(** [dmaRead(drive, b, done)], [dmaWrite(drive, b)] and
    [dmaWriteBuffer(drive, b)]: the entry points of the DMA controller.
    [b] is [None] when the DMA controller passes [undefined]. *)
Definition dmaRead (drive : Drive) (b : option Z) : result (Drive * Z) :=
  if match b with None => true | Some b => b <? 0 end
  then readByte drive true true
  else Ok (drive, -1).

Definition dmaWrite (fuel : nat) (drive : Drive) (b : option Z) : result (Drive * Z) :=
  match b with
  | Some b => if b >=? 0 then writeByte fuel drive b else Ok (drive, -1)
  | None => Ok (drive, -1)
  end.

Definition dmaWriteBuffer (drive : Drive) (b : option Z) : result (Drive * Z) :=
  match b with
  | Some b => if b >=? 0 then writeBuffer drive b else Ok (drive, -1)
  | None => Ok (drive, -1)
  end.

(** *** The XTC command engine *)

(** [popCmd()]: the next command byte, [-1] when the FIFO is drained. *)
Definition popCmd (c : Controller) : result (Controller * Z) :=
  if c.(regDataIndex) <? c.(regDataTotal) then
    bCmd ← cell c.(regDataArray) c.(regDataIndex);
    Ok (set_regDataIndex (c.(regDataIndex) + 1) c, bCmd)
  else Ok (c, -1).

(** [pushResult(bResult)] *)
Definition pushResult (bResult : Z) (c : Controller) : result Controller :=
  if c.(regDataTotal) <? 0 then Fail Untyped
  else
    let c := set_regDataArray (JS.set c.(regDataArray) (Z.to_nat c.(regDataTotal)) (Num bResult)) c in
    Ok (set_regDataTotal (c.(regDataTotal) + 1) c).

(** [beginResult(bResult)] *)
Definition beginResult (bResult : option Z) (c : Controller) : result Controller :=
  let c := set_regDataTotal 0 (set_regDataIndex 0 c) in
  c ← match bResult with
      | Some bResult => pushResult bResult c
      | None => Ok c
      end;
  let c := set_chipset (chip (SetIRR IRQ_XTC) c.(chipset)) c in
  Ok (set_regStatus (JS.bor c.(regStatus) XTC_STATUS_INTERRUPT) c).

(** [verifyDrive(drive, type)] on an existing drive.  The warning about
    parameters that differ from the drive type is a notice; it changes
    nothing. *)
Definition verifyDrive (c : Controller) (drive : Drive) (ty : option Z) : result Drive :=
  let nHeads := match ty with
                | None => JS.aget drive.(abDriveParms) 2
                | Some _ => Num 0
                end in
  let nCylinders := if JS.truthyN nHeads
                    then JS.bor (JS.shl (JS.toInt32 (JS.aget drive.(abDriveParms) 0)) 8)
                                (JS.toInt32 (JS.aget drive.(abDriveParms) 1))
                    else 0 in
  let ty := match ty with
            | None => if JS.truthyN nHeads then None else Some drive.(type)
            | Some t => Some t
            end in
  '(nHeads, nCylinders) ← match ty with
                          | Some t =>
                              if JS.truthyN nHeads then Ok (nHeads, nCylinders)
                              else
                                '(cyl, heads) ← deref (aDriveTypes (iHDC c) t);
                                Ok (Num heads, cyl)
                          | None => Ok (nHeads, nCylinders)
                          end;
  if JS.truthyN nHeads then
    let drive := set_nCylinders (Num nCylinders) drive in
    let drive := set_nHeads nHeads drive in
    Ok (match drive.(disk) with
        | None => set_disk (Some disk_new) drive
        | Some _ => drive
        end)
  else Ok drive.

(** The completion callbacks that [doDMARead], [doDMAWrite] and
    [doDMAWriteBuffer] hand to [chipset.requestDMA]: the drive's error
    code after the callback, and the data status passed to [done]. *)
Definition dataStatus (drive : Drive) : Z :=
  if JS.truthyZ drive.(errorCode) then XTC_DATA_STATUS_ERROR else XTC_DATA_STATUS_OK.

Definition doDMARead_done (fComplete : bool) (drive : Drive) : Drive * Z :=
  let drive :=
    if negb fComplete then
      if drive.(errorCode) =? ERR_NONE then set_errorCode ERR_NOT_READY drive else drive
    else drive in
  (drive, dataStatus drive).

Definition doDMAWrite_done (fComplete : bool) (drive : Drive) : Drive * Z :=
  let drive :=
    if negb fComplete then
      let drive :=
        if drive.(errorCode) =? ERR_NONE then set_errorCode ERR_NOT_READY drive else drive in
      if drive.(errorCode) =? ERR_NO_SECTOR then set_errorCode ERR_NONE drive else drive
    else drive in
  (drive, dataStatus drive).

Definition doDMAWriteBuffer_done (fComplete : bool) (drive : Drive) : Drive * Z :=
  let drive :=
    if negb fComplete then
      if drive.(errorCode) =? ERR_NONE then set_errorCode ERR_NOT_READY drive else drive
    else drive in
  (drive, dataStatus drive).

(** The [done] continuation of the three DMA commands in [doXTC]:
    [hdc.beginResult(bStatus | bDrive)]. *)
Definition doXTC_done (bDrive bStatus : Z) (c : Controller) : result Controller :=
  beginResult (Some (JS.bor bStatus bDrive)) c.

(** [doDMARead(drive, done)], [doDMAWrite(drive, done)] and
    [doDMAWriteBuffer(drive, done)] on drive [i] of the controller.
    With a disk and a chipset the session is opened and the continuation
    is left with the chipset; otherwise [done] runs at once. *)
Definition openSession (f : DMAFunc) (i : nat) (bDrive : Z) (drive : Drive)
    (c : Controller) : Controller :=
  let c := putDrive i (set_errorCode ERR_NONE drive) c in
  let c := set_chipset (chip (ConnectDMA DMA_HDC f drive.(iDrive)) c.(chipset)) c in
  let c := set_chipset (chip (RequestDMA DMA_HDC) c.(chipset)) c in
  set_dmaSession (Some (mkSession f i bDrive)) c.

Definition doDMARead (i : nat) (bDrive : Z) (c : Controller) : result Controller :=
  drive ← deref (getDrive i c);
  let drive := set_errorCode ERR_NOT_READY drive in
  match drive.(disk), c.(chipset) with
  | Some _, Some _ => Ok (openSession dmaRead_f i bDrive (set_sector None drive) c)
  | Some _, None => doXTC_done bDrive (dataStatus drive) (putDrive i (set_sector None drive) c)
  | None, _ => doXTC_done bDrive (dataStatus drive) (putDrive i drive c)
  end.

Definition doDMAWrite (i : nat) (bDrive : Z) (c : Controller) : result Controller :=
  drive ← deref (getDrive i c);
  let drive := set_errorCode ERR_NOT_READY drive in
  match drive.(disk), c.(chipset) with
  | Some _, Some _ => Ok (openSession dmaWrite_f i bDrive (set_sector None drive) c)
  | Some _, None => doXTC_done bDrive (dataStatus drive) (putDrive i (set_sector None drive) c)
  | None, _ => doXTC_done bDrive (dataStatus drive) (putDrive i drive c)
  end.

Definition doDMAWriteBuffer (i : nat) (bDrive : Z) (c : Controller) : result Controller :=
  drive ← deref (getDrive i c);
  let drive := set_errorCode ERR_NOT_READY drive in
  nBytes ← number drive.(nBytes);
  if nBytes <? 0 then Fail RangeError
  else
    let drive :=
      match drive.(abSector) with
      | Some ab => if Z.of_nat (length ab) =? nBytes then drive
                   else set_abSector (Some (JS.newArray (Z.to_nat nBytes))) drive
      | None => set_abSector (Some (JS.newArray (Z.to_nat nBytes))) drive
      end in
    let drive := set_ibSector (Num 0) drive in
    match c.(chipset) with
    | Some _ => Ok (openSession dmaWriteBuffer_f i bDrive drive c)
    | None => doXTC_done bDrive (dataStatus drive) (putDrive i drive c)
    end.

(** The chipset calls the continuation of the open session with
    [fComplete] when the DMA request has finished. *)
Definition requestDMA_done (fComplete : bool) (c : Controller) : result Controller :=
  match c.(dmaSession) with
  | None => Ok c
  | Some s =>
      drive ← deref (getDrive s.(s_iDrive) c);
      let '(drive, bStatus) :=
        match s.(s_func) with
        | dmaRead_f => doDMARead_done fComplete drive
        | dmaWrite_f => doDMAWrite_done fComplete drive
        | _ => doDMAWriteBuffer_done fComplete drive
        end in
      let c := set_dmaSession None (putDrive s.(s_iDrive) drive c) in
      doXTC_done s.(s_bDrive) bStatus c
  end.

(** The loop of [INIT_DRIVE] in [doXTC]:
    [while ((bParm = this.popCmd()) >= 0) ...], which stores the bytes
    that follow the command block into [drive.abDriveParms]. *)
Fixpoint popDriveParms (fuel : nat) (iDrv : nat) (i : nat) (c : Controller)
    : result Controller :=
  match fuel with
  | O => Fail OutOfFuel
  | S fuel =>
      '(c, bParm) ← popCmd c;
      if bParm >=? 0 then
        match getDrive iDrv c with
        | Some drive =>
            if (i <? length drive.(abDriveParms))%nat then
              let drive := set_abDriveParms (JS.set drive.(abDriveParms) i (Num bParm)) drive in
              popDriveParms fuel iDrv (S i) (putDrive iDrv drive c)
            else popDriveParms fuel iDrv i c
        | None => popDriveParms fuel iDrv i c
        end
      else Ok c
  end.

(** [doXTC()] *)
Definition doXTC (c : Controller) : result Controller :=
  let c := set_regDataIndex 0 c in
  '(c, bCmd) ← popCmd c;
  '(c, b1) ← popCmd c;
  let bDrive := JS.band b1 0x20 in
  let iDrv := Z.to_nat (JS.shr bDrive 5) in
  let bHead := JS.band b1 0x1f in
  '(c, b2) ← popCmd c;
  '(c, b3) ← popCmd c;
  let wCylinder := JS.bor (JS.band (JS.shl b2 2) 0x300) b3 in
  let bSector := JS.band b2 0x3f in
  '(c, bCount) ← popCmd c;
  '(c, bControl) ← popCmd c;
  let c := updDrive iDrv (fun drive =>
             let drive := set_wCylinder (Num wCylinder) drive in
             let drive := set_bHead (Num bHead) drive in
             let drive := set_bSector (Num bSector) drive in
             set_nBytes (Num (bCount * drive.(cbSector))) drive) c in
  if bCmd =? CMD_REQUEST_SENSE then
    c ← beginResult (Some match getDrive iDrv c with
                          | Some drive => drive.(errorCode)
                          | None => ERR_NOT_READY
                          end) c;
    c ← pushResult b1 c;
    c ← pushResult b2 c;
    c ← pushResult b3 c;
    pushResult (JS.bor XTC_DATA_STATUS_OK bDrive) c
  else if bCmd =? CMD_INIT_DRIVE then
    c ← popDriveParms (S (Z.to_nat (c.(regDataTotal) - c.(regDataIndex)))) iDrv 0 c;
    c ← match getDrive iDrv c with
        | Some drive => drive ← verifyDrive c drive None; Ok (putDrive iDrv drive c)
        | None => Ok c
        end;
    if negb (is_Some_b (getDrive iDrv c)) && (c.(iDriveAllowFail) =? Z.of_nat iDrv) then
      let c := set_iDriveAllowFail (-1) c in
      beginResult (Some (JS.bor XTC_DATA_STATUS_ERROR bDrive)) c
    else beginResult (Some (JS.bor XTC_DATA_STATUS_OK bDrive)) c
  else if (bCmd =? CMD_RAM_DIAGNOSTIC) || (bCmd =? CMD_CTL_DIAGNOSTIC) then
    beginResult (Some (JS.bor XTC_DATA_STATUS_OK bDrive)) c
  else if bCmd >=? 0 then
    match getDrive iDrv c with
    | None => beginResult (Some (JS.bor XTC_DATA_STATUS_ERROR bDrive)) c
    | Some drive =>
        let drive := set_senseCode 0 (set_errorCode ERR_NONE drive) in
        let c := putDrive iDrv drive c in
        if bCmd =? CMD_TEST_READY then
          beginResult (Some (JS.bor XTC_DATA_STATUS_OK bDrive)) c
        else if bCmd =? CMD_RECALIBRATE then
          beginResult (Some (JS.bor XTC_DATA_STATUS_OK bDrive))
                      (putDrive iDrv (set_bControl (Num bControl) drive) c)
        else if bCmd =? CMD_READ_VERF then
          beginResult (Some (JS.bor XTC_DATA_STATUS_OK bDrive)) c
        else if bCmd =? CMD_READ_DATA then doDMARead iDrv bDrive c
        else if bCmd =? CMD_WRITE_DATA then doDMAWrite iDrv bDrive c
        else if bCmd =? CMD_WRITE_BUFFER then doDMAWriteBuffer iDrv bDrive c
        else beginResult (Some (JS.bor XTC_DATA_STATUS_ERROR bDrive)) c
    end
  else Ok c.

(** *** XTC port handlers *)

(** [inXTCData(port, addrFrom)]: the controller and the byte read. *)
Definition inXTCData (c : Controller) : result (Controller * Z) :=
  bIn ← (if c.(regDataIndex) <? c.(regDataTotal)
         then cell c.(regDataArray) c.(regDataIndex) else Ok 0);
  let c := set_chipset (chip (ClearIRR IRQ_XTC) c.(chipset)) c in
  let c := set_regStatus (JS.band c.(regStatus) (JS.bnot XTC_STATUS_INTERRUPT)) c in
  let c := set_regDataIndex (c.(regDataIndex) + 1) c in
  if c.(regDataIndex) >=? c.(regDataTotal) then
    let c := set_regDataIndex 0 (set_regDataTotal 0 c) in
    Ok (set_regStatus
          (JS.band c.(regStatus)
             (JS.bnot (JS.bor (JS.bor XTC_STATUS_IOMODE XTC_STATUS_BUS) XTC_STATUS_BUSY))) c,
        bIn)
  else Ok (c, bIn).

(** [outXTCData(port, bOut, addrFrom)] *)
Definition outXTCData (bOut : Z) (c : Controller) : result Controller :=
  let c :=
    if c.(regDataTotal) <? Z.of_nat (length c.(regDataArray)) then
      set_regDataTotal (c.(regDataTotal) + 1)
        (set_regDataArray (JS.set c.(regDataArray) (Z.to_nat c.(regDataTotal)) (Num bOut)) c)
    else c in
  let cbCmd :=
    if JS.eqb (JS.aget c.(regDataArray) 0) (Num CMD_INIT_DRIVE)
    then Z.of_nat (length c.(regDataArray)) else 6 in
  let c := if c.(regDataTotal) =? 6
           then set_regStatus (JS.band c.(regStatus) (JS.bnot XTC_STATUS_REQ)) c
           else c in
  if c.(regDataTotal) >=? cbCmd then
    let c := set_regStatus (JS.bor c.(regStatus) XTC_STATUS_IOMODE) c in
    let c := set_regStatus (JS.band c.(regStatus) (JS.bnot XTC_STATUS_REQ)) c in
    doXTC c
  else Ok c.

(** [inXTCStatus(port, addrFrom)] *)
Definition inXTCStatus (c : Controller) : Controller * Z :=
  let b := c.(regStatus) in
  (if c.(regDataIndex) <? c.(regDataTotal)
   then set_regStatus (JS.bor c.(regStatus) XTC_STATUS_REQ) c else c, b).

(** [intBIOSDisk(addr)], given the [AX] and [DX] registers of the CPU. *)
Definition intBIOSDisk (regAX regDX : Z) (c : Controller) : Controller :=
  let AH := JS.shr regAX 8 in
  let DL := JS.band regDX 0xff in
  if negb (JS.truthyZ AH) && (DL >? 0x80)
  then set_iDriveAllowFail (DL - 0x80) c else c.

(** *** The ATC command engine *)

(** [setATCIRR(fWrite)] *)
Definition setATCIRR (c : Controller) : Controller :=
  match c.(chipset) with
  | Some _ =>
      if negb (JS.truthyZ (JS.band c.(regFDR) ATC_FDR_INT_DISABLE))
      then set_chipset (chip (SetIRR IRQ_ATC) c.(chipset)) c
      else c
  | None => c
  end.

(** [doATC()].  The [switch] is on [bCmd & HDC.ATC.COMMAND.MASK]; its
    cases are tried in the order of the source. *)
Definition doATC (c : Controller) : result Controller :=
  let bCmd := c.(regCommand) in
  let iDrv := if JS.truthyZ (JS.band c.(regDrvHd) ATC_DRVHD_DRIVE_MASK) then 1%nat else 0%nat in
  let nHead := JS.band c.(regDrvHd) ATC_DRVHD_HEAD_MASK in
  let nCylinder := JS.bor c.(regCylLo) (JS.shl (JS.band c.(regCylHi) ATC_CYLHI_MASK) 8) in
  let nSector := c.(regSecNum) in
  let nSectors := if JS.truthyZ c.(regSecCnt) then c.(regSecCnt) else 256 in
  let c := set_drive None c in
  let c := set_regError ATC_ERROR_NONE c in
  let c := set_regStatus (JS.bor ATC_STATUS_READY ATC_STATUS_SEEK_OK) c in
  let '(c, bCmd) :=
    match getDrive iDrv c with
    | None => (c, -1)
    | Some drive =>
        let drive := set_wCylinder (Num nCylinder) drive in
        let drive := set_bHead (Num nHead) drive in
        let drive := set_bSector (Num nSector) drive in
        let drive := set_nBytes (Num (nSectors * drive.(cbSector))) drive in
        let bCmd := if bCmd >=? ATC_COMMAND_DIAGNOSE then bCmd
                    else JS.band bCmd ATC_COMMAND_MASK in
        let drive := set_sector None drive in
        let drive := set_ibSector (Num 0) drive in
        let drive := set_errorCode 0 drive in
        (set_drive (Some iDrv) (putDrive iDrv drive c), bCmd)
    end in
  let sw := JS.band bCmd ATC_COMMAND_MASK in
  '(c, fInterrupt) ←
    (if sw =? ATC_COMMAND_READ_DATA then
       let c := set_regStatus (JS.bor ATC_STATUS_BUSY ATC_STATUS_DATA_REQ) c in
       drive ← deref (getDrive iDrv c);
       '(drive, b) ← readByte drive true false;
       let c := putDrive iDrv drive c in
       if (b >=? 0) && is_Some_b c.(chipset) then
         let c := setATCIRR c in
         Ok (set_regStatus (JS.bor ATC_STATUS_READY ATC_STATUS_SEEK_OK) c, false)
       else
         Ok (set_regError ATC_ERROR_NO_CHS (set_regStatus ATC_STATUS_ERROR c), false)
     else if sw =? ATC_COMMAND_WRITE_DATA then
       Ok (set_regStatus ATC_STATUS_DATA_REQ c, false)
     else if sw =? ATC_COMMAND_RESTORE then Ok (c, true)
     else if sw =? ATC_COMMAND_READ_VERF then Ok (c, true)
     else if sw =? ATC_COMMAND_DIAGNOSE then
       Ok (set_regError ATC_DIAG_NO_ERROR c, true)
     else if sw =? ATC_COMMAND_SETPARMS then
       drive ← deref (getDrive iDrv c);
       let drive := set_nHeads (Num (nHead + 1)) drive in
       let drive := set_nSectors nSectors drive in
       Ok (putDrive iDrv drive c, true)
     else Ok (c, false));
  Ok (if fInterrupt : bool then setATCIRR c else c).

(** [outATCSecCnt(port, bOut, addrFrom)] and
    [outATCCommand(port, bOut, addrFrom)] *)
Definition outATCSecCnt (bOut : Z) (c : Controller) : Controller :=
  set_regSecCnt bOut c.

Definition outATCCommand (bOut : Z) (c : Controller) : result Controller :=
  let c := set_regCommand bOut c in
  let c := set_chipset (chip (ClearIRR IRQ_ATC) c.(chipset)) c in
  doATC c.

(** *** Save and restore *)

(** [saveDrive(drive)] *)
Definition saveDrive (drive : Drive) : jsval :=
  JArr [Codec.ofZ drive.(errorCode);
        Codec.ofZ drive.(senseCode);
        Codec.ofBool drive.(fRemovable);
        Codec.ofNums drive.(abDriveParms);
        Codec.ofOptNums drive.(abSector);
        JS.ofNum drive.(bHead);
        JS.ofNum drive.(nHeads);
        JS.ofNum drive.(wCylinder);
        JS.ofNum drive.(bSector);
        JS.ofNum drive.(bSectorEnd);
        JS.ofNum drive.(nBytes);
        JS.ofNum drive.(ibSector);
        match drive.(disk) with
        | Some dk => disk_save dk
        | None => JNull
        end].

(** [saveDrives()] *)
Definition saveDrives (c : Controller) : jsval := JArr (saveDrive <$> c.(aDrives)).

(** [saveController()] *)
Definition saveController (c : Controller) : jsval :=
  if c.(fATC) then
    JArr [Codec.ofZ c.(regError);
          Codec.ofZ c.(regWPreC);
          Codec.ofZ c.(regSecCnt);
          Codec.ofZ c.(regSecNum);
          Codec.ofZ c.(regCylLo);
          Codec.ofZ c.(regCylHi);
          Codec.ofZ c.(regDrvHd);
          Codec.ofZ c.(regStatus);
          Codec.ofZ c.(regCommand);
          Codec.ofZ c.(regFDR);
          saveDrives c]
  else
    JArr [JS.ofNum c.(regConfig);
          Codec.ofZ c.(regStatus);
          Codec.ofNums c.(regDataArray);
          Codec.ofZ c.(regDataIndex);
          Codec.ofZ c.(regDataTotal);
          JS.ofNum c.(regReset);
          JS.ofNum c.(regPulse);
          JS.ofNum c.(regPattern);
          Codec.ofZ c.(iDriveAllowFail);
          saveDrives c].

(** The object [{}] that [initController] puts in an empty cell of
    [aDrives].  [initDrive] assigns every property typed [Z] or [bool]
    before anything reads it. *)
Definition emptyDrive : Drive :=
  mkDrive 0 0 0 false [] None Undef Undef Undef Undef Undef Undef 0 0 0 0 Undef
          None Undef None Undef.

(** [initDrive(iDrive, drive, driveConfig, data, fHard)]: the chipset,
    the drive and [fSuccess].  [driveConfig] is the ['type'] property of
    the drive configuration. *)
Definition initDrive (c : Controller) (cs : ChipSet) (iDrv : nat) (drive : Drive)
    (driveConfig : option Z) (data : jsval) (fHard : bool)
    : result (ChipSet * Drive * bool) :=
  let data := match data with
              | JUndef => JArr [JNum ERR_NONE; JNum 0; JBool false;
                                Codec.ofNums (JS.newArray 8)]
              | _ => data
              end in
  dErrorCode ← Codec.toZ (JS.get data 0);
  dSenseCode ← Codec.toZ (JS.get data 1);
  dRemovable ← Codec.toBool (JS.get data 2);
  dDriveParms ← Codec.toNums (JS.get data 3);
  dSector ← Codec.toOptNums (JS.get data 4);
  dHead ← Codec.toNum (JS.get data 5);
  dHeads ← Codec.toNum (JS.get data 6);
  dCylinder ← Codec.toNum (JS.get data 7);
  dSectorNum ← Codec.toNum (JS.get data 8);
  dSectorEnd ← Codec.toNum (JS.get data 9);
  dBytes ← Codec.toNum (JS.get data 10);
  let ty := match driveConfig with
            | Some t => if is_Some_b (aDriveTypes (iHDC c) t) then t
                        else iDriveTypeDefault c
            | None => iDriveTypeDefault c
            end in
  _ ← deref (aDriveTypes (iHDC c) ty);
  let drive :=
    mkDrive (Z.of_nat iDrv) dErrorCode dSenseCode dRemovable dDriveParms dSector
            dHead dHeads dCylinder dSectorNum dSectorEnd dBytes
            (if c.(fATC) then 0 else 1) ty 17 512 drive.(nCylinders)
            drive.(disk) drive.(ibSector) drive.(sector) drive.(bControl) in
  let cs := if fHard then chip (SetCMOSDriveType (Z.of_nat iDrv) ty) cs else cs in
  drive ← verifyDrive c drive None;
  dIbSector ← Codec.toNum (JS.get data 11);
  let drive := set_ibSector dIbSector drive in
  let drive := set_sector None drive in
  match drive.(disk) with
  | Some dk =>
      let deltas := JS.get data 12 in
      let '(fSuccess, drive) :=
        match deltas with
        | JUndef => (true, drive)
        | _ => let '(n, dk) := disk_restore dk deltas in
               (negb (n <? 0), set_disk (Some dk) drive)
        end in
      if fSuccess && negb match drive.(ibSector) with Undef => true | _ => false end then
        dk ← deref drive.(disk);
        Ok (cs, set_sector (disk_seek dk drive.(wCylinder) drive.(bHead)
                              (JS.add drive.(bSector) (Num drive.(bSectorBias)))) drive,
            fSuccess)
      else Ok (cs, drive, fSuccess)
  | None => Ok (cs, drive, true)
  end.

(** The [for] loop of [initController] over [this.aDrives], from index
    [iDrv] on: the chipset, [regConfig], the drives and [fSuccess]. *)
Fixpoint initDrives (c : Controller) (dataDrives : jsval) (fHard : bool)
    (iDrv : nat) (drives : list Drive) (cs : ChipSet) (config : JS.num) (fSuccess : bool)
    : result (ChipSet * JS.num * list Drive * bool) :=
  match drives with
  | [] => Ok (cs, config, [], fSuccess)
  | drive :: drives =>
      driveConfig ← deref (c.(aDriveConfigs) !! iDrv);
      data ← item dataDrives iDrv;
      '(cs, drive, fOk) ← initDrive c cs iDrv drive driveConfig data fHard;
      let fSuccess := fSuccess && fOk in
      let config :=
        match config with
        | Undef => config
        | _ => if (iDrv <=? 1)%nat
               then Num (JS.bor (JS.toInt32 config)
                                (JS.shl (JS.band drive.(type) 0x3)
                                        (JS.shl (1 - Z.of_nat iDrv) 1)))
               else config
        end in
      '(cs, config, drives, fSuccess) ←
        initDrives c dataDrives fHard (S iDrv) drives cs config fSuccess;
      Ok (cs, config, drive :: drives, fSuccess)
  end.

(** [initController(data, fHard)]: the controller and [fSuccess].  A
    controller on which [initController] never ran has no [aDrives] and
    no [iDriveAllowFail]; it is the controller with [aDrives = []] and
    [iDriveAllowFail = -1]. *)
Definition initController (data : jsval) (fHard : bool) (c : Controller)
    : result (Controller * bool) :=
  '(c, i) ←
    (if c.(fATC) then
       let data := match data with
                   | JUndef | JNull =>
                       JArr [JNum 0; JNum 0; JNum 0; JNum 0; JNum 0; JNum 0; JNum 0; JNum 0;
                             JNum ATC_STATUS_READY; JNum 0]
                   | _ => data
                   end in
       rError ← Codec.toZ (JS.get data 0);
       rWPreC ← Codec.toZ (JS.get data 1);
       rSecCnt ← Codec.toZ (JS.get data 2);
       rSecNum ← Codec.toZ (JS.get data 3);
       rCylLo ← Codec.toZ (JS.get data 4);
       rCylHi ← Codec.toZ (JS.get data 5);
       rDrvHd ← Codec.toZ (JS.get data 6);
       rStatus ← Codec.toZ (JS.get data 7);
       rCommand ← Codec.toZ (JS.get data 8);
       rFDR ← Codec.toZ (JS.get data 9);
       Ok (set_regFDR rFDR (set_regCommand rCommand (set_regStatus rStatus
           (set_regDrvHd rDrvHd (set_regCylHi rCylHi (set_regCylLo rCylLo
           (set_regSecNum rSecNum (set_regSecCnt rSecCnt (set_regWPreC rWPreC
           (set_regError rError c))))))))), (data, 10%nat))
     else
       let data := match data with
                   | JUndef | JNull =>
                       JArr [JNum 0; JNum XTC_STATUS_NONE; Codec.ofNums (JS.newArray 14);
                             JNum 0; JNum 0]
                   | _ => data
                   end in
       rConfig ← Codec.toNum (JS.get data 0);
       rStatus ← Codec.toZ (JS.get data 1);
       rDataArray ← Codec.toNums (JS.get data 2);
       rDataIndex ← Codec.toZ (JS.get data 3);
       rDataTotal ← Codec.toZ (JS.get data 4);
       rReset ← Codec.toNum (JS.get data 5);
       rPulse ← Codec.toNum (JS.get data 6);
       rPattern ← Codec.toNum (JS.get data 7);
       rAllowFail ← match JS.get data 8 with
                    | JUndef => Ok c.(iDriveAllowFail)
                    | v => Codec.toZ v
                    end;
       Ok (set_iDriveAllowFail rAllowFail (set_regPattern rPattern (set_regPulse rPulse
           (set_regReset rReset (set_regDataTotal rDataTotal (set_regDataIndex rDataIndex
           (set_regDataArray rDataArray (set_regStatus rStatus
           (set_regConfig rConfig c)))))))), (data, 9%nat)));
  let '(data, i) := i in
  let drives := match c.(aDrives) with
                | [] => replicate (length c.(aDriveConfigs)) emptyDrive
                | l => l
                end in
  let dataDrives := match JS.get data i with
                    | JUndef => JArr []
                    | v => v
                    end in
  '(cs, config, drives, fSuccess) ←
    initDrives c dataDrives fHard 0 drives c.(chipset) c.(regConfig) true;
  Ok (set_aDrives drives (set_regConfig config (set_chipset cs c)), fSuccess).

(** *** The remaining XTC ports *)


(** [inXTCConfig(port, addrFrom)] *)
Definition inXTCConfig (c : Controller) : Controller * JS.num := (c, c.(regConfig)).

(** [outXTCPulse(port, bOut, addrFrom)], [outXTCPattern(port, bOut,
    addrFrom)] and [outXTCNoise(port, bOut, addrFrom)] *)
Definition outXTCPulse (bOut : Z) (c : Controller) : Controller :=
  let c := set_regPulse (Num bOut) c in
  set_regStatus (JS.bor (JS.bor XTC_STATUS_REQ XTC_STATUS_BUS) XTC_STATUS_BUSY) c.

Definition outXTCPattern (bOut : Z) (c : Controller) : Controller :=
  set_regPattern (Num bOut) c.

Definition outXTCNoise (bOut : Z) (c : Controller) : Controller := c.

(** [reset()] *)
Definition reset (c : Controller) : result (Controller * bool) :=
  initController JNull true c.

(** *** The remaining ATC ports *)

(** [inATCData(port, addrFrom)]: the controller and the byte read.
    [this.drive] is the drive object that [doATC] selected, which is
    [aDrives[i]] for the index [i] kept in [drive].  The first [readByte]
    has no callback and increments; the one that primes the next sector
    has a callback and does not. *)
Definition inATCData (c : Controller) : result (Controller * Z) :=
  match c.(drive) with
  | None => Ok (c, -1)
  | Some i =>
      drive ← deref (getDrive i c);
      '(drive, bIn) ← readByte drive false true;
      let c := putDrive i drive c in
      if JS.eqb drive.(ibSector) (Num 1) then Ok (c, bIn)
      else if JS.eqb drive.(ibSector) (Num drive.(cbSector)) then
        let drive := set_nBytes (num_sub drive.(nBytes) (Num drive.(cbSector))) drive in
        let c := putDrive i drive c in
        let c := set_regSecCnt (JS.band (c.(regSecCnt) - 1) 0xff) c in
        if JS.geb drive.(nBytes) (Num drive.(cbSector)) then
          let c := set_regStatus (JS.bor ATC_STATUS_BUSY ATC_STATUS_DATA_REQ) c in
          '(drive, b) ← readByte drive true false;
          let c := putDrive i drive c in
          if b >=? 0 then
            let c := setATCIRR c in
            Ok (set_regStatus (JS.bor ATC_STATUS_READY ATC_STATUS_SEEK_OK) c, bIn)
          else
            Ok (set_regError ATC_ERROR_NO_CHS (set_regStatus ATC_STATUS_ERROR c), bIn)
        else Ok (set_regStatus (JS.bor ATC_STATUS_READY ATC_STATUS_SEEK_OK) c, bIn)
      else Ok (c, bIn)
  end.

(** [outATCData(port, bOut, addrFrom)] *)
Definition outATCData (fuel : nat) (bOut : Z) (c : Controller) : result Controller :=
  match c.(drive) with
  | None => Ok c
  | Some i =>
      drive ← deref (getDrive i c);
      if JS.geb drive.(nBytes) (Num drive.(cbSector)) then
        '(drive, b) ← writeByte fuel drive bOut;
        let c := putDrive i drive c in
        if b <? 0 then
          Ok (set_regError ATC_ERROR_NO_CHS (set_regStatus ATC_STATUS_ERROR c))
        else if JS.eqb drive.(ibSector) (Num 1) then Ok c
        else if JS.eqb drive.(ibSector) (Num drive.(cbSector)) then
          let drive := set_nBytes (num_sub drive.(nBytes) (Num drive.(cbSector))) drive in
          let c := putDrive i drive c in
          let c := set_regSecCnt (JS.band (c.(regSecCnt) - 1) 0xff) c in
          let c := setATCIRR c in
          let c := set_regStatus (JS.bor ATC_STATUS_READY ATC_STATUS_SEEK_OK) c in
          if JS.geb drive.(nBytes) (Num drive.(cbSector))
          then Ok (set_regStatus (JS.bor c.(regStatus) ATC_STATUS_DATA_REQ) c)
          else Ok c
        else Ok c
      else Ok c
  end.

(** The task-file registers: [inATCError], [outATCWPreC], [inATCSecCnt],
    [inATCSecNum], [outATCSecNum], [inATCCylLo], [outATCCylLo],
    [inATCCylHi], [outATCCylHi] and [inATCDrvHd]. *)
Definition inATCError (c : Controller) : Controller * Z := (c, c.(regError)).
Definition outATCWPreC (bOut : Z) (c : Controller) : Controller := set_regWPreC bOut c.
Definition inATCSecCnt (c : Controller) : Controller * Z := (c, c.(regSecCnt)).
Definition inATCSecNum (c : Controller) : Controller * Z := (c, c.(regSecNum)).
Definition outATCSecNum (bOut : Z) (c : Controller) : Controller := set_regSecNum bOut c.
Definition inATCCylLo (c : Controller) : Controller * Z := (c, c.(regCylLo)).
Definition outATCCylLo (bOut : Z) (c : Controller) : Controller := set_regCylLo bOut c.
Definition inATCCylHi (c : Controller) : Controller * Z := (c, c.(regCylHi)).
Definition outATCCylHi (bOut : Z) (c : Controller) : Controller := set_regCylHi bOut c.
Definition inATCDrvHd (c : Controller) : Controller * Z := (c, c.(regDrvHd)).

(** [outATCDrvHd(port, bOut, addrFrom)] *)
Definition outATCDrvHd (bOut : Z) (c : Controller) : Controller :=
  let c := set_regDrvHd bOut c in
  let iDrv := if JS.truthyZ (JS.band c.(regDrvHd) ATC_DRVHD_DRIVE_MASK)
              then 1%nat else 0%nat in
  if is_Some_b (getDrive iDrv c)
  then set_regStatus (JS.bor c.(regStatus) ATC_STATUS_READY) c
  else set_regStatus (JS.band c.(regStatus) (JS.bnot ATC_STATUS_READY)) c.

(** [inATCStatus(port, addrFrom)]: the read does not clear the
    interrupt request. *)
Definition inATCStatus (c : Controller) : Controller * Z := (c, c.(regStatus)).

(** [outATCFDR(port, bOut, addrFrom)] *)
Definition outATCFDR (bOut : Z) (c : Controller) : Controller :=
  let c := if JS.truthyZ (JS.band c.(regFDR) ATC_FDR_RESET)
              && negb (JS.truthyZ (JS.band bOut ATC_FDR_RESET))
           then set_regError ATC_DIAG_NO_ERROR c else c in
  set_regFDR bOut c.

(** *** The interface for other components *)

Context {DG : DiskGeometry Disk}.

(** [copyDrive(iDrive)]: a copy of the drive object, [undefined] when
    there is none. *)
Definition copyDrive (iDrv : nat) (c : Controller) : option Drive := getDrive iDrv c.

(** [seekDrive(drive, iSector, nSectors)]: the drive and the value
    returned.  The numbers are integers: [Math.floor(a / b)] is the
    floored quotient and [a % b] the remainder with the sign of [a].
    With an empty cylinder the quotient of sector 0 is [NaN]; that of
    another sector is infinite, which no numeric property holds here. *)
Definition seekDrive (drive : Drive) (iSector nSectors : Z) : result (Drive * bool) :=
  match drive.(disk) with
  | Some dk =>
      let '(info0, info1, nSectorsPerTrack, info3) := disk_info dk in
      if JS.truthyZ info0 then
        let nSectorsPerCylinder := info1 * nSectorsPerTrack in
        let nSectorsPerDisk := info0 * nSectorsPerCylinder in
        if iSector + nSectors <=? nSectorsPerDisk then
          '(wCyl, bHd, bSec) ←
            (if nSectorsPerCylinder =? 0 then
               if iSector =? 0 then Ok (NaN, NaN, NaN) else Fail Untyped
             else
               let iSector' := Z.rem iSector nSectorsPerCylinder in
               Ok (Num (iSector / nSectorsPerCylinder),
                   Num (iSector' / nSectorsPerTrack),
                   Num (Z.rem iSector' nSectorsPerTrack)));
          let drive := set_wCylinder wCyl drive in
          let drive := set_bHead bHd drive in
          let drive := set_bSector bSec drive in
          let drive := set_nBytes (Num (nSectors * info3)) drive in
          Ok (set_errorCode ERR_NONE drive, true)
        else Ok (drive, false)
      else Ok (drive, false)
  | None => Ok (drive, false)
  end.

End WithDisk.

End HDC.

(** ** The Floppy Disk Controller (the FDC component) *)

Module FDC.

(** *** Register constants *)

(** [FDC.REG_OUTPUT] *)
Definition REG_OUTPUT_SELECT : Z := 0x03.
Definition REG_OUTPUT_ENABLE : Z := 0x04.
Definition REG_OUTPUT_INT_ENABLE : Z := 0x08.
Definition REG_OUTPUT_MOTOR_A : Z := 0x10.

(** [FDC.REG_STATUS] *)
Definition REG_STATUS_BUSY : Z := 0x10.
Definition REG_STATUS_READ_DATA : Z := 0x40.
Definition REG_STATUS_RQM : Z := 0x80.

(** [FDC.REG_INPUT], [FDC.REG_CONTROL] *)
Definition REG_INPUT_DISK_CHANGE : Z := 0x80.
Definition REG_CONTROL_RATE500K : Z := 0x00.

(** [FDC.REG_DATA.CMD] *)
Definition CMD_SPECIFY : Z := 0x03.
Definition CMD_DRIVE_STATUS : Z := 0x04.
Definition CMD_WRITE_DATA : Z := 0x05.
Definition CMD_READ_DATA : Z := 0x06.
Definition CMD_RECALIBRATE : Z := 0x07.
Definition CMD_INT_STATUS : Z := 0x08.
Definition CMD_FORMAT_TRACK : Z := 0x0D.
Definition CMD_SEEK : Z := 0x0F.
Definition CMD_MASK : Z := 0x1F.

(** [FDC.REG_DATA.ERR] *)
Definition ERR_NONE : Z := 0x000000.
Definition ERR_NOT_READY : Z := 0x000008.
Definition ERR_SEEK_END : Z := 0x000020.
Definition ERR_INCOMPLETE : Z := 0x000040.
Definition ERR_RESET : Z := 0x0000C0.
Definition ERR_ST0 : Z := 0x0000FF.
Definition ERR_NOT_WRITABLE : Z := 0x000200.
Definition ERR_NO_DATA : Z := 0x000400.
Definition ERR_CRC_ERROR : Z := 0x002000.
Definition ERR_ST1 : Z := 0x00FF00.
Definition ERR_ST2 : Z := 0xFF0000.

(** [FDC.aCmdSeqs[bCmdMasked]]: [cbWrite], the number of bytes of the
    command request including the command byte, and [cbRead], the
    number of bytes of the response. *)
Definition aCmdSeqs (bCmdMasked : Z) : option (Z * Z) :=
  if bCmdMasked =? 0x03 then Some (3, 0) else
  if bCmdMasked =? 0x04 then Some (2, 1) else
  if bCmdMasked =? 0x05 then Some (9, 7) else
  if bCmdMasked =? 0x06 then Some (9, 7) else
  if bCmdMasked =? 0x07 then Some (2, 0) else
  if bCmdMasked =? 0x08 then Some (1, 2) else
  if bCmdMasked =? 0x0D then Some (6, 7) else
  if bCmdMasked =? 0x0F then Some (3, 0) else None.

Definition cbWrite (bCmdMasked : Z) : option Z := fst <$> aCmdSeqs bCmdMasked.
Definition cbRead (bCmdMasked : Z) : option Z := snd <$> aCmdSeqs bCmdMasked.

Section WithDisk.

Context {Disk Sector : Type} {DP : DiskPort Disk Sector}.

(** *** The drive object and the controller object *)
#[projections(primitive)] Record Drive : Type := mkDrive {
  iDrive : Z;
  errorCode : Z;
  name : string;
  nCylinders : Z;
  nHeads : Z;
  nSectors : Z;   (* sectors/track *)
  cbSector : Z;   (* bytes/sector *)
  fRemovable : bool;
  bHead : Z;
  bCylinder : Z;
  bSector : JS.num;
  bSectorEnd : JS.num;   (* aka EOT *)
  nBytes : JS.num;
  ibSector : JS.num;   (* location of the next byte in the current sector *)
  sector : option Sector;
  disk : option Disk;   (* null when no diskette is in the drive *)
  sDisketteName : option string;
  sDiskettePath : string;
  fBusy : bool;
  fAutoMount : bool;
  bFiller : JS.num;
  cbFormat : JS.num;
  abFormat : option (list JS.num);
  bFormatting : bool;
  cSectorsFormatted : JS.num
}.

Definition set_errorCode (v : Z) (x : Drive) : Drive :=
  mkDrive (x.(iDrive)) v (x.(name)) (x.(nCylinders)) (x.(nHeads))
    (x.(nSectors)) (x.(cbSector)) (x.(fRemovable)) (x.(bHead))
    (x.(bCylinder)) (x.(bSector)) (x.(bSectorEnd)) (x.(nBytes))
    (x.(ibSector)) (x.(sector)) (x.(disk)) (x.(sDisketteName))
    (x.(sDiskettePath)) (x.(fBusy)) (x.(fAutoMount)) (x.(bFiller))
    (x.(cbFormat)) (x.(abFormat)) (x.(bFormatting)) (x.(cSectorsFormatted)).
Definition set_bHead (v : Z) (x : Drive) : Drive :=
  mkDrive (x.(iDrive)) (x.(errorCode)) (x.(name)) (x.(nCylinders))
    (x.(nHeads)) (x.(nSectors)) (x.(cbSector)) (x.(fRemovable)) v
    (x.(bCylinder)) (x.(bSector)) (x.(bSectorEnd)) (x.(nBytes))
    (x.(ibSector)) (x.(sector)) (x.(disk)) (x.(sDisketteName))
    (x.(sDiskettePath)) (x.(fBusy)) (x.(fAutoMount)) (x.(bFiller))
    (x.(cbFormat)) (x.(abFormat)) (x.(bFormatting)) (x.(cSectorsFormatted)).
Definition set_bCylinder (v : Z) (x : Drive) : Drive :=
  mkDrive (x.(iDrive)) (x.(errorCode)) (x.(name)) (x.(nCylinders))
    (x.(nHeads)) (x.(nSectors)) (x.(cbSector)) (x.(fRemovable)) (x.(bHead))
    v (x.(bSector)) (x.(bSectorEnd)) (x.(nBytes)) (x.(ibSector))
    (x.(sector)) (x.(disk)) (x.(sDisketteName)) (x.(sDiskettePath))
    (x.(fBusy)) (x.(fAutoMount)) (x.(bFiller)) (x.(cbFormat)) (x.(abFormat))
    (x.(bFormatting)) (x.(cSectorsFormatted)).
Definition set_bSector (v : JS.num) (x : Drive) : Drive :=
  mkDrive (x.(iDrive)) (x.(errorCode)) (x.(name)) (x.(nCylinders))
    (x.(nHeads)) (x.(nSectors)) (x.(cbSector)) (x.(fRemovable)) (x.(bHead))
    (x.(bCylinder)) v (x.(bSectorEnd)) (x.(nBytes)) (x.(ibSector))
    (x.(sector)) (x.(disk)) (x.(sDisketteName)) (x.(sDiskettePath))
    (x.(fBusy)) (x.(fAutoMount)) (x.(bFiller)) (x.(cbFormat)) (x.(abFormat))
    (x.(bFormatting)) (x.(cSectorsFormatted)).
Definition set_bSectorEnd (v : JS.num) (x : Drive) : Drive :=
  mkDrive (x.(iDrive)) (x.(errorCode)) (x.(name)) (x.(nCylinders))
    (x.(nHeads)) (x.(nSectors)) (x.(cbSector)) (x.(fRemovable)) (x.(bHead))
    (x.(bCylinder)) (x.(bSector)) v (x.(nBytes)) (x.(ibSector)) (x.(sector))
    (x.(disk)) (x.(sDisketteName)) (x.(sDiskettePath)) (x.(fBusy))
    (x.(fAutoMount)) (x.(bFiller)) (x.(cbFormat)) (x.(abFormat))
    (x.(bFormatting)) (x.(cSectorsFormatted)).
Definition set_nBytes (v : JS.num) (x : Drive) : Drive :=
  mkDrive (x.(iDrive)) (x.(errorCode)) (x.(name)) (x.(nCylinders))
    (x.(nHeads)) (x.(nSectors)) (x.(cbSector)) (x.(fRemovable)) (x.(bHead))
    (x.(bCylinder)) (x.(bSector)) (x.(bSectorEnd)) v (x.(ibSector))
    (x.(sector)) (x.(disk)) (x.(sDisketteName)) (x.(sDiskettePath))
    (x.(fBusy)) (x.(fAutoMount)) (x.(bFiller)) (x.(cbFormat)) (x.(abFormat))
    (x.(bFormatting)) (x.(cSectorsFormatted)).
Definition set_ibSector (v : JS.num) (x : Drive) : Drive :=
  mkDrive (x.(iDrive)) (x.(errorCode)) (x.(name)) (x.(nCylinders))
    (x.(nHeads)) (x.(nSectors)) (x.(cbSector)) (x.(fRemovable)) (x.(bHead))
    (x.(bCylinder)) (x.(bSector)) (x.(bSectorEnd)) (x.(nBytes)) v
    (x.(sector)) (x.(disk)) (x.(sDisketteName)) (x.(sDiskettePath))
    (x.(fBusy)) (x.(fAutoMount)) (x.(bFiller)) (x.(cbFormat)) (x.(abFormat))
    (x.(bFormatting)) (x.(cSectorsFormatted)).
Definition set_sector (v : option Sector) (x : Drive) : Drive :=
  mkDrive (x.(iDrive)) (x.(errorCode)) (x.(name)) (x.(nCylinders))
    (x.(nHeads)) (x.(nSectors)) (x.(cbSector)) (x.(fRemovable)) (x.(bHead))
    (x.(bCylinder)) (x.(bSector)) (x.(bSectorEnd)) (x.(nBytes))
    (x.(ibSector)) v (x.(disk)) (x.(sDisketteName)) (x.(sDiskettePath))
    (x.(fBusy)) (x.(fAutoMount)) (x.(bFiller)) (x.(cbFormat)) (x.(abFormat))
    (x.(bFormatting)) (x.(cSectorsFormatted)).
Definition set_disk (v : option Disk) (x : Drive) : Drive :=
  mkDrive (x.(iDrive)) (x.(errorCode)) (x.(name)) (x.(nCylinders))
    (x.(nHeads)) (x.(nSectors)) (x.(cbSector)) (x.(fRemovable)) (x.(bHead))
    (x.(bCylinder)) (x.(bSector)) (x.(bSectorEnd)) (x.(nBytes))
    (x.(ibSector)) (x.(sector)) v (x.(sDisketteName)) (x.(sDiskettePath))
    (x.(fBusy)) (x.(fAutoMount)) (x.(bFiller)) (x.(cbFormat)) (x.(abFormat))
    (x.(bFormatting)) (x.(cSectorsFormatted)).
Definition set_sDisketteName (v : option string) (x : Drive) : Drive :=
  mkDrive (x.(iDrive)) (x.(errorCode)) (x.(name)) (x.(nCylinders))
    (x.(nHeads)) (x.(nSectors)) (x.(cbSector)) (x.(fRemovable)) (x.(bHead))
    (x.(bCylinder)) (x.(bSector)) (x.(bSectorEnd)) (x.(nBytes))
    (x.(ibSector)) (x.(sector)) (x.(disk)) v (x.(sDiskettePath)) (x.(fBusy))
    (x.(fAutoMount)) (x.(bFiller)) (x.(cbFormat)) (x.(abFormat))
    (x.(bFormatting)) (x.(cSectorsFormatted)).
Definition set_sDiskettePath (v : string) (x : Drive) : Drive :=
  mkDrive (x.(iDrive)) (x.(errorCode)) (x.(name)) (x.(nCylinders))
    (x.(nHeads)) (x.(nSectors)) (x.(cbSector)) (x.(fRemovable)) (x.(bHead))
    (x.(bCylinder)) (x.(bSector)) (x.(bSectorEnd)) (x.(nBytes))
    (x.(ibSector)) (x.(sector)) (x.(disk)) (x.(sDisketteName)) v (x.(fBusy))
    (x.(fAutoMount)) (x.(bFiller)) (x.(cbFormat)) (x.(abFormat))
    (x.(bFormatting)) (x.(cSectorsFormatted)).
Definition set_fBusy (v : bool) (x : Drive) : Drive :=
  mkDrive (x.(iDrive)) (x.(errorCode)) (x.(name)) (x.(nCylinders))
    (x.(nHeads)) (x.(nSectors)) (x.(cbSector)) (x.(fRemovable)) (x.(bHead))
    (x.(bCylinder)) (x.(bSector)) (x.(bSectorEnd)) (x.(nBytes))
    (x.(ibSector)) (x.(sector)) (x.(disk)) (x.(sDisketteName))
    (x.(sDiskettePath)) v (x.(fAutoMount)) (x.(bFiller)) (x.(cbFormat))
    (x.(abFormat)) (x.(bFormatting)) (x.(cSectorsFormatted)).
Definition set_fAutoMount (v : bool) (x : Drive) : Drive :=
  mkDrive (x.(iDrive)) (x.(errorCode)) (x.(name)) (x.(nCylinders))
    (x.(nHeads)) (x.(nSectors)) (x.(cbSector)) (x.(fRemovable)) (x.(bHead))
    (x.(bCylinder)) (x.(bSector)) (x.(bSectorEnd)) (x.(nBytes))
    (x.(ibSector)) (x.(sector)) (x.(disk)) (x.(sDisketteName))
    (x.(sDiskettePath)) (x.(fBusy)) v (x.(bFiller)) (x.(cbFormat))
    (x.(abFormat)) (x.(bFormatting)) (x.(cSectorsFormatted)).
Definition set_bFiller (v : JS.num) (x : Drive) : Drive :=
  mkDrive (x.(iDrive)) (x.(errorCode)) (x.(name)) (x.(nCylinders))
    (x.(nHeads)) (x.(nSectors)) (x.(cbSector)) (x.(fRemovable)) (x.(bHead))
    (x.(bCylinder)) (x.(bSector)) (x.(bSectorEnd)) (x.(nBytes))
    (x.(ibSector)) (x.(sector)) (x.(disk)) (x.(sDisketteName))
    (x.(sDiskettePath)) (x.(fBusy)) (x.(fAutoMount)) v (x.(cbFormat))
    (x.(abFormat)) (x.(bFormatting)) (x.(cSectorsFormatted)).
Definition set_cbFormat (v : JS.num) (x : Drive) : Drive :=
  mkDrive (x.(iDrive)) (x.(errorCode)) (x.(name)) (x.(nCylinders))
    (x.(nHeads)) (x.(nSectors)) (x.(cbSector)) (x.(fRemovable)) (x.(bHead))
    (x.(bCylinder)) (x.(bSector)) (x.(bSectorEnd)) (x.(nBytes))
    (x.(ibSector)) (x.(sector)) (x.(disk)) (x.(sDisketteName))
    (x.(sDiskettePath)) (x.(fBusy)) (x.(fAutoMount)) (x.(bFiller)) v
    (x.(abFormat)) (x.(bFormatting)) (x.(cSectorsFormatted)).
Definition set_abFormat (v : option (list JS.num)) (x : Drive) : Drive :=
  mkDrive (x.(iDrive)) (x.(errorCode)) (x.(name)) (x.(nCylinders))
    (x.(nHeads)) (x.(nSectors)) (x.(cbSector)) (x.(fRemovable)) (x.(bHead))
    (x.(bCylinder)) (x.(bSector)) (x.(bSectorEnd)) (x.(nBytes))
    (x.(ibSector)) (x.(sector)) (x.(disk)) (x.(sDisketteName))
    (x.(sDiskettePath)) (x.(fBusy)) (x.(fAutoMount)) (x.(bFiller))
    (x.(cbFormat)) v (x.(bFormatting)) (x.(cSectorsFormatted)).
Definition set_bFormatting (v : bool) (x : Drive) : Drive :=
  mkDrive (x.(iDrive)) (x.(errorCode)) (x.(name)) (x.(nCylinders))
    (x.(nHeads)) (x.(nSectors)) (x.(cbSector)) (x.(fRemovable)) (x.(bHead))
    (x.(bCylinder)) (x.(bSector)) (x.(bSectorEnd)) (x.(nBytes))
    (x.(ibSector)) (x.(sector)) (x.(disk)) (x.(sDisketteName))
    (x.(sDiskettePath)) (x.(fBusy)) (x.(fAutoMount)) (x.(bFiller))
    (x.(cbFormat)) (x.(abFormat)) v (x.(cSectorsFormatted)).
Definition set_cSectorsFormatted (v : JS.num) (x : Drive) : Drive :=
  mkDrive (x.(iDrive)) (x.(errorCode)) (x.(name)) (x.(nCylinders))
    (x.(nHeads)) (x.(nSectors)) (x.(cbSector)) (x.(fRemovable)) (x.(bHead))
    (x.(bCylinder)) (x.(bSector)) (x.(bSectorEnd)) (x.(nBytes))
    (x.(ibSector)) (x.(sector)) (x.(disk)) (x.(sDisketteName))
    (x.(sDiskettePath)) (x.(fBusy)) (x.(fAutoMount)) (x.(bFiller))
    (x.(cbFormat)) (x.(abFormat)) (x.(bFormatting)) v.

(** The controller object.  [aDiskHistory] holds an entry
    [[name, path, deltas]] for each disk image ever mounted. *)
#[projections(primitive)] Record Controller : Type := mkController {
  iDrive_sel : Z;   (* [this.iDrive]: the selected drive *)
  iUnit : Z;
  regStatus : Z;
  regDataArray : list JS.num;
  regDataIndex : Z;
  regDataTotal : Z;
  regOutput : Z;
  regInput : Z;
  regControl : Z;
  aDrives : list Drive;
  aDiskHistory : list (option string * option string * jsval);
  cAutoMount : Z;
  fReady : bool;   (* [setReady] *)
  chipset : ChipSet
}.

Definition set_iDrive_sel (v : Z) (x : Controller) : Controller :=
  mkController v (x.(iUnit)) (x.(regStatus)) (x.(regDataArray))
    (x.(regDataIndex)) (x.(regDataTotal)) (x.(regOutput)) (x.(regInput))
    (x.(regControl)) (x.(aDrives)) (x.(aDiskHistory)) (x.(cAutoMount))
    (x.(fReady)) (x.(chipset)).
Definition set_iUnit (v : Z) (x : Controller) : Controller :=
  mkController (x.(iDrive_sel)) v (x.(regStatus)) (x.(regDataArray))
    (x.(regDataIndex)) (x.(regDataTotal)) (x.(regOutput)) (x.(regInput))
    (x.(regControl)) (x.(aDrives)) (x.(aDiskHistory)) (x.(cAutoMount))
    (x.(fReady)) (x.(chipset)).
Definition set_regStatus (v : Z) (x : Controller) : Controller :=
  mkController (x.(iDrive_sel)) (x.(iUnit)) v (x.(regDataArray))
    (x.(regDataIndex)) (x.(regDataTotal)) (x.(regOutput)) (x.(regInput))
    (x.(regControl)) (x.(aDrives)) (x.(aDiskHistory)) (x.(cAutoMount))
    (x.(fReady)) (x.(chipset)).
Definition set_regDataArray (v : list JS.num) (x : Controller) : Controller :=
  mkController (x.(iDrive_sel)) (x.(iUnit)) (x.(regStatus)) v
    (x.(regDataIndex)) (x.(regDataTotal)) (x.(regOutput)) (x.(regInput))
    (x.(regControl)) (x.(aDrives)) (x.(aDiskHistory)) (x.(cAutoMount))
    (x.(fReady)) (x.(chipset)).
Definition set_regDataIndex (v : Z) (x : Controller) : Controller :=
  mkController (x.(iDrive_sel)) (x.(iUnit)) (x.(regStatus))
    (x.(regDataArray)) v (x.(regDataTotal)) (x.(regOutput)) (x.(regInput))
    (x.(regControl)) (x.(aDrives)) (x.(aDiskHistory)) (x.(cAutoMount))
    (x.(fReady)) (x.(chipset)).
Definition set_regDataTotal (v : Z) (x : Controller) : Controller :=
  mkController (x.(iDrive_sel)) (x.(iUnit)) (x.(regStatus))
    (x.(regDataArray)) (x.(regDataIndex)) v (x.(regOutput)) (x.(regInput))
    (x.(regControl)) (x.(aDrives)) (x.(aDiskHistory)) (x.(cAutoMount))
    (x.(fReady)) (x.(chipset)).
Definition set_regOutput (v : Z) (x : Controller) : Controller :=
  mkController (x.(iDrive_sel)) (x.(iUnit)) (x.(regStatus))
    (x.(regDataArray)) (x.(regDataIndex)) (x.(regDataTotal)) v
    (x.(regInput)) (x.(regControl)) (x.(aDrives)) (x.(aDiskHistory))
    (x.(cAutoMount)) (x.(fReady)) (x.(chipset)).
Definition set_regInput (v : Z) (x : Controller) : Controller :=
  mkController (x.(iDrive_sel)) (x.(iUnit)) (x.(regStatus))
    (x.(regDataArray)) (x.(regDataIndex)) (x.(regDataTotal)) (x.(regOutput))
    v (x.(regControl)) (x.(aDrives)) (x.(aDiskHistory)) (x.(cAutoMount))
    (x.(fReady)) (x.(chipset)).
Definition set_regControl (v : Z) (x : Controller) : Controller :=
  mkController (x.(iDrive_sel)) (x.(iUnit)) (x.(regStatus))
    (x.(regDataArray)) (x.(regDataIndex)) (x.(regDataTotal)) (x.(regOutput))
    (x.(regInput)) v (x.(aDrives)) (x.(aDiskHistory)) (x.(cAutoMount))
    (x.(fReady)) (x.(chipset)).
Definition set_aDrives (v : list Drive) (x : Controller) : Controller :=
  mkController (x.(iDrive_sel)) (x.(iUnit)) (x.(regStatus))
    (x.(regDataArray)) (x.(regDataIndex)) (x.(regDataTotal)) (x.(regOutput))
    (x.(regInput)) (x.(regControl)) v (x.(aDiskHistory)) (x.(cAutoMount))
    (x.(fReady)) (x.(chipset)).
Definition set_aDiskHistory (v : list (option string * option string * jsval)) (x : Controller) : Controller :=
  mkController (x.(iDrive_sel)) (x.(iUnit)) (x.(regStatus))
    (x.(regDataArray)) (x.(regDataIndex)) (x.(regDataTotal)) (x.(regOutput))
    (x.(regInput)) (x.(regControl)) (x.(aDrives)) v (x.(cAutoMount))
    (x.(fReady)) (x.(chipset)).
Definition set_cAutoMount (v : Z) (x : Controller) : Controller :=
  mkController (x.(iDrive_sel)) (x.(iUnit)) (x.(regStatus))
    (x.(regDataArray)) (x.(regDataIndex)) (x.(regDataTotal)) (x.(regOutput))
    (x.(regInput)) (x.(regControl)) (x.(aDrives)) (x.(aDiskHistory)) v
    (x.(fReady)) (x.(chipset)).
Definition set_fReady (v : bool) (x : Controller) : Controller :=
  mkController (x.(iDrive_sel)) (x.(iUnit)) (x.(regStatus))
    (x.(regDataArray)) (x.(regDataIndex)) (x.(regDataTotal)) (x.(regOutput))
    (x.(regInput)) (x.(regControl)) (x.(aDrives)) (x.(aDiskHistory))
    (x.(cAutoMount)) v (x.(chipset)).
Definition set_chipset (v : ChipSet) (x : Controller) : Controller :=
  mkController (x.(iDrive_sel)) (x.(iUnit)) (x.(regStatus))
    (x.(regDataArray)) (x.(regDataIndex)) (x.(regDataTotal)) (x.(regOutput))
    (x.(regInput)) (x.(regControl)) (x.(aDrives)) (x.(aDiskHistory))
    (x.(cAutoMount)) (x.(fReady)) v.

(** [this.aDrives[iDrive]], and the update of the object found there. *)
Definition getDrive (i : Z) (c : Controller) : option Drive :=
  if i <? 0 then None else c.(aDrives) !! Z.to_nat i.

Definition putDrive (i : Z) (d : Drive) (c : Controller) : Controller :=
  set_aDrives (<[Z.to_nat i := d]> c.(aDrives)) c.

(** *** Sector transfer *)

(** [readByte(drive, done)]: the [do ... while (true)] loop, unrolled at
    most [fuel] times.  The result is the drive and the byte handed to
    [done]. *)
Fixpoint readByte_loop (fuel : nat) (dk : Disk) (drive : Drive) (b : Z)
    : result (Drive * Z) :=
  match fuel with
  | O => Fail OutOfFuel
  | S fuel =>
      let '(drive, b) :=
        match drive.(sector) with
        | Some sector =>
            (set_ibSector (JS.inc drive.(ibSector)) drive,
             disk_read dk sector drive.(ibSector))
        | None => (drive, b)
        end in
      if is_Some_b drive.(sector) && (b >=? 0) then Ok (drive, b)
      else
        let drive := set_sector (disk_seek dk (Num drive.(bCylinder)) (Num drive.(bHead))
                                           drive.(bSector)) drive in
        match drive.(sector) with
        | None => Ok (set_errorCode (JS.bor ERR_NO_DATA ERR_INCOMPLETE) drive, b)
        | Some _ =>
            let drive := set_ibSector (Num 0) drive in
            let drive := set_bSector (JS.inc drive.(bSector)) drive in
            readByte_loop fuel dk drive b
        end
  end.

Definition readByte (fuel : nat) (drive : Drive) : result (Drive * Z) :=
  match drive.(disk) with
  | Some dk =>
      if negb (JS.truthyZ drive.(errorCode)) then readByte_loop fuel dk drive (-1)
      else Ok (drive, -1)
  | None => Ok (drive, -1)
  end.

(** [writeByte(drive, b)] *)
Fixpoint writeByte_loop (fuel : nat) (drive : Drive) (b : Z) : result (Drive * Z) :=
  match fuel with
  | O => Fail OutOfFuel
  | S fuel =>
      dk ← deref drive.(disk);
      let '(drive, fBreak) :=
        match drive.(sector) with
        | Some sector =>
            let '(fOk, dk') := disk_write dk sector drive.(ibSector) b in
            (set_ibSector (JS.inc drive.(ibSector)) (set_disk (Some dk') drive), fOk)
        | None => (drive, false)
        end in
      if fBreak : bool then Ok (drive, b)
      else
        dk ← deref drive.(disk);
        let drive := set_sector (disk_seek dk (Num drive.(bCylinder)) (Num drive.(bHead))
                                           drive.(bSector)) drive in
        match drive.(sector) with
        | None => Ok (set_errorCode (JS.bor ERR_CRC_ERROR ERR_INCOMPLETE) drive, -1)
        | Some _ =>
            let drive := set_ibSector (Num 0) drive in
            let drive := set_bSector (JS.inc drive.(bSector)) drive in
            writeByte_loop fuel drive b
        end
  end.

Definition writeByte (fuel : nat) (drive : Drive) (b : Z) : result (Drive * Z) :=
  if JS.truthyZ drive.(errorCode) || negb (is_Some_b drive.(disk)) then Ok (drive, -1)
  else writeByte_loop fuel drive b.

(** The [for] loop of [writeFormat]: [nBytes] calls of
    [writeByte(drive, drive.bFiller)], stopped by the first failure. *)
Fixpoint fillSector (fuel : nat) (n : nat) (drive : Drive) : result (Drive * bool) :=
  match n with
  | O => Ok (drive, true)
  | S n =>
      filler ← number drive.(bFiller);
      '(drive, b) ← writeByte fuel drive filler;
      if b <? 0 then Ok (drive, false) else fillSector fuel n drive
  end.

(** [writeFormat(drive, b)] *)
Definition writeFormat (fuel : nat) (drive : Drive) (b : Z) : result (Drive * Z) :=
  if JS.truthyZ drive.(errorCode) then Ok (drive, -1)
  else
    ab ← deref drive.(abFormat);
    cb ← number drive.(cbFormat);
    if cb <? 0 then Fail Untyped
    else
      let ab := JS.set ab (Z.to_nat cb) (Num b) in
      let drive := set_abFormat (Some ab) drive in
      let drive := set_cbFormat (JS.inc drive.(cbFormat)) drive in
      '(drive, fOk) ←
        (if JS.eqb drive.(cbFormat) (Num (Z.of_nat (length ab))) then
           C ← cell ab 0;
           H ← cell ab 1;
           let drive := set_bCylinder C drive in
           let drive := set_bHead H drive in
           let drive := set_bSector (JS.aget ab 2) drive in
           let cbFill := JS.shl 128 (JS.toInt32 (JS.aget ab 3)) in
           let drive := set_nBytes (Num cbFill) drive in
           let drive := set_cbFormat (Num 0) drive in
           '(drive, fOk) ← fillSector fuel (Z.to_nat cbFill) drive;
           if fOk : bool
           then Ok (set_cSectorsFormatted (JS.inc drive.(cSectorsFormatted)) drive, true)
           else Ok (drive, false)
         else Ok (drive, true));
      if negb fOk then Ok (drive, -1)
      else if JS.geb drive.(cSectorsFormatted) drive.(bSectorEnd) then Ok (drive, -1)
      else Ok (drive, b).

(** [dmaRead(drive, b, done)], [dmaWrite(drive, b)] and
    [dmaFormat(drive, b)]: the entry points of the DMA controller.
    [b] is [None] when the DMA controller passes [undefined]. *)
Definition dmaRead (fuel : nat) (drive : Drive) (b : option Z) : result (Drive * Z) :=
  if match b with None => true | Some b => b <? 0 end
  then readByte fuel drive
  else Ok (drive, -1).

Definition dmaWrite (fuel : nat) (drive : Drive) (b : option Z) : result (Drive * Z) :=
  match b with
  | Some b => if b >=? 0 then writeByte fuel drive b else Ok (drive, -1)
  | None => Ok (drive, -1)
  end.

Definition dmaFormat (fuel : nat) (drive : Drive) (b : option Z) : result (Drive * Z) :=
  match b with
  | Some b => if b >=? 0 then writeFormat fuel drive b else Ok (drive, -1)
  | None => Ok (drive, -1)
  end.

(** *** The command engine *)

(** What the machine around the controller supplies: the constant
    [Computer.VERSION_102] that marks the save format, and
    [chipset.requestDMA(ChipSet.DMA_FDC)], that is, what the byte requests
    of the DMA controller on the connected function ([dmaRead], [dmaWrite]
    or [dmaFormat]) have done to the drive when [requestDMA] returns. *)
Class Machine : Type := {
  VERSION_102 : jsval;
  requestDMA : DMAFunc -> Drive -> result Drive
}.

Context {M : Machine}.

(** [popCmd(name)] *)
Definition popCmd (c : Controller) : result (Controller * Z) :=
  bCmd ← cell c.(regDataArray) c.(regDataIndex);
  Ok (set_regDataIndex (c.(regDataIndex) + 1) c, bCmd).

(** [popHLT()] and [popSRT()] *)
Definition popHLT (c : Controller) : result Controller :=
  '(c, _) ← popCmd c; Ok c.

Definition popSRT (c : Controller) : result Controller :=
  '(c, _) ← popCmd c; Ok c.

(** [beginResult()] *)
Definition beginResult (c : Controller) : Controller :=
  set_regDataTotal 0 (set_regDataIndex 0 c).

(** [pushResult(bResult, name)] *)
Definition pushResult (bResult : JS.num) (c : Controller) : result Controller :=
  if c.(regDataTotal) <? 0 then Fail Untyped
  else
    let c := set_regDataArray (JS.set c.(regDataArray) (Z.to_nat c.(regDataTotal)) bResult) c in
    Ok (set_regDataTotal (c.(regDataTotal) + 1) c).

(** [pushST0(errorCode)], [pushST1(errorCode)], [pushST2(errorCode)] and
    [pushST3(drive)] *)
Definition pushST0 (errorCode : Z) (c : Controller) : result Controller :=
  drive ← deref (getDrive c.(iUnit) c);
  pushResult (Num (JS.bor (JS.bor c.(iUnit) drive.(bHead)) (JS.band errorCode ERR_ST0))) c.

Definition pushST1 (errorCode : Z) (c : Controller) : result Controller :=
  pushResult (Num (JS.shr (JS.band errorCode ERR_ST1) 8)) c.

Definition pushST2 (errorCode : Z) (c : Controller) : result Controller :=
  pushResult (Num (JS.shr (JS.band errorCode ERR_ST2) 16)) c.

Definition pushST3 (c : Controller) : result Controller :=
  pushResult (Num 0x00) c.

(** [doRead(drive)], [doWrite(drive)] and [doFormat(drive)] on drive [i]
    of the controller. *)
Definition doRead (i : Z) (c : Controller) : result Controller :=
  drive ← deref (getDrive i c);
  let drive := set_errorCode (JS.bor ERR_NOT_READY ERR_INCOMPLETE) drive in
  match drive.(disk) with
  | Some _ =>
      let drive := set_sector None drive in
      let drive := set_errorCode ERR_NONE drive in
      match c.(chipset) with
      | Some _ =>
          let c := set_chipset (chip (ConnectDMA DMA_FDC dmaRead_f drive.(iDrive)) c.(chipset)) c in
          let c := set_chipset (chip (RequestDMA DMA_FDC) c.(chipset)) c in
          drive ← requestDMA dmaRead_f drive;
          Ok (putDrive i drive c)
      | None => Ok (putDrive i drive c)
      end
  | None => Ok (putDrive i drive c)
  end.

Definition doWrite (i : Z) (c : Controller) : result Controller :=
  drive ← deref (getDrive i c);
  let drive := set_errorCode (JS.bor ERR_NOT_READY ERR_INCOMPLETE) drive in
  match drive.(disk) with
  | Some dk =>
      if disk_fWriteProtected dk then
        Ok (putDrive i (set_errorCode (JS.bor ERR_NOT_WRITABLE ERR_INCOMPLETE) drive) c)
      else
        let drive := set_sector None drive in
        let drive := set_errorCode ERR_NONE drive in
        match c.(chipset) with
        | Some _ =>
            let c := set_chipset (chip (ConnectDMA DMA_FDC dmaWrite_f drive.(iDrive)) c.(chipset)) c in
            let c := set_chipset (chip (RequestDMA DMA_FDC) c.(chipset)) c in
            drive ← requestDMA dmaWrite_f drive;
            Ok (putDrive i drive c)
        | None => Ok (putDrive i drive c)
        end
  | None => Ok (putDrive i drive c)
  end.

Definition doFormat (i : Z) (c : Controller) : result Controller :=
  drive ← deref (getDrive i c);
  let drive := set_errorCode (JS.bor ERR_NOT_READY ERR_INCOMPLETE) drive in
  match drive.(disk) with
  | Some _ =>
      let drive := set_sector None drive in
      let drive := set_errorCode ERR_NONE drive in
      match c.(chipset) with
      | Some _ =>
          let drive := set_cbFormat (Num 0) drive in
          let drive := set_abFormat (Some (JS.newArray 4)) drive in
          let drive := set_bFormatting true drive in
          let drive := set_cSectorsFormatted (Num 0) drive in
          let c := set_chipset (chip (ConnectDMA DMA_FDC dmaFormat_f drive.(iDrive)) c.(chipset)) c in
          let c := set_chipset (chip (RequestDMA DMA_FDC) c.(chipset)) c in
          drive ← requestDMA dmaFormat_f drive;
          Ok (putDrive i (set_bFormatting false drive) c)
      | None => Ok (putDrive i drive c)
      end
  | None => Ok (putDrive i drive c)
  end.

(** The unit-select byte of a command: [bHeadSelect] and [iUnitSelect]. *)
Definition headSelect (bUS : Z) : Z := JS.band (JS.shr bUS 2) 0x1.
Definition unitSelect (bUS : Z) : Z := JS.band bUS 0x3.

(** [doCmd()].  Each case of the [switch] yields the controller, the
    index of the local [drive] when the case sets it, and [fIRQ]. *)
Definition doCmd (c : Controller) : result Controller :=
  let c := set_regDataIndex 0 c in
  '(c, bCmd) ← popCmd c;
  let bCmdMasked := JS.band bCmd CMD_MASK in
  '(c, drive, fIRQ) ←
    (if bCmdMasked =? CMD_SPECIFY then
       c ← popSRT c;
       c ← popHLT c;
       Ok (beginResult c, None, false)
     else if bCmdMasked =? CMD_DRIVE_STATUS then
       '(c, bUS) ← popCmd c;
       let c := set_iUnit (unitSelect bUS) c in
       c ← pushST3 (beginResult c);
       Ok (c, Some (unitSelect bUS), false)
     else if (bCmdMasked =? CMD_WRITE_DATA) || (bCmdMasked =? CMD_READ_DATA) then
       '(c, bUS) ← popCmd c;
       let iUnitSelect := unitSelect bUS in
       let c := set_iUnit iUnitSelect c in
       drive ← deref (getDrive iUnitSelect c);
       let drive := set_bHead (headSelect bUS) drive in
       '(c, C) ← popCmd c;
       let drive := set_bCylinder C drive in
       '(c, H) ← popCmd c;
       '(c, R) ← popCmd c;
       let drive := set_bSector (Num R) drive in
       '(c, n) ← popCmd c;
       let drive := set_nBytes (Num (JS.shl 128 n)) drive in
       '(c, EOT) ← popCmd c;
       let drive := set_bSectorEnd (Num EOT) drive in
       '(c, GPL) ← popCmd c;
       '(c, DTL) ← popCmd c;
       let c := putDrive iUnitSelect drive c in
       c ← (if bCmdMasked =? CMD_READ_DATA then doRead iUnitSelect c
            else doWrite iUnitSelect c);
       let c := beginResult c in
       drive ← deref (getDrive iUnitSelect c);
       c ← pushST0 drive.(errorCode) c;
       c ← pushST1 drive.(errorCode) c;
       c ← pushST2 drive.(errorCode) c;
       c ← pushResult (Num drive.(bCylinder)) c;
       c ← pushResult (Num drive.(bHead)) c;
       c ← pushResult drive.(bSector) c;
       c ← pushResult (Num n) c;
       Ok (c, Some iUnitSelect, true)
     else if bCmdMasked =? CMD_RECALIBRATE then
       '(c, bUS) ← popCmd c;
       let iUnitSelect := unitSelect bUS in
       let c := set_iUnit iUnitSelect c in
       drive ← deref (getDrive iUnitSelect c);
       let drive := set_bCylinder 0 drive in
       let drive := set_errorCode ERR_SEEK_END drive in
       Ok (beginResult (putDrive iUnitSelect drive c), Some iUnitSelect, true)
     else if bCmdMasked =? CMD_INT_STATUS then
       let c := set_iUnit c.(iDrive_sel) c in
       drive ← deref (getDrive c.(iUnit) c);
       let c := beginResult c in
       c ← pushST0 drive.(errorCode) c;
       c ← pushResult (Num drive.(bCylinder)) c;
       Ok (c, Some c.(iUnit), false)
     else if bCmdMasked =? CMD_FORMAT_TRACK then
       '(c, bUS) ← popCmd c;
       let iUnitSelect := unitSelect bUS in
       let c := set_iUnit iUnitSelect c in
       drive ← deref (getDrive iUnitSelect c);
       let drive := set_bHead (headSelect bUS) drive in
       '(c, n) ← popCmd c;
       let drive := set_nBytes (Num (JS.shl 128 n)) drive in
       '(c, SC) ← popCmd c;
       let drive := set_bSectorEnd (Num SC) drive in
       '(c, GPL) ← popCmd c;
       '(c, D) ← popCmd c;
       let drive := set_bFiller (Num D) drive in
       let c := putDrive iUnitSelect drive c in
       c ← doFormat iUnitSelect c;
       let c := beginResult c in
       drive ← deref (getDrive iUnitSelect c);
       c ← pushST0 drive.(errorCode) c;
       c ← pushST1 drive.(errorCode) c;
       c ← pushST2 drive.(errorCode) c;
       c ← pushResult (Num drive.(bCylinder)) c;
       c ← pushResult (Num drive.(bHead)) c;
       c ← pushResult drive.(bSector) c;
       c ← pushResult (Num n) c;
       Ok (c, Some iUnitSelect, true)
     else if bCmdMasked =? CMD_SEEK then
       '(c, bUS) ← popCmd c;
       let iUnitSelect := unitSelect bUS in
       let c := set_iUnit iUnitSelect c in
       drive ← deref (getDrive iUnitSelect c);
       let drive := set_bHead (headSelect bUS) drive in
       '(c, NCN) ← popCmd c;
       let drive := set_bCylinder NCN drive in
       let drive := set_errorCode ERR_SEEK_END drive in
       Ok (beginResult (putDrive iUnitSelect drive c), Some iUnitSelect, true)
     else Ok (c, None, false));
  let c := if c.(regDataTotal) >? 0
           then set_regStatus (JS.bor c.(regStatus) (JS.bor REG_STATUS_READ_DATA REG_STATUS_BUSY)) c
           else c in
  if JS.truthyZ (JS.band c.(regOutput) REG_OUTPUT_INT_ENABLE) then
    match drive ≫= (fun i => getDrive i c) with
    | Some drive =>
        if negb (JS.truthyZ (JS.band drive.(errorCode) ERR_NOT_READY)) && fIRQ
        then Ok (set_chipset (chip (SetIRR IRQ_FDC) c.(chipset)) c)
        else Ok c
    | None => Ok c
    end
  else Ok c.

(** *** Port handlers *)

(** [inFDCStatus(port, addrFrom)]: the controller and the byte read. *)
Definition inFDCStatus (c : Controller) : Controller * Z := (c, c.(regStatus)).

(** [inFDCData(port, addrFrom)] *)
Definition inFDCData (c : Controller) : Controller * JS.num :=
  let bIn := if c.(regDataIndex) <? c.(regDataTotal)
             then JS.aget c.(regDataArray) c.(regDataIndex) else Num 0 in
  let c := if JS.truthyZ (JS.band c.(regOutput) REG_OUTPUT_INT_ENABLE)
           then set_chipset (chip (ClearIRR IRQ_FDC) c.(chipset)) c else c in
  let c := set_regDataIndex (c.(regDataIndex) + 1) c in
  if c.(regDataIndex) >=? c.(regDataTotal) then
    let c := set_regStatus (JS.band c.(regStatus)
               (JS.bnot (JS.bor REG_STATUS_READ_DATA REG_STATUS_BUSY))) c in
    (set_regDataIndex 0 (set_regDataTotal 0 c), bIn)
  else (c, bIn).

(** [outFDCData(port, bOut, addrFrom)] *)
Definition outFDCData (bOut : Z) (c : Controller) : result Controller :=
  let c :=
    if c.(regDataTotal) <? Z.of_nat (length c.(regDataArray)) then
      set_regDataTotal (c.(regDataTotal) + 1)
        (set_regDataArray (JS.set c.(regDataArray) (Z.to_nat c.(regDataTotal)) (Num bOut)) c)
    else c in
  let bCmdMasked := JS.band (JS.toInt32 (JS.aget c.(regDataArray) 0)) CMD_MASK in
  match cbWrite bCmdMasked with
  | Some cb => if c.(regDataTotal) >=? cb then doCmd c else Ok c
  | None => Ok c
  end.

(** [inFDCInput(port, addrFrom)] and [outFDCControl(port, bOut, addrFrom)] *)
Definition inFDCInput (c : Controller) : Controller * Z :=
  (set_regInput (JS.band c.(regInput) (JS.bnot REG_INPUT_DISK_CHANGE)) c, c.(regInput)).

Definition outFDCControl (bOut : Z) (c : Controller) : Controller :=
  set_regControl bOut c.

(** *** Disk history, mounting *)

(** [a == b] on a name or path that may be [undefined]. *)
Definition eqStr (a b : option string) : bool :=
  match a, b with
  | Some a, Some b => String.eqb a b
  | None, None => true
  | _, _ => false
  end.

(** [updateDiskHistory(sDisketteName, sDiskettePath, disk)] *)
Fixpoint updateDiskHistory_loop (h : list (option string * option string * jsval))
    (sPath : option string) (dk : Disk) : list (option string * option string * jsval) :=
  match h with
  | [] => []
  | (n, p, d) :: h =>
      if eqStr p sPath then (n, p, disk_save dk) :: h
      else (n, p, d) :: updateDiskHistory_loop h sPath dk
  end.

Definition updateDiskHistory (sPath : option string) (dk : Disk) (c : Controller)
    : Controller :=
  set_aDiskHistory (updateDiskHistory_loop c.(aDiskHistory) sPath dk) c.

(** [addDiskHistory(sDisketteName, sDiskettePath, disk)]: the history
    and the disk, which [disk.restore] changes when the path is known. *)
Fixpoint addDiskHistory_loop (h : list (option string * option string * jsval))
    (sName sPath : option string) (dk : Disk)
    : list (option string * option string * jsval) * Disk :=
  match h with
  | [] => ([(sName, sPath, JArr [])], dk)
  | (n, p, d) :: h =>
      if eqStr p sPath then ((n, p, d) :: h, snd (disk_restore dk d))
      else let '(h, dk) := addDiskHistory_loop h sName sPath dk in
           ((n, p, d) :: h, dk)
  end.

(** [unloadDrive(iDrive, fAutoUnload, fQuiet)] *)
Definition unloadDrive (i : Z) (c : Controller) : result Controller :=
  drive ← deref (getDrive i c);
  match drive.(disk) with
  | Some dk =>
      let c := updateDiskHistory (Some drive.(sDiskettePath)) dk c in
      let drive := set_sDisketteName (Some EmptyString) drive in
      let drive := set_sDiskettePath EmptyString drive in
      let drive := set_disk None drive in
      let c := putDrive i drive c in
      Ok (set_regInput (JS.bor c.(regInput) REG_INPUT_DISK_CHANGE) c)
  | None => Ok c
  end.

(** [loadDiskette(iDrive, sDisketteName, sDiskettePath, fAutoMount)]:
    the controller and the value returned.  The load that it queues
    ([disk.load], which ends in [mountDiskette]) completes after
    [loadDiskette] has returned. *)
Definition loadDiskette (i : Z) (sName sPath : option string)
    (fAutoMount : bool) (c : Controller) : result (Controller * bool) :=
  drive ← deref (getDrive i c);
  match sPath with
  | Some path =>
      if negb (String.eqb path EmptyString) && negb (String.eqb drive.(sDiskettePath) path) then
        c ← unloadDrive i c;
        drive ← deref (getDrive i c);
        if drive.(fBusy) then Ok (c, true)
        else
          let drive := set_fBusy true drive in
          let '(drive, c) :=
            if fAutoMount
            then (set_fAutoMount true drive, set_cAutoMount (c.(cAutoMount) + 1) c)
            else (drive, c) in
          Ok (putDrive i drive c, false)
      else Ok (c, true)
  | None => Ok (c, true)
  end.

(** *** Save and restore *)

(** [saveDrive(drive)] *)
Definition saveDrive (drive : Drive) : jsval :=
  JArr [Codec.ofZ drive.(errorCode);
        JArr [Codec.ofStr drive.(name);
              Codec.ofZ drive.(nCylinders);
              Codec.ofZ drive.(nHeads);
              Codec.ofZ drive.(nSectors);
              Codec.ofZ drive.(cbSector);
              Codec.ofBool drive.(fRemovable)];
        Codec.ofZ drive.(bHead);
        JNum (-1);
        Codec.ofZ drive.(bCylinder);
        JS.ofNum drive.(bSector);
        JS.ofNum drive.(bSectorEnd);
        JS.ofNum drive.(nBytes);
        JS.ofNum drive.(ibSector);
        VERSION_102;
        Codec.ofOptStr drive.(sDisketteName);
        Codec.ofStr drive.(sDiskettePath)].

(** [saveDrives()] *)
Definition saveDrives (c : Controller) : jsval := JArr (saveDrive <$> c.(aDrives)).

(** [saveDeltas()]: the controller, whose history it brings up to date,
    and the history as a saved value. *)
Definition historyEntry (e : option string * option string * jsval) : jsval :=
  let '(n, p, d) := e in JArr [Codec.ofOptStr n; Codec.ofOptStr p; d].

Definition saveDeltas (c : Controller) : Controller * jsval :=
  let c := fold_left (fun c drive =>
                        match drive.(disk) with
                        | Some dk => updateDiskHistory (Some drive.(sDiskettePath)) dk c
                        | None => c
                        end) c.(aDrives) c in
  (c, JArr (historyEntry <$> c.(aDiskHistory))).

(** [saveController()] *)
Definition saveController (c : Controller) : Controller * jsval :=
  let drives := saveDrives c in
  let '(c, deltas) := saveDeltas c in
  (c, JArr [Codec.ofZ c.(iDrive_sel);
            Codec.ofZ c.(iUnit);
            Codec.ofZ c.(regStatus);
            Codec.ofNums c.(regDataArray);
            Codec.ofZ c.(regDataIndex);
            Codec.ofZ c.(regDataTotal);
            Codec.ofZ c.(regOutput);
            drives;
            deltas;
            Codec.ofZ c.(regInput);
            Codec.ofZ c.(regControl)]).

Definition DEFAULT_DRIVE_NAME : string := "Floppy Drive".

(** The object [{}] that [initController] puts in an empty cell of
    [aDrives].  [initDrive] assigns every property typed [Z], [bool] or
    [string] before anything reads it, [fBusy] and [fAutoMount] apart,
    which are read for their truthiness. *)
Definition emptyDrive : Drive :=
  mkDrive 0 0 EmptyString 0 0 0 0 false 0 0 Undef Undef Undef Undef None None None EmptyString
          false false Undef Undef None false Undef.

Definition toHistory (v : jsval) : result (list (option string * option string * jsval)) :=
  match v with
  | JArr l => Codec.mapM (fun e => n ← Codec.toOptStr (JS.get e 0);
                                   p ← Codec.toOptStr (JS.get e 1);
                                   Ok (n, p, JS.get e 2)) l
  | _ => Fail Untyped
  end.

(** [initDrive(drive, iDrive, data)] on drive [i] of the controller:
    the controller and [fSuccess]. *)
Definition initDrive (i : Z) (data : jsval) (c : Controller) : result (Controller * bool) :=
  drive ← deref (getDrive i c);
  let data := match data with
              | JUndef => JArr [JNum ERR_RESET; JBool true; JNum 0; JNum 2; JNum 0]
              | _ => data
              end in
  let data1 := match JS.get data 1 with
               | JBool b => JArr [JStr DEFAULT_DRIVE_NAME; JNum 40; JS.get data 3;
                                  JNum 9; JNum 512; JBool b]
               | v => v
               end in
  dErrorCode ← Codec.toZ (JS.get data 0);
  dName ← Codec.toStr (JS.get data1 0);
  dCylinders ← Codec.toZ (JS.get data1 1);
  dHeads ← Codec.toZ (JS.get data1 2);
  dSectors ← Codec.toZ (JS.get data1 3);
  dSectorSize ← Codec.toZ (JS.get data1 4);
  dRemovable ← Codec.toBool (JS.get data1 5);
  dHead ← Codec.toZ (JS.get data 2);
  dCylinder ← Codec.toZ (JS.get data 4);
  dSectorNum ← Codec.toNum (JS.get data 5);
  dSectorEnd ← Codec.toNum (JS.get data 6);
  dBytes ← Codec.toNum (JS.get data 7);
  dIbSector ← Codec.toNum (JS.get data 8);
  let drive :=
    mkDrive i dErrorCode dName dCylinders dHeads dSectors dSectorSize dRemovable
            dHead dCylinder dSectorNum dSectorEnd dBytes dIbSector None drive.(disk)
            drive.(sDisketteName)
            (if is_Some_b drive.(disk) then drive.(sDiskettePath) else EmptyString)
            drive.(fBusy) drive.(fAutoMount) drive.(bFiller) drive.(cbFormat)
            drive.(abFormat) drive.(bFormatting) drive.(cSectorsFormatted) in
  let c := putDrive i drive c in
  let deltas := JS.get data 9 in
  '(c, fSuccess) ←
    (if JS.seq deltas VERSION_102 then
       sName ← Codec.toOptStr (JS.get data 10);
       sPath ← Codec.toOptStr (JS.get data 11);
       '(c, fLoaded) ← loadDiskette i sName sPath true c;
       if fLoaded : bool then
         drive ← deref (getDrive i c);
         match drive.(disk) with
         | Some dk =>
             let '(h, dk) := addDiskHistory_loop c.(aDiskHistory) sName sPath dk in
             Ok (putDrive i (set_disk (Some dk) drive) (set_aDiskHistory h c), true)
         | None => Ok (c, true)
         end
       else Ok (set_fReady false c, true)
     else
       match deltas with
       | JUndef => Ok (c, true)
       | _ =>
           drive ← deref (getDrive i c);
           match drive.(disk) with
           | Some dk =>
               let '(n, dk) := disk_restore dk deltas in
               Ok (putDrive i (set_disk (Some dk) drive) c, negb (n <? 0))
           | None => Ok (c, true)
           end
       end);
  drive ← deref (getDrive i c);
  match drive.(disk) with
  | Some dk =>
      if fSuccess && negb match drive.(ibSector) with Undef => true | _ => false end then
        Ok (putDrive i (set_sector (disk_seek dk (Num drive.(bCylinder)) (Num drive.(bHead))
                                              drive.(bSector)) drive) c, fSuccess)
      else Ok (c, fSuccess)
  | None => Ok (c, fSuccess)
  end.

(** The [for] loop of [initController] over the [n] drives from index
    [i] on. *)
Fixpoint initDrives (n : nat) (i : Z) (dataDrives : jsval) (c : Controller) (fSuccess : bool)
    : result (Controller * bool) :=
  match n with
  | O => Ok (c, fSuccess)
  | S n =>
      data ← item dataDrives (Z.to_nat i);
      '(c, fOk) ← initDrive i data c;
      initDrives n (i + 1) dataDrives c (fSuccess && fOk)
  end.

(** [initController(data)]: the controller and [fSuccess].  A
    controller on which [initController] never ran has no [aDrives];
    it is the controller with [aDrives = []].  Only [undefined] gets the
    default data: [data[0]] on [null] is a [TypeError], and so is
    [dataDrives[iDrive]] when the saved state has no array of drives. *)
Definition initController (data : jsval) (c : Controller) : result (Controller * bool) :=
  match data with
  | JNull => Fail TypeError
  | _ =>
      let data := match data with
                  | JUndef =>
                      JArr [JNum 0; JNum 0; JNum REG_STATUS_RQM;
                            Codec.ofNums (JS.newArray 9); JNum 0; JNum 0; JNum 0; JArr []]
                  | _ => data
                  end in
      dDrive ← Codec.toZ (JS.get data 0);
      dUnit ← Codec.toZ (JS.get data 1);
      dStatus ← Codec.toZ (JS.get data 2);
      dDataArray ← Codec.toNums (JS.get data 3);
      dDataIndex ← Codec.toZ (JS.get data 4);
      dDataTotal ← Codec.toZ (JS.get data 5);
      dOutput ← Codec.toZ (JS.get data 6);
      let c := set_regOutput dOutput (set_regDataTotal dDataTotal (set_regDataIndex dDataIndex
               (set_regDataArray dDataArray (set_regStatus dStatus (set_iUnit dUnit
               (set_iDrive_sel dDrive c)))))) in
      let dataDrives := JS.get data 7 in
      c ← match JS.get data 8 with
          | JUndef | JNull => Ok c
          | v => h ← toHistory v; Ok (set_aDiskHistory h c)
          end;
      let c := match c.(aDrives) with
               | [] => set_aDrives (replicate 4 emptyDrive) c
               | _ => c
               end in
      '(c, fSuccess) ← initDrives (length c.(aDrives)) 0 dataDrives c true;
      dInput ← Codec.toZ (JS.or (JS.get data 9) (JNum 0));
      dControl ← Codec.toZ (JS.or (JS.get data 10) (JNum REG_CONTROL_RATE500K));
      Ok (set_regControl dControl (set_regInput dInput c), fSuccess)
  end.

(** [outFDCOutput(port, bOut, addrFrom)] *)
Definition outFDCOutput (bOut : Z) (c : Controller) : result Controller :=
  c ← (if negb (JS.truthyZ (JS.band bOut REG_OUTPUT_ENABLE)) then
         '(c, _) ← initController JUndef c; Ok c
       else if negb (JS.truthyZ (JS.band c.(regOutput) REG_OUTPUT_ENABLE)) then
         if JS.truthyZ (JS.band c.(regOutput) REG_OUTPUT_INT_ENABLE)
         then Ok (set_chipset (chip (SetIRR IRQ_FDC) c.(chipset)) c)
         else Ok c
       else Ok c);
  let iDrv := JS.band bOut REG_OUTPUT_SELECT in
  let c := if JS.truthyZ (JS.band bOut (JS.shl REG_OUTPUT_MOTOR_A iDrv))
           then set_iDrive_sel iDrv c else c in
  Ok (set_regOutput bOut c).

(** [reset()] *)
Definition reset (c : Controller) : result (Controller * bool) :=
  initController JUndef c.

(** *** Mounting, and the history of mounted images *)

(** [addDiskHistory(sDisketteName, sDiskettePath, disk)]: the controller
    and the disk, which [disk.restore] brings up to date when the path
    is in the history. *)
Definition addDiskHistory (sName sPath : option string) (dk : Disk) (c : Controller)
    : Controller * Disk :=
  let '(h, dk) := addDiskHistory_loop c.(aDiskHistory) sName sPath dk in
  (set_aDiskHistory h c, dk).

(** [removeDiskHistory(sDisketteName, sDiskettePath)] *)
Fixpoint removeDiskHistory_loop (h : list (option string * option string * jsval))
    (sPath : option string) : list (option string * option string * jsval) :=
  match h with
  | [] => []
  | (n, p, d) :: h =>
      if eqStr p sPath then h
      else (n, p, d) :: removeDiskHistory_loop h sPath
  end.

Definition removeDiskHistory (sPath : option string) (c : Controller) : Controller :=
  set_aDiskHistory (removeDiskHistory_loop c.(aDiskHistory) sPath) c.

(** [mountDiskette(drive, disk, sDisketteName, sDiskettePath)] on drive
    [i]: the completion of the load that [loadDiskette] queued.  [disk]
    is [None] when the image could not be loaded. *)
Definition mountDiskette (i : Z) (dk : option Disk) (sName : option string)
    (sPath : string) (c : Controller) : result Controller :=
  drive ← deref (getDrive i c);
  let drive := set_fBusy false drive in
  let drive := set_disk dk drive in
  let '(drive, c) :=
    match dk with
    | Some dk =>
        let drive := set_sDisketteName sName drive in
        let drive := set_sDiskettePath sPath drive in
        let '(c, dk) := addDiskHistory sName (Some sPath) dk c in
        (set_disk (Some dk) drive,
         set_regInput (JS.bor c.(regInput) REG_INPUT_DISK_CHANGE) c)
    | None => (drive, c)
    end in
  let '(drive, c) :=
    if drive.(fAutoMount) then
      let c := set_cAutoMount (c.(cAutoMount) - 1) c in
      (set_fAutoMount false drive,
       if negb (JS.truthyZ c.(cAutoMount)) then set_fReady true c else c)
    else (drive, c) in
  Ok (putDrive i drive c).

(** [unloadAllDrives(fDiscard)] *)
Definition unloadAllDrives (fDiscard : bool) (c : Controller) : result Controller :=
  let c := if fDiscard then set_aDiskHistory [] c else c in
  fold_left (fun r i => c ← r; unloadDrive (Z.of_nat i) c)
            (seq 0 (length c.(aDrives))) (Ok c).

(** *** The interface for other components *)

Context {DG : DiskGeometry Disk}.

(** [copyDrive(iDrive)] *)
Definition copyDrive (i : Z) (c : Controller) : option Drive := getDrive i c.

(** [seekDrive(drive, iSector, nSectors)]: the drive and the value
    returned.  The numbers are integers: [Math.floor(a / b)] is the
    floored quotient and [a % b] the remainder with the sign of [a].
    With an empty cylinder the quotients are [NaN] or infinite, which
    the cylinder and the head of a diskette drive do not hold. *)
Definition seekDrive (drive : Drive) (iSector nSectors : Z) : result (Drive * bool) :=
  match drive.(disk) with
  | Some dk =>
      let '(info0, info1, nSectorsPerTrack, info3) := disk_info dk in
      let nSectorsPerCylinder := info1 * nSectorsPerTrack in
      let nSectorsPerDisk := info0 * nSectorsPerCylinder in
      if iSector + nSectors <=? nSectorsPerDisk then
        if nSectorsPerCylinder =? 0 then Fail Untyped
        else
          let drive := set_bCylinder (iSector / nSectorsPerCylinder) drive in
          let iSector' := Z.rem iSector nSectorsPerCylinder in
          let drive := set_bHead (iSector' / nSectorsPerTrack) drive in
          let drive := set_bSector (Num (Z.rem iSector' nSectorsPerTrack + 1)) drive in
          let drive := set_nBytes (Num (nSectors * info3)) drive in
          Ok (set_errorCode ERR_NONE drive, true)
      else Ok (drive, false)
  | None => Ok (drive, false)
  end.

End WithDisk.

End FDC.

(** ** A blank disk image *)

(** An instance of the disk port: a formatted image of a given geometry
  that holds zero bytes and keeps no deltas.  Sector IDs start at 1, as
  in the images both controllers use.  The examples run on it. *)
Module BlankDisk.

Record Image : Type := mkImage {
  nCylinders : Z;
  nHeads : Z;
  nSectors : Z;
  cbSector : Z;
  fWriteProtected : bool
}.

Definition Sector : Type := (Z * Z * Z)%type.

Definition seek (d : Image) (c h s : JS.num) : option Sector :=
  match c, h, s with
  | Num c, Num h, Num s =>
      if (0 <=? c) && (c <? d.(nCylinders)) && (0 <=? h) && (h <? d.(nHeads))
         && (1 <=? s) && (s <=? d.(nSectors))
      then Some (c, h, s) else None
  | _, _, _ => None
  end.

Definition inSector (d : Image) (ib : JS.num) : bool :=
  match ib with
  | Num i => (0 <=? i) && (i <? d.(cbSector))
  | _ => false
  end.

Definition read (d : Image) (_ : Sector) (ib : JS.num) : Z :=
  if inSector d ib then 0 else -1.

Definition write (d : Image) (_ : Sector) (ib : JS.num) (_ : Z) : bool * Image :=
  (inSector d ib && negb d.(fWriteProtected), d).

#[global] Instance port : DiskPort Image Sector := {
  disk_new := mkImage 0 0 0 0 false;
  disk_seek := seek;
  disk_read := read;
  disk_write := write;
  disk_fWriteProtected := fWriteProtected;
  disk_save := fun _ => JArr [];
  disk_restore := fun d _ => (0, d)
}.

(** A 40-track, double-sided, 9-sector diskette and the 10Mb fixed disk
    (306 cylinders, 4 heads, 17 sectors), both with 512-byte sectors. *)
Definition diskette : Image := mkImage 40 2 9 512 false.
Definition fixedDisk : Image := mkImage 306 4 17 512 false.

End BlankDisk.

(** ** The sector-advance algorithm as the specification words it *)

Module Spec.

(** "After consuming a sector, increment the sector register; if it
    would exceed [sectorsPerTrack + bias - 1], reset it to [bias],
    increment head; if head would exceed [heads - 1], reset head to 0,
    increment cylinder", on a position (cylinder, head, sector). *)
Definition advanceSector (sectorsPerTrack heads bias : Z) (pos : Z * Z * Z)
    : Z * Z * Z :=
  let '(cylinder, head, sector) := pos in
  if sector + 1 >? sectorsPerTrack + bias - 1 then
    if head + 1 >? heads - 1 then (cylinder + 1, 0, bias)
    else (cylinder, head + 1, bias)
  else (cylinder, head, sector + 1).

End Spec.

(** ** Example drives and machines *)

Module Examples.

Import BlankDisk.

(** A drive of the 10Mb fixed disk at a position; [bias] is
    [bSectorBias]: 1 for a drive of the XTC, 0 for a drive of the ATC. *)
Definition hdDrive (bias cylinder head sector : Z) : @HDC.Drive Image Sector :=
  HDC.mkDrive 0 0 0 false (JS.newArray 8) None (Num head) (Num 4) (Num cylinder)
              (Num sector) Undef Undef bias 3 17 512 (Num 306) (Some fixedDisk)
              Undef None Undef.

(** A diskette drive with the blank diskette in it, at a position. *)
Definition fdDrive (cylinder head sector : Z) : @FDC.Drive Image Sector :=
  FDC.mkDrive 0 0 "Floppy Drive" 40 2 9 512 true head cylinder (Num sector) (Num 9)
              (Num 512) Undef None (Some diskette) (Some "blank"%string) "blank.json"
              false false Undef Undef None false Undef.

(** The same drive with no diskette in it. *)
Definition fdEmpty : @FDC.Drive Image Sector :=
  FDC.mkDrive 0 0 "Floppy Drive" 40 2 9 512 true 0 0 Undef Undef Undef Undef None None
              None EmptyString false false Undef Undef None false Undef.

(** A DMA peer for the examples.  The DMA controller of the chipset is
    outside the two controllers; what they rely on is that it calls the
    connected function once per byte of the programmed count, [pull] for
    a transfer to memory and [push] for a transfer from memory, and stops
    when the controller answers [-1]. *)
Fixpoint pull (cb : nat) (drive : @FDC.Drive Image Sector) : result (@FDC.Drive Image Sector) :=
  match cb with
  | O => Ok drive
  | S cb =>
      '(drive, b) ← FDC.dmaRead 4 drive None;
      if b <? 0 then Ok drive else pull cb drive
  end.

Fixpoint push (f : DMAFunc) (bytes : list Z) (drive : @FDC.Drive Image Sector)
    : result (@FDC.Drive Image Sector) :=
  match bytes with
  | [] => Ok drive
  | byte :: bytes =>
      '(drive, b) ← match f with
                    | dmaFormat_f => FDC.dmaFormat 4 drive (Some byte)
                    | _ => FDC.dmaWrite 4 drive (Some byte)
                    end;
      if b <? 0 then Ok drive else push f bytes drive
  end.

(** A machine whose DMA channel is programmed for 512 bytes. *)
#[global] Instance machine : @FDC.Machine Image Sector := {
  FDC.VERSION_102 := JNum 102;
  FDC.requestDMA := fun f drive =>
    match f with
    | dmaRead_f => pull 512 drive
    | _ => push f (replicate 512 0xE5) drive
    end
}.

(** A floppy controller with four drives, the blank diskette in drive 0,
    interrupts enabled, waiting for a command. *)
Definition fdc (cs : ChipSet) : @FDC.Controller Image Sector :=
  FDC.mkController 0 0 FDC.REG_STATUS_RQM (JS.newArray 9) 0 0 0x1C 0 0
                   [fdDrive 0 0 1; fdEmpty; fdEmpty; fdEmpty] [] 0 true cs.

(** An XT controller with one drive (drive 0, of type 3, whose switch
    bits are in [regConfig]) and an AT controller with one drive, both
    idle. *)
Definition xtc (allowFail : Z) : @HDC.Controller Image Sector :=
  HDC.mkController false [Some 3] 0 0 0 0 0 0 0 0 0 0 (Num 0x0C) (JS.newArray 14) 0 0
                   Undef Undef Undef allowFail [hdDrive 1 0 0 0] None (Some []) None.

Definition atc (secCnt : Z) : @HDC.Controller Image Sector :=
  HDC.mkController true [Some 2] 0 0 secCnt 1 0 0 0xA0 0x50 0 0 Undef [] 0 0
                   Undef Undef Undef (-1) [hdDrive 0 0 0 1] None (Some []) None.

End Examples.

(** The blank image tells its geometry. *)
#[global] Instance BlankDisk_geometry : DiskGeometry BlankDisk.Image := {
  disk_info := fun d => (d.(BlankDisk.nCylinders), d.(BlankDisk.nHeads),
                         d.(BlankDisk.nSectors), d.(BlankDisk.cbSector))
}.

(** * Properties *)

(** ** Notions used by the statements *)

Section Notions.

Context {Disk Sector : Type} {DP : DiskPort Disk Sector}.

(** The position of a fixed-disk drive lies within its geometry: the
    head below [nHeads], the sector in the range of the controller
    variant, which starts at [1 - bSectorBias] (0 on the XTC, 1 on the
    ATC) and holds [nSectors] numbers. *)
Definition HDC_inGeometry (drive : @HDC.Drive Disk Sector) (head sector heads : Z) : Prop :=
  drive.(HDC.bHead) = Num head /\
  drive.(HDC.bSector) = Num sector /\
  drive.(HDC.nHeads) = Num heads /\
  0 <= head < heads /\
  1 - drive.(HDC.bSectorBias) <= sector <= drive.(HDC.nSectors) - drive.(HDC.bSectorBias).

(** The number of sectors between the start of the disk and a position. *)
Definition HDC_linear (drive : @HDC.Drive Disk Sector) (cylinder head sector heads : Z) : Z :=
  (cylinder * heads + head) * drive.(HDC.nSectors)
  + (sector - (1 - drive.(HDC.bSectorBias))).

(** The position of a drive: cylinder, head and sector. *)
Definition HDC_position (drive : @HDC.Drive Disk Sector) : JS.num * JS.num * JS.num :=
  (drive.(HDC.wCylinder), drive.(HDC.bHead), drive.(HDC.bSector)).

Definition FDC_position (drive : @FDC.Drive Disk Sector) : JS.num * JS.num * JS.num :=
  (Num drive.(FDC.bCylinder), Num drive.(FDC.bHead), drive.(FDC.bSector)).

Definition position (p : Z * Z * Z) : JS.num * JS.num * JS.num :=
  let '(cylinder, head, sector) := p in (Num cylinder, Num head, Num sector).

(** The FDC leaves the head and the cylinder of a drive where they are
    and only counts its sector register up. *)
Definition FDC_sectorOnly (drive drive' : @FDC.Drive Disk Sector) : Prop :=
  drive'.(FDC.bCylinder) = drive.(FDC.bCylinder) /\
  drive'.(FDC.bHead) = drive.(FDC.bHead) /\
  exists k : nat, drive'.(FDC.bSector) = Nat.iter k JS.inc drive.(FDC.bSector).

(** Writing a sequence of bytes to the data port of the XTC, and of the
    FDC. *)
Definition outXTCDatas (bytes : list Z) (c : @HDC.Controller Disk Sector)
    : result (@HDC.Controller Disk Sector) :=
  fold_left (fun r b => c ← r; HDC.outXTCData b c) bytes (Ok c).

Definition outFDCDatas {M : @FDC.Machine Disk Sector} (bytes : list Z)
    (c : @FDC.Controller Disk Sector) : result (@FDC.Controller Disk Sector) :=
  fold_left (fun r b => c ← r; FDC.outFDCData b c) bytes (Ok c).

(** The bytes of a command have been received: they fill the FIFO of the
    XTC, or of the FDC. *)
Definition XTC_received (bytes : list Z) (c : @HDC.Controller Disk Sector) : Prop :=
  c.(HDC.regDataArray) = Num <$> bytes /\
  c.(HDC.regDataTotal) = Z.of_nat (length bytes).

Definition FDC_received (bytes : list Z) (c : @FDC.Controller Disk Sector) : Prop :=
  c.(FDC.regDataArray) = Num <$> bytes /\
  c.(FDC.regDataTotal) = Z.of_nat (length bytes).

(** The calls that a handler has added to the log of the chipset. *)
Definition newCalls (before after : ChipSet) : list ChipCall :=
  match before, after with
  | Some log, Some log' => take (length log' - length log) log'
  | _, _ => []
  end.

(** A step of the FDC that only works on its FIFO: the Output register,
    the selected unit, the chipset and the drives are as before. *)
Definition FDC_same (c c1 : @FDC.Controller Disk Sector) : Prop :=
  c1.(FDC.regOutput) = c.(FDC.regOutput) /\
  c1.(FDC.iUnit) = c.(FDC.iUnit) /\
  c1.(FDC.chipset) = c.(FDC.chipset) /\
  c1.(FDC.aDrives) = c.(FDC.aDrives).

(** A step of the FDC that keeps the Output register and whose calls on
    the chipset raise no interrupt. *)
Definition FDC_quiet (c c1 : @FDC.Controller Disk Sector) : Prop :=
  c1.(FDC.regOutput) = c.(FDC.regOutput) /\
  exists calls, c1.(FDC.chipset) = (fun log => calls ++ log) <$> c.(FDC.chipset)
                /\ raised IRQ_FDC calls = false.

(** The drive as the Command Phase of READ DATA or WRITE DATA programs
    it from the request bytes US, C, R, N and EOT, and the controller at
    the end of that phase: nine bytes of the FIFO consumed, the unit
    selected. *)
Definition FDC_programmed (bUS C R N EOT : Z) (drive : @FDC.Drive Disk Sector)
    : @FDC.Drive Disk Sector :=
  FDC.set_bSectorEnd (Num EOT)
    (FDC.set_nBytes (Num (JS.shl 128 N))
       (FDC.set_bSector (Num R)
          (FDC.set_bCylinder C
             (FDC.set_bHead (FDC.headSelect bUS) drive)))).

Definition FDC_commandPhase (bUS C R N EOT : Z) (drive : @FDC.Drive Disk Sector)
    (c : @FDC.Controller Disk Sector) : @FDC.Controller Disk Sector :=
  FDC.putDrive (FDC.unitSelect bUS) (FDC_programmed bUS C R N EOT drive)
    (FDC.set_iUnit (FDC.unitSelect bUS) (FDC.set_regDataIndex 9 c)).

(** The seven bytes of the Result Phase of READ DATA and WRITE DATA: ST0,
    ST1, ST2, then C, H, R of the drive and N of the request. *)
Definition FDC_results (unit N : Z) (drive : @FDC.Drive Disk Sector) : list JS.num :=
  [Num (JS.bor (JS.bor unit drive.(FDC.bHead)) (JS.band drive.(FDC.errorCode) FDC.ERR_ST0));
   Num (JS.shr (JS.band drive.(FDC.errorCode) FDC.ERR_ST1) 8);
   Num (JS.shr (JS.band drive.(FDC.errorCode) FDC.ERR_ST2) 16);
   Num drive.(FDC.bCylinder);
   Num drive.(FDC.bHead);
   drive.(FDC.bSector);
   Num N].

(** The FDC commands that signal the end of their Execution Phase by an
    interrupt: the cases of [doCmd] that set [fIRQ]. *)
Definition FDC_signalsIRQ (bCmd : Z) : bool :=
  let bCmdMasked := JS.band bCmd FDC.CMD_MASK in
  (bCmdMasked =? FDC.CMD_WRITE_DATA) || (bCmdMasked =? FDC.CMD_READ_DATA)
  || (bCmdMasked =? FDC.CMD_RECALIBRATE) || (bCmdMasked =? FDC.CMD_FORMAT_TRACK)
  || (bCmdMasked =? FDC.CMD_SEEK).

(** Whether the request of an interrupt is pending in the log of a
    chipset (newest call first): the last [setIRR(irq)] has no later
    [clearIRR(irq)]. *)
Definition sameIRQ (a b : IRQ) : bool :=
  match a, b with
  | IRQ_FDC, IRQ_FDC | IRQ_XTC, IRQ_XTC | IRQ_ATC, IRQ_ATC => true
  | _, _ => false
  end.

Fixpoint pendingIRR (irq : IRQ) (log : list ChipCall) : bool :=
  match log with
  | [] => false
  | SetIRR i :: log => sameIRQ i irq || pendingIRR irq log
  | ClearIRR i :: log => negb (sameIRQ i irq) && pendingIRR irq log
  | _ :: log => pendingIRR irq log
  end.

Definition FDC_pending (c : @FDC.Controller Disk Sector) : bool :=
  match c.(FDC.chipset) with
  | Some log => pendingIRR IRQ_FDC log
  | None => false
  end.

(** The function that a transfer command connects to the DMA channel. *)
Definition FDC_transfer (bCmd : Z) : DMAFunc :=
  let bCmdMasked := JS.band bCmd FDC.CMD_MASK in
  if bCmdMasked =? FDC.CMD_READ_DATA then dmaRead_f
  else if bCmdMasked =? FDC.CMD_WRITE_DATA then dmaWrite_f
  else dmaFormat_f.

(** The error code [e] that the execution of a command that signals by
    interrupt leaves on the drive it addresses, [drive] being that drive
    before the command.  RECALIBRATE and SEEK leave SEEK_END.  A transfer
    (READ_DATA, WRITE_DATA, FORMAT_TRACK) leaves NOT_READY|INCOMPLETE on a
    drive without diskette, NOT_WRITABLE|INCOMPLETE when WRITE_DATA finds
    the diskette write-protected, and otherwise what the DMA transfer
    leaves, which starts on the drive with no error and no sector. *)
Definition FDC_leaves {M : @FDC.Machine Disk Sector} (bCmd : Z)
    (drive : @FDC.Drive Disk Sector) (e : Z) : Prop :=
  let bCmdMasked := JS.band bCmd FDC.CMD_MASK in
  if (bCmdMasked =? FDC.CMD_RECALIBRATE) || (bCmdMasked =? FDC.CMD_SEEK)
  then e = FDC.ERR_SEEK_END
  else
    match drive.(FDC.disk) with
    | None => e = JS.bor FDC.ERR_NOT_READY FDC.ERR_INCOMPLETE
    | Some dk =>
        if (bCmdMasked =? FDC.CMD_WRITE_DATA) && disk_fWriteProtected dk
        then e = JS.bor FDC.ERR_NOT_WRITABLE FDC.ERR_INCOMPLETE
        else exists started done : @FDC.Drive Disk Sector,
               started.(FDC.disk) = Some dk
               /\ started.(FDC.errorCode) = FDC.ERR_NONE
               /\ started.(FDC.sector) = None
               /\ FDC.requestDMA (FDC_transfer bCmd) started = Ok done
               /\ done.(FDC.errorCode) = e
    end.

(** The registers that [saveController] writes, per controller, and the
    position of a drive: cylinder, head, sector and the byte cursor in
    the sector. *)
Definition ATC_registers (c : @HDC.Controller Disk Sector) :=
  (c.(HDC.regError), c.(HDC.regWPreC), c.(HDC.regSecCnt), c.(HDC.regSecNum),
   c.(HDC.regCylLo), c.(HDC.regCylHi), c.(HDC.regDrvHd), c.(HDC.regStatus),
   c.(HDC.regCommand), c.(HDC.regFDR)).

Definition XTC_registers (c : @HDC.Controller Disk Sector) :=
  (c.(HDC.regConfig), c.(HDC.regStatus), c.(HDC.regDataArray), c.(HDC.regDataIndex),
   c.(HDC.regDataTotal), c.(HDC.regReset), c.(HDC.regPulse), c.(HDC.regPattern),
   c.(HDC.iDriveAllowFail)).

Definition FDC_registers (c : @FDC.Controller Disk Sector) :=
  (c.(FDC.iDrive_sel), c.(FDC.iUnit), c.(FDC.regStatus), c.(FDC.regDataArray),
   c.(FDC.regDataIndex), c.(FDC.regDataTotal), c.(FDC.regOutput), c.(FDC.regInput),
   c.(FDC.regControl)).

Definition HDC_cursor (drive : @HDC.Drive Disk Sector) :=
  (drive.(HDC.wCylinder), drive.(HDC.bHead), drive.(HDC.bSector), drive.(HDC.ibSector)).

Definition FDC_cursor (drive : @FDC.Drive Disk Sector) :=
  (drive.(FDC.bCylinder), drive.(FDC.bHead), drive.(FDC.bSector), drive.(FDC.ibSector)).

(** A step of the restore of the FDC that keeps the registers read from
    the saved state so far, and the position of every drive. *)
Definition FDC_restored (c : @FDC.Controller Disk Sector) :=
  (c.(FDC.iDrive_sel), c.(FDC.iUnit), c.(FDC.regStatus), c.(FDC.regDataArray),
   c.(FDC.regDataIndex), c.(FDC.regDataTotal), c.(FDC.regOutput)).

Definition FDC_keeps (c c1 : @FDC.Controller Disk Sector) : Prop :=
  FDC_restored c1 = FDC_restored c /\
  FDC_cursor <$> c1.(FDC.aDrives) = FDC_cursor <$> c.(FDC.aDrives).

(** The drive type that [initDrive] gives a drive of configuration
    [driveConfig], and the switch bits that [initController] ORs into
    [regConfig] for drive [iDrive]. *)
Definition HDC_typeOf (c : @HDC.Controller Disk Sector) (driveConfig : option Z) : Z :=
  match driveConfig with
  | Some t => if is_Some_b (HDC.aDriveTypes (HDC.iHDC c) t) then t
              else HDC.iDriveTypeDefault c
  | None => HDC.iDriveTypeDefault c
  end.

Definition HDC_switches (c : @HDC.Controller Disk Sector) (iDrive : nat)
    (driveConfig : option Z) : Z :=
  JS.shl (JS.band (HDC_typeOf c driveConfig) 0x3) (JS.shl (1 - Z.of_nat iDrive) 1).

(** [regConfig] as [initController] leaves it: undefined, or a number
    that holds the switch bits of drives 0 and 1. *)
Definition HDC_configured (c : @HDC.Controller Disk Sector) : Prop :=
  match c.(HDC.regConfig) with
  | Undef => True
  | NaN => False
  | Num x =>
      forall (iDrive : nat) driveConfig,
        (iDrive <= 1)%nat ->
        c.(HDC.aDriveConfigs) !! iDrive = Some driveConfig ->
        JS.bor x (HDC_switches c iDrive driveConfig) = x
  end.

(** The data status byte that an XTC command leaves as its result: the
    only byte of the FIFO. *)
Definition XTC_result (c : @HDC.Controller Disk Sector) (b : Z) : Prop :=
  JS.aget c.(HDC.regDataArray) 0 = Num b /\
  c.(HDC.regDataIndex) = 0 /\
  c.(HDC.regDataTotal) = 1.

(** The data status that the completion callback of a session passes on
    when the session closes incomplete. *)
Definition XTC_incompleteStatus (f : DMAFunc) (errorCode : Z) : Z :=
  match f with
  | dmaWrite_f => if errorCode =? HDC.ERR_NO_SECTOR then HDC.XTC_DATA_STATUS_OK
                  else HDC.XTC_DATA_STATUS_ERROR
  | _ => HDC.XTC_DATA_STATUS_ERROR
  end.

End Notions.

(** ** Example runs *)

Module Runs.

Import BlankDisk Examples.

(** The controller after a command block, the idle controller when the
    command raises an exception. *)
Definition afterXTC (bytes : list Z) (c : @HDC.Controller Image Sector)
    : @HDC.Controller Image Sector :=
  match outXTCDatas bytes c with
  | Ok c' => c'
  | Fail _ => c
  end.

(** READ_DATA of one sector at cylinder 0, head 0, sector 0 of drive 0:
    the session is open. *)
Definition xtcReading : @HDC.Controller Image Sector :=
  afterXTC [0x08; 0x00; 0x00; 0x00; 0x01; 0x00] (xtc (-1)).

(** WRITE_DATA of one sector at cylinder 400 of drive 0, past the 306
    cylinders of the disk: the session is open. *)
Definition xtcWriting : @HDC.Controller Image Sector :=
  afterXTC [0x0A; 0x00; 0x40; 0x90; 0x01; 0x00] (xtc (-1)).

(** The first byte that the DMA controller hands to [dmaWrite] in that
    session: no sector is found, [writeByte] records NO_SECTOR and
    answers [-1]. *)
Definition xtcWriteFailed : @HDC.Controller Image Sector :=
  match HDC.getDrive 0 xtcWriting with
  | Some drive =>
      match HDC.dmaWrite 2 drive (Some 0xE5) with
      | Ok (drive, _) => HDC.putDrive 0 drive xtcWriting
      | Fail _ => xtcWriting
      end
  | None => xtcWriting
  end.

(** INITIALIZE DRIVE CHARACTERISTICS for drive 1: the command block and
    the eight bytes of parameters (306 cylinders, 4 heads). *)
Definition initDrive1 : list Z :=
  [0x0C; 0x20; 0x00; 0x00; 0x00; 0x00; 0x01; 0x32; 0x04; 0x01; 0x32; 0x00; 0x00; 0x0B].

(** The XT controller after the BIOS hook saw INT 0x13 with [AH = 0] and
    [DL = 0x81]: the flag [iDriveAllowFail] is armed for drive 1. *)
Definition xtcArmed : @HDC.Controller Image Sector :=
  HDC.intBIOSDisk 0x0000 0x0081 (xtc (-1)).

(** That controller with the command received. *)
Definition xtcInitDrive1 : @HDC.Controller Image Sector :=
  HDC.set_regDataTotal 14 (HDC.set_regDataArray (Num <$> initDrive1) xtcArmed).

(** The floppy controller with a command received, and after the
    command. *)
Definition fdcReceived (bytes : list Z) (c : @FDC.Controller Image Sector)
    : @FDC.Controller Image Sector :=
  FDC.set_regDataTotal (Z.of_nat (length bytes)) (FDC.set_regDataArray (Num <$> bytes) c).

Definition afterFDC (c : @FDC.Controller Image Sector) : @FDC.Controller Image Sector :=
  match FDC.doCmd c with
  | Ok c' => c'
  | Fail _ => c
  end.

(** READ DATA of sector 1 at cylinder 0, head 0 (N = 2, EOT = 9), for
    drive 0, which holds the blank diskette, and for drive 1, which is
    empty. *)
Definition readData (unit : Z) : list Z :=
  [0x46; unit; 0x00; 0x00; 0x01; 0x02; 0x09; 0x2A; 0xFF].

Definition fdcRead (unit : Z) : @FDC.Controller Image Sector :=
  fdcReceived (readData unit) (fdc (Some [])).

(** The controller when the transfer of READ DATA on drive 0 returns. *)
Definition fdcReadTransfer : @FDC.Controller Image Sector :=
  let phase := FDC_commandPhase 0 0 1 2 9 (fdDrive 0 0 1) (fdcRead 0) in
  match FDC.doRead 0 phase with
  | Ok c => c
  | Fail _ => phase
  end.

Definition fdcReadDone : @FDC.Controller Image Sector := afterFDC (fdcRead 0).

End Runs.

(** ** Notions of the port protocols *)

Section Protocols.

Context {Disk Sector : Type} {DP : DiskPort Disk Sector}.

(** The XT controller that has buffered the first bytes of a command
    block: they are in the leading cells of the FIFO, and the REQ bit of
    the status register is down from the sixth byte on. *)
Definition XTC_buffered (bytes : list Z) (c : @HDC.Controller Disk Sector)
    : @HDC.Controller Disk Sector :=
  HDC.set_regStatus
    (if (6 <=? length bytes)%nat
     then JS.band c.(HDC.regStatus) (JS.bnot HDC.XTC_STATUS_REQ)
     else c.(HDC.regStatus))
    (HDC.set_regDataTotal (Z.of_nat (length bytes))
       (HDC.set_regDataArray
          ((Num <$> bytes) ++ drop (length bytes) c.(HDC.regDataArray)) c)).

(** The controller on which [outXTCData] runs the command: the block is
    buffered, IOMODE is up and REQ is down. *)
Definition XTC_issued (bytes : list Z) (c : @HDC.Controller Disk Sector)
    : @HDC.Controller Disk Sector :=
  let c := XTC_buffered bytes c in
  HDC.set_regStatus
    (JS.band (JS.bor c.(HDC.regStatus) HDC.XTC_STATUS_IOMODE)
             (JS.bnot HDC.XTC_STATUS_REQ)) c.

(** The length of the command block that starts with [bCmd], in a FIFO
    of 14 cells. *)
Definition XTC_blockLength (bCmd : Z) : nat :=
  if bCmd =? HDC.CMD_INIT_DRIVE then 14%nat else 6%nat.

(** The six bytes of a command block are in the FIFO. *)
Definition XTC_block (bytes : list Z) (c : @HDC.Controller Disk Sector) : Prop :=
  take (length bytes) c.(HDC.regDataArray) = Num <$> bytes /\
  c.(HDC.regDataTotal) = Z.of_nat (length bytes).

(** Reading [n] bytes from the data port of the XTC. *)
Fixpoint inXTCDatas (n : nat) (c : @HDC.Controller Disk Sector)
    : result (@HDC.Controller Disk Sector * list Z) :=
  match n with
  | O => Ok (c, [])
  | S n =>
      '(c, b) ← HDC.inXTCData c;
      '(c, bs) ← inXTCDatas n c;
      Ok (c, b :: bs)
  end.

(** The data status of the XTC commands that end at once: the
    diagnostics succeed with or without drive; TEST_READY, RECALIBRATE
    and READ_VERF succeed on a drive that exists; anything else is an
    error. *)
Definition XTC_dataStatus (bCmd : Z) (fDrive : bool) : Z :=
  if (bCmd =? HDC.CMD_RAM_DIAGNOSTIC) || (bCmd =? HDC.CMD_CTL_DIAGNOSTIC)
  then HDC.XTC_DATA_STATUS_OK
  else if fDrive && ((bCmd =? HDC.CMD_TEST_READY) || (bCmd =? HDC.CMD_RECALIBRATE)
                     || (bCmd =? HDC.CMD_READ_VERF))
  then HDC.XTC_DATA_STATUS_OK
  else HDC.XTC_DATA_STATUS_ERROR.

(** The XTC commands that do not end at once with a data status alone:
    REQUEST_SENSE, INIT_DRIVE and, on a drive that exists, the three DMA
    commands. *)
Definition XTC_special (bCmd : Z) : bool :=
  (bCmd =? HDC.CMD_REQUEST_SENSE) || (bCmd =? HDC.CMD_INIT_DRIVE)
  || (bCmd =? HDC.CMD_READ_DATA) || (bCmd =? HDC.CMD_WRITE_DATA)
  || (bCmd =? HDC.CMD_WRITE_BUFFER).

(** The drive that the Drive/Head register of the ATC selects, and the
    class of the command in its Command register: the value that the
    [switch] of [doATC] tests for a drive that exists. *)
Definition ATC_selected (c : @HDC.Controller Disk Sector) : nat :=
  if JS.truthyZ (JS.band c.(HDC.regDrvHd) HDC.ATC_DRVHD_DRIVE_MASK) then 1%nat else 0%nat.

Definition ATC_class (c : @HDC.Controller Disk Sector) : Z :=
  JS.band (if c.(HDC.regCommand) >=? HDC.ATC_COMMAND_DIAGNOSE then c.(HDC.regCommand)
           else JS.band c.(HDC.regCommand) HDC.ATC_COMMAND_MASK)
          HDC.ATC_COMMAND_MASK.

(** Reading [n] bytes from the data port of the ATC, and writing a
    sequence of bytes to it. *)
Fixpoint inATCDatas (n : nat) (c : @HDC.Controller Disk Sector)
    : result (@HDC.Controller Disk Sector * list Z) :=
  match n with
  | O => Ok (c, [])
  | S n =>
      '(c, b) ← HDC.inATCData c;
      '(c, bs) ← inATCDatas n c;
      Ok (c, b :: bs)
  end.

(** The controller when [k] bytes of the sector that drive [i] has
    located have been transferred. *)
Definition ATC_readAt (c : @HDC.Controller Disk Sector) (i : nat)
    (d : @HDC.Drive Disk Sector) (k : Z) : @HDC.Controller Disk Sector :=
  HDC.putDrive i (HDC.set_ibSector (Num k) d) c.

(** A drive that has located [sec] for a transfer of [n] bytes and
    stands at its first byte, and the controller where drive [i] is in
    this state and is the one selected for the data port. *)
Definition ATC_located (d : @HDC.Drive Disk Sector) (sec : Sector) (n : Z)
    : @HDC.Drive Disk Sector :=
  HDC.set_nBytes (Num n) (HDC.set_ibSector (Num 0) (HDC.set_sector (Some sec) d)).

Definition ATC_reading (c : @HDC.Controller Disk Sector) (i : nat) (sec : Sector) (n : Z)
    : @HDC.Controller Disk Sector :=
  match HDC.getDrive i c with
  | Some d => HDC.set_drive (Some i) (HDC.putDrive i (ATC_located d sec n) c)
  | None => c
  end.

Definition outATCDatas (fuel : nat) (bytes : list Z) (c : @HDC.Controller Disk Sector)
    : result (@HDC.Controller Disk Sector) :=
  fold_left (fun r b => c ← r; HDC.outATCData fuel b c) bytes (Ok c).

(** The bytes of a sector of an image from offset [k] on, and the image
    after bytes were written to a sector from offset [k] on. *)
Definition sectorBytes (dk : Disk) (sector : Sector) (k : Z) (n : nat) : list Z :=
  (fun j => disk_read dk sector (Num (k + Z.of_nat j))) <$> seq 0 n.

Fixpoint sectorWritten (dk : Disk) (sector : Sector) (k : Z) (bytes : list Z) : Disk :=
  match bytes with
  | [] => dk
  | b :: bytes => sectorWritten (snd (disk_write dk sector (Num k) b)) sector (k + 1) bytes
  end.

(** The image accepts the bytes at the offsets from [k] on of a sector. *)
Fixpoint sectorAccepts (dk : Disk) (sector : Sector) (k : Z) (bytes : list Z) : Prop :=
  match bytes with
  | [] => True
  | b :: bytes =>
      fst (disk_write dk sector (Num k) b) = true
      /\ sectorAccepts (snd (disk_write dk sector (Num k) b)) sector (k + 1) bytes
  end.

(** *** The floppy controller *)

(** The first bytes of a command are in the FIFO of the FDC. *)
Definition FDC_block (bytes : list Z) (c : @FDC.Controller Disk Sector) : Prop :=
  take (length bytes) c.(FDC.regDataArray) = Num <$> bytes /\
  c.(FDC.regDataTotal) = Z.of_nat (length bytes).

(** The FDC that has buffered bytes written to its data port: they are
    in the leading cells of the FIFO. *)
Definition FDC_buffered (bytes : list Z) (c : @FDC.Controller Disk Sector)
    : @FDC.Controller Disk Sector :=
  FDC.set_regDataTotal (Z.of_nat (length bytes))
    (FDC.set_regDataArray
       ((Num <$> bytes) ++ drop (length bytes) c.(FDC.regDataArray)) c).

(** Reading [n] bytes from the data port of the FDC. *)
Fixpoint inFDCDatas (n : nat) (c : @FDC.Controller Disk Sector)
    : @FDC.Controller Disk Sector * list JS.num :=
  match n with
  | O => (c, [])
  | S n =>
      let '(c, b) := FDC.inFDCData c in
      let '(c, bs) := inFDCDatas n c in
      (c, b :: bs)
  end.

(** Whether the history of mounted images has an entry for a path. *)
Definition FDC_known (sPath : option string)
    (h : list (option string * option string * jsval)) : bool :=
  existsb (fun e => FDC.eqStr (snd (fst e)) sPath) h.

(** The drive object after a reset of the FDC: the diskette stays in
    the drive; the error code is RESET, the head is at cylinder 0, and
    the geometry is that of a 40-track, double-sided, 9-sector drive. *)
Definition FDC_resetDrive (i : Z) (d : @FDC.Drive Disk Sector) : @FDC.Drive Disk Sector :=
  FDC.mkDrive i FDC.ERR_RESET FDC.DEFAULT_DRIVE_NAME 40 2 9 512 true 0 0
              Undef Undef Undef Undef None d.(FDC.disk) d.(FDC.sDisketteName)
              (if is_Some_b d.(FDC.disk) then d.(FDC.sDiskettePath) else EmptyString)
              d.(FDC.fBusy) d.(FDC.fAutoMount) d.(FDC.bFiller) d.(FDC.cbFormat)
              d.(FDC.abFormat) d.(FDC.bFormatting) d.(FDC.cSectorsFormatted).

(** The drives that a reset of the FDC works on: four empty ones when
    the controller has none yet. *)
Definition FDC_drives (c : @FDC.Controller Disk Sector) : list (@FDC.Drive Disk Sector) :=
  match c.(FDC.aDrives) with
  | [] => replicate 4 FDC.emptyDrive
  | l => l
  end.

(** The drive that a byte written to the Output register selects: the
    one of its SELECT bits when the motor of that drive is on in the
    byte, otherwise the one that was selected. *)
Definition FDC_selects (bOut : Z) (iDrive : Z) : Z :=
  if JS.truthyZ (JS.band bOut (JS.shl FDC.REG_OUTPUT_MOTOR_A
                                      (JS.band bOut FDC.REG_OUTPUT_SELECT)))
  then JS.band bOut FDC.REG_OUTPUT_SELECT else iDrive.

(** *** Reset of the hard disk controller *)

(** The drives that [initController] works on: one empty drive per
    configured drive when the controller has none yet. *)
Definition HDC_drives (c : @HDC.Controller Disk Sector) : list (@HDC.Drive Disk Sector) :=
  match c.(HDC.aDrives) with
  | [] => replicate (length c.(HDC.aDriveConfigs)) HDC.emptyDrive
  | l => l
  end.

(** Drive [iDrv], of configuration [cfg], as a reset leaves it: no
    error, the type of its configuration with the cylinders and heads
    of the drive type table, 17 sectors of 512 bytes, the image it had
    or a new one, no position and no sector located. *)
Definition HDC_isReset (c : @HDC.Controller Disk Sector) (iDrv : nat) (cfg : option Z)
    (drive drive' : @HDC.Drive Disk Sector) : Prop :=
  drive'.(HDC.iDrive) = Z.of_nat iDrv /\
  drive'.(HDC.errorCode) = HDC.ERR_NONE /\
  drive'.(HDC.senseCode) = 0 /\
  drive'.(HDC.type) = HDC_typeOf c cfg /\
  (exists cyl heads,
      HDC.aDriveTypes (HDC.iHDC c) (HDC_typeOf c cfg) = Some (cyl, heads)
      /\ drive'.(HDC.nCylinders) = Num cyl /\ drive'.(HDC.nHeads) = Num heads) /\
  drive'.(HDC.nSectors) = 17 /\
  drive'.(HDC.cbSector) = 512 /\
  drive'.(HDC.bSectorBias) = (if c.(HDC.fATC) then 0 else 1) /\
  drive'.(HDC.disk) = Some (default disk_new drive.(HDC.disk)) /\
  drive'.(HDC.sector) = None /\
  drive'.(HDC.abSector) = None /\
  HDC_cursor drive' = (Undef, Undef, Undef, Undef).

(** The calls [setCMOSDriveType] of a hard reset for the [n] drives
    from index [iDrv] on, newest first. *)
Fixpoint HDC_cmosCalls (c : @HDC.Controller Disk Sector) (iDrv n : nat) : list ChipCall :=
  match n with
  | O => []
  | S n =>
      HDC_cmosCalls c (S iDrv) n
      ++ [SetCMOSDriveType (Z.of_nat iDrv)
            (HDC_typeOf c (default None (c.(HDC.aDriveConfigs) !! iDrv)))]
  end.

(** *** A sector written through the data port of the ATC *)

(** The drive that has located [sec] for a write and advanced its
    position past it, and the controller when [k] bytes of the sector
    have been written to the image, now [dk]. *)
Definition ATC_writing (d : @HDC.Drive Disk Sector) (sec : Sector) : @HDC.Drive Disk Sector :=
  HDC.advanceSector (HDC.set_ibSector (Num 0) (HDC.set_sector (Some sec) d)).

Definition ATC_writeAt (c : @HDC.Controller Disk Sector) (i : nat)
    (d : @HDC.Drive Disk Sector) (sec : Sector) (dk : Disk) (k : Z)
    : @HDC.Controller Disk Sector :=
  HDC.putDrive i (HDC.set_ibSector (Num k) (HDC.set_disk (Some dk) (ATC_writing d sec))) c.

(** *** Transfers of the FDC *)

(** [n] requests of the DMA controller for a byte of the drive. *)
Fixpoint dmaReads (fuel : nat) (n : nat) (drive : @FDC.Drive Disk Sector)
    : result (@FDC.Drive Disk Sector * list Z) :=
  match n with
  | O => Ok (drive, [])
  | S n =>
      '(drive, b) ← FDC.dmaRead fuel drive None;
      '(drive, bs) ← dmaReads fuel n drive;
      Ok (drive, b :: bs)
  end.

(** The drive of the FDC that has located [sec] at its sector number
    and counted the number up. *)
Definition FDC_located (d : @FDC.Drive Disk Sector) (sec : Sector) : @FDC.Drive Disk Sector :=
  FDC.set_bSector (JS.inc d.(FDC.bSector))
    (FDC.set_ibSector (Num 0) (FDC.set_sector (Some sec) d)).

(** [n] bytes handed by the DMA controller to the sector buffer of a
    drive of the XTC. *)
Fixpoint dmaWriteBuffers (bytes : list Z) (drive : @HDC.Drive Disk Sector)
    : result (@HDC.Drive Disk Sector * list Z) :=
  match bytes with
  | [] => Ok (drive, [])
  | b :: bytes =>
      '(drive, r) ← HDC.dmaWriteBuffer drive (Some b);
      '(drive, rs) ← dmaWriteBuffers bytes drive;
      Ok (drive, r :: rs)
  end.

(** A drive with its diskette taken out, as [unloadDrive] leaves it; a
    drive without a diskette is as it was. *)
Definition FDC_unloaded (d : @FDC.Drive Disk Sector) : @FDC.Drive Disk Sector :=
  match d.(FDC.disk) with
  | Some _ =>
      FDC.set_disk None
        (FDC.set_sDiskettePath EmptyString (FDC.set_sDisketteName (Some EmptyString) d))
  | None => d
  end.

(** A drive with a diskette. *)
Definition FDC_loaded (d : @FDC.Drive Disk Sector) : bool :=
  match d.(FDC.disk) with Some _ => true | None => false end.

End Protocols.

(** ** More example runs *)

Module Runs2.

Import BlankDisk Examples.

(** The blank diskette with its write-protect tab set, and the floppy
    controller with this diskette in drive 0. *)
Definition protectedDiskette : Image := mkImage 40 2 9 512 true.

Definition fdcProtected : @FDC.Controller Image Sector :=
  FDC.putDrive 0 (FDC.set_disk (Some protectedDiskette) (fdDrive 0 0 1)) (fdc (Some [])).

(** WRITE DATA of sector 1 at cylinder 0, head 0 (N = 2, EOT = 9) for
    drive 0, received by that controller. *)
Definition writeData : list Z := [0x45; 0x00; 0x00; 0x00; 0x01; 0x02; 0x09; 0x2A; 0xFF].

Definition fdcWriteProtected : @FDC.Controller Image Sector :=
  Runs.fdcReceived writeData fdcProtected.

(** The floppy controller in the Result Phase of a SENSE INTERRUPT
    STATUS: two bytes to read. *)
Definition fdcSensed : @FDC.Controller Image Sector :=
  FDC.set_regStatus 0xD0
    (FDC.set_regDataTotal 2
       (FDC.set_regDataArray (Num 0x20 :: Num 5 :: JS.newArray 7) (fdc (Some [])))).

(** SEEK to cylinder 5 for drive 0, head 0, in the FIFO of the floppy
    controller. *)
Definition fdcSeek : @FDC.Controller Image Sector :=
  FDC_buffered [0x0F; 0x00; 0x05] (fdc (Some [])).

(** A fixed disk with sectors of four bytes, and the AT controller
    after WRITE_DATA of one sector on a drive that holds it: the drive
    is selected, at sector 1 of cylinder 0, head 0, with no sector
    located yet. *)
Definition smallDisk : Image := mkImage 306 4 17 4 false.

Definition smallDrive : @HDC.Drive Image Sector :=
  HDC.mkDrive 0 0 0 false (JS.newArray 8) None (Num 0) (Num 4) (Num 0) (Num 1) Undef
              (Num 4) 0 3 17 4 (Num 306) (Some smallDisk) (Num 0) None Undef.

Definition atcWriting : @HDC.Controller Image Sector :=
  HDC.set_drive (Some 0%nat) (HDC.putDrive 0 smallDrive (atc 1)).

(** A drive of the XT controller set up for a WRITE_BUFFER of two
    bytes. *)
Definition xtcBuffer : @HDC.Drive Image Sector :=
  HDC.set_ibSector (Num 0) (HDC.set_abSector (Some (JS.newArray 2)) (hdDrive 1 0 0 0)).

(** The floppy controller before it is ready: no auto-mount is
    pending. *)
Definition fdcIdle : @FDC.Controller Image Sector := FDC.set_fReady false (fdc (Some [])).

(** The floppy controller after READ DATA on drive 1, which is empty:
    unit 1 is selected and drive 1 holds NOT_READY|INCOMPLETE.  Then
    SEEK to cylinder 5 is received for drive 1, and for drive 0. *)
Definition fdcFailed : @FDC.Controller Image Sector := Runs.afterFDC (Runs.fdcRead 1).

Definition fdcSeekAfterFailure (unit : Z) : @FDC.Controller Image Sector :=
  Runs.fdcReceived [0x0F; unit; 0x05] fdcFailed.

End Runs2.

(** ** The result monad *)

Lemma bind_Ok {A B : Type} (a : A) (f : A -> result B) : (Ok a ≫= f) = f a.
Proof. reflexivity. Qed.

Lemma bind_Fail {A B : Type} (e : failure) (f : A -> result B) : (Fail e ≫= f) = Fail e.
Proof. reflexivity. Qed.

Lemma deref_Some {A : Type} (a : A) : deref (Some a) = Ok a.
Proof. reflexivity. Qed.

Lemma bind_inv {A B : Type} (m : result A) (f : A -> result B) (b : B) :
  (m ≫= f) = Ok b -> exists a, m = Ok a /\ f a = Ok b.
Proof. destruct m as [a|e]; [eauto|discriminate]. Qed.

Lemma deref_inv {A : Type} (o : option A) (a : A) : deref o = Ok a -> o = Some a.
Proof. destruct o; [now intros [= ->]|discriminate]. Qed.

(** [ToInt32] is idempotent. *)
Lemma wrap32_idem (z : Z) : JS.wrap32 (JS.wrap32 z) = JS.wrap32 z.
Proof.
  unfold JS.wrap32. replace ((z + 2 ^ 31) mod 2 ^ 32 - 2 ^ 31 + 2 ^ 31)
    with ((z + 2 ^ 31) mod 2 ^ 32) by lia.
  now rewrite Z.mod_mod by lia.
Qed.

(** Inversion of a run that returned: every bind returned, every test
    went one way. *)
Ltac inv_ok H :=
  repeat (cbv beta iota zeta in H;
          match type of H with
          | Ok _ = Ok _ => fail 1
          | Fail _ = Ok _ => discriminate H
          | (_ ≫= _) = Ok _ =>
              let a := fresh "a" in
              let E := fresh "E" in
              apply bind_inv in H as (a & E & H)
          | (let '(_, _) := ?p in _) = Ok _ => destruct p
          | (if ?b then _ else _) = Ok _ =>
              let E := fresh "E" in destruct b eqn:E
          | deref _ = Ok _ => apply deref_inv in H
          | match ?x with _ => _ end = Ok _ =>
              let E := fresh "E" in destruct x eqn:E
          end).

(** ** The sector-advance algorithm of the HDC *)

Section HDC_advance.

Context {Disk Sector : Type} {DP : DiskPort Disk Sector}.

Local Abbreviation Drive := (@HDC.Drive Disk Sector).

Lemma advanceSector_geometry (drive : Drive) :
  (HDC.advanceSector drive).(HDC.nSectors) = drive.(HDC.nSectors) /\
  (HDC.advanceSector drive).(HDC.nHeads) = drive.(HDC.nHeads) /\
  (HDC.advanceSector drive).(HDC.bSectorBias) = drive.(HDC.bSectorBias).
Proof.
  unfold HDC.advanceSector; cbn.
  repeat match goal with |- context [if ?b then _ else _] => destruct b end;
    cbn; auto.
Qed.

(** One step moves the position to the next sector in the order
    sector, head, cylinder. *)
Lemma advanceSector_step (drive : Drive) (c h s H : Z) :
  HDC_inGeometry drive h s H ->
  drive.(HDC.wCylinder) = Num c ->
  exists c' h' s',
    (HDC.advanceSector drive).(HDC.wCylinder) = Num c' /\
    HDC_inGeometry (HDC.advanceSector drive) h' s' H /\
    HDC_linear (HDC.advanceSector drive) c' h' s' H = HDC_linear drive c h s H + 1.
Proof.
  intros (Hh & Hs & HH & Hhr & Hsr) Hc.
  unfold HDC_inGeometry, HDC_linear, HDC.advanceSector.
  destruct drive; cbn in *; subst; cbn.
  destruct (Z.geb_spec (s + 1) (nSectors + (1 - bSectorBias))) as [Hw|Hw]; cbn.
  - destruct (Z.geb_spec (h + 1) H) as [Hw'|Hw']; cbn.
    + exists (c + 1), 0, (1 - bSectorBias).
      assert (h = H - 1) by lia. assert (s = nSectors - bSectorBias) by lia. subst.
      repeat split; auto; try lia; ring.
    + exists c, (h + 1), (1 - bSectorBias).
      assert (s = nSectors - bSectorBias) by lia. subst.
      repeat split; auto; try lia; ring.
  - exists c, h, (s + 1). repeat split; auto; lia.
Qed.

Lemma advanceSector_iter (n : nat) (drive : Drive) (c h s H : Z) :
  HDC_inGeometry drive h s H ->
  drive.(HDC.wCylinder) = Num c ->
  exists c' h' s',
    (Nat.iter n HDC.advanceSector drive).(HDC.wCylinder) = Num c' /\
    HDC_inGeometry (Nat.iter n HDC.advanceSector drive) h' s' H /\
    (Nat.iter n HDC.advanceSector drive).(HDC.nSectors) = drive.(HDC.nSectors) /\
    (Nat.iter n HDC.advanceSector drive).(HDC.bSectorBias) = drive.(HDC.bSectorBias) /\
    HDC_linear drive c' h' s' H = HDC_linear drive c h s H + Z.of_nat n.
Proof.
  intros Hg Hc. induction n as [|n IH].
  - exists c, h, s. cbn. split; [exact Hc|]. split; [exact Hg|]. repeat split; lia.
  - destruct IH as (c1 & h1 & s1 & Hc1 & Hg1 & HS1 & Hb1 & Hl1).
    destruct (advanceSector_step _ c1 h1 s1 H Hg1 Hc1) as (c2 & h2 & s2 & Hc2 & Hg2 & Hl2).
    destruct (advanceSector_geometry (Nat.iter n HDC.advanceSector drive)) as (HS & _ & Hb).
    exists c2, h2, s2.
    change (Nat.iter (S n) HDC.advanceSector drive)
      with (HDC.advanceSector (Nat.iter n HDC.advanceSector drive)).
    split; [exact Hc2|]. split; [exact Hg2|].
    split; [congruence|]. split; [congruence|].
    unfold HDC_linear in *. rewrite HS1, Hb1 in Hl2. lia.
Qed.

(** C2.  From a position within the geometry of the drive,
    [sectorsPerTrack * heads] applications of [advanceSector] lead to the
    same head and the same sector on the next cylinder.  The bound on
    the cylinder is not needed: [advanceSector] asserts it but does not
    act on it. *)
Theorem C2_advanceSector_full_cylinder (drive : Drive) (c h s H : Z) :
  HDC_inGeometry drive h s H ->
  drive.(HDC.wCylinder) = Num c ->
  let drive' := Nat.iter (Z.to_nat (drive.(HDC.nSectors) * H)) HDC.advanceSector drive in
  drive'.(HDC.bHead) = Num h /\
  drive'.(HDC.bSector) = Num s /\
  drive'.(HDC.wCylinder) = Num (c + 1).
Proof.
  intros Hg Hc drive'.
  destruct (advanceSector_iter (Z.to_nat (drive.(HDC.nSectors) * H)) drive c h s H Hg Hc)
    as (c' & h' & s' & Hc' & Hg' & HS & Hb & Hl).
  fold drive' in Hc', Hg', HS, Hb.
  destruct Hg as (Hh & Hs & HH & Hhr & Hsr).
  destruct Hg' as (Hh' & Hs' & _ & Hhr' & Hsr').
  rewrite HS, Hb in Hsr'.
  unfold HDC_linear in Hl.
  set (S := HDC.nSectors drive) in *. set (b := HDC.bSectorBias drive) in *.
  rewrite Z2Nat.id in Hl by nia.
  assert (Hk : ((c' - c - 1) * H + (h' - h)) * S = s - s') by lia.
  assert (Hz : (c' - c - 1) * H + (h' - h) = 0) by nia.
  assert (Hc2 : c' - c - 1 = 0) by nia.
  assert (h' = h) by nia. assert (s' = s) by nia.
  subst. rewrite Hh', Hs', Hc'. repeat split; f_equal; lia.
Qed.

End HDC_advance.

(** ** The sector advance of the FDC *)

Section FDC_advance.

Context {Disk Sector : Type} {DP : DiskPort Disk Sector}.

Local Abbreviation Drive := (@FDC.Drive Disk Sector).

Lemma FDC_sectorOnly_refl (drive : Drive) : FDC_sectorOnly drive drive.
Proof. repeat split. now exists 0%nat. Qed.

Lemma FDC_sectorOnly_inc (drive1 drive2 drive3 : Drive) :
  drive2.(FDC.bCylinder) = drive1.(FDC.bCylinder) ->
  drive2.(FDC.bHead) = drive1.(FDC.bHead) ->
  drive2.(FDC.bSector) = JS.inc drive1.(FDC.bSector) ->
  FDC_sectorOnly drive2 drive3 -> FDC_sectorOnly drive1 drive3.
Proof.
  intros Hc Hh Hs (Hc' & Hh' & k & Hk).
  split; [congruence|]. split; [congruence|].
  exists (S k). rewrite Nat.iter_succ_r, Hk, Hs. reflexivity.
Qed.

Lemma readByte_loop_sectorOnly (fuel : nat) (dk : Disk) (drive drive' : Drive) (b b' : Z) :
  FDC.readByte_loop fuel dk drive b = Ok (drive', b') -> FDC_sectorOnly drive drive'.
Proof.
  revert drive b. induction fuel as [|fuel IH]; intros drive b; cbn; [discriminate|].
  destruct drive.(FDC.sector) as [sec|] eqn:Hsec; cbn; rewrite ?Hsec; cbn.
  - destruct (_ >=? 0); cbn.
    + intros [= <- <-]. repeat split. now exists 0%nat.
    + destruct (disk_seek _ _ _ _); cbn.
      * intros Hloop. apply IH in Hloop.
        eapply FDC_sectorOnly_inc; [| | |exact Hloop]; reflexivity.
      * intros [= <- <-]. repeat split. now exists 0%nat.
  - destruct (disk_seek _ _ _ _); cbn.
    + intros Hloop. apply IH in Hloop.
      eapply FDC_sectorOnly_inc; [| | |exact Hloop]; reflexivity.
    + intros [= <- <-]. repeat split. now exists 0%nat.
Qed.

Lemma readByte_sectorOnly (fuel : nat) (drive drive' : Drive) (b : Z) :
  FDC.readByte fuel drive = Ok (drive', b) -> FDC_sectorOnly drive drive'.
Proof.
  unfold FDC.readByte. destruct drive.(FDC.disk); [destruct (negb _)|].
  - apply readByte_loop_sectorOnly.
  - intros [= <- <-]. apply FDC_sectorOnly_refl.
  - intros [= <- <-]. apply FDC_sectorOnly_refl.
Qed.

Lemma writeByte_loop_sectorOnly (fuel : nat) (drive drive' : Drive) (b b' : Z) :
  FDC.writeByte_loop fuel drive b = Ok (drive', b') -> FDC_sectorOnly drive drive'.
Proof.
  revert drive. induction fuel as [|fuel IH]; intros drive; cbn; [discriminate|].
  destruct drive.(FDC.disk) as [dk|] eqn:Hdk; cbn; [|discriminate].
  destruct drive.(FDC.sector) as [sec|] eqn:Hsec; cbn.
  - destruct (disk_write dk sec _ b) as [fOk dk']; cbn. destruct fOk; cbn.
    + intros [= <- <-]. repeat split. now exists 0%nat.
    + destruct (disk_seek _ _ _ _); cbn.
      * intros Hloop. apply IH in Hloop.
        eapply FDC_sectorOnly_inc; [| | |exact Hloop]; reflexivity.
      * intros [= <- <-]. repeat split. now exists 0%nat.
  - rewrite Hdk; cbn. destruct (disk_seek _ _ _ _); cbn.
    + intros Hloop. apply IH in Hloop.
      eapply FDC_sectorOnly_inc; [| | |exact Hloop]; reflexivity.
    + intros [= <- <-]. repeat split. now exists 0%nat.
Qed.

Lemma writeByte_sectorOnly (fuel : nat) (drive drive' : Drive) (b b' : Z) :
  FDC.writeByte fuel drive b = Ok (drive', b') -> FDC_sectorOnly drive drive'.
Proof.
  unfold FDC.writeByte. destruct (_ || _).
  - intros [= <- <-]. apply FDC_sectorOnly_refl.
  - apply writeByte_loop_sectorOnly.
Qed.

End FDC_advance.

(** ** C1: the sector-advance algorithm *)

(** Inversion of a computation in the [result] monad that ends in [Ok]:
    every [match] of the hypothesis is split, the cases that fail are
    dropped. *)
Ltac break_ok H :=
  unfold mbind, result_bind in H; cbn in H;
  repeat (match type of H with
          | context [match ?x with _ => _ end] =>
              let E := fresh "E" in destruct x eqn:E; cbn in H; try discriminate H
          end);
  try (injection H as H).

Section C1.

Context {Disk Sector : Type} {DP : DiskPort Disk Sector}.

Lemma verifyDrive_bSectorBias (c : @HDC.Controller Disk Sector) drive ty drive' :
  HDC.verifyDrive c drive ty = Ok drive' ->
  drive'.(HDC.bSectorBias) = drive.(HDC.bSectorBias).
Proof.
  unfold HDC.verifyDrive. intros Hv. break_ok Hv; subst; reflexivity.
Qed.

Lemma initDrive_bSectorBias (c : @HDC.Controller Disk Sector) cs i drive cfg data fHard
    cs' drive' fOk :
  HDC.initDrive c cs i drive cfg data fHard = Ok (cs', drive', fOk) ->
  drive'.(HDC.bSectorBias) = if c.(HDC.fATC) then 0 else 1.
Proof.
  unfold HDC.initDrive. intros Hi.
  unfold mbind, result_bind in Hi.
  repeat match type of Hi with
         | match ?m with Ok _ => _ | Fail _ => _ end = Ok _ =>
             let E := fresh "E" in destruct m eqn:E; [|discriminate Hi]
         end.
  match goal with E : HDC.verifyDrive _ _ _ = Ok _ |- _ =>
    apply verifyDrive_bSectorBias in E; cbn in E end.
  break_ok Hi; subst; cbn; try congruence.
  all: match goal with
       | E : match ?x with _ => _ end = (_, _) |- _ =>
           destruct x; [injection E as <- <-; cbn; congruence|..];
           destruct (disk_restore _ _); injection E as <- <-; cbn; congruence
       end.
Qed.

(** C1 (amended).  [advanceSector] of the HDC is the algorithm of the
    specification with the first sector number, [1 - bSectorBias], in
    the place of the bias: the sector register is incremented; past
    [nSectors - bSectorBias] it is reset to [1 - bSectorBias] and the head
    is incremented; past [nHeads - 1] the head is reset to 0 and the
    cylinder is incremented.  [initDrive] sets [bSectorBias] to 0 on the
    ATC and to 1 on the XTC.  The FDC does not share the algorithm:
    [readByte] and [writeByte] of the FDC only count the sector register
    up and leave head and cylinder alone. *)
Theorem C1_sector_advance (drive : @HDC.Drive Disk Sector) (c h s H : Z) :
  drive.(HDC.wCylinder) = Num c ->
  drive.(HDC.bHead) = Num h ->
  drive.(HDC.bSector) = Num s ->
  drive.(HDC.nHeads) = Num H ->
  HDC_position (HDC.advanceSector drive)
  = position (Spec.advanceSector drive.(HDC.nSectors) H (1 - drive.(HDC.bSectorBias)) (c, h, s))
  /\ (forall ctl cs i d0 cfg data fHard cs' d fOk,
        HDC.initDrive ctl cs i d0 cfg data fHard = Ok (cs', d, fOk) ->
        d.(HDC.bSectorBias) = if ctl.(HDC.fATC) then 0 else 1)
  /\ (forall fuel (fd fd' : @FDC.Drive Disk Sector) b,
        FDC.readByte fuel fd = Ok (fd', b) -> FDC_sectorOnly fd fd')
  /\ (forall fuel (fd fd' : @FDC.Drive Disk Sector) b b',
        FDC.writeByte fuel fd b = Ok (fd', b') -> FDC_sectorOnly fd fd').
Proof.
  intros Hc Hh Hs HH. split; [|split; [|split]].
  - unfold HDC_position, HDC.advanceSector, Spec.advanceSector, position.
    destruct drive; cbn in *; subst; cbn.
    destruct (Z.geb_spec (s + 1) (nSectors + (1 - bSectorBias))) as [Hw|Hw];
      destruct (Z.gtb_spec (s + 1) (nSectors + (1 - bSectorBias) - 1)) as [Hw1|Hw1];
      try lia; cbn; [|reflexivity].
    destruct (Z.geb_spec (h + 1) H); destruct (Z.gtb_spec (h + 1) (H - 1));
      try lia; reflexivity.
  - intros. eapply initDrive_bSectorBias; eauto.
  - intros. eapply readByte_sectorOnly; eauto.
  - intros. eapply writeByte_sectorOnly; eauto.
Qed.

End C1.

(** The last sector of the last track of a cylinder on a drive of the
    ATC, and the sector before the last of a track. *)
Lemma C1_sector_advance_witness :
  HDC_position (HDC.advanceSector (Examples.hdDrive 0 5 3 17)) = position (6, 0, 1)
  /\ HDC_position (HDC.advanceSector (Examples.hdDrive 0 5 2 16)) = position (5, 2, 17).
Proof.
  split.
  - exact (proj1 (C1_sector_advance (Examples.hdDrive 0 5 3 17) 5 3 17 4
                    eq_refl eq_refl eq_refl eq_refl)).
  - exact (proj1 (C1_sector_advance (Examples.hdDrive 0 5 2 16) 5 2 16 4
                    eq_refl eq_refl eq_refl eq_refl)).
Defined.

(** C1 as stated fails.  On a drive of the ATC (bias 0) with 17 sectors
    per track, [advanceSector] at sector 16 moves to sector 17 of the same
    track, where the stated algorithm (limit [17 + 0 - 1], reset to the
    bias) moves to sector 0 of the next head.  On the FDC, [readByte] at the
    last sector of a track of 9 moves the sector register to 10 and leaves
    the head alone, where the stated algorithm moves to the next head, with
    either bias. *)
Lemma C1_counterexample :
  HDC_position (HDC.advanceSector (Examples.hdDrive 0 0 0 16)) = position (0, 0, 17)
  /\ Spec.advanceSector 17 4 0 (0, 0, 16) = (0, 1, 0)
  /\ (exists drive' b,
        FDC.readByte 4 (Examples.fdDrive 0 0 9) = Ok (drive', b)
        /\ FDC_position drive' = position (0, 0, 10))
  /\ Spec.advanceSector 9 2 0 (0, 0, 9) = (0, 1, 0)
  /\ Spec.advanceSector 9 2 1 (0, 0, 9) = (0, 1, 1).
Proof.
  split; [reflexivity|]. split; [reflexivity|]. split; [|split; reflexivity].
  eexists _, _. split; [vm_compute; reflexivity|reflexivity].
Qed.

(** A full cylinder of the 10Mb fixed disk on the XTC: 17 * 4 steps from
    cylinder 5, head 2, sector 7. *)
Lemma C2_advanceSector_full_cylinder_witness :
  HDC_inGeometry (Examples.hdDrive 1 5 2 7) 2 7 4
  /\ let drive' := Nat.iter 68 HDC.advanceSector (Examples.hdDrive 1 5 2 7) in
     drive'.(HDC.bHead) = Num 2 /\ drive'.(HDC.bSector) = Num 7
     /\ drive'.(HDC.wCylinder) = Num 6.
Proof.
  assert (Hg : HDC_inGeometry (Examples.hdDrive 1 5 2 7) 2 7 4)
    by (unfold HDC_inGeometry; cbn; repeat split; lia).
  split; [exact Hg|].
  exact (C2_advanceSector_full_cylinder (Examples.hdDrive 1 5 2 7) 5 2 7 4 Hg eq_refl).
Defined.

(** ** C3: DMA sessions of the XTC that close incomplete *)

Section C3.

Context {Disk Sector : Type} {DP : DiskPort Disk Sector}.

Lemma aget_set_0 (l : list JS.num) (v : JS.num) : JS.aget (JS.set l 0 v) 0 = v.
Proof. destruct l; reflexivity. Qed.

Lemma getDrive_putDrive (c : @HDC.Controller Disk Sector) i d d' :
  HDC.getDrive i c = Some d -> HDC.getDrive i (HDC.putDrive i d' c) = Some d'.
Proof.
  unfold HDC.getDrive, HDC.putDrive. cbn. intros Hd.
  apply list_lookup_insert_eq. eapply lookup_lt_Some; eauto.
Qed.

(** [beginResult(bResult)] leaves [bResult] as the only byte of the
    FIFO and touches no drive. *)
Lemma beginResult_result (c : @HDC.Controller Disk Sector) (b : Z) :
  exists c', HDC.beginResult (Some b) c = Ok c'
             /\ XTC_result c' b
             /\ c'.(HDC.aDrives) = c.(HDC.aDrives)
             /\ c'.(HDC.iDriveAllowFail) = c.(HDC.iDriveAllowFail)
             /\ length c'.(HDC.regDataArray) = Nat.max 1 (length c.(HDC.regDataArray)).
Proof.
  unfold HDC.beginResult, HDC.pushResult, XTC_result. cbn.
  eexists. split; [reflexivity|]. cbn.
  destruct (HDC.regDataArray c); cbn; repeat split.
Qed.

(** C3 (amended).  When the completion callback of an open DMA session
    (read, write or write-buffer) fires with [fComplete = false], the
    command ends and its result byte is the data status ORed with the
    unit bit of the command.  If no error code was recorded, the error
    code of the drive becomes NOT_READY and the data status is
    STATUS_ERROR.  A read or write-buffer session that closes incomplete
    always has the data status STATUS_ERROR; a write session has it
    unless the recorded error is NO_SECTOR, which the callback clears:
    that session reports STATUS_OK. *)
Theorem C3_incomplete_session (c : @HDC.Controller Disk Sector) (s : HDC.Session)
    (drive : HDC.Drive) :
  c.(HDC.dmaSession) = Some s ->
  HDC.getDrive s.(HDC.s_iDrive) c = Some drive ->
  exists c' drive',
    HDC.requestDMA_done false c = Ok c'
    /\ HDC.getDrive s.(HDC.s_iDrive) c' = Some drive'
    /\ XTC_result c' (JS.bor (XTC_incompleteStatus s.(HDC.s_func) drive.(HDC.errorCode))
                             s.(HDC.s_bDrive))
    /\ (drive.(HDC.errorCode) = HDC.ERR_NONE ->
        drive'.(HDC.errorCode) = HDC.ERR_NOT_READY
        /\ XTC_incompleteStatus s.(HDC.s_func) drive.(HDC.errorCode) = HDC.XTC_DATA_STATUS_ERROR)
    /\ (XTC_incompleteStatus s.(HDC.s_func) drive.(HDC.errorCode) = HDC.XTC_DATA_STATUS_OK
        <-> s.(HDC.s_func) = dmaWrite_f /\ drive.(HDC.errorCode) = HDC.ERR_NO_SECTOR).
Proof.
  intros Hs Hd. unfold HDC.requestDMA_done. rewrite Hs, Hd. cbn.
  set (r := match HDC.s_func s with
            | dmaRead_f => HDC.doDMARead_done false drive
            | dmaWrite_f => HDC.doDMAWrite_done false drive
            | _ => HDC.doDMAWriteBuffer_done false drive
            end).
  assert (Hr : snd r = XTC_incompleteStatus (HDC.s_func s) (HDC.errorCode drive)
               /\ (HDC.errorCode drive = HDC.ERR_NONE ->
                   HDC.errorCode (fst r) = HDC.ERR_NOT_READY)).
  { subst r. unfold XTC_incompleteStatus, HDC.doDMARead_done, HDC.doDMAWrite_done,
      HDC.doDMAWriteBuffer_done, HDC.dataStatus, JS.truthyZ.
    destruct (HDC.s_func s); cbn;
      destruct (Z.eqb_spec (HDC.errorCode drive) HDC.ERR_NONE) as [He|He]; cbn;
      try rewrite He; cbn; try (split; [reflexivity|tauto]);
      try destruct (Z.eqb_spec (HDC.errorCode drive) HDC.ERR_NO_SECTOR) as [He'|He']; cbn;
      try rewrite He'; cbn;
      unfold HDC.ERR_NONE in *;
      try (destruct (Z.eqb_spec (HDC.errorCode drive) 0); [contradiction|]);
      cbn; split; try reflexivity; try tauto; try congruence. }
  destruct r as [drive' bStatus]. cbn in Hr. destruct Hr as [-> Hr].
  unfold HDC.doXTC_done.
  destruct (beginResult_result
              (HDC.set_dmaSession None (HDC.putDrive (HDC.s_iDrive s) drive' c))
              (JS.bor (XTC_incompleteStatus (HDC.s_func s) (HDC.errorCode drive)) (HDC.s_bDrive s)))
    as (c' & Hb & Hres & Hdr & _).
  exists c', drive'. split; [exact Hb|]. split.
  { unfold HDC.getDrive. rewrite Hdr. cbn.
    apply list_lookup_insert_eq. eapply lookup_lt_Some; eauto. }
  split; [exact Hres|]. split.
  { intros He. split; [auto|].
    unfold XTC_incompleteStatus. rewrite He. destruct (HDC.s_func s); reflexivity. }
  unfold XTC_incompleteStatus. split.
  - destruct (HDC.s_func s); try discriminate.
    destruct (Z.eqb_spec (HDC.errorCode drive) HDC.ERR_NO_SECTOR); [auto|discriminate].
  - intros [-> ->]. reflexivity.
Qed.

End C3.

(** A read session on drive 0 of the XTC that closes incomplete with no
    error recorded. *)
Lemma C3_incomplete_session_witness :
  exists c', HDC.requestDMA_done false Runs.xtcReading = Ok c'
             /\ XTC_result c' HDC.XTC_DATA_STATUS_ERROR.
Proof.
  assert (Hs : HDC.dmaSession Runs.xtcReading = Some (HDC.mkSession dmaRead_f 0 0))
    by (vm_compute; reflexivity).
  assert (Hd : HDC.getDrive 0 Runs.xtcReading
               = Some (HDC.set_sector None (HDC.set_errorCode HDC.ERR_NONE
                         (HDC.set_nBytes (Num 512) (Examples.hdDrive 1 0 0 0)))))
    by (vm_compute; reflexivity).
  destruct (C3_incomplete_session Runs.xtcReading _ _ Hs Hd)
    as (c' & drive' & Hdone & _ & Hres & _).
  exists c'. split; [exact Hdone|exact Hres].
Defined.

(** C3 as stated fails in its last clause.  A WRITE_DATA session of the XTC
    whose first byte finds no sector records NO_SECTOR; when the session
    then closes incomplete, the callback clears the error and the command
    reports STATUS_OK. *)
Lemma C3_counterexample :
  (exists s drive,
      Runs.xtcWriteFailed.(HDC.dmaSession) = Some s
      /\ s.(HDC.s_func) = dmaWrite_f
      /\ HDC.getDrive 0 Runs.xtcWriteFailed = Some drive
      /\ drive.(HDC.errorCode) = HDC.ERR_NO_SECTOR)
  /\ exists c' drive',
      HDC.requestDMA_done false Runs.xtcWriteFailed = Ok c'
      /\ XTC_result c' HDC.XTC_DATA_STATUS_OK
      /\ HDC.getDrive 0 c' = Some drive'
      /\ drive'.(HDC.errorCode) = HDC.ERR_NONE.
Proof.
  split.
  - eexists _, _.
    repeat match goal with |- _ /\ _ => split end; vm_compute; reflexivity.
  - eexists _, _. unfold XTC_result.
    repeat match goal with |- _ /\ _ => split end; vm_compute; reflexivity.
Qed.

(** ** C8: the fake failure of INITIALIZE DRIVE CHARACTERISTICS *)

Section C8.

Context {Disk Sector : Type} {DP : DiskPort Disk Sector}.

Local Abbreviation Controller := (@HDC.Controller Disk Sector).

Lemma popCmd_at (c : Controller) (k b : Z) :
  JS.aget c.(HDC.regDataArray) k = Num b ->
  k < c.(HDC.regDataTotal) ->
  HDC.popCmd (HDC.set_regDataIndex k c) = Ok (HDC.set_regDataIndex (k + 1) c, b).
Proof.
  intros Hb Hk. unfold HDC.popCmd, cell. cbn.
  destruct (Z.ltb_spec k (HDC.regDataTotal c)); [|lia].
  rewrite Hb. reflexivity.
Qed.

Lemma popCmd_drained (c : Controller) (k : Z) :
  c.(HDC.regDataTotal) <= k ->
  HDC.popCmd (HDC.set_regDataIndex k c) = Ok (HDC.set_regDataIndex k c, -1).
Proof.
  intros Hk. unfold HDC.popCmd. cbn.
  destruct (Z.ltb_spec k (HDC.regDataTotal c)); [lia|reflexivity].
Qed.

(** Without a drive object the loop of INIT_DRIVE only drains the FIFO. *)
Lemma popDriveParms_nodrive (c : Controller) (iDrv : nat) :
  HDC.getDrive iDrv c = None ->
  forall (fuel : nat) (i : nat) (k : Z),
    (forall j, k <= j < c.(HDC.regDataTotal) ->
               exists b, JS.aget c.(HDC.regDataArray) j = Num b) ->
    (Z.to_nat (c.(HDC.regDataTotal) - k) < fuel)%nat ->
    exists k', HDC.popDriveParms fuel iDrv i (HDC.set_regDataIndex k c)
               = Ok (HDC.set_regDataIndex k' c).
Proof.
  intros Hd. induction fuel as [|fuel IH]; intros i k Hcells Hfuel; [lia|].
  cbn [HDC.popDriveParms].
  destruct (Z.lt_ge_cases k (HDC.regDataTotal c)) as [Hk|Hk].
  - destruct (Hcells k ltac:(lia)) as [b Hb].
    rewrite (popCmd_at c k b Hb Hk). cbn [mbind result_bind].
    destruct (b >=? 0).
    + change (HDC.getDrive iDrv (HDC.set_regDataIndex (k + 1) c))
        with (HDC.getDrive iDrv c).
      rewrite Hd. apply IH; [intros j Hj; apply Hcells; lia|lia].
    + now exists (k + 1).
  - rewrite (popCmd_drained c k Hk). cbn [mbind result_bind].
    change (-1 >=? 0) with false. cbn iota. now exists k.
Qed.

Lemma updDrive_None (c : Controller) (i : nat) f :
    HDC.getDrive i c = None -> HDC.updDrive i f c = c.
  Proof. unfold HDC.updDrive, HDC.getDrive. now intros ->. Qed.

(** INIT_DRIVE for a drive index without drive object: the result byte
    is decided by the flag, which the command consumes. *)
Lemma doXTC_INIT_DRIVE_nodrive (c : Controller)
    (b1 b2 b3 b4 b5 b6 b7 b8 b9 b10 b11 b12 b13 : Z) :
  let bDrive := JS.band b1 0x20 in
  let iDrv := Z.to_nat (JS.shr bDrive 5) in
  XTC_received [HDC.CMD_INIT_DRIVE; b1; b2; b3; b4; b5; b6; b7; b8; b9; b10; b11; b12; b13] c ->
  HDC.getDrive iDrv c = None ->
  exists c',
    HDC.doXTC c = Ok c'
    /\ XTC_result c' (JS.bor (if c.(HDC.iDriveAllowFail) =? Z.of_nat iDrv
                              then HDC.XTC_DATA_STATUS_ERROR
                              else HDC.XTC_DATA_STATUS_OK) bDrive)
    /\ c'.(HDC.iDriveAllowFail)
       = (if c.(HDC.iDriveAllowFail) =? Z.of_nat iDrv then -1 else c.(HDC.iDriveAllowFail))
    /\ c'.(HDC.aDrives) = c.(HDC.aDrives).
Proof.
  intros bDrive iDrv [Harr Htot] Hd. cbn in Htot.
  unfold HDC.doXTC.
  rewrite (popCmd_at c 0 HDC.CMD_INIT_DRIVE) by (rewrite ?Harr, ?Htot; first [reflexivity|lia]).
  cbn [mbind result_bind]. change (0 + 1) with 1.
  rewrite (popCmd_at c 1 b1) by (rewrite ?Harr, ?Htot; first [reflexivity|lia]).
  cbn [mbind result_bind]. change (1 + 1) with 2.
  rewrite (popCmd_at c 2 b2) by (rewrite ?Harr, ?Htot; first [reflexivity|lia]).
  cbn [mbind result_bind]. change (2 + 1) with 3.
  rewrite (popCmd_at c 3 b3) by (rewrite ?Harr, ?Htot; first [reflexivity|lia]).
  cbn [mbind result_bind]. change (3 + 1) with 4.
  rewrite (popCmd_at c 4 b4) by (rewrite ?Harr, ?Htot; first [reflexivity|lia]).
  cbn [mbind result_bind]. change (4 + 1) with 5.
  rewrite (popCmd_at c 5 b5) by (rewrite ?Harr, ?Htot; first [reflexivity|lia]).
  cbn [mbind result_bind]. change (5 + 1) with 6.
  fold bDrive. fold iDrv.
  rewrite updDrive_None by exact Hd.
  change (HDC.CMD_INIT_DRIVE =? HDC.CMD_REQUEST_SENSE) with false.
  change (HDC.CMD_INIT_DRIVE =? HDC.CMD_INIT_DRIVE) with true.
  cbn iota.
  destruct (popDriveParms_nodrive c iDrv Hd
              (S (Z.to_nat (HDC.regDataTotal (HDC.set_regDataIndex 6 c)
                            - HDC.regDataIndex (HDC.set_regDataIndex 6 c))))
              0%nat 6) as [k' Hpop].
  { intros j Hj. rewrite Harr.
    assert (Hj' : j = 6 \/ j = 7 \/ j = 8 \/ j = 9 \/ j = 10 \/ j = 11 \/ j = 12 \/ j = 13)
      by lia.
    destruct Hj' as [->|[->|[->|[->|[->|[->|[->| ->]]]]]]]; eexists; reflexivity. }
  { cbn. lia. }
  rewrite Hpop. cbn [mbind result_bind].
  assert (Hd' : HDC.getDrive iDrv (HDC.set_regDataIndex k' c) = None) by exact Hd.
  rewrite Hd'. cbn [mbind result_bind]. rewrite Hd'. cbn [is_Some_b negb andb].
  change (HDC.iDriveAllowFail (HDC.set_regDataIndex k' c)) with (HDC.iDriveAllowFail c).
  destruct (HDC.iDriveAllowFail c =? Z.of_nat iDrv).
  - destruct (beginResult_result
                (HDC.set_iDriveAllowFail (-1) (HDC.set_regDataIndex k' c))
                (JS.bor HDC.XTC_DATA_STATUS_ERROR bDrive)) as (c' & Hb & Hres & Hdr & Hfl & _).
    exists c'. split; [exact Hb|]. split; [exact Hres|]. split; [exact Hfl|exact Hdr].
  - destruct (beginResult_result (HDC.set_regDataIndex k' c)
                (JS.bor HDC.XTC_DATA_STATUS_OK bDrive)) as (c' & Hb & Hres & Hdr & Hfl & _).
    exists c'. split; [exact Hb|]. split; [exact Hres|]. split; [exact Hfl|exact Hdr].
Qed.

Lemma inXTCData_result (c : Controller) (b : Z) :
  XTC_result c b ->
  exists c', HDC.inXTCData c = Ok (c', b)
             /\ c'.(HDC.iDriveAllowFail) = c.(HDC.iDriveAllowFail)
             /\ c'.(HDC.aDrives) = c.(HDC.aDrives).
Proof.
  intros (Hb & Hi & Ht). unfold HDC.inXTCData, cell.
  rewrite Hi, Ht, Hb. cbn. rewrite Hi, Ht. cbn.
  eexists. split; [reflexivity|]. split; reflexivity.
Qed.

Lemma band_0x20 (b : Z) : JS.band b 0x20 = 0 \/ JS.band b 0x20 = 0x20.
Proof.
  unfold JS.band. change (JS.wrap32 32) with (2 ^ 5). change 32 with (2 ^ 5).
  destruct (Z.testbit (JS.wrap32 b) 5) eqn:E; [right|left];
    apply Z.bits_inj'; intros n Hn; rewrite Z.land_spec, !Z.pow2_bits_eqb by lia;
    destruct (Z.eqb_spec 5 n) as [<-|]; rewrite ?E, ?andb_false_r, ?Z.bits_0; reflexivity.
Qed.

(** C8 (amended).  INITIALIZE DRIVE CHARACTERISTICS received for a drive
    index without drive object, the flag [iDriveAllowFail] armed for that
    index: the command ends, the byte read from the data port is
    STATUS_ERROR ORed with the drive-select bit of the command (0x20 for
    drive 1), and the flag is left at -1.  The same command received
    again, the drives and the flag as they were left, reads STATUS_OK
    ORed with the same bit. *)
Theorem C8_init_drive_allow_fail (c : Controller)
    (b1 b2 b3 b4 b5 b6 b7 b8 b9 b10 b11 b12 b13 : Z) :
  let cmd := [HDC.CMD_INIT_DRIVE; b1; b2; b3; b4; b5; b6; b7; b8; b9; b10; b11; b12; b13] in
  let bDrive := JS.band b1 0x20 in
  let iDrv := Z.to_nat (JS.shr bDrive 5) in
  XTC_received cmd c ->
  HDC.getDrive iDrv c = None ->
  c.(HDC.iDriveAllowFail) = Z.of_nat iDrv ->
  (bDrive = 0 /\ iDrv = 0%nat \/ bDrive = 0x20 /\ iDrv = 1%nat)
  /\ exists c1 c1',
      HDC.doXTC c = Ok c1
      /\ HDC.inXTCData c1 = Ok (c1', HDC.XTC_DATA_STATUS_ERROR + bDrive)
      /\ c1'.(HDC.iDriveAllowFail) = -1
      /\ forall c2,
          XTC_received cmd c2 ->
          c2.(HDC.aDrives) = c1'.(HDC.aDrives) ->
          c2.(HDC.iDriveAllowFail) = c1'.(HDC.iDriveAllowFail) ->
          exists c3 c3',
            HDC.doXTC c2 = Ok c3
            /\ HDC.inXTCData c3 = Ok (c3', HDC.XTC_DATA_STATUS_OK + bDrive)
            /\ c3'.(HDC.iDriveAllowFail) = -1.
Proof.
  intros cmd bDrive iDrv Hrecv Hd Hflag.
  assert (Hbits : bDrive = 0 /\ iDrv = 0%nat \/ bDrive = 0x20 /\ iDrv = 1%nat).
  { subst iDrv. destruct (band_0x20 b1) as [E|E]; fold bDrive in E; rewrite E;
      [left|right]; split; reflexivity. }
  assert (Hbor : forall st, st = HDC.XTC_DATA_STATUS_ERROR \/ st = HDC.XTC_DATA_STATUS_OK ->
                            JS.bor st bDrive = st + bDrive).
  { intros st [-> | ->]; destruct Hbits as [[-> _]|[-> _]]; reflexivity. }
  split; [exact Hbits|].
  destruct (doXTC_INIT_DRIVE_nodrive c b1 b2 b3 b4 b5 b6 b7 b8 b9 b10 b11 b12 b13 Hrecv Hd)
    as (c1 & Hrun & Hres & Hfl & Hdr).
  fold bDrive iDrv in Hres, Hfl. rewrite Hflag, Z.eqb_refl in Hres, Hfl.
  destruct (inXTCData_result c1 _ Hres) as (c1' & Hin & Hfl' & Hdr').
  rewrite Hbor in Hin by auto.
  exists c1, c1'. split; [exact Hrun|]. split; [exact Hin|].
  split; [congruence|].
  intros c2 Hrecv2 Hdr2 Hfl2.
  assert (Hd2 : HDC.getDrive iDrv c2 = None).
  { unfold HDC.getDrive in *. rewrite Hdr2, Hdr', Hdr. exact Hd. }
  destruct (doXTC_INIT_DRIVE_nodrive c2 b1 b2 b3 b4 b5 b6 b7 b8 b9 b10 b11 b12 b13 Hrecv2 Hd2)
    as (c3 & Hrun3 & Hres3 & Hfl3 & _).
  fold bDrive iDrv in Hres3, Hfl3.
  assert (Hm : HDC.iDriveAllowFail c2 = -1) by congruence.
  assert (Hne : (HDC.iDriveAllowFail c2 =? Z.of_nat iDrv) = false)
    by (rewrite Hm; apply Z.eqb_neq; lia).
  rewrite Hne in Hres3, Hfl3.
  destruct (inXTCData_result c3 _ Hres3) as (c3' & Hin3 & Hfl3' & _).
  rewrite Hbor in Hin3 by auto.
  exists c3, c3'. split; [exact Hrun3|]. split; [exact Hin3|]. congruence.
Qed.

End C8.

(** Drive 1 of the XT controller, which has one drive, the flag armed by
    [intBIOSDisk] for drive 1. *)
Lemma C8_init_drive_allow_fail_witness :
  exists c1 c1',
    HDC.doXTC Runs.xtcInitDrive1 = Ok c1
    /\ HDC.inXTCData c1 = Ok (c1', 0x22)
    /\ c1'.(HDC.iDriveAllowFail) = -1.
Proof.
  assert (Hr : XTC_received Runs.initDrive1 Runs.xtcInitDrive1)
    by (split; vm_compute; reflexivity).
  assert (Hd : HDC.getDrive 1 Runs.xtcInitDrive1 = None) by (vm_compute; reflexivity).
  assert (Hf : HDC.iDriveAllowFail Runs.xtcInitDrive1 = 1) by (vm_compute; reflexivity).
  destruct (C8_init_drive_allow_fail Runs.xtcInitDrive1
              0x20 0x00 0x00 0x00 0x00 0x01 0x32 0x04 0x01 0x32 0x00 0x00 0x0B Hr Hd Hf)
    as (_ & c1 & c1' & Hrun & Hin & Hfl & _).
  exists c1, c1'. split; [exact Hrun|]. split; [exact Hin|exact Hfl].
Defined.

(** C8 as stated gives STATUS_ERROR as the byte.  The command written to
    the data port for drive 1, which the controller does not have, after
    [intBIOSDisk] armed the flag for drive 1, reads 0x22 from the data
    port: the error bit and the drive-select bit. *)
Lemma C8_counterexample :
  HDC.getDrive 1 Runs.xtcArmed = None
  /\ Runs.xtcArmed.(HDC.iDriveAllowFail) = 1
  /\ exists c1 c1',
      outXTCDatas Runs.initDrive1 Runs.xtcArmed = Ok c1
      /\ HDC.inXTCData c1 = Ok (c1', 0x22)
      /\ 0x22 <> HDC.XTC_DATA_STATUS_ERROR.
Proof.
  split; [vm_compute; reflexivity|]. split; [vm_compute; reflexivity|].
  eexists _, _. split; [vm_compute; reflexivity|].
  split; [vm_compute; reflexivity|discriminate].
Qed.

(** ** C10: the sector count of an ATC command *)

Section C10.

Context {Disk Sector : Type} {DP : DiskPort Disk Sector}.

Lemma advanceSector_nBytes (drive : @HDC.Drive Disk Sector) :
  (HDC.advanceSector drive).(HDC.nBytes) = drive.(HDC.nBytes).
Proof.
  unfold HDC.advanceSector. cbn.
  repeat match goal with |- context [if ?b then _ else _] => destruct b; cbn end;
    reflexivity.
Qed.

(** The first [readByte] of a command: it returns, and it leaves the
    transfer length alone. *)
Lemma readByte_nBytes (drive : @HDC.Drive Disk Sector) (fDone fAutoInc : bool) :
  drive.(HDC.sector) = None ->
  exists drive' b,
    HDC.readByte drive fDone fAutoInc = Ok (drive', b)
    /\ drive'.(HDC.nBytes) = drive.(HDC.nBytes).
Proof.
  intros Hs. unfold HDC.readByte. rewrite Hs. cbn.
  destruct (JS.truthyZ (HDC.errorCode drive)); [eauto|].
  destruct fDone; [|eauto].
  destruct (HDC.disk drive) as [dk|]; [|eexists _, _; split; reflexivity].
  destruct (disk_seek dk _ _ _) as [sec|]; [|eexists _, _; split; reflexivity].
  eexists _, _. split; [reflexivity|]. cbn. now rewrite advanceSector_nBytes.
Qed.

Lemma aDrives_setATCIRR (c : @HDC.Controller Disk Sector) :
  HDC.aDrives (HDC.setATCIRR c) = HDC.aDrives c.
Proof.
  unfold HDC.setATCIRR. destruct (HDC.chipset c); [|reflexivity].
  destruct (negb _); reflexivity.
Qed.

(** C10.  An ATC command for a drive that exists programs the drive
    with a transfer of 256 sectors when the Sector Count register holds
    0, of as many sectors as the register holds otherwise: [nBytes] is
    that count times the sector size of the drive, whatever the
    command. *)
Theorem C10_doATC_sector_count (c : @HDC.Controller Disk Sector) (drive : HDC.Drive) :
  let iDrv := if JS.truthyZ (JS.band c.(HDC.regDrvHd) HDC.ATC_DRVHD_DRIVE_MASK)
              then 1%nat else 0%nat in
  HDC.getDrive iDrv c = Some drive ->
  exists c' drive',
    HDC.doATC c = Ok c'
    /\ HDC.getDrive iDrv c' = Some drive'
    /\ drive'.(HDC.nBytes)
       = Num ((if c.(HDC.regSecCnt) =? 0 then 256 else c.(HDC.regSecCnt))
              * drive.(HDC.cbSector)).
Proof.
  intros iDrv Hd. unfold HDC.doATC. cbv zeta. fold iDrv.
  assert (Hd0 : forall a b, HDC.getDrive iDrv
             (HDC.set_regStatus a (HDC.set_regError b (HDC.set_drive None c))) = Some drive)
    by (intros; exact Hd).
  rewrite Hd0.
  set (d1 := HDC.set_errorCode 0 _).
  set (sw := JS.band _ HDC.ATC_COMMAND_MASK).
  assert (Hn1 : HDC.nBytes d1
                = Num ((if HDC.regSecCnt c =? 0 then 256 else HDC.regSecCnt c)
                       * HDC.cbSector drive)).
  { subst d1. cbn. unfold JS.truthyZ. now destruct (HDC.regSecCnt c =? 0). }
  assert (Hs1 : HDC.sector d1 = None) by reflexivity.
  assert (Hput : forall (d : HDC.Drive) (c0 : @HDC.Controller Disk Sector),
             HDC.aDrives c0 = <[iDrv := d]> (HDC.aDrives c) ->
             HDC.getDrive iDrv c0 = Some d).
  { intros d c0 E. unfold HDC.getDrive in *. rewrite E.
    apply list_lookup_insert_eq. eapply lookup_lt_Some; eauto. }
  clearbody d1 sw.
  destruct (sw =? HDC.ATC_COMMAND_READ_DATA).
  { rewrite (Hput d1) by reflexivity. rewrite deref_Some, bind_Ok.
    destruct (readByte_nBytes d1 true false Hs1) as (d2 & b & Hrd & Hn2).
    rewrite Hrd, bind_Ok. cbv beta iota.
    destruct (_ && _); rewrite bind_Ok;
      eexists _, d2; (split; [reflexivity|]); (split; [|congruence]);
      apply Hput;
      cbn [HDC.aDrives HDC.set_regStatus HDC.set_regError HDC.set_drive];
      rewrite ?aDrives_setATCIRR;
      cbn [HDC.aDrives HDC.set_regStatus HDC.set_drive HDC.putDrive HDC.set_aDrives];
      apply list_insert_insert_eq. }
  destruct (sw =? HDC.ATC_COMMAND_WRITE_DATA).
  { eexists _, d1. split; [reflexivity|]. split; [now apply Hput|exact Hn1]. }
  destruct (sw =? HDC.ATC_COMMAND_RESTORE).
  { eexists _, d1. split; [reflexivity|]. cbn.
    split; [|exact Hn1]. apply Hput. now rewrite aDrives_setATCIRR. }
  destruct (sw =? HDC.ATC_COMMAND_READ_VERF).
  { eexists _, d1. split; [reflexivity|]. cbn.
    split; [|exact Hn1]. apply Hput. now rewrite aDrives_setATCIRR. }
  destruct (sw =? HDC.ATC_COMMAND_DIAGNOSE).
  { eexists _, d1. split; [reflexivity|]. cbn.
    split; [|exact Hn1]. apply Hput. now rewrite aDrives_setATCIRR. }
  destruct (sw =? HDC.ATC_COMMAND_SETPARMS).
  { rewrite (Hput d1) by reflexivity. rewrite deref_Some, !bind_Ok.
    eexists _, _. split; [reflexivity|]. cbv beta iota.
    split; [apply Hput; rewrite aDrives_setATCIRR; cbn; apply list_insert_insert_eq|].
    cbn. exact Hn1. }
  eexists _, d1. split; [reflexivity|]. split; [now apply Hput|exact Hn1].
Qed.

End C10.

(** The AT controller with a Sector Count register of 0, READ DATA for
    drive 0: 256 sectors of 512 bytes. *)
Lemma C10_doATC_sector_count_witness :
  exists c' drive',
    HDC.doATC (HDC.set_regCommand HDC.ATC_COMMAND_READ_DATA (Examples.atc 0)) = Ok c'
    /\ HDC.getDrive 0 c' = Some drive'
    /\ drive'.(HDC.nBytes) = Num 131072.
Proof.
  assert (Hd : HDC.getDrive 0 (HDC.set_regCommand HDC.ATC_COMMAND_READ_DATA (Examples.atc 0))
               = Some (Examples.hdDrive 0 0 0 1)) by (vm_compute; reflexivity).
  exact (C10_doATC_sector_count
           (HDC.set_regCommand HDC.ATC_COMMAND_READ_DATA (Examples.atc 0)) _ Hd).
Defined.

(** ** C4: the interrupt at the end of the Execution Phase *)

Section C4.

Context {Disk Sector : Type} {DP : DiskPort Disk Sector} {M : @FDC.Machine Disk Sector}.

Local Abbreviation Controller := (@FDC.Controller Disk Sector).

Lemma newCalls_app (calls log : list ChipCall) :
  newCalls (Some log) (Some (calls ++ log)) = calls.
Proof.
  unfold newCalls. rewrite length_app.
  replace (length calls + length log - length log)%nat with (length calls) by lia.
  apply take_app_length.
Qed.

Lemma FDC_getDrive_putDrive (c : Controller) (i : Z) d d' :
  FDC.getDrive i c = Some d -> FDC.getDrive i (FDC.putDrive i d' c) = Some d'.
Proof.
  unfold FDC.getDrive, FDC.putDrive. cbn. destruct (i <? 0); [discriminate|].
  intros Hd. apply list_lookup_insert_eq. eapply lookup_lt_Some; eauto.
Qed.

Ltac quiet_transfer H :=
  inv_ok H; injection H as <-;
  (split; [|split; [reflexivity|eexists; eapply FDC_getDrive_putDrive; apply deref_inv; eassumption]]);
  (split; [reflexivity|]); cbn;
  match goal with
  | E : FDC.chipset _ = Some _ |- _ =>
      rewrite E; cbn;
      first [ now exists [] | eexists [_; _]; split; reflexivity ]
  | _ => exists []; (split; [|reflexivity]);
         match goal with |- ?x = _ => now destruct x end
  end.

(** A transfer leaves the drive in place, the Output register and the
    unit as they are, and makes no call of [setIRR]. *)
Lemma doRead_quiet (i : Z) (c c1 : Controller) :
  FDC.doRead i c = Ok c1 ->
  FDC_quiet c c1 /\ c1.(FDC.iUnit) = c.(FDC.iUnit) /\ exists d, FDC.getDrive i c1 = Some d.
Proof. unfold FDC.doRead. intros H. quiet_transfer H. Qed.

Lemma doWrite_quiet (i : Z) (c c1 : Controller) :
  FDC.doWrite i c = Ok c1 ->
  FDC_quiet c c1 /\ c1.(FDC.iUnit) = c.(FDC.iUnit) /\ exists d, FDC.getDrive i c1 = Some d.
Proof. unfold FDC.doWrite. intros H. quiet_transfer H. Qed.

Lemma doFormat_quiet (i : Z) (c c1 : Controller) :
  FDC.doFormat i c = Ok c1 ->
  FDC_quiet c c1 /\ c1.(FDC.iUnit) = c.(FDC.iUnit) /\ exists d, FDC.getDrive i c1 = Some d.
Proof. unfold FDC.doFormat. intros H. quiet_transfer H. Qed.

(** The steps on the FIFO. *)
Lemma popCmd_same (c c1 : Controller) (b : Z) :
  FDC.popCmd c = Ok (c1, b) -> FDC_same c c1.
Proof. unfold FDC.popCmd. intros H. inv_ok H. injection H as <- _. repeat split. Qed.

Lemma popSRT_same (c c1 : Controller) : FDC.popSRT c = Ok c1 -> FDC_same c c1.
Proof.
  unfold FDC.popSRT. intros H. inv_ok H. injection H as <-. eapply popCmd_same; eauto.
Qed.

Lemma popHLT_same (c c1 : Controller) : FDC.popHLT c = Ok c1 -> FDC_same c c1.
Proof.
  unfold FDC.popHLT. intros H. inv_ok H. injection H as <-. eapply popCmd_same; eauto.
Qed.

Lemma pushResult_same (v : JS.num) (c c1 : Controller) :
  FDC.pushResult v c = Ok c1 -> FDC_same c c1.
Proof. unfold FDC.pushResult. intros H. inv_ok H. injection H as <-. repeat split. Qed.

Lemma pushST0_same (e : Z) (c c1 : Controller) : FDC.pushST0 e c = Ok c1 -> FDC_same c c1.
Proof. unfold FDC.pushST0. intros H. inv_ok H. eapply pushResult_same; eauto. Qed.

Lemma pushST1_same (e : Z) (c c1 : Controller) : FDC.pushST1 e c = Ok c1 -> FDC_same c c1.
Proof. apply pushResult_same. Qed.

Lemma pushST2_same (e : Z) (c c1 : Controller) : FDC.pushST2 e c = Ok c1 -> FDC_same c c1.
Proof. apply pushResult_same. Qed.

Lemma pushST3_same (c c1 : Controller) : FDC.pushST3 c = Ok c1 -> FDC_same c c1.
Proof. apply pushResult_same. Qed.

Ltac same_steps :=
  repeat match goal with
         | H : FDC.popCmd _ = Ok _ |- _ => apply popCmd_same in H
         | H : FDC.popSRT _ = Ok _ |- _ => apply popSRT_same in H
         | H : FDC.popHLT _ = Ok _ |- _ => apply popHLT_same in H
         | H : FDC.pushResult _ _ = Ok _ |- _ => apply pushResult_same in H
         | H : FDC.pushST0 _ _ = Ok _ |- _ => apply pushST0_same in H
         | H : FDC.pushST1 _ _ = Ok _ |- _ => apply pushST1_same in H
         | H : FDC.pushST2 _ _ = Ok _ |- _ => apply pushST2_same in H
         | H : FDC.pushST3 _ = Ok _ |- _ => apply pushST3_same in H
         | H : FDC.doRead _ _ = Ok _ |- _ => apply doRead_quiet in H
         | H : FDC.doWrite _ _ = Ok _ |- _ => apply doWrite_quiet in H
         | H : FDC.doFormat _ _ = Ok _ |- _ => apply doFormat_quiet in H
         | H : FDC_same _ _ |- _ => destruct H as (? & ? & ? & ?)
         | H : deref _ = Ok _ |- _ => apply deref_inv in H
         | H : (if ?b then _ else _) = Ok _ |- _ => destruct b eqn:?
         | H : _ /\ _ |- _ => destruct H
         | H : exists _, _ |- _ => destruct H
         end.

Lemma FDC_quiet_chain (c cx cy c1 : Controller) :
  FDC_quiet cx cy ->
  cx.(FDC.regOutput) = c.(FDC.regOutput) -> cx.(FDC.chipset) = c.(FDC.chipset) ->
  c1.(FDC.regOutput) = cy.(FDC.regOutput) -> c1.(FDC.chipset) = cy.(FDC.chipset) ->
  FDC_quiet c c1.
Proof.
  intros (Hro & calls & Hch & Hr) H1 H2 H3 H4. split; [congruence|].
  exists calls. split; [congruence|exact Hr].
Qed.

Lemma FDC_getDrive_congr (c c1 : Controller) (i i1 : Z) d :
  FDC.getDrive i c = Some d -> c1.(FDC.aDrives) = c.(FDC.aDrives) -> i1 = i ->
  FDC.getDrive i1 c1 = Some d.
Proof. unfold FDC.getDrive. now intros H -> ->. Qed.

Lemma FDC_getDrive_put (c c1 : Controller) (i i1 : Z) d d' :
  FDC.getDrive i c = Some d ->
  c1.(FDC.aDrives) = <[Z.to_nat i := d']> c.(FDC.aDrives) -> i1 = i ->
  FDC.getDrive i1 c1 = Some d'.
Proof.
  unfold FDC.getDrive. intros H -> ->. destruct (i <? 0); [discriminate|].
  apply list_lookup_insert_eq. eapply lookup_lt_Some; eauto.
Qed.

Lemma FDC_quiet_eq (c c1 : Controller) :
  c1.(FDC.regOutput) = c.(FDC.regOutput) -> c1.(FDC.chipset) = c.(FDC.chipset) ->
  FDC_quiet c c1.
Proof.
  intros H1 H2. split; [exact H1|]. exists []. split; [|reflexivity].
  rewrite H2. now destruct (FDC.chipset c).
Qed.

Ltac eqb_cases :=
  repeat match goal with
         | H : (_ =? _) = _ |- _ => revert H
         | H : (_ || _) = _ |- _ => revert H
         end;
  unfold FDC_signalsIRQ; cbv zeta;
  repeat match goal with
         | |- context [?a =? ?b] => destruct (Z.eqb_spec a b)
         end;
  cbn; intros; try reflexivity; try congruence;
  try (exfalso;
       unfold FDC.CMD_SPECIFY, FDC.CMD_DRIVE_STATUS, FDC.CMD_WRITE_DATA, FDC.CMD_READ_DATA,
         FDC.CMD_RECALIBRATE, FDC.CMD_INT_STATUS, FDC.CMD_FORMAT_TRACK, FDC.CMD_SEEK in *;
       lia).

Lemma popCmd_byte (c c1 : Controller) (b : Z) :
  FDC.popCmd c = Ok (c1, b) -> JS.aget c.(FDC.regDataArray) c.(FDC.regDataIndex) = Num b.
Proof.
  unfold FDC.popCmd, cell, number. destruct (JS.aget _ _); try discriminate.
  now intros [= _ ->].
Qed.

(** Whether [doCmd] calls [setIRR(IRQ.FDC)], read off its last test: the
    drive is the one that the controller has selected when the command
    returns. *)
Lemma doCmd_raises (c c' : Controller) (bCmd : Z) (log : list ChipCall) :
  c.(FDC.chipset) = Some log ->
  JS.aget c.(FDC.regDataArray) 0 = Num bCmd ->
  FDC.doCmd c = Ok c' ->
  (raised IRQ_FDC (newCalls c.(FDC.chipset) c'.(FDC.chipset)) = true
   <-> JS.truthyZ (JS.band c.(FDC.regOutput) FDC.REG_OUTPUT_INT_ENABLE) = true
       /\ FDC_signalsIRQ bCmd = true
       /\ exists drive, FDC.getDrive c'.(FDC.iUnit) c' = Some drive
                        /\ JS.band drive.(FDC.errorCode) FDC.ERR_NOT_READY = 0).
Proof.
  intros Hcs Hcmd Hrun. unfold FDC.doCmd in Hrun. cbv zeta in Hrun.
  apply bind_inv in Hrun as ([c0 b] & Hpop & Hrun).
  assert (Hb : JS.aget c.(FDC.regDataArray) 0 = Num b) by exact (popCmd_byte _ _ _ Hpop).
  assert (b = bCmd) by congruence. subst b. clear Hb. apply popCmd_same in Hpop.
  apply bind_inv in Hrun as ([[c1 drive] fIRQ] & Hsw & Hfin).
  assert (Hsw' : FDC_quiet c0 c1
                 /\ fIRQ = FDC_signalsIRQ bCmd
                 /\ (fIRQ = true ->
                     drive = Some c1.(FDC.iUnit)
                     /\ exists d, FDC.getDrive c1.(FDC.iUnit) c1 = Some d)).
  { clear Hfin Hpop Hcmd Hcs. inv_ok Hsw; injection Hsw as <- <- <-; same_steps.
    all: split; [|split; [eqb_cases|]].
    all: try (intros Ht; first [discriminate Ht|clear Ht; split; [cbn in *; congruence|]]).
    all: try (apply FDC_quiet_eq; cbn in *; congruence).
    all: try (eapply FDC_quiet_chain; [eassumption|cbn in *; congruence ..]).
    all: try match goal with
             | H : FDC.getDrive _ _ = Some ?d |- _ =>
                 exists d; eapply FDC_getDrive_congr; [exact H|solve [cbn in *; congruence] ..]
             | H : FDC.getDrive _ _ = Some ?d |- _ =>
                 eexists; eapply FDC_getDrive_put;
                 [exact H|solve [cbn in *; f_equal; first [reflexivity|congruence]] ..]
             end.
  }
  clear Hsw. destruct Hsw' as ((Hro & calls & Hch & Hr) & HfIRQ & Hdrive).
  destruct Hpop as (Hro0 & _ & Hch0 & _). cbn in Hro0, Hch0.
  rewrite Hch0, Hcs in Hch. cbn in Hch. rewrite Hro0 in Hro. rewrite Hcs.
  rewrite <- Hro, <- HfIRQ. clear Hro Hro0 Hch0 HfIRQ Hcmd Hcs c0 c.
  cbv beta iota zeta in Hfin.
  set (c2 := if FDC.regDataTotal c1 >? 0 then _ else c1) in Hfin.
  assert (H2 : FDC_same c1 c2) by (subst c2; destruct (_ >? 0); repeat split).
  clearbody c2. destruct H2 as (Hro2 & Hu2 & Hch2 & Hdr2).
  rewrite <- Hro2.
  assert (Hg : forall i, FDC.getDrive i c2 = FDC.getDrive i c1)
    by (intros; unfold FDC.getDrive; now rewrite Hdr2).
  assert (Hno : raised IRQ_FDC (newCalls (Some log) (FDC.chipset c2)) = false)
    by (rewrite Hch2, Hch, newCalls_app; exact Hr).
  assert (Hyes : raised IRQ_FDC
                   (newCalls (Some log) (chip (SetIRR IRQ_FDC) (FDC.chipset c2))) = true).
  { rewrite Hch2, Hch. cbn [chip].
    change (SetIRR IRQ_FDC :: calls ++ log) with ((SetIRR IRQ_FDC :: calls) ++ log).
    now rewrite newCalls_app. }
  destruct fIRQ.
  - destruct (Hdrive eq_refl) as (-> & d & Hd). cbn [mbind option_bind] in Hfin.
    rewrite Hg, Hd in Hfin.
    destruct (JS.truthyZ (JS.band (FDC.regOutput c2) _)) eqn:Ei.
    + destruct (JS.truthyZ (JS.band (FDC.errorCode d) _)) eqn:En;
        cbn in Hfin; injection Hfin as <-.
      * split; [rewrite Hno; discriminate|].
        intros (_ & _ & d0 & Hd0 & Hz). rewrite Hu2, Hg, Hd in Hd0.
        injection Hd0 as <-. unfold JS.truthyZ in En. rewrite Hz in En. discriminate.
      * split; [|intros _; exact Hyes]. intros _. split; [reflexivity|].
        split; [reflexivity|]. exists d. cbn. split.
        -- rewrite <- Hd, <- Hg, Hu2. reflexivity.
        -- unfold JS.truthyZ in En. destruct (Z.eqb_spec (JS.band (FDC.errorCode d) FDC.ERR_NOT_READY) 0);
             [assumption|discriminate].
    + injection Hfin as <-. split; [rewrite Hno; discriminate|]. intros [? _]. discriminate.
  - assert (c' = c2).
    { destruct (JS.truthyZ _); [|congruence].
      destruct (drive ≫= _); [|congruence].
      rewrite andb_false_r in Hfin. congruence. }
    subst c'. split; [rewrite Hno; discriminate|]. intros (_ & ? & _). discriminate.
Qed.



(** [popCmd] returns the byte at the index and moves the index. *)
Lemma popCmd_inv (c c1 : Controller) (b : Z) :
  FDC.popCmd c = Ok (c1, b) ->
  c1 = FDC.set_regDataIndex (c.(FDC.regDataIndex) + 1) c
  /\ JS.aget c.(FDC.regDataArray) c.(FDC.regDataIndex) = Num b.
Proof.
  intros H. split; [|exact (popCmd_byte _ _ _ H)].
  unfold FDC.popCmd in H. inv_ok H. now injection H as <- _.
Qed.

Lemma FDC_getDrive_same (c c1 : Controller) (i : Z) :
  c1.(FDC.aDrives) = c.(FDC.aDrives) -> FDC.getDrive i c1 = FDC.getDrive i c.
Proof. unfold FDC.getDrive. now intros ->. Qed.

(** What the transfers leave on the drive. *)
Lemma doRead_leaves (i : Z) (c cR : Controller) (p : FDC.Drive) (log : list ChipCall) :
  FDC.getDrive i c = Some p -> c.(FDC.chipset) = Some log ->
  FDC.doRead i c = Ok cR ->
  cR.(FDC.iUnit) = c.(FDC.iUnit)
  /\ exists d', FDC.getDrive i cR = Some d'
      /\ match p.(FDC.disk) with
         | None => d'.(FDC.errorCode) = JS.bor FDC.ERR_NOT_READY FDC.ERR_INCOMPLETE
         | Some dk =>
             exists started done : FDC.Drive,
               started.(FDC.disk) = Some dk
               /\ started.(FDC.errorCode) = FDC.ERR_NONE
               /\ started.(FDC.sector) = None
               /\ FDC.requestDMA dmaRead_f started = Ok done
               /\ done.(FDC.errorCode) = d'.(FDC.errorCode)
         end.
Proof.
  intros Hp Hcs H. unfold FDC.doRead in H. rewrite Hp, deref_Some, bind_Ok in H.
  cbv zeta in H. change (FDC.disk (FDC.set_errorCode _ p)) with (FDC.disk p) in H.
  destruct (FDC.disk p) as [dk|] eqn:Hdk.
  - rewrite Hcs in H. apply bind_inv in H as (done & Hdma & H). injection H as <-.
    split; [reflexivity|]. exists done.
    split; [eapply FDC_getDrive_put; [exact Hp|reflexivity..]|].
    refine (ex_intro _ _ (ex_intro _ done (conj _ (conj _ (conj _ (conj Hdma eq_refl)))))).
    + exact Hdk.
    + reflexivity.
    + reflexivity.
  - injection H as <-. split; [reflexivity|]. eexists.
    split; [eapply FDC_getDrive_put; [exact Hp|reflexivity..]|reflexivity].
Qed.

Lemma doWrite_leaves (i : Z) (c cR : Controller) (p : FDC.Drive) (log : list ChipCall) :
  FDC.getDrive i c = Some p -> c.(FDC.chipset) = Some log ->
  FDC.doWrite i c = Ok cR ->
  cR.(FDC.iUnit) = c.(FDC.iUnit)
  /\ exists d', FDC.getDrive i cR = Some d'
      /\ match p.(FDC.disk) with
         | None => d'.(FDC.errorCode) = JS.bor FDC.ERR_NOT_READY FDC.ERR_INCOMPLETE
         | Some dk =>
             if disk_fWriteProtected dk
             then d'.(FDC.errorCode) = JS.bor FDC.ERR_NOT_WRITABLE FDC.ERR_INCOMPLETE
             else exists started done : FDC.Drive,
                    started.(FDC.disk) = Some dk
                    /\ started.(FDC.errorCode) = FDC.ERR_NONE
                    /\ started.(FDC.sector) = None
                    /\ FDC.requestDMA dmaWrite_f started = Ok done
                    /\ done.(FDC.errorCode) = d'.(FDC.errorCode)
         end.
Proof.
  intros Hp Hcs H. unfold FDC.doWrite in H. rewrite Hp, deref_Some, bind_Ok in H.
  cbv zeta in H. change (FDC.disk (FDC.set_errorCode _ p)) with (FDC.disk p) in H.
  destruct (FDC.disk p) as [dk|] eqn:Hdk.
  - destruct (disk_fWriteProtected dk).
    + injection H as <-. split; [reflexivity|]. eexists.
      split; [eapply FDC_getDrive_put; [exact Hp|reflexivity..]|reflexivity].
    + rewrite Hcs in H. apply bind_inv in H as (done & Hdma & H). injection H as <-.
      split; [reflexivity|]. exists done.
      split; [eapply FDC_getDrive_put; [exact Hp|reflexivity..]|].
      refine (ex_intro _ _ (ex_intro _ done (conj _ (conj _ (conj _ (conj Hdma eq_refl)))))).
      * exact Hdk.
      * reflexivity.
      * reflexivity.
  - injection H as <-. split; [reflexivity|]. eexists.
    split; [eapply FDC_getDrive_put; [exact Hp|reflexivity..]|reflexivity].
Qed.

Lemma doFormat_leaves (i : Z) (c cR : Controller) (p : FDC.Drive) (log : list ChipCall) :
  FDC.getDrive i c = Some p -> c.(FDC.chipset) = Some log ->
  FDC.doFormat i c = Ok cR ->
  cR.(FDC.iUnit) = c.(FDC.iUnit)
  /\ exists d', FDC.getDrive i cR = Some d'
      /\ match p.(FDC.disk) with
         | None => d'.(FDC.errorCode) = JS.bor FDC.ERR_NOT_READY FDC.ERR_INCOMPLETE
         | Some dk =>
             exists started done : FDC.Drive,
               started.(FDC.disk) = Some dk
               /\ started.(FDC.errorCode) = FDC.ERR_NONE
               /\ started.(FDC.sector) = None
               /\ FDC.requestDMA dmaFormat_f started = Ok done
               /\ done.(FDC.errorCode) = d'.(FDC.errorCode)
         end.
Proof.
  intros Hp Hcs H. unfold FDC.doFormat in H. rewrite Hp, deref_Some, bind_Ok in H.
  cbv zeta in H. change (FDC.disk (FDC.set_errorCode _ p)) with (FDC.disk p) in H.
  destruct (FDC.disk p) as [dk|] eqn:Hdk.
  - rewrite Hcs in H. apply bind_inv in H as (done & Hdma & H). injection H as <-.
    split; [reflexivity|]. eexists.
    split; [eapply FDC_getDrive_put; [exact Hp|reflexivity..]|].
    refine (ex_intro _ _ (ex_intro _ done (conj _ (conj _ (conj _ (conj Hdma eq_refl)))))).
    + exact Hdk.
    + reflexivity.
    + reflexivity.
  - injection H as <-. split; [reflexivity|]. eexists.
    split; [eapply FDC_getDrive_put; [exact Hp|reflexivity..]|reflexivity].
Qed.

Ltac pop_byte H b :=
  let cx := fresh "cx" in
  let Hp := fresh "Hp" in
  let Hb := fresh "Hb" b in
  apply bind_inv in H as ([cx b] & Hp & H);
  apply popCmd_inv in Hp as [-> Hb];
  cbv beta iota zeta in H.

Ltac pop_same H b :=
  let cx := fresh "cx" in
  let Hp := fresh "Hp" in
  apply bind_inv in H as ([cx b] & Hp & H);
  apply popCmd_same in Hp; destruct Hp as (? & ? & ? & ?);
  cbv beta iota zeta in H.

Ltac push_bytes H :=
  repeat (let cx := fresh "cx" in
          let Hp := fresh "Hpush" in
          apply bind_inv in H as (cx & Hp & H); cbv beta iota zeta in H);
  same_steps.

Ltac not_signalled Hsig :=
  exfalso; revert Hsig; eqb_cases.

(** The controller when the unit-select byte has been read. *)
Ltac unit_selected H bUS c0 H0 :=
  pop_byte H bUS;
  match type of H with
  | context [FDC.set_iUnit (FDC.unitSelect bUS) ?x] =>
      set (c0 := FDC.set_iUnit (FDC.unitSelect bUS) x) in H;
      assert (H0 : c0.(FDC.aDrives) = FDC.aDrives x
                   /\ c0.(FDC.chipset) = FDC.chipset x
                   /\ c0.(FDC.iUnit) = FDC.unitSelect bUS) by (repeat split);
      cbn [FDC.aDrives FDC.chipset FDC.set_regDataIndex] in H0;
      clearbody c0; destruct H0 as (? & ? & ?)
  end.

(** The drive that a command that signals by interrupt addresses is the
    one of its unit-select byte, the second byte of the command: the
    controller has it selected when the command returns, and its error
    code is the one that the execution left. *)
Lemma doCmd_addressed (c c' : Controller) (bCmd : Z) (log : list ChipCall) :
  c.(FDC.chipset) = Some log ->
  JS.aget c.(FDC.regDataArray) 0 = Num bCmd ->
  FDC.doCmd c = Ok c' ->
  FDC_signalsIRQ bCmd = true ->
  exists (bUS : Z) (d d' : FDC.Drive),
    JS.aget c.(FDC.regDataArray) 1 = Num bUS
    /\ c'.(FDC.iUnit) = FDC.unitSelect bUS
    /\ FDC.getDrive (FDC.unitSelect bUS) c = Some d
    /\ FDC.getDrive (FDC.unitSelect bUS) c' = Some d'
    /\ FDC_leaves bCmd d d'.(FDC.errorCode).
Proof.
  intros Hcs Hcmd Hrun Hsig. unfold FDC.doCmd in Hrun. cbv zeta in Hrun.
  pop_byte Hrun b. change (JS.aget (FDC.regDataArray c) 0 = Num b) in Hbb.
  assert (b = bCmd) by congruence. subst b. clear Hbb.
  apply bind_inv in Hrun as ([[c1 drive] fIRQ] & Hsw & Hfin).
  assert (Htail : c'.(FDC.aDrives) = c1.(FDC.aDrives) /\ c'.(FDC.iUnit) = c1.(FDC.iUnit)).
  { clear - Hfin. cbv beta iota zeta in Hfin.
    destruct (FDC.regDataTotal c1 >? 0); inv_ok Hfin; injection Hfin as <-;
      split; reflexivity. }
  clear Hfin. destruct Htail as [Hdrv Hunit].
  unfold FDC_leaves, FDC_transfer. cbv zeta.
  set (m := JS.band bCmd FDC.CMD_MASK) in *.
  destruct (m =? FDC.CMD_SPECIFY) eqn:E3; [not_signalled Hsig|].
  destruct (m =? FDC.CMD_DRIVE_STATUS) eqn:E4; [not_signalled Hsig|].
  destruct ((m =? FDC.CMD_WRITE_DATA) || (m =? FDC.CMD_READ_DATA)) eqn:E56.
  { unit_selected Hsw bUS c0 H0.
    change (JS.aget (FDC.regDataArray c) (0 + 1) = Num bUS) in HbbUS.
    change (0 + 1) with 1 in HbbUS.
    apply bind_inv in Hsw as (d & Hd & Hsw). apply deref_inv in Hd.
    cbv beta iota zeta in Hsw.
    pop_same Hsw bC. pop_same Hsw bH. pop_same Hsw bR. pop_same Hsw bN. pop_same Hsw bEOT.
    pop_same Hsw bGPL. pop_same Hsw bDTL.
    apply bind_inv in Hsw as (cR & Hdo & Hsw). cbv beta iota zeta in Hsw.
    match type of Hdo with
    | context [FDC.putDrive ?i ?p ?x] => set (P := p) in Hdo; set (cP := FDC.putDrive i p x) in Hdo
    end.
    assert (Hd5 : FDC.getDrive (FDC.unitSelect bUS) cx5 = Some d)
      by (eapply FDC_getDrive_congr; [exact Hd|congruence|reflexivity]).
    assert (HgP : FDC.getDrive (FDC.unitSelect bUS) cP = Some P)
      by (eapply FDC_getDrive_put; [exact Hd5|reflexivity|reflexivity]).
    assert (HcsP : cP.(FDC.chipset) = Some log)
      by (change (FDC.chipset cx5 = Some log); congruence).
    assert (HuP : cP.(FDC.iUnit) = FDC.unitSelect bUS)
      by (change (FDC.iUnit cx5 = FDC.unitSelect bUS); congruence).
    assert (Hd0 : FDC.getDrive (FDC.unitSelect bUS) c = Some d)
      by (eapply FDC_getDrive_congr; [exact Hd|congruence|reflexivity]).
    assert (Hleft : cR.(FDC.iUnit) = FDC.unitSelect bUS
                    /\ exists d', FDC.getDrive (FDC.unitSelect bUS) cR = Some d'
                         /\ FDC_leaves bCmd d d'.(FDC.errorCode)).
    { unfold FDC_leaves, FDC_transfer. cbv zeta. fold m.
      destruct (Z.eqb_spec m FDC.CMD_READ_DATA) as [E6|E6].
      - destruct (doRead_leaves _ _ _ _ _ HgP HcsP Hdo) as (Hu & d' & Hd' & Hl).
        split; [congruence|]. exists d'. split; [exact Hd'|].
        rewrite E6. change (FDC.disk P) with (FDC.disk d) in Hl.
        cbn [Z.eqb FDC.CMD_READ_DATA FDC.CMD_RECALIBRATE FDC.CMD_SEEK FDC.CMD_WRITE_DATA
             Pos.eqb orb andb].
        exact Hl.
      - assert (E5 : m = FDC.CMD_WRITE_DATA).
        { destruct (Z.eqb_spec m FDC.CMD_WRITE_DATA); [assumption|].
          destruct (Z.eqb_spec m FDC.CMD_READ_DATA); [contradiction|discriminate E56]. }
        destruct (doWrite_leaves _ _ _ _ _ HgP HcsP Hdo) as (Hu & d' & Hd' & Hl).
        split; [congruence|]. exists d'. split; [exact Hd'|].
        rewrite E5. change (FDC.disk P) with (FDC.disk d) in Hl.
        cbn [Z.eqb FDC.CMD_READ_DATA FDC.CMD_RECALIBRATE FDC.CMD_SEEK FDC.CMD_WRITE_DATA
             Pos.eqb orb andb].
        exact Hl. }
    clear Hdo. destruct Hleft as (HuR & d' & Hd' & Hleft).
    push_bytes Hsw. injection Hsw as <- <- <-.
    exists bUS, d, d'. split; [exact HbbUS|]. split; [cbn in *; congruence|].
    split; [exact Hd0|]. split; [|exact Hleft].
    eapply FDC_getDrive_congr; [exact Hd'|cbn in *; congruence|reflexivity]. }
  destruct (m =? FDC.CMD_RECALIBRATE) eqn:E7.
  { unit_selected Hsw bUS c0 H0.
    change (JS.aget (FDC.regDataArray c) (0 + 1) = Num bUS) in HbbUS.
    change (0 + 1) with 1 in HbbUS.
    apply bind_inv in Hsw as (d & Hd & Hsw). apply deref_inv in Hd.
    cbv beta iota zeta in Hsw. injection Hsw as <- <- <-.
    match type of Hdrv with
    | context [FDC.putDrive _ ?p _] => exists bUS, d, p
    end.
    split; [exact HbbUS|]. split; [rewrite Hunit; assumption|].
    split; [eapply FDC_getDrive_congr; [exact Hd|congruence|reflexivity]|].
    split; [eapply FDC_getDrive_put; [exact Hd|rewrite Hdrv; reflexivity|reflexivity]|].
    reflexivity. }
  destruct (m =? FDC.CMD_INT_STATUS) eqn:E8; [not_signalled Hsig|].
  destruct (Z.eqb_spec m FDC.CMD_FORMAT_TRACK) as [ED|ED].
  { unit_selected Hsw bUS c0 H0.
    change (JS.aget (FDC.regDataArray c) (0 + 1) = Num bUS) in HbbUS.
    change (0 + 1) with 1 in HbbUS.
    apply bind_inv in Hsw as (d & Hd & Hsw). apply deref_inv in Hd.
    cbv beta iota zeta in Hsw.
    pop_same Hsw bN. pop_same Hsw bSC. pop_same Hsw bGPL. pop_same Hsw bD.
    apply bind_inv in Hsw as (cR & Hdo & Hsw). cbv beta iota zeta in Hsw.
    match type of Hdo with
    | context [FDC.putDrive ?i ?p ?x] => set (P := p) in Hdo; set (cP := FDC.putDrive i p x) in Hdo
    end.
    assert (Hd5 : FDC.getDrive (FDC.unitSelect bUS) cx2 = Some d)
      by (eapply FDC_getDrive_congr; [exact Hd|congruence|reflexivity]).
    assert (HgP : FDC.getDrive (FDC.unitSelect bUS) cP = Some P)
      by (eapply FDC_getDrive_put; [exact Hd5|reflexivity|reflexivity]).
    assert (HcsP : cP.(FDC.chipset) = Some log)
      by (change (FDC.chipset cx2 = Some log); congruence).
    assert (HuP : cP.(FDC.iUnit) = FDC.unitSelect bUS)
      by (change (FDC.iUnit cx2 = FDC.unitSelect bUS); congruence).
    assert (Hd0 : FDC.getDrive (FDC.unitSelect bUS) c = Some d)
      by (eapply FDC_getDrive_congr; [exact Hd|congruence|reflexivity]).
    destruct (doFormat_leaves _ _ _ _ _ HgP HcsP Hdo) as (HuR & d' & Hd' & Hleft).
    change (FDC.disk P) with (FDC.disk d) in Hleft.
    clear Hdo. push_bytes Hsw. injection Hsw as <- <- <-.
    exists bUS, d, d'. split; [exact HbbUS|]. split; [cbn in *; congruence|].
    split; [exact Hd0|].
    split; [eapply FDC_getDrive_congr; [exact Hd'|cbn in *; congruence|reflexivity]|].
    rewrite ED.
    cbn [Z.eqb FDC.CMD_READ_DATA FDC.CMD_FORMAT_TRACK FDC.CMD_SEEK FDC.CMD_WRITE_DATA
         Pos.eqb orb andb].
    exact Hleft. }
  destruct (m =? FDC.CMD_SEEK) eqn:EF; [|not_signalled Hsig].
  unit_selected Hsw bUS c0 H0.
  change (JS.aget (FDC.regDataArray c) (0 + 1) = Num bUS) in HbbUS.
  change (0 + 1) with 1 in HbbUS.
  apply bind_inv in Hsw as (d & Hd & Hsw). apply deref_inv in Hd.
  cbv beta iota zeta in Hsw. pop_same Hsw bNCN. injection Hsw as <- <- <-.
  match type of Hdrv with
  | context [FDC.putDrive _ ?p _] => exists bUS, d, p
  end.
  split; [exact HbbUS|]. split; [rewrite Hunit; cbn; congruence|].
  split; [eapply FDC_getDrive_congr; [exact Hd|congruence|reflexivity]|].
  split; [|reflexivity].
  eapply FDC_getDrive_put; [exact Hd|rewrite Hdrv; cbn; f_equal; congruence|reflexivity].
Qed.

(** C4.  A command of the FDC that completes ([doCmd] returns), on a
    controller with a chipset.  [setIRR(IRQ.FDC)] is among the calls of the
    command if and only if INT_ENABLE is set in the Output register, the
    command is one of those that signal by interrupt (WRITE_DATA,
    READ_DATA, RECALIBRATE, FORMAT_TRACK, SEEK) and the error code of the
    drive that it addresses has no NOT_READY bit.  The drive addressed is
    the one of the unit-select byte of the command (the second byte, its
    two low bits), and its error code is the one that the execution of
    the command leaves on it, not the one it had: SEEK_END after a seek,
    NOT_READY|INCOMPLETE after a transfer on a drive without diskette,
    and otherwise what the transfer left.  When the command returns the
    controller has that drive selected. *)
Theorem C4_interrupt_iff (c c' : Controller) (bCmd : Z) (log : list ChipCall) :
  c.(FDC.chipset) = Some log ->
  JS.aget c.(FDC.regDataArray) 0 = Num bCmd ->
  FDC.doCmd c = Ok c' ->
  (raised IRQ_FDC (newCalls c.(FDC.chipset) c'.(FDC.chipset)) = true
   <-> JS.truthyZ (JS.band c.(FDC.regOutput) FDC.REG_OUTPUT_INT_ENABLE) = true
       /\ FDC_signalsIRQ bCmd = true
       /\ exists (bUS : Z) (d d' : FDC.Drive),
            JS.aget c.(FDC.regDataArray) 1 = Num bUS
            /\ FDC.getDrive (FDC.unitSelect bUS) c = Some d
            /\ FDC.getDrive (FDC.unitSelect bUS) c' = Some d'
            /\ FDC_leaves bCmd d d'.(FDC.errorCode)
            /\ JS.band d'.(FDC.errorCode) FDC.ERR_NOT_READY = 0)
  /\ (FDC_signalsIRQ bCmd = true ->
      exists (bUS : Z) (d d' : FDC.Drive),
        JS.aget c.(FDC.regDataArray) 1 = Num bUS
        /\ c'.(FDC.iUnit) = FDC.unitSelect bUS
        /\ FDC.getDrive (FDC.unitSelect bUS) c = Some d
        /\ FDC.getDrive (FDC.unitSelect bUS) c' = Some d'
        /\ FDC_leaves bCmd d d'.(FDC.errorCode)).
Proof.
  intros Hcs Hcmd Hrun.
  pose proof (doCmd_raises c c' bCmd log Hcs Hcmd Hrun) as Hiff.
  split; [|exact (doCmd_addressed c c' bCmd log Hcs Hcmd Hrun)].
  split.
  - intros Hr. apply Hiff in Hr as (Hint & Hsig & drive & Hdrive & Hready).
    split; [exact Hint|]. split; [exact Hsig|].
    destruct (doCmd_addressed c c' bCmd log Hcs Hcmd Hrun Hsig)
      as (bUS & d & d' & HbUS & Hunit & Hd & Hd' & Hleft).
    exists bUS, d, d'. repeat (split; [assumption|]).
    rewrite Hunit, Hd' in Hdrive. now injection Hdrive as ->.
  - intros (Hint & Hsig & bUS & d & d' & HbUS & Hd & Hd' & _ & Hready).
    apply Hiff. split; [exact Hint|]. split; [exact Hsig|].
    destruct (doCmd_addressed c c' bCmd log Hcs Hcmd Hrun Hsig)
      as (bUS0 & _ & _ & HbUS0 & Hunit & _).
    assert (bUS0 = bUS) by congruence. subst bUS0.
    exists d'. rewrite Hunit. split; [exact Hd'|exact Hready].
Qed.

End C4.
(** SEEK after a READ DATA that failed on the empty drive 1, which left
    unit 1 selected and NOT_READY on drive 1.  A SEEK for drive 0 raises
    the interrupt: the drive of the command counts, not the one selected
    before. *)
Lemma C4_interrupt_iff_witness :
  Runs2.fdcFailed.(FDC.iUnit) = 1
  /\ (exists d, FDC.getDrive 1 Runs2.fdcFailed = Some d
                /\ JS.band d.(FDC.errorCode) FDC.ERR_NOT_READY = FDC.ERR_NOT_READY)
  /\ raised IRQ_FDC
        (newCalls (Runs2.fdcSeekAfterFailure 0).(FDC.chipset)
                  (Runs.afterFDC (Runs2.fdcSeekAfterFailure 0)).(FDC.chipset)) = true.
Proof.
  split; [vm_compute; reflexivity|].
  split; [eexists; split; [vm_compute; reflexivity|vm_compute; reflexivity]|].
  assert (Hcs : (Runs2.fdcSeekAfterFailure 0).(FDC.chipset) = Some [])
    by (vm_compute; reflexivity).
  assert (Hcmd : JS.aget (Runs2.fdcSeekAfterFailure 0).(FDC.regDataArray) 0 = Num 0x0F)
    by (vm_compute; reflexivity).
  assert (Hrun : FDC.doCmd (Runs2.fdcSeekAfterFailure 0)
                 = Ok (Runs.afterFDC (Runs2.fdcSeekAfterFailure 0)))
    by (vm_compute; reflexivity).
  destruct (C4_interrupt_iff _ _ 0x0F _ Hcs Hcmd Hrun) as [[_ Hback] _].
  apply Hback.
  split; [vm_compute; reflexivity|].
  split; [vm_compute; reflexivity|].
  eexists 0, _, _. split; [vm_compute; reflexivity|].
  split; [vm_compute; reflexivity|]. split; [vm_compute; reflexivity|].
  split; [vm_compute; reflexivity|vm_compute; reflexivity].
Defined.

(** ** C5: reads of the Main Status register *)

Section C5.

Context {Disk Sector : Type} {DP : DiskPort Disk Sector}.

(** C5.  Any number of reads of the Main Status register leaves the
    controller as it is: the log of the chipset, so a pending interrupt
    request, the FIFO index and the FIFO total are unchanged, and each
    read returns [regStatus].  A read of the Data register returns the
    byte at the index when the index is below the total and 0 otherwise,
    and calls [clearIRR(IRQ.FDC)] exactly when INT_ENABLE is set in the
    Output register, in the Result Phase or not: with INT_ENABLE set no
    request is pending after the read, and with INT_ENABLE clear a
    request that was pending still is. *)
Theorem C5_status_reads (c : @FDC.Controller Disk Sector) (n : nat) :
  let polled := Nat.iter n (fun c => fst (FDC.inFDCStatus c)) c in
  (polled = c
   /\ polled.(FDC.chipset) = c.(FDC.chipset)
   /\ FDC_pending polled = FDC_pending c
   /\ polled.(FDC.regDataIndex) = c.(FDC.regDataIndex)
   /\ polled.(FDC.regDataTotal) = c.(FDC.regDataTotal)
   /\ snd (FDC.inFDCStatus polled) = c.(FDC.regStatus))
  /\ snd (FDC.inFDCData polled)
     = (if c.(FDC.regDataIndex) <? c.(FDC.regDataTotal)
        then JS.aget c.(FDC.regDataArray) c.(FDC.regDataIndex) else Num 0)
  /\ (fst (FDC.inFDCData polled)).(FDC.chipset)
     = (if JS.truthyZ (JS.band c.(FDC.regOutput) FDC.REG_OUTPUT_INT_ENABLE)
        then chip (ClearIRR IRQ_FDC) c.(FDC.chipset) else c.(FDC.chipset))
  /\ FDC_pending (fst (FDC.inFDCData polled))
     = (if JS.truthyZ (JS.band c.(FDC.regOutput) FDC.REG_OUTPUT_INT_ENABLE)
        then false else FDC_pending c).
Proof.
  intros polled.
  assert (Hp : polled = c).
  { subst polled. induction n as [|n IH]; [reflexivity|].
    rewrite Nat.iter_succ. exact IH. }
  rewrite Hp. split; [repeat split|].
  assert (Hcs : (fst (FDC.inFDCData c)).(FDC.chipset)
                = (if JS.truthyZ (JS.band c.(FDC.regOutput) FDC.REG_OUTPUT_INT_ENABLE)
                   then chip (ClearIRR IRQ_FDC) c.(FDC.chipset) else c.(FDC.chipset))).
  { unfold FDC.inFDCData. cbv zeta.
    destruct (JS.truthyZ _); now destruct (_ >=? _). }
  split; [|split; [exact Hcs|]].
  - unfold FDC.inFDCData. cbv zeta. now destruct (_ >=? _).
  - unfold FDC_pending. rewrite Hcs.
    destruct (JS.truthyZ _); [|reflexivity]. now destruct (FDC.chipset c).
Qed.

End C5.

(** Three polls of the status register after READ DATA on drive 0, then
    the first result byte is read: the polls leave the request pending,
    the read clears it. *)
Lemma C5_status_reads_witness :
  FDC_pending (Nat.iter 3 (fun c => fst (FDC.inFDCStatus c)) Runs.fdcReadDone) = true
  /\ snd (FDC.inFDCData (Nat.iter 3 (fun c => fst (FDC.inFDCStatus c)) Runs.fdcReadDone))
     = Num 0
  /\ FDC_pending
       (fst (FDC.inFDCData
               (Nat.iter 3 (fun c => fst (FDC.inFDCStatus c)) Runs.fdcReadDone))) = false.
Proof.
  destruct (C5_status_reads Runs.fdcReadDone 3) as [(_ & _ & Hpoll & _) (Hbyte & _ & Hclear)].
  cbv zeta in Hpoll, Hbyte, Hclear.
  split; [rewrite Hpoll; vm_compute; reflexivity|].
  split; [rewrite Hbyte; vm_compute; reflexivity|].
  rewrite Hclear. vm_compute. reflexivity.
Defined.

(** C5 as stated fails in its last clause, both ways.  After a SEEK with
    INT_ENABLE set the request is pending and the controller is not in
    the Result Phase (the FIFO is empty and READ_DATA is clear in the
    status): a read of the Data register clears the request.  And in the
    Result Phase of READ DATA, after the host has cleared INT_ENABLE in
    the Output register, the request is still pending when the first
    result byte has been read. *)
Lemma C5_counterexample :
  (FDC_pending (Runs.afterFDC Runs2.fdcSeek) = true
   /\ (Runs.afterFDC Runs2.fdcSeek).(FDC.regDataTotal) = 0
   /\ JS.band (Runs.afterFDC Runs2.fdcSeek).(FDC.regStatus) FDC.REG_STATUS_READ_DATA = 0
   /\ FDC_pending (fst (FDC.inFDCData (Runs.afterFDC Runs2.fdcSeek))) = false)
  /\ exists c,
       FDC.outFDCOutput 0x14 Runs.fdcReadDone = Ok c
       /\ c.(FDC.regDataIndex) = 0
       /\ c.(FDC.regDataTotal) = 7
       /\ JS.band c.(FDC.regStatus) FDC.REG_STATUS_READ_DATA = FDC.REG_STATUS_READ_DATA
       /\ FDC_pending c = true
       /\ FDC_pending (fst (FDC.inFDCData c)) = true.
Proof.
  split.
  - repeat split; vm_compute; reflexivity.
  - eexists. split; [vm_compute; reflexivity|].
    repeat split; vm_compute; reflexivity.
Qed.

(** ** C6 and C7: READ DATA and WRITE DATA *)

Section C6.

Context {Disk Sector : Type} {DP : DiskPort Disk Sector} {M : @FDC.Machine Disk Sector}.

Local Abbreviation Controller := (@FDC.Controller Disk Sector).

Lemma FDC_popCmd_at (c : Controller) (k b : Z) :
  c.(FDC.regDataIndex) = k ->
  JS.aget c.(FDC.regDataArray) k = Num b ->
  FDC.popCmd c = Ok (FDC.set_regDataIndex (k + 1) c, b).
Proof. intros <- Hb. unfold FDC.popCmd, cell. rewrite Hb. reflexivity. Qed.

Lemma FDC_pushResult_at (c : Controller) (k : Z) (v : JS.num) :
  c.(FDC.regDataTotal) = k -> 0 <= k ->
  FDC.pushResult v c
  = Ok (FDC.set_regDataTotal (k + 1)
          (FDC.set_regDataArray (JS.set c.(FDC.regDataArray) (Z.to_nat k) v) c)).
Proof.
  intros <- Hk. unfold FDC.pushResult.
  destruct (Z.ltb_spec (FDC.regDataTotal c) 0); [lia|reflexivity].
Qed.

(** What a transfer changes of the controller: the drive and the log of
    the chipset. *)
Lemma doRead_shape (i : Z) (c c1 : Controller) :
  FDC.doRead i c = Ok c1 ->
  exists d cs, c1 = FDC.set_chipset cs (FDC.putDrive i d c).
Proof.
  unfold FDC.doRead. intros H. inv_ok H; injection H as <-; eexists _, _; reflexivity.
Qed.

Lemma doWrite_shape (i : Z) (c c1 : Controller) :
  FDC.doWrite i c = Ok c1 ->
  exists d cs, c1 = FDC.set_chipset cs (FDC.putDrive i d c).
Proof.
  unfold FDC.doWrite. intros H. inv_ok H; injection H as <-; eexists _, _; reflexivity.
Qed.

Ltac pop Harr k b :=
  rewrite (FDC_popCmd_at _ k b) by (cbn; rewrite ?Harr; reflexivity);
  rewrite bind_Ok; cbv beta iota.

Ltac drive_at Hg :=
  erewrite (FDC_getDrive_congr _ _ _ _ _ Hg) by reflexivity;
  rewrite deref_Some, bind_Ok; cbv beta.

Ltac push k :=
  rewrite (FDC_pushResult_at _ k) by (cbn; first [reflexivity|lia]);
  rewrite bind_Ok; cbv beta.

Ltac exists_result d Hg2 HgR Hres Hidx Htt :=
  eexists _, d; (split; [reflexivity|]); (split; [exact Hg2|]);
  (split; [exact HgR|]); (split; [exact Hres|]); (split; [exact Hidx|exact Htt]).

(** READ DATA and WRITE DATA: the Command Phase takes the nine bytes of
    the request and programs the drive; when the transfer returns, the
    Result Phase holds the seven bytes drawn from the drive as the
    transfer left it. *)
Lemma doCmd_read_write (c c2 : Controller)
    (bCmd bUS C H R N EOT GPL DTL : Z) (drive : FDC.Drive) :
  let bCmdMasked := JS.band bCmd FDC.CMD_MASK in
  let unit := FDC.unitSelect bUS in
  bCmdMasked = FDC.CMD_READ_DATA \/ bCmdMasked = FDC.CMD_WRITE_DATA ->
  FDC_received [bCmd; bUS; C; H; R; N; EOT; GPL; DTL] c ->
  FDC.getDrive unit c = Some drive ->
  (if bCmdMasked =? FDC.CMD_READ_DATA
   then FDC.doRead unit (FDC_commandPhase bUS C R N EOT drive c)
   else FDC.doWrite unit (FDC_commandPhase bUS C R N EOT drive c)) = Ok c2 ->
  exists c' drive',
    FDC.doCmd c = Ok c'
    /\ FDC.getDrive unit c2 = Some drive'
    /\ FDC.getDrive unit c' = Some drive'
    /\ take 7 c'.(FDC.regDataArray) = FDC_results unit N drive'
    /\ c'.(FDC.regDataIndex) = 0
    /\ c'.(FDC.regDataTotal) = 7.
Proof.
  intros m unit Hm [Harr Htot] Hd Hx.
  unfold FDC.doCmd. cbv zeta.
  pop Harr 0 bCmd. fold m.
  assert (Hsel : (m =? FDC.CMD_SPECIFY) = false /\ (m =? FDC.CMD_DRIVE_STATUS) = false
                 /\ (m =? FDC.CMD_WRITE_DATA) || (m =? FDC.CMD_READ_DATA) = true)
    by (clearbody m; destruct Hm as [-> | ->]; repeat split).
  destruct Hsel as (-> & -> & ->). cbv iota.
  pop Harr 1 bUS. fold unit.
  match goal with
  | |- context [deref (FDC.getDrive unit ?x)] =>
      change (FDC.getDrive unit x) with (FDC.getDrive unit c)
  end.
  rewrite Hd, deref_Some, bind_Ok. cbv beta.
  pop Harr 2 C. pop Harr 3 H. pop Harr 4 R. pop Harr 5 N. pop Harr 6 EOT. pop Harr 7 GPL. pop Harr 8 DTL.
  match goal with
  | |- context [FDC.doRead unit ?x] =>
      change x with (FDC_commandPhase bUS C R N EOT drive c)
  end.
  rewrite Hx, bind_Ok. cbv beta.
  assert (Hshape : exists d cs,
             c2 = FDC.set_chipset cs
                    (FDC.putDrive unit d (FDC_commandPhase bUS C R N EOT drive c))).
  { destruct (m =? FDC.CMD_READ_DATA);
      [eapply doRead_shape|eapply doWrite_shape]; exact Hx. }
  destruct Hshape as (d' & cs & ->).
  assert (Hg : FDC.getDrive unit
                 (FDC.putDrive unit d' (FDC_commandPhase bUS C R N EOT drive c)) = Some d').
  { eapply FDC_getDrive_put; [exact Hd| |reflexivity]. cbn. apply list_insert_insert_eq. }
  drive_at Hg.
  unfold FDC.pushST0, FDC.pushST1, FDC.pushST2.
  drive_at Hg.
  push 0. push 1. push 2. push 3. push 4. push 5. push 6.
  match goal with
  | |- context [Ok (?x, Some unit, true)] => set (cR := x)
  end.
  assert (Hres : take 7 cR.(FDC.regDataArray) = FDC_results unit N d').
  { subst cR. cbn. rewrite Harr. reflexivity. }
  assert (HgR : FDC.getDrive unit cR = Some d')
    by (erewrite (FDC_getDrive_congr _ _ _ _ _ Hg) by reflexivity; reflexivity).
  assert (Hg2 : FDC.getDrive unit
                  (FDC.set_chipset cs
                     (FDC.putDrive unit d' (FDC_commandPhase bUS C R N EOT drive c)))
                = Some d') by exact Hg.
  assert (Hidx : cR.(FDC.regDataIndex) = 0) by reflexivity.
  assert (Htt : cR.(FDC.regDataTotal) = 7) by reflexivity.
  clearbody cR.
  rewrite bind_Ok. cbv beta iota. rewrite Htt. change (7 >? 0) with true. cbv iota.
  destruct (JS.truthyZ _).
  - cbn [mbind option_bind].
    erewrite (FDC_getDrive_congr _ _ _ _ _ HgR) by reflexivity.
    destruct (negb _ && true); exists_result d' Hg2 HgR Hres Hidx Htt.
  - exists_result d' Hg2 HgR Hres Hidx Htt.
Qed.

(** The data port collects the bytes of the request: the command runs
    when the ninth byte is written, not before. *)
Lemma outFDCData_read_write (c0 : Controller) (bCmd b : Z) :
  let bCmdMasked := JS.band bCmd FDC.CMD_MASK in
  let stored := FDC.set_regDataTotal (c0.(FDC.regDataTotal) + 1)
                  (FDC.set_regDataArray
                     (JS.set c0.(FDC.regDataArray) (Z.to_nat c0.(FDC.regDataTotal)) (Num b))
                     c0) in
  bCmdMasked = FDC.CMD_READ_DATA \/ bCmdMasked = FDC.CMD_WRITE_DATA ->
  JS.aget c0.(FDC.regDataArray) 0 = Num bCmd ->
  length c0.(FDC.regDataArray) = 9%nat ->
  1 <= c0.(FDC.regDataTotal) <= 8 ->
  FDC.outFDCData b c0
  = if c0.(FDC.regDataTotal) =? 8 then FDC.doCmd stored else Ok stored.
Proof.
  intros m stored Hm Hcmd Hlen Htot. unfold FDC.outFDCData. cbv zeta.
  rewrite Hlen. destruct (Z.ltb_spec (FDC.regDataTotal c0) (Z.of_nat 9)); [|lia].
  fold stored.
  assert (H0 : JS.aget (FDC.regDataArray stored) 0 = Num bCmd).
  { subst stored. cbn. unfold JS.set.
    destruct (Nat.ltb_spec (Z.to_nat (FDC.regDataTotal c0)) (length (FDC.regDataArray c0)));
      [|lia].
    unfold JS.aget in *. cbn in *.
    rewrite list_lookup_insert_ne by lia. exact Hcmd. }
  rewrite H0. cbn [JS.toInt32].
  assert (Hw : JS.band (JS.wrap32 bCmd) FDC.CMD_MASK = m).
  { subst m. unfold JS.band. now rewrite wrap32_idem. }
  rewrite Hw.
  assert (Hcb : FDC.cbWrite m = Some 9) by (destruct Hm as [-> | ->]; reflexivity).
  rewrite Hcb. change (FDC.regDataTotal stored) with (FDC.regDataTotal c0 + 1).
  destruct (Z.eqb_spec (FDC.regDataTotal c0) 8) as [E|E].
  - rewrite E. reflexivity.
  - destruct (Z.geb_spec (FDC.regDataTotal c0 + 1) 9); [lia|reflexivity].
Qed.

Lemma getDrive_commandPhase (c : Controller) (bUS C R N EOT : Z) (drive : FDC.Drive) :
  FDC.getDrive (FDC.unitSelect bUS) c = Some drive ->
  FDC.getDrive (FDC.unitSelect bUS) (FDC_commandPhase bUS C R N EOT drive c)
  = Some (FDC_programmed bUS C R N EOT drive).
Proof. intros Hd. eapply FDC_getDrive_put; [exact Hd|reflexivity..]. Qed.

(** C6.  READ DATA and WRITE DATA are nine-byte requests with seven-byte
    responses; the data port runs the command on the ninth byte.  The
    Command Phase reads the eight bytes after the opcode and programs the
    drive, its [nBytes] as [128 << N].  When the transfer returns, the
    command returns with a Result Phase of exactly seven bytes: ST0, ST1,
    ST2, then C, H, R of the drive as the transfer left it, and N. *)
Theorem C6_read_write_data (c c2 : Controller)
    (bCmd bUS C H R N EOT GPL DTL : Z) (drive : FDC.Drive) :
  let bCmdMasked := JS.band bCmd FDC.CMD_MASK in
  let unit := FDC.unitSelect bUS in
  let phase := FDC_commandPhase bUS C R N EOT drive c in
  bCmdMasked = FDC.CMD_READ_DATA \/ bCmdMasked = FDC.CMD_WRITE_DATA ->
  FDC_received [bCmd; bUS; C; H; R; N; EOT; GPL; DTL] c ->
  FDC.getDrive unit c = Some drive ->
  (if bCmdMasked =? FDC.CMD_READ_DATA
   then FDC.doRead unit phase else FDC.doWrite unit phase) = Ok c2 ->
  (FDC.cbWrite bCmdMasked = Some 9 /\ FDC.cbRead bCmdMasked = Some 7)
  /\ (forall (c0 : Controller) (b : Z),
         JS.aget c0.(FDC.regDataArray) 0 = Num bCmd ->
         length c0.(FDC.regDataArray) = 9%nat ->
         1 <= c0.(FDC.regDataTotal) <= 8 ->
         let stored :=
           FDC.set_regDataTotal (c0.(FDC.regDataTotal) + 1)
             (FDC.set_regDataArray
                (JS.set c0.(FDC.regDataArray) (Z.to_nat c0.(FDC.regDataTotal)) (Num b)) c0) in
         FDC.outFDCData b c0
         = if c0.(FDC.regDataTotal) =? 8 then FDC.doCmd stored else Ok stored)
  /\ (phase.(FDC.regDataIndex) = 9
      /\ exists programmed,
          FDC.getDrive unit phase = Some programmed
          /\ programmed.(FDC.nBytes) = Num (JS.shl 128 N))
  /\ exists c' drive',
      FDC.doCmd c = Ok c'
      /\ FDC.getDrive unit c2 = Some drive'
      /\ FDC.getDrive unit c' = Some drive'
      /\ take 7 c'.(FDC.regDataArray) = FDC_results unit N drive'
      /\ c'.(FDC.regDataIndex) = 0
      /\ c'.(FDC.regDataTotal) = 7.
Proof.
  intros m unit phase Hm Hrecv Hd Hx.
  split; [destruct Hm as [E|E]; fold m; rewrite E; split; reflexivity|].
  split; [intros c0 b; apply (outFDCData_read_write c0 bCmd b Hm)|].
  split.
  - split; [reflexivity|]. exists (FDC_programmed bUS C R N EOT drive).
    split; [apply getDrive_commandPhase; exact Hd|reflexivity].
  - exact (doCmd_read_write c c2 bCmd bUS C H R N EOT GPL DTL drive Hm Hrecv Hd Hx).
Qed.

(** C7.  READ DATA for a drive without disk: the command returns, the
    error code of the drive is NOT_READY with INCOMPLETE, and the Result
    Phase holds the seven bytes of the response of READ DATA, each a
    number. *)
Theorem C7_read_data_no_disk (c : Controller)
    (bCmd bUS C H R N EOT GPL DTL : Z) (drive : FDC.Drive) :
  let bCmdMasked := JS.band bCmd FDC.CMD_MASK in
  let unit := FDC.unitSelect bUS in
  bCmdMasked = FDC.CMD_READ_DATA ->
  FDC_received [bCmd; bUS; C; H; R; N; EOT; GPL; DTL] c ->
  FDC.getDrive unit c = Some drive ->
  drive.(FDC.disk) = None ->
  exists c' drive' bytes,
    FDC.doCmd c = Ok c'
    /\ FDC.getDrive unit c' = Some drive'
    /\ drive'.(FDC.errorCode) = JS.bor FDC.ERR_NOT_READY FDC.ERR_INCOMPLETE
    /\ JS.band drive'.(FDC.errorCode) FDC.ERR_NOT_READY = FDC.ERR_NOT_READY
    /\ FDC.cbRead bCmdMasked = Some 7
    /\ c'.(FDC.regDataIndex) = 0
    /\ c'.(FDC.regDataTotal) = 7
    /\ take 7 c'.(FDC.regDataArray) = FDC_results unit N drive'
    /\ take 7 c'.(FDC.regDataArray) = Num <$> bytes
    /\ length bytes = 7%nat.
Proof.
  intros m unit Hm Hrecv Hd Hdisk.
  pose (failed := FDC.set_errorCode (JS.bor FDC.ERR_NOT_READY FDC.ERR_INCOMPLETE)
                    (FDC_programmed bUS C R N EOT drive)).
  assert (Hx : (if m =? FDC.CMD_READ_DATA
                then FDC.doRead unit (FDC_commandPhase bUS C R N EOT drive c)
                else FDC.doWrite unit (FDC_commandPhase bUS C R N EOT drive c))
               = Ok (FDC.putDrive unit failed (FDC_commandPhase bUS C R N EOT drive c))).
  { rewrite Hm. change (FDC.CMD_READ_DATA =? FDC.CMD_READ_DATA) with true. cbv iota.
    pose proof (getDrive_commandPhase c bUS C R N EOT drive Hd) as Hp. fold unit in Hp.
    unfold FDC.doRead. rewrite Hp.
    rewrite deref_Some, bind_Ok. cbv beta zeta.
    change (FDC.disk (FDC.set_errorCode _ (FDC_programmed bUS C R N EOT drive)))
      with (FDC.disk drive).
    rewrite Hdisk. reflexivity. }
  destruct (doCmd_read_write c _ bCmd bUS C H R N EOT GPL DTL drive (or_introl Hm) Hrecv Hd Hx)
    as (c' & drive' & Hrun & Hg2 & Hg & Hres & Hidx & Htt).
  assert (Hf : FDC.getDrive unit (FDC.putDrive unit failed (FDC_commandPhase bUS C R N EOT drive c))
               = Some failed).
  { eapply FDC_getDrive_put; [exact Hd| |reflexivity]. cbn. apply list_insert_insert_eq. }
  fold unit in Hg2. rewrite Hf in Hg2. injection Hg2 as <-.
  exists c', failed,
    [JS.bor (JS.bor unit failed.(FDC.bHead)) (JS.band failed.(FDC.errorCode) FDC.ERR_ST0);
     JS.shr (JS.band failed.(FDC.errorCode) FDC.ERR_ST1) 8;
     JS.shr (JS.band failed.(FDC.errorCode) FDC.ERR_ST2) 16;
     failed.(FDC.bCylinder); failed.(FDC.bHead); R; N].
  split; [exact Hrun|]. split; [exact Hg|].
  split; [reflexivity|]. split; [reflexivity|].
  split; [fold m; rewrite Hm; reflexivity|].
  split; [exact Hidx|]. split; [exact Htt|]. split; [exact Hres|].
  rewrite Hres. split; reflexivity.
Qed.

End C6.

(** READ DATA of one sector on the blank diskette of drive 0: the sector
    register of the response is one past the sector read. *)
Lemma C6_read_write_data_witness :
  exists c' drive',
    FDC.doCmd (Runs.fdcRead 0) = Ok c'
    /\ FDC.getDrive 0 c' = Some drive'
    /\ take 7 c'.(FDC.regDataArray) = FDC_results 0 2 drive'
    /\ c'.(FDC.regDataTotal) = 7.
Proof.
  assert (Hm : JS.band 0x46 FDC.CMD_MASK = FDC.CMD_READ_DATA
               \/ JS.band 0x46 FDC.CMD_MASK = FDC.CMD_WRITE_DATA)
    by (left; vm_compute; reflexivity).
  assert (Hr : FDC_received [0x46; 0; 0; 0; 1; 2; 9; 0x2A; 0xFF] (Runs.fdcRead 0))
    by (split; vm_compute; reflexivity).
  assert (Hd : FDC.getDrive (FDC.unitSelect 0) (Runs.fdcRead 0) = Some (Examples.fdDrive 0 0 1))
    by (vm_compute; reflexivity).
  assert (Hx : (if JS.band 0x46 FDC.CMD_MASK =? FDC.CMD_READ_DATA
                then FDC.doRead (FDC.unitSelect 0)
                       (FDC_commandPhase 0 0 1 2 9 (Examples.fdDrive 0 0 1) (Runs.fdcRead 0))
                else FDC.doWrite (FDC.unitSelect 0)
                       (FDC_commandPhase 0 0 1 2 9 (Examples.fdDrive 0 0 1) (Runs.fdcRead 0)))
               = Ok Runs.fdcReadTransfer)
    by (vm_compute; reflexivity).
  destruct (C6_read_write_data (Runs.fdcRead 0) Runs.fdcReadTransfer
              0x46 0 0 0 1 2 9 0x2A 0xFF (Examples.fdDrive 0 0 1) Hm Hr Hd Hx)
    as (_ & _ & _ & c' & drive' & Hrun & _ & Hg & Hres & _ & Htt).
  exists c', drive'. split; [exact Hrun|]. split; [exact Hg|]. split; [exact Hres|exact Htt].
Defined.

(** READ DATA for drive 1, which is empty. *)
Lemma C7_read_data_no_disk_witness :
  exists c' drive',
    FDC.doCmd (Runs.fdcRead 1) = Ok c'
    /\ FDC.getDrive 1 c' = Some drive'
    /\ drive'.(FDC.errorCode) = 0x48
    /\ c'.(FDC.regDataTotal) = 7.
Proof.
  assert (Hm : JS.band 0x46 FDC.CMD_MASK = FDC.CMD_READ_DATA) by (vm_compute; reflexivity).
  assert (Hr : FDC_received [0x46; 1; 0; 0; 1; 2; 9; 0x2A; 0xFF] (Runs.fdcRead 1))
    by (split; vm_compute; reflexivity).
  assert (Hd : FDC.getDrive (FDC.unitSelect 1) (Runs.fdcRead 1) = Some Examples.fdEmpty)
    by (vm_compute; reflexivity).
  assert (Hk : Examples.fdEmpty.(FDC.disk) = None) by reflexivity.
  destruct (C7_read_data_no_disk (Runs.fdcRead 1) 0x46 1 0 0 1 2 9 0x2A 0xFF
              Examples.fdEmpty Hm Hr Hd Hk)
    as (c' & drive' & bytes & Hrun & Hg & He & _ & _ & _ & Htt & _).
  exists c', drive'. split; [exact Hrun|]. split; [exact Hg|]. split; [exact He|exact Htt].
Defined.

(** ** C9: save and restore *)

Section Codec_roundtrip.

Lemma toNum_ofNum (x : JS.num) : Codec.toNum (JS.ofNum x) = Ok x.
Proof. now destruct x. Qed.

Lemma toNums_ofNums (l : list JS.num) : Codec.toNums (Codec.ofNums l) = Ok l.
Proof.
  unfold Codec.toNums, Codec.ofNums. induction l as [|x l IH]; [reflexivity|].
  rewrite fmap_cons. cbn [Codec.mapM]. rewrite toNum_ofNum, bind_Ok, IH. reflexivity.
Qed.

Lemma toOptNums_ofOptNums (o : option (list JS.num)) :
  Codec.toOptNums (Codec.ofOptNums o) = Ok o.
Proof.
  destruct o as [l|]; [|reflexivity].
  unfold Codec.toOptNums, Codec.ofOptNums.
  change (match Codec.ofNums l with JUndef => Ok None | _ => _ end)
    with (Codec.toNums (Codec.ofNums l) ≫= fun l => Ok (Some l)).
  now rewrite toNums_ofNums.
Qed.

Lemma get_fmap {A : Type} (f : A -> jsval) (l : list A) (i : nat) (a : A) :
  l !! i = Some a -> JS.get (JArr (f <$> l)) i = f a.
Proof. intros H. cbn. now rewrite list_lookup_fmap, H. Qed.

End Codec_roundtrip.

Section C9_HDC.

Context {Disk Sector : Type} {DP : DiskPort Disk Sector}.

Local Abbreviation Controller := (@HDC.Controller Disk Sector).
Local Abbreviation Drive := (@HDC.Drive Disk Sector).

Lemma HDC_typeOf_valid (c : Controller) (driveConfig : option Z) :
  exists geometry, HDC.aDriveTypes (HDC.iHDC c) (HDC_typeOf c driveConfig) = Some geometry
                   /\ geometry.2 <> 0.
Proof.
  assert (Hdef : exists geometry,
             HDC.aDriveTypes (HDC.iHDC c) (HDC.iDriveTypeDefault c) = Some geometry
             /\ geometry.2 <> 0).
  { unfold HDC.iHDC, HDC.iDriveTypeDefault. destruct (HDC.fATC c); eexists; split;
      first [reflexivity|discriminate]. }
  unfold HDC_typeOf. destruct driveConfig as [t|]; [|exact Hdef].
  destruct (HDC.aDriveTypes (HDC.iHDC c) t) as [g|] eqn:E; [|exact Hdef].
  cbn. exists g. split; [exact E|].
  unfold HDC.aDriveTypes in E.
  repeat match type of E with
         | (if ?b then _ else _) = _ => destruct b
         end; try discriminate; injection E as <-; discriminate.
Qed.

Lemma verifyDrive_keeps (c : Controller) (drive : Drive) :
  (exists geometry, HDC.aDriveTypes (HDC.iHDC c) drive.(HDC.type) = Some geometry) ->
  exists drive',
    HDC.verifyDrive c drive None = Ok drive'
    /\ drive'.(HDC.wCylinder) = drive.(HDC.wCylinder)
    /\ drive'.(HDC.bHead) = drive.(HDC.bHead)
    /\ drive'.(HDC.bSector) = drive.(HDC.bSector)
    /\ drive'.(HDC.bSectorBias) = drive.(HDC.bSectorBias)
    /\ drive'.(HDC.type) = drive.(HDC.type).
Proof.
  intros [[cyl heads] Hty]. unfold HDC.verifyDrive. cbv zeta.
  destruct (JS.truthyN (JS.aget (HDC.abDriveParms drive) 2)) eqn:E.
  - rewrite bind_Ok. cbv beta iota. rewrite E.
    eexists. split; [reflexivity|]. cbn. destruct (HDC.disk drive); repeat split.
  - rewrite Hty, deref_Some, !bind_Ok. cbv beta iota.
    destruct (JS.truthyN heads); eexists; (split; [reflexivity|]);
      cbn; destruct (HDC.disk drive); repeat split.
Qed.

(** [initDrive] on what [saveDrive] wrote returns, with the position
    of the saved drive. *)
Lemma HDC_initDrive_saved (c : Controller) (cs : ChipSet) (iDrv : nat)
    (drive0 : Drive) (driveConfig : option Z) (d : Drive) (fHard : bool) :
  exists cs' drive' fSuccess,
    HDC.initDrive c cs iDrv drive0 driveConfig (HDC.saveDrive d) fHard
    = Ok (cs', drive', fSuccess)
    /\ HDC_cursor drive' = HDC_cursor d
    /\ drive'.(HDC.type) = HDC_typeOf c driveConfig.
Proof.
  destruct (HDC_typeOf_valid c driveConfig) as (g & Hty & _).
  unfold HDC.initDrive, HDC.saveDrive. cbv zeta.
  cbn [JS.get lookup list_lookup default id from_option
         Codec.ofZ Codec.ofBool Codec.toZ Codec.toBool].
  rewrite !toNum_ofNum, toNums_ofNums, toOptNums_ofOptNums, !bind_Ok. cbv beta.
  change (match driveConfig with
          | Some t => if is_Some_b (HDC.aDriveTypes (HDC.iHDC c) t) then t
                      else HDC.iDriveTypeDefault c
          | None => HDC.iDriveTypeDefault c
          end) with (HDC_typeOf c driveConfig).
  rewrite Hty, deref_Some, bind_Ok. cbv beta.
  match goal with
  | |- context [HDC.verifyDrive c ?x None] =>
      destruct (verifyDrive_keeps c x (ex_intro _ g Hty))
        as (drive1 & Hv & Hcyl & Hhead & Hsec & Hbias & Htype)
  end.
  rewrite Hv, bind_Ok. cbv beta. cbn in Hcyl, Hhead, Hsec, Hbias, Htype.
  rewrite bind_Ok. cbv beta.
  assert (Hgoal : forall r : result (ChipSet * Drive * bool),
             (exists cs' drive' fSuccess,
                 r = Ok (cs', drive', fSuccess)
                 /\ drive'.(HDC.wCylinder) = drive1.(HDC.wCylinder)
                 /\ drive'.(HDC.bHead) = drive1.(HDC.bHead)
                 /\ drive'.(HDC.bSector) = drive1.(HDC.bSector)
                 /\ drive'.(HDC.ibSector) = d.(HDC.ibSector)
                 /\ drive'.(HDC.type) = drive1.(HDC.type)) ->
             exists cs' drive' fSuccess,
               r = Ok (cs', drive', fSuccess)
               /\ HDC_cursor drive' = HDC_cursor d
               /\ drive'.(HDC.type) = HDC_typeOf c driveConfig).
  { intros r (cs' & drive' & f & -> & H1 & H2 & H3 & H4 & H5).
    exists cs', drive', f. split; [reflexivity|]. unfold HDC_cursor.
    rewrite H1, H2, H3, H4, H5, Hcyl, Hhead, Hsec, Htype. split; reflexivity. }
  apply Hgoal. clear Hgoal Hv Hcyl Hhead Hsec Hbias Htype.
  set (restored := HDC.set_sector None (HDC.set_ibSector (HDC.ibSector d) drive1)).
  change (HDC.disk restored) with (HDC.disk drive1).
  destruct (HDC.disk drive1) as [dk|] eqn:Hdk;
    [|eexists _, _, _; split; [reflexivity|repeat split]].
  match goal with
  | |- context [disk_restore dk ?v] => generalize v; intros deltas
  end.
  match goal with
  | |- context [let '(_, _) := ?p in _] =>
      assert (Hp : exists fSuccess drive2 dk2,
                 p = (fSuccess, drive2)
                 /\ drive2.(HDC.disk) = Some dk2
                 /\ drive2.(HDC.wCylinder) = drive1.(HDC.wCylinder)
                 /\ drive2.(HDC.bHead) = drive1.(HDC.bHead)
                 /\ drive2.(HDC.bSector) = drive1.(HDC.bSector)
                 /\ drive2.(HDC.ibSector) = d.(HDC.ibSector)
                 /\ drive2.(HDC.type) = drive1.(HDC.type))
  end.
  { destruct deltas;
      try (destruct (disk_restore dk _) as [n dk']);
      eexists _, _, _; (split; [reflexivity|]); cbn; repeat split; eauto. }
  destruct Hp as (fSuccess & drive2 & dk2 & -> & Hd2 & H1 & H2 & H3 & H4 & H5).
  cbv beta iota.
  destruct (fSuccess && _); [rewrite Hd2, deref_Some, bind_Ok|];
    eexists _, _, _; (split; [reflexivity|]); cbn; auto.
Qed.

(** The loop over the drives: every drive gets the position that was
    saved for it, and [regConfig], when it holds the switch bits already,
    is left as it is. *)
Lemma HDC_initDrives_saved (c : Controller) (saved : list Drive) (fHard : bool) :
  length saved = length c.(HDC.aDriveConfigs) ->
  forall (drives0 : list Drive) (iDrv : nat) (cs : ChipSet) (config : JS.num)
         (fSuccess : bool),
    (length drives0 + iDrv = length saved)%nat ->
    exists cs' config' drives' fSuccess',
      HDC.initDrives c (JArr (HDC.saveDrive <$> saved)) fHard iDrv drives0 cs config fSuccess
      = Ok (cs', config', drives', fSuccess')
      /\ HDC_cursor <$> drives' = HDC_cursor <$> drop iDrv saved
      /\ (match config with
          | Undef => True
          | NaN => False
          | Num x => forall (i : nat) cfg,
              (i <= 1)%nat -> c.(HDC.aDriveConfigs) !! i = Some cfg ->
              JS.bor x (HDC_switches c i cfg) = x
          end -> config' = config).
Proof.
  intros Hlen. induction drives0 as [|d0 drives0 IH]; intros iDrv cs config fSuccess Hn.
  - cbn in *. subst iDrv. rewrite drop_all. eexists _, _, _, _.
    split; [reflexivity|]. split; reflexivity.
  - cbn [length] in Hn. cbn [HDC.initDrives].
    destruct (lookup_lt_is_Some_2 saved iDrv ltac:(lia)) as [d Hd].
    destruct (lookup_lt_is_Some_2 (HDC.aDriveConfigs c) iDrv ltac:(lia)) as [cfg Hcfg].
    rewrite Hcfg, deref_Some, bind_Ok. cbv beta.
    cbn [item]. rewrite bind_Ok. cbv beta.
    rewrite (get_fmap HDC.saveDrive saved iDrv d Hd).
    destruct (HDC_initDrive_saved c cs iDrv d0 cfg d fHard)
      as (cs1 & drive' & f & Hinit & Hcur & Htype).
    rewrite Hinit, bind_Ok. cbv beta iota zeta.
    match goal with
    | |- context [HDC.initDrives c _ fHard (S iDrv) drives0 cs1 ?config1 _] =>
        destruct (IH (S iDrv) cs1 config1 (fSuccess && f) ltac:(lia))
          as (cs' & config' & drives' & f' & Hrec & Hcurs & Hcfg');
        assert (Hsame : match config with
                        | Undef => True
                        | NaN => False
                        | Num x => forall (i : nat) cfg,
                            (i <= 1)%nat -> c.(HDC.aDriveConfigs) !! i = Some cfg ->
                            JS.bor x (HDC_switches c i cfg) = x
                        end -> config1 = config)
    end.
    { intros Hconfig. destruct config as [| |x]; [reflexivity|contradiction|].
      destruct (Nat.leb_spec iDrv 1); [|reflexivity].
      rewrite Htype. fold (HDC_switches c iDrv cfg). f_equal.
      rewrite <- (Hconfig iDrv cfg) at 2 by assumption.
      cbn [JS.toInt32]. unfold JS.bor. now rewrite wrap32_idem. }
    rewrite Hrec, bind_Ok. cbv beta iota.
    eexists _, _, _, _. split; [reflexivity|]. split.
    + rewrite (drop_S _ _ _ Hd), !fmap_cons, Hcur, Hcurs. reflexivity.
    + intros Hconfig. specialize (Hsame Hconfig). rewrite Hsame in Hcfg'. auto.
Qed.

Lemma HDC_switches_fATC (c1 c2 : Controller) (i : nat) (cfg : option Z) :
  c1.(HDC.fATC) = c2.(HDC.fATC) -> HDC_switches c1 i cfg = HDC_switches c2 i cfg.
Proof.
  unfold HDC_switches, HDC_typeOf, HDC.iHDC, HDC.iDriveTypeDefault. now intros ->.
Qed.

Ltac restore_drives c c0 Hcfgs Hlen Hd0 :=
  match goal with
  | |- context [HDC.initDrives ?cr ?dd ?fHard 0 ?drives ?cs ?config true] =>
      change dd with (JArr (HDC.saveDrive <$> HDC.aDrives c));
      let Hn := fresh "Hn" in
      assert (Hn : (length drives + 0 = length (HDC.aDrives c))%nat)
        by (change (HDC.aDrives cr) with (HDC.aDrives c0);
            change (HDC.aDriveConfigs cr) with (HDC.aDriveConfigs c0);
            rewrite Hcfgs;
            destruct Hd0 as [-> | Hd0];
            [rewrite length_replicate; lia
            |destruct (HDC.aDrives c0);
             [rewrite length_replicate; lia|lia]]);
      let Hl := fresh "Hl" in
      assert (Hl : length (HDC.aDrives c) = length (HDC.aDriveConfigs cr))
        by (change (HDC.aDriveConfigs cr) with (HDC.aDriveConfigs c0); congruence);
      destruct (HDC_initDrives_saved cr (HDC.aDrives c) fHard Hl drives 0%nat cs config true Hn)
        as (cs' & config' & drives' & fSuccess' & Hrun & Hcur & Hkeep);
      rewrite Hrun, bind_Ok; cbv beta iota; clear Hrun
  end.

(** Restoring what [saveController] wrote, into a controller of the same
    kind and configuration. *)
Lemma HDC_roundtrip (c c0 : Controller) (fHard : bool) :
  c0.(HDC.fATC) = c.(HDC.fATC) ->
  c0.(HDC.aDriveConfigs) = c.(HDC.aDriveConfigs) ->
  length c.(HDC.aDrives) = length c.(HDC.aDriveConfigs) ->
  c0.(HDC.aDrives) = [] \/ length c0.(HDC.aDrives) = length c.(HDC.aDrives) ->
  HDC_configured c ->
  exists c' fSuccess,
    HDC.initController (HDC.saveController c) fHard c0 = Ok (c', fSuccess)
    /\ (if c.(HDC.fATC) then ATC_registers c' = ATC_registers c
        else XTC_registers c' = XTC_registers c)
    /\ HDC_cursor <$> c'.(HDC.aDrives) = HDC_cursor <$> c.(HDC.aDrives).
Proof.
  intros Hf Hcfgs Hlen Hd0 Hconfigured.
  assert (Hpre : match HDC.regConfig c with
                 | Undef => True
                 | NaN => False
                 | Num x => forall (i : nat) cfg,
                     (i <= 1)%nat -> c0.(HDC.aDriveConfigs) !! i = Some cfg ->
                     JS.bor x (HDC_switches c0 i cfg) = x
                 end).
  { unfold HDC_configured in Hconfigured.
    destruct (HDC.regConfig c) as [| |x]; [exact I|contradiction|].
    intros i cfg Hi Hc. rewrite (HDC_switches_fATC c0 c) by exact Hf.
    apply Hconfigured; [exact Hi|]. rewrite <- Hcfgs. exact Hc. }
  unfold HDC.initController, HDC.saveController. rewrite Hf.
  destruct (HDC.fATC c) eqn:Hatc.
  - cbn [JS.get lookup list_lookup default id from_option
           Codec.ofZ Codec.ofBool Codec.toZ Codec.toBool].
    rewrite !bind_Ok. cbv beta iota zeta.
    restore_drives c c0 Hcfgs Hlen Hd0.
    eexists _, _. split; [reflexivity|]. split; [reflexivity|].
    rewrite drop_0 in Hcur. exact Hcur.
  - cbn [JS.get lookup list_lookup default id from_option
           Codec.ofZ Codec.ofBool Codec.toZ Codec.toBool].
    rewrite !toNum_ofNum, toNums_ofNums, !bind_Ok. cbv beta iota zeta.
    restore_drives c c0 Hcfgs Hlen Hd0.
    assert (Hcfg' : config' = HDC.regConfig c) by (apply Hkeep; exact Hpre).
    subst config'.
    eexists _, _. split; [reflexivity|]. split; [reflexivity|].
    rewrite drop_0 in Hcur. exact Hcur.
Qed.

End C9_HDC.

Section C9_FDC.

Context {Disk Sector : Type} {DP : DiskPort Disk Sector} {M : @FDC.Machine Disk Sector}.

Local Abbreviation Controller := (@FDC.Controller Disk Sector).
Local Abbreviation Drive := (@FDC.Drive Disk Sector).

Lemma FDC_keeps_refl (c : Controller) : FDC_keeps c c.
Proof. split; reflexivity. Qed.

Lemma FDC_keeps_trans (c c1 c2 : Controller) :
  FDC_keeps c c1 -> FDC_keeps c1 c2 -> FDC_keeps c c2.
Proof. intros [H1 H2] [H3 H4]. split; congruence. Qed.

Lemma FDC_keeps_putDrive (c : Controller) (i : Z) (d d' : Drive) :
  FDC.getDrive i c = Some d -> FDC_cursor d' = FDC_cursor d ->
  FDC_keeps c (FDC.putDrive i d' c).
Proof.
  unfold FDC.getDrive. destruct (i <? 0); [discriminate|]. intros Hd Hc.
  split; [reflexivity|]. cbn. rewrite list_fmap_insert, Hc.
  apply list_insert_id. now rewrite list_lookup_fmap, Hd.
Qed.

Lemma FDC_keeps_getDrive (c c1 : Controller) (i : Z) (d : Drive) :
  FDC_keeps c c1 -> FDC.getDrive i c = Some d ->
  exists d1, FDC.getDrive i c1 = Some d1 /\ FDC_cursor d1 = FDC_cursor d.
Proof.
  intros [_ Hk]. unfold FDC.getDrive. destruct (i <? 0); [discriminate|]. intros Hd.
  assert (H : (FDC_cursor <$> FDC.aDrives c1) !! Z.to_nat i = Some (FDC_cursor d))
    by (rewrite Hk, list_lookup_fmap, Hd; reflexivity).
  rewrite list_lookup_fmap in H. destruct (FDC.aDrives c1 !! Z.to_nat i) as [d1|]; [|discriminate].
  exists d1. split; [reflexivity|]. cbn in H. congruence.
Qed.

Lemma unloadDrive_keeps (c : Controller) (i : Z) (d : Drive) :
  FDC.getDrive i c = Some d ->
  exists c1, FDC.unloadDrive i c = Ok c1 /\ FDC_keeps c c1.
Proof.
  intros Hd. unfold FDC.unloadDrive. rewrite Hd, deref_Some, bind_Ok. cbv beta.
  destruct (FDC.disk d) as [dk|]; [|eexists; split; [reflexivity|apply FDC_keeps_refl]].
  eexists. split; [reflexivity|].
  match goal with
  | |- FDC_keeps c (FDC.set_regInput _ (FDC.putDrive i ?d' ?c')) =>
      change (FDC_keeps c (FDC.putDrive i d' c));
      apply (FDC_keeps_putDrive c i d d' Hd)
  end.
  reflexivity.
Qed.

Lemma loadDiskette_keeps (c : Controller) (i : Z) (d : Drive)
    (sName sPath : option string) (fAutoMount : bool) :
  FDC.getDrive i c = Some d ->
  exists c1 fLoaded,
    FDC.loadDiskette i sName sPath fAutoMount c = Ok (c1, fLoaded) /\ FDC_keeps c c1.
Proof.
  intros Hd. unfold FDC.loadDiskette. rewrite Hd, deref_Some, bind_Ok. cbv beta.
  destruct sPath as [path|]; [|eexists _, _; split; [reflexivity|apply FDC_keeps_refl]].
  destruct (negb _ && negb _); [|eexists _, _; split; [reflexivity|apply FDC_keeps_refl]].
  destruct (unloadDrive_keeps c i d Hd) as (c1 & Hun & Hk1).
  rewrite Hun, bind_Ok. cbv beta.
  destruct (FDC_keeps_getDrive c c1 i d Hk1 Hd) as (d1 & Hd1 & Hc1).
  rewrite Hd1, deref_Some, bind_Ok. cbv beta zeta.
  destruct (FDC.fBusy d1); [eexists _, _; split; [reflexivity|exact Hk1]|].
  destruct fAutoMount; eexists _, _; (split; [reflexivity|]);
    (eapply FDC_keeps_trans; [exact Hk1|]).
  - match goal with
    | |- FDC_keeps c1 (FDC.putDrive i ?d' _) =>
        change (FDC_keeps c1 (FDC.putDrive i d' c1));
        apply (FDC_keeps_putDrive c1 i d1 d' Hd1); reflexivity
    end.
  - apply (FDC_keeps_putDrive c1 i d1 _ Hd1). reflexivity.
Qed.

Lemma toOptStr_ofOptStr (o : option string) : Codec.toOptStr (Codec.ofOptStr o) = Ok o.
Proof. now destruct o. Qed.

Ltac keeps_setter cP c2 :=
  match goal with
  | |- FDC_keeps cP ?x => change (FDC_keeps cP c2); assumption
  end.

(** [initDrive] on what [saveDrive] wrote returns; it gives drive [i]
    the saved position and leaves the other drives and the registers. *)
Lemma FDC_initDrive_saved (c : Controller) (i : Z) (d0 d : Drive) :
  FDC.getDrive i c = Some d0 ->
  exists c1 fSuccess,
    FDC.initDrive i (FDC.saveDrive d) c = Ok (c1, fSuccess)
    /\ FDC_restored c1 = FDC_restored c
    /\ FDC_cursor <$> c1.(FDC.aDrives)
       = <[Z.to_nat i := FDC_cursor d]> (FDC_cursor <$> c.(FDC.aDrives)).
Proof.
  intros Hd0. unfold FDC.initDrive, FDC.saveDrive. rewrite Hd0, deref_Some, bind_Ok.
  cbv beta zeta.
  cbn [JS.get lookup list_lookup default id from_option
         Codec.ofZ Codec.ofBool Codec.toZ Codec.toBool Codec.ofStr Codec.toStr].
  rewrite !toNum_ofNum, !bind_Ok. cbv beta.
  match goal with
  | |- context [FDC.putDrive i ?new c] =>
      set (restored := new); set (cP := FDC.putDrive i restored c)
  end.
  assert (HgP : FDC.getDrive i cP = Some restored)
    by (eapply FDC_getDrive_putDrive; exact Hd0).
  assert (HcP : FDC_cursor <$> cP.(FDC.aDrives)
                = <[Z.to_nat i := FDC_cursor d]> (FDC_cursor <$> c.(FDC.aDrives)))
    by (subst cP; cbn; now rewrite list_fmap_insert).
  assert (HrP : FDC_restored cP = FDC_restored c) by reflexivity.
  clearbody cP restored.
  match goal with
  | |- ex (fun c1 => ex (fun f => (?mid ≫= _) = _ /\ _)) =>
      assert (Hmid : exists c2 f, mid = Ok (c2, f) /\ FDC_keeps cP c2)
  end.
  { destruct (JS.seq FDC.VERSION_102 FDC.VERSION_102).
    - rewrite toOptStr_ofOptStr, bind_Ok. cbv beta.
      cbn [Codec.toOptStr Codec.ofStr]. rewrite bind_Ok. cbv beta.
      destruct (loadDiskette_keeps cP i restored (FDC.sDisketteName d)
                  (Some (FDC.sDiskettePath d)) true HgP) as (c2 & fLoaded & Hload & Hk).
      rewrite Hload, bind_Ok. cbv beta iota.
      destruct fLoaded; [|eexists _, _; split; [reflexivity|keeps_setter cP c2]].
      destruct (FDC_keeps_getDrive cP c2 i restored Hk HgP) as (d2 & Hd2 & Hc2).
      rewrite Hd2, deref_Some, bind_Ok. cbv beta.
      destruct (FDC.disk d2); [|eexists _, _; split; [reflexivity|exact Hk]].
      destruct (FDC.addDiskHistory_loop _ _ _ _) as [h dk'].
      eexists _, _. split; [reflexivity|].
      eapply FDC_keeps_trans; [exact Hk|].
      match goal with
      | |- FDC_keeps c2 (FDC.putDrive i ?d' _) =>
          change (FDC_keeps c2 (FDC.putDrive i d' c2));
          apply (FDC_keeps_putDrive c2 i d2 d' Hd2); reflexivity
      end.
    - assert (Hother : exists c2 f,
                 (drive ← deref (FDC.getDrive i cP);
                  match FDC.disk drive with
                  | Some dk =>
                      let '(n, dk) := disk_restore dk FDC.VERSION_102 in
                      Ok (FDC.putDrive i (FDC.set_disk (Some dk) drive) cP, negb (n <? 0))
                  | None => Ok (cP, true)
                  end) = Ok (c2, f) /\ FDC_keeps cP c2).
      { rewrite HgP, deref_Some, bind_Ok. cbv beta.
        destruct (FDC.disk restored) as [dk|];
          [|eexists _, _; split; [reflexivity|apply FDC_keeps_refl]].
        destruct (disk_restore dk _) as [n dk'].
        eexists _, _. split; [reflexivity|].
        apply (FDC_keeps_putDrive cP i restored _ HgP). reflexivity. }
      destruct FDC.VERSION_102; try exact Hother.
      eexists _, _. split; [reflexivity|apply FDC_keeps_refl]. }
  destruct Hmid as (c2 & f & -> & Hk). rewrite bind_Ok. cbv beta iota.
  destruct (FDC_keeps_getDrive cP c2 i restored Hk HgP) as (d2 & Hd2 & Hc2).
  rewrite Hd2, deref_Some, bind_Ok. cbv beta.
  destruct Hk as [Hkr Hkc].
  assert (Hdone : FDC_restored c2 = FDC_restored c
                  /\ FDC_cursor <$> c2.(FDC.aDrives)
                     = <[Z.to_nat i := FDC_cursor d]> (FDC_cursor <$> c.(FDC.aDrives)))
    by (split; congruence).
  destruct (FDC.disk d2) as [dk|]; [|eexists _, _; split; [reflexivity|exact Hdone]].
  destruct (f && _); [|eexists _, _; split; [reflexivity|exact Hdone]].
  eexists _, _. split; [reflexivity|].
  match goal with
  | |- context [FDC.putDrive i ?d' c2] =>
      destruct (FDC_keeps_putDrive c2 i d2 d' Hd2 eq_refl) as [Hr Hc]
  end.
  destruct Hdone. split; congruence.
Qed.

(** The loop over the drives. *)
Lemma FDC_initDrives_saved (saved : list Drive) :
  forall (n : nat) (i : Z) (c : Controller) (fSuccess : bool),
    0 <= i ->
    (n + Z.to_nat i = length saved)%nat ->
    length c.(FDC.aDrives) = length saved ->
    take (Z.to_nat i) (FDC_cursor <$> c.(FDC.aDrives))
    = take (Z.to_nat i) (FDC_cursor <$> saved) ->
    exists c' fSuccess',
      FDC.initDrives n i (JArr (FDC.saveDrive <$> saved)) c fSuccess = Ok (c', fSuccess')
      /\ FDC_restored c' = FDC_restored c
      /\ FDC_cursor <$> c'.(FDC.aDrives) = FDC_cursor <$> saved.
Proof.
  induction n as [|n IH]; intros i c fSuccess Hi Hn Hlen Hdone.
  - cbn [FDC.initDrives]. eexists _, _. split; [reflexivity|]. split; [reflexivity|].
    rewrite !take_ge in Hdone by (rewrite length_fmap; lia). exact Hdone.
  - cbn [FDC.initDrives item]. rewrite bind_Ok. cbv beta.
    destruct (lookup_lt_is_Some_2 saved (Z.to_nat i) ltac:(lia)) as [d Hd].
    destruct (lookup_lt_is_Some_2 (FDC.aDrives c) (Z.to_nat i) ltac:(lia)) as [d0 Hd0].
    assert (Hg : FDC.getDrive i c = Some d0).
    { unfold FDC.getDrive. destruct (Z.ltb_spec i 0); [lia|exact Hd0]. }
    rewrite (get_fmap FDC.saveDrive saved (Z.to_nat i) d Hd).
    destruct (FDC_initDrive_saved c i d0 d Hg) as (c1 & f & Hinit & Hr & Hc).
    rewrite Hinit, bind_Ok. cbv beta iota.
    destruct (IH (i + 1) c1 (fSuccess && f)) as (c' & f' & Hrec & Hr' & Hc').
    + lia.
    + lia.
    + rewrite <- (length_fmap FDC_cursor), Hc, length_insert, length_fmap. exact Hlen.
    + replace (Z.to_nat (i + 1)) with (S (Z.to_nat i)) by lia.
      rewrite Hc.
      rewrite (take_S_r _ _ (FDC_cursor d))
        by (apply list_lookup_insert_eq; rewrite length_fmap; lia).
      rewrite (take_S_r (FDC_cursor <$> saved) _ (FDC_cursor d))
        by (rewrite list_lookup_fmap, Hd; reflexivity).
      rewrite take_insert_ge by lia. now rewrite Hdone.
    + exists c', f'. split; [exact Hrec|]. split; [congruence|exact Hc'].
Qed.

Lemma toHistory_entries (h : list (option string * option string * jsval)) :
  FDC.toHistory (JArr (FDC.historyEntry <$> h)) = Ok h.
Proof.
  unfold FDC.toHistory. induction h as [|[[n p] v] h IH]; [reflexivity|].
  rewrite fmap_cons. cbn [Codec.mapM]. rewrite IH.
  cbn [FDC.historyEntry JS.get lookup list_lookup default id from_option].
  now rewrite !toOptStr_ofOptStr, !bind_Ok.
Qed.

Lemma saveDeltas_keeps (c : Controller) :
  FDC_registers (FDC.saveDeltas c).1 = FDC_registers c
  /\ exists h, (FDC.saveDeltas c).2 = JArr (FDC.historyEntry <$> h).
Proof.
  unfold FDC.saveDeltas. cbv zeta. cbn [fst snd]. split; [|eexists; reflexivity].
  generalize (FDC.aDrives c) at 1. intros l. revert c.
  induction l as [|drive l IH]; intros c; [reflexivity|].
  cbn [fold_left]. rewrite IH. now destruct (FDC.disk drive).
Qed.

Lemma toZ_or_0 (x : Z) : Codec.toZ (JS.or (Codec.ofZ x) (JNum 0)) = Ok x.
Proof.
  unfold JS.or, Codec.ofZ. cbn [JS.truthy].
  destruct (Z.eqb_spec x 0) as [->|]; reflexivity.
Qed.

(** Restoring what [saveController] wrote, into a controller with as
    many drives, or into one that has none yet when four were saved. *)
Lemma FDC_roundtrip (c c0 : Controller) :
  (c0.(FDC.aDrives) = [] /\ length c.(FDC.aDrives) = 4%nat)
  \/ (c0.(FDC.aDrives) <> [] /\ length c0.(FDC.aDrives) = length c.(FDC.aDrives)) ->
  exists c' fSuccess,
    FDC.initController (FDC.saveController c).2 c0 = Ok (c', fSuccess)
    /\ FDC_registers c' = FDC_registers c
    /\ FDC_cursor <$> c'.(FDC.aDrives) = FDC_cursor <$> c.(FDC.aDrives).
Proof.
  intros Hd0. destruct (saveDeltas_keeps c) as [Hregs [h Hh]].
  unfold FDC.saveController. cbv zeta.
  destruct (FDC.saveDeltas c) as [cS deltas]. cbn [fst snd] in *. subst deltas.
  unfold FDC.initController. cbv zeta.
  cbn [JS.get lookup list_lookup default id from_option
         Codec.ofZ Codec.ofBool Codec.toZ Codec.toBool Codec.ofStr Codec.toStr].
  rewrite toNums_ofNums, !bind_Ok. cbv beta.
  rewrite toHistory_entries, bind_Ok. cbv beta. rewrite bind_Ok. cbv beta.
  match goal with
  | |- context [FDC.initDrives _ 0 _ ?cr true] => set (cR := cr)
  end.
  assert (HlenR : length cR.(FDC.aDrives) = length c.(FDC.aDrives)).
  { subst cR. change (FDC.aDrives (FDC.set_aDiskHistory _ _)) with (FDC.aDrives c0).
    destruct Hd0 as [[-> H4]|[Hne Hl]]; [now rewrite H4|].
    destruct (FDC.aDrives c0) eqn:E; [contradiction|].
    change (FDC.aDrives (FDC.set_aDiskHistory _ _)) with (FDC.aDrives c0).
    now rewrite E. }
  assert (HrR : FDC_restored cR = FDC_restored cS)
    by (subst cR; now destruct (FDC.aDrives _)).
  clearbody cR. unfold FDC.saveDrives.
  destruct (FDC_initDrives_saved (FDC.aDrives c) (length (FDC.aDrives cR)) 0 cR true)
    as (c2 & f & Hrun & Hr2 & Hc2); [lia|lia|exact HlenR|reflexivity|].
  rewrite Hrun, bind_Ok. cbv beta iota.
  change FDC.REG_CONTROL_RATE500K with 0.
  rewrite !toZ_or_0, bind_Ok. cbv beta. rewrite bind_Ok. cbv beta.
  eexists _, _. split; [reflexivity|]. split; [|exact Hc2].
  rewrite <- Hregs. rewrite HrR in Hr2. unfold FDC_registers, FDC_restored in *.
  cbn. congruence.
Qed.

End C9_FDC.

Section C9.

Context {Disk Sector : Type} {DP : DiskPort Disk Sector} {M : @FDC.Machine Disk Sector}.

(** C9.  [initController] on the array that [saveController] wrote
    returns, and the controller it leaves has the registers and the
    drive positions (cylinder, head, sector, byte cursor) of the
    controller that was saved.  For the HDC, ATC and XTC, the restore is
    into a controller of the same kind and drive configuration, with as
    many drives or with none yet, of a state whose [regConfig] is as
    [initController] leaves it; for the FDC, into a controller with as
    many drives, or with none yet when the four drives were saved. *)
Theorem C9_save_restore
    (hdc hdc0 : @HDC.Controller Disk Sector) (fHard : bool)
    (fdc fdc0 : @FDC.Controller Disk Sector) :
  hdc0.(HDC.fATC) = hdc.(HDC.fATC) ->
  hdc0.(HDC.aDriveConfigs) = hdc.(HDC.aDriveConfigs) ->
  length hdc.(HDC.aDrives) = length hdc.(HDC.aDriveConfigs) ->
  hdc0.(HDC.aDrives) = [] \/ length hdc0.(HDC.aDrives) = length hdc.(HDC.aDrives) ->
  HDC_configured hdc ->
  (fdc0.(FDC.aDrives) = [] /\ length fdc.(FDC.aDrives) = 4%nat)
  \/ (fdc0.(FDC.aDrives) <> [] /\ length fdc0.(FDC.aDrives) = length fdc.(FDC.aDrives)) ->
  (exists hdc' fSuccess,
      HDC.initController (HDC.saveController hdc) fHard hdc0 = Ok (hdc', fSuccess)
      /\ (if hdc.(HDC.fATC) then ATC_registers hdc' = ATC_registers hdc
          else XTC_registers hdc' = XTC_registers hdc)
      /\ HDC_cursor <$> hdc'.(HDC.aDrives) = HDC_cursor <$> hdc.(HDC.aDrives))
  /\ (exists fdc' fSuccess,
         FDC.initController (FDC.saveController fdc).2 fdc0 = Ok (fdc', fSuccess)
         /\ FDC_registers fdc' = FDC_registers fdc
         /\ FDC_cursor <$> fdc'.(FDC.aDrives) = FDC_cursor <$> fdc.(FDC.aDrives)).
Proof.
  intros Hf Hcfgs Hlen Hd0 Hconfigured Hfd.
  split.
  - exact (HDC_roundtrip hdc hdc0 fHard Hf Hcfgs Hlen Hd0 Hconfigured).
  - exact (FDC_roundtrip fdc fdc0 Hfd).
Qed.

End C9.

(** The XT controller with a READ DATA session open, restored into a
    controller that has no drives yet, and the floppy controller after
    READ DATA, restored into the idle controller. *)
Lemma C9_save_restore_witness :
  (exists hdc' fSuccess,
      HDC.initController (HDC.saveController Runs.xtcReading) true
        (HDC.set_aDrives [] (Examples.xtc (-1))) = Ok (hdc', fSuccess)
      /\ (if Runs.xtcReading.(HDC.fATC)
          then ATC_registers hdc' = ATC_registers Runs.xtcReading
          else XTC_registers hdc' = XTC_registers Runs.xtcReading)
      /\ HDC_cursor <$> hdc'.(HDC.aDrives) = HDC_cursor <$> Runs.xtcReading.(HDC.aDrives))
  /\ (exists fdc' fSuccess,
         FDC.initController (FDC.saveController Runs.fdcReadDone).2
           (Examples.fdc (Some [])) = Ok (fdc', fSuccess)
         /\ FDC_registers fdc' = FDC_registers Runs.fdcReadDone
         /\ FDC_cursor <$> fdc'.(FDC.aDrives) = FDC_cursor <$> Runs.fdcReadDone.(FDC.aDrives)).
Proof.
  assert (H1 : (HDC.set_aDrives [] (Examples.xtc (-1))).(HDC.fATC) = Runs.xtcReading.(HDC.fATC))
    by (vm_compute; reflexivity).
  assert (H2 : (HDC.set_aDrives [] (Examples.xtc (-1))).(HDC.aDriveConfigs)
               = Runs.xtcReading.(HDC.aDriveConfigs)) by (vm_compute; reflexivity).
  assert (H3 : length Runs.xtcReading.(HDC.aDrives) = length Runs.xtcReading.(HDC.aDriveConfigs))
    by (vm_compute; reflexivity).
  assert (H4 : (HDC.set_aDrives [] (Examples.xtc (-1))).(HDC.aDrives) = []
               \/ length (HDC.set_aDrives [] (Examples.xtc (-1))).(HDC.aDrives)
                  = length Runs.xtcReading.(HDC.aDrives)) by (left; reflexivity).
  assert (H5 : HDC_configured Runs.xtcReading).
  { unfold HDC_configured.
    assert (E : Runs.xtcReading.(HDC.regConfig) = Num 0x0C) by (vm_compute; reflexivity).
    assert (E' : Runs.xtcReading.(HDC.aDriveConfigs) = [Some 3]) by (vm_compute; reflexivity).
    rewrite E, E'. intros [|[|i]] cfg Hi Hc; [|discriminate Hc|lia].
    injection Hc as <-. vm_compute. reflexivity. }
  assert (H6 : ((Examples.fdc (Some [])).(FDC.aDrives) = []
                /\ length Runs.fdcReadDone.(FDC.aDrives) = 4%nat)
               \/ ((Examples.fdc (Some [])).(FDC.aDrives) <> []
                   /\ length (Examples.fdc (Some [])).(FDC.aDrives)
                      = length Runs.fdcReadDone.(FDC.aDrives))).
  { right. split; [discriminate|vm_compute; reflexivity]. }
  exact (C9_save_restore Runs.xtcReading (HDC.set_aDrives [] (Examples.xtc (-1))) true
           Runs.fdcReadDone (Examples.fdc (Some [])) H1 H2 H3 H4 H5 H6).
Defined.

(** ** Logical sectors and positions: [seekDrive] *)

(** The cylinder, head and sector that [seekDrive] computes for a
    logical sector are its digits in the mixed radix of the geometry. *)
Lemma chs_of_linear (H S i : Z) :
  0 < H -> 0 < S -> 0 <= i ->
  let c := i / (H * S) in
  let i' := Z.rem i (H * S) in
  let h := i' / S in
  let s := Z.rem i' S in
  (c * H + h) * S + s = i /\ 0 <= c /\ 0 <= h < H /\ 0 <= s < S.
Proof.
  intros HH HS Hi c i' h s.
  assert (HHS : 0 < H * S) by nia.
  assert (Ei' : i' = i mod (H * S)) by (apply Z.rem_mod_nonneg; lia).
  assert (Hi' : 0 <= i' < H * S) by (rewrite Ei'; apply Z.mod_pos_bound; lia).
  assert (Es : s = i' mod S) by (apply Z.rem_mod_nonneg; lia).
  assert (Hs : 0 <= s < S) by (rewrite Es; apply Z.mod_pos_bound; lia).
  assert (Hdiv1 : i = (H * S) * c + i') by (rewrite Ei'; apply Z.div_mod; lia).
  assert (Hdiv2 : i' = S * h + s) by (rewrite Es; apply Z.div_mod; lia).
  assert (Hh : 0 <= h < H).
  { split; [apply Z.div_pos; lia|apply Z.div_lt_upper_bound; lia]. }
  assert (Hc : 0 <= c) by (apply Z.div_pos; lia).
  repeat split; try lia; nia.
Qed.

(** The digits of a number in a mixed radix are unique. *)
Lemma chs_unique (H S c h s c' h' s' : Z) :
  0 <= h < H -> 0 <= s < S -> 0 <= h' < H -> 0 <= s' < S ->
  (c * H + h) * S + s = (c' * H + h') * S + s' ->
  c = c' /\ h = h' /\ s = s'.
Proof.
  intros Hh Hs Hh' Hs' E.
  assert (E1 : c * H + h = c' * H + h') by nia.
  assert (E2 : c = c') by nia.
  subst. split; [reflexivity|]. split; nia.
Qed.

Section SeekDrive.

Context {Disk Sector : Type} {DP : DiskPort Disk Sector} {DG : DiskGeometry Disk}.

Lemma HDC_seekDrive_inside (drive : @HDC.Drive Disk Sector) (dk : Disk)
    (C H S cb iSector nSectors : Z) :
  drive.(HDC.disk) = Some dk ->
  disk_info dk = (C, H, S, cb) ->
  0 < C -> 0 < H -> 0 < S ->
  iSector + nSectors <= C * (H * S) ->
  HDC.seekDrive drive iSector nSectors
  = Ok (HDC.set_errorCode HDC.ERR_NONE
          (HDC.set_nBytes (Num (nSectors * cb))
             (HDC.set_bSector (Num (Z.rem (Z.rem iSector (H * S)) S))
                (HDC.set_bHead (Num (Z.rem iSector (H * S) / S))
                   (HDC.set_wCylinder (Num (iSector / (H * S))) drive)))), true).
Proof.
  intros Hd Hinfo HC HH HS Hin. unfold HDC.seekDrive. rewrite Hd, Hinfo.
  unfold JS.truthyZ.
  destruct (Z.eqb_spec C 0); [lia|]. cbn [negb].
  destruct (Z.leb_spec (iSector + nSectors) (C * (H * S))); [|lia].
  destruct (Z.eqb_spec (H * S) 0); [nia|]. reflexivity.
Qed.

(** X1.  [seekDrive] of the HDC on a drive with an image of [C] cylinders,
    [H] heads and [S] sectors a track: a request of [nSectors] sectors
    from logical sector [iSector] that ends within the disk succeeds,
    and the drive is left at the cylinder [c], head [h] and 0-based
    sector [s] with [(c * H + h) * S + s = iSector], within the geometry,
    with the length of the request in bytes and no error; a request that
    ends past the disk fails and leaves the drive as it was. *)
Theorem X1_HDC_seekDrive (drive : @HDC.Drive Disk Sector) (dk : Disk)
    (C H S cb iSector nSectors : Z) :
  drive.(HDC.disk) = Some dk ->
  disk_info dk = (C, H, S, cb) ->
  0 < C -> 0 < H -> 0 < S -> 0 <= iSector -> 0 <= nSectors ->
  (iSector + nSectors <= C * (H * S) ->
   exists drive' c h s,
     HDC.seekDrive drive iSector nSectors = Ok (drive', true)
     /\ HDC_position drive' = position (c, h, s)
     /\ (c * H + h) * S + s = iSector
     /\ 0 <= c /\ 0 <= h < H /\ 0 <= s < S
     /\ (0 < nSectors -> c < C)
     /\ drive'.(HDC.nBytes) = Num (nSectors * cb)
     /\ drive'.(HDC.errorCode) = HDC.ERR_NONE
     /\ drive'.(HDC.disk) = Some dk)
  /\ (C * (H * S) < iSector + nSectors ->
      HDC.seekDrive drive iSector nSectors = Ok (drive, false)).
Proof.
  intros Hd Hinfo HC HH HS Hi Hn. split.
  - intros Hin.
    destruct (chs_of_linear H S iSector HH HS Hi) as (E & Hc & Hh & Hs).
    eexists _, _, _, _. split; [eapply HDC_seekDrive_inside; eauto|].
    split; [reflexivity|]. split; [exact E|]. split; [exact Hc|].
    split; [exact Hh|]. split; [exact Hs|].
    split; [|split; [reflexivity|split; [reflexivity|exact Hd]]].
    intros Hpos. apply Z.div_lt_upper_bound; nia.
  - intros Hout. unfold HDC.seekDrive. rewrite Hd, Hinfo.
    destruct (JS.truthyZ C); [|reflexivity].
    destruct (Z.leb_spec (iSector + nSectors) (C * (H * S))); [lia|reflexivity].
Qed.

(** X2.  On a drive of the XTC, whose sectors are numbered from 0,
    [advanceSector] steps from the position that [seekDrive] gives a
    logical sector to the position that it gives the next one, when the
    drive has the heads and the sectors a track of its image. *)
Theorem X2_HDC_seekDrive_advanceSector (drive drive1 drive2 : @HDC.Drive Disk Sector)
    (dk : Disk) (C H S cb iSector n1 n2 : Z) :
  drive.(HDC.disk) = Some dk ->
  disk_info dk = (C, H, S, cb) ->
  0 < H -> 0 < S -> 0 <= iSector ->
  drive.(HDC.bSectorBias) = 1 ->
  drive.(HDC.nSectors) = S ->
  drive.(HDC.nHeads) = Num H ->
  HDC.seekDrive drive iSector n1 = Ok (drive1, true) ->
  HDC.seekDrive drive (iSector + 1) n2 = Ok (drive2, true) ->
  HDC_position (HDC.advanceSector drive1) = HDC_position drive2.
Proof.
  intros Hd Hinfo HH HS Hi Hbias HnS HnH H1 H2.
  unfold HDC.seekDrive in H1, H2. rewrite Hd, Hinfo in H1, H2.
  destruct (JS.truthyZ C); [|discriminate].
  destruct (iSector + n1 <=? C * (H * S)); [|discriminate].
  destruct (iSector + 1 + n2 <=? C * (H * S)); [|discriminate].
  destruct (Z.eqb_spec (H * S) 0); [nia|].
  cbn in H1, H2. injection H1 as <-. injection H2 as <-.
  destruct (chs_of_linear H S iSector HH HS Hi) as (E & Hc & Hh & Hs).
  destruct (chs_of_linear H S (iSector + 1) HH HS ltac:(lia)) as (E' & Hc' & Hh' & Hs').
  cbv zeta in *.
  set (c := iSector / (H * S)) in *. set (h := Z.rem iSector (H * S) / S) in *.
  set (s := Z.rem (Z.rem iSector (H * S)) S) in *.
  set (c' := (iSector + 1) / (H * S)) in *.
  set (h' := Z.rem (iSector + 1) (H * S) / S) in *.
  set (s' := Z.rem (Z.rem (iSector + 1) (H * S)) S) in *.
  clearbody c h s c' h' s'.
  unfold HDC_position, HDC.advanceSector. cbn. rewrite Hbias, HnS, HnH. cbn.
  change (1 - 1) with 0. rewrite Z.add_0_r.
  destruct (Z.geb_spec (s + 1) S) as [Hw|Hw]; cbn.
  - destruct (Z.geb_spec (h + 1) H) as [Hw'|Hw']; cbn.
    + assert (Hu := chs_unique H S (c + 1) 0 0 c' h' s' ltac:(lia) ltac:(lia)
                      ltac:(lia) ltac:(lia) ltac:(nia)).
      destruct Hu as (<- & <- & <-). reflexivity.
    + assert (Hu := chs_unique H S c (h + 1) 0 c' h' s' ltac:(lia) ltac:(lia)
                      ltac:(lia) ltac:(lia) ltac:(nia)).
      destruct Hu as (<- & <- & <-). reflexivity.
  - assert (Hu := chs_unique H S c h (s + 1) c' h' s' ltac:(lia) ltac:(lia)
                    ltac:(lia) ltac:(lia) ltac:(nia)).
    destruct Hu as (<- & <- & <-). reflexivity.
Qed.

Lemma FDC_seekDrive_inside (drive : @FDC.Drive Disk Sector) (dk : Disk)
    (C H S cb iSector nSectors : Z) :
  drive.(FDC.disk) = Some dk ->
  disk_info dk = (C, H, S, cb) ->
  0 < H -> 0 < S ->
  iSector + nSectors <= C * (H * S) ->
  FDC.seekDrive drive iSector nSectors
  = Ok (FDC.set_errorCode FDC.ERR_NONE
          (FDC.set_nBytes (Num (nSectors * cb))
             (FDC.set_bSector (Num (Z.rem (Z.rem iSector (H * S)) S + 1))
                (FDC.set_bHead (Z.rem iSector (H * S) / S)
                   (FDC.set_bCylinder (iSector / (H * S)) drive)))), true).
Proof.
  intros Hd Hinfo HH HS Hin. unfold FDC.seekDrive. rewrite Hd, Hinfo.
  destruct (Z.leb_spec (iSector + nSectors) (C * (H * S))); [|lia].
  destruct (Z.eqb_spec (H * S) 0); [nia|]. reflexivity.
Qed.

(** X3.  [seekDrive] of the FDC on a drive with a diskette of [C] cylinders,
    [H] heads and [S] sectors a track: a request that ends within the
    diskette succeeds and leaves the drive at the cylinder [c], head [h]
    and 1-based sector [s] with [(c * H + h) * S + (s - 1) = iSector],
    with the length of the request in bytes and no error; a request
    that ends past the diskette, or on a drive without diskette, fails
    and leaves the drive as it was. *)
Theorem X3_FDC_seekDrive (drive : @FDC.Drive Disk Sector) (dk : Disk)
    (C H S cb iSector nSectors : Z) :
  disk_info dk = (C, H, S, cb) ->
  0 < H -> 0 < S -> 0 <= iSector -> 0 <= nSectors ->
  (drive.(FDC.disk) = Some dk -> iSector + nSectors <= C * (H * S) ->
   exists drive' c h s,
     FDC.seekDrive drive iSector nSectors = Ok (drive', true)
     /\ FDC_position drive' = position (c, h, s)
     /\ (c * H + h) * S + (s - 1) = iSector
     /\ 0 <= c /\ 0 <= h < H /\ 1 <= s <= S
     /\ (0 < nSectors -> c < C)
     /\ drive'.(FDC.nBytes) = Num (nSectors * cb)
     /\ drive'.(FDC.errorCode) = FDC.ERR_NONE
     /\ drive'.(FDC.disk) = Some dk)
  /\ (drive.(FDC.disk) = Some dk -> C * (H * S) < iSector + nSectors ->
      FDC.seekDrive drive iSector nSectors = Ok (drive, false))
  /\ (drive.(FDC.disk) = None ->
      FDC.seekDrive drive iSector nSectors = Ok (drive, false)).
Proof.
  intros Hinfo HH HS Hi Hn. split; [|split].
  - intros Hd Hin.
    destruct (chs_of_linear H S iSector HH HS Hi) as (E & Hc & Hh & Hs).
    eexists _, _, _, _. split; [eapply FDC_seekDrive_inside; eauto|].
    split; [reflexivity|]. split; [cbn; cbv zeta in E; lia|]. split; [exact Hc|].
    split; [exact Hh|]. split; [cbn; cbv zeta in Hs; lia|].
    split; [|split; [reflexivity|split; [reflexivity|exact Hd]]].
    intros Hpos. apply Z.div_lt_upper_bound; nia.
  - intros Hd Hout. unfold FDC.seekDrive. rewrite Hd, Hinfo.
    destruct (Z.leb_spec (iSector + nSectors) (C * (H * S))); [lia|reflexivity].
  - intros Hd. unfold FDC.seekDrive. now rewrite Hd.
Qed.

End SeekDrive.

(** Logical sector 1000 of the 10Mb fixed disk is sector 14 of head 2 of
    cylinder 14; a request past sector 20808 fails. *)
Lemma X1_HDC_seekDrive_witness :
  (exists drive',
     HDC.seekDrive (Examples.hdDrive 1 0 0 0) 1000 1 = Ok (drive', true)
     /\ HDC_position drive' = position (14, 2, 14))
  /\ HDC.seekDrive (Examples.hdDrive 1 0 0 0) 20808 1
     = Ok (Examples.hdDrive 1 0 0 0, false).
Proof.
  destruct (X1_HDC_seekDrive (DG := BlankDisk_geometry) (Examples.hdDrive 1 0 0 0) BlankDisk.fixedDisk
              306 4 17 512 1000 1 eq_refl eq_refl) as [Hin _]; try lia.
  destruct (X1_HDC_seekDrive (DG := BlankDisk_geometry) (Examples.hdDrive 1 0 0 0) BlankDisk.fixedDisk
              306 4 17 512 20808 1 eq_refl eq_refl) as [_ Hout]; try lia.
  split; [|apply Hout; lia].
  destruct (Hin ltac:(lia)) as (drive' & c & h & s & Hrun & Hpos & E & Hc & Hh & Hs & _).
  exists drive'. split; [exact Hrun|].
  rewrite Hpos. assert (c = 14 /\ h = 2 /\ s = 14) as (-> & -> & ->) by lia.
  reflexivity.
Defined.

Lemma X2_HDC_seekDrive_advanceSector_witness :
  exists drive1 drive2,
    HDC.seekDrive (Examples.hdDrive 1 0 0 0) 67 1 = Ok (drive1, true)
    /\ HDC.seekDrive (Examples.hdDrive 1 0 0 0) 68 1 = Ok (drive2, true)
    /\ HDC_position (HDC.advanceSector drive1) = HDC_position drive2
    /\ HDC_position drive2 = position (1, 0, 0).
Proof.
  eexists _, _. split; [vm_compute; reflexivity|]. split; [vm_compute; reflexivity|].
  split; [|vm_compute; reflexivity].
  apply (X2_HDC_seekDrive_advanceSector (DG := BlankDisk_geometry) (Examples.hdDrive 1 0 0 0) _ _
           BlankDisk.fixedDisk 306 4 17 512 67 1 1);
    first [reflexivity | lia | vm_compute; reflexivity].
Defined.

(** Logical sector 100 of the 360Kb diskette is sector 2 of head 1 of
    cylinder 5. *)
Lemma X3_FDC_seekDrive_witness :
  exists drive',
    FDC.seekDrive (Examples.fdDrive 0 0 1) 100 1 = Ok (drive', true)
    /\ FDC_position drive' = position (5, 1, 2).
Proof.
  destruct (X3_FDC_seekDrive (DG := BlankDisk_geometry) (Examples.fdDrive 0 0 1) BlankDisk.diskette
              40 2 9 512 100 1 eq_refl) as [Hin _]; try lia.
  destruct (Hin eq_refl ltac:(lia))
    as (drive' & c & h & s & Hrun & Hpos & E & Hc & Hh & Hs & _).
  exists drive'. split; [exact Hrun|].
  rewrite Hpos. assert (c = 5 /\ h = 1 /\ s = 2) as (-> & -> & ->) by lia.
  reflexivity.
Defined.

(** ** The command protocol of the XTC *)

Section XTC_protocol.

Context {Disk Sector : Type} {DP : DiskPort Disk Sector}.

Local Abbreviation Controller := (@HDC.Controller Disk Sector).

Lemma outXTCDatas_snoc (pre : list Z) (b : Z) (c : Controller) :
  outXTCDatas (pre ++ [b]) c = outXTCDatas pre c ≫= HDC.outXTCData b.
Proof. unfold outXTCDatas. rewrite fold_left_app. reflexivity. Qed.

Lemma XTC_buffered_nil (c : Controller) :
  c.(HDC.regDataTotal) = 0 -> XTC_buffered [] c = c.
Proof.
  intros Ht. unfold XTC_buffered. cbn. rewrite drop_0.
  change (Z.of_nat 0) with 0. rewrite <- Ht. reflexivity.
Qed.

Lemma buffered_snoc (arr : list JS.num) (pre : list Z) (b : Z) :
  (length pre < length arr)%nat ->
  JS.set ((Num <$> pre) ++ drop (length pre) arr) (length pre) (Num b)
  = (Num <$> (pre ++ [b])) ++ drop (length (pre ++ [b])) arr.
Proof.
  intros Hlt. unfold JS.set.
  rewrite length_app, length_fmap, length_drop.
  destruct (Nat.ltb_spec (length pre) (length pre + (length arr - length pre))); [|lia].
  rewrite insert_app_r_alt by (rewrite length_fmap; lia).
  rewrite length_fmap, Nat.sub_diag.
  destruct (drop (length pre) arr) as [|a rest] eqn:E.
  { apply (f_equal length) in E. rewrite length_drop in E. cbn in E. lia. }
  cbn [insert list_insert]. rewrite fmap_app, <- app_assoc. cbn.
  f_equal. f_equal. rewrite length_app. cbn.
  replace (length pre + 1)%nat with (S (length pre)) by lia.
  rewrite <- (drop_drop arr (length pre) 1) || idtac.
  change rest with (drop 1 (a :: rest)). rewrite <- E. now rewrite drop_drop, Nat.add_1_r.
Qed.

Lemma aget_buffered_0 (arr : list JS.num) (bytes : list Z) (bCmd : Z) :
  hd_error bytes = Some bCmd ->
  JS.aget ((Num <$> bytes) ++ drop (length bytes) arr) 0 = Num bCmd.
Proof. destruct bytes; [discriminate|]. now intros [= ->]. Qed.

(** One byte written to the data port: it is buffered; the command runs
    when the byte completes the block. *)
Lemma outXTCData_buffered (c : Controller) (pre : list Z) (b bCmd : Z) :
  length c.(HDC.regDataArray) = 14%nat ->
  (length pre < 14)%nat ->
  hd_error (pre ++ [b]) = Some bCmd ->
  HDC.outXTCData b (XTC_buffered pre c)
  = if (S (length pre) <? XTC_blockLength bCmd)%nat
    then Ok (XTC_buffered (pre ++ [b]) c)
    else HDC.doXTC (XTC_issued (pre ++ [b]) c).
Proof.
  intros Harr Hlt Hhd. unfold HDC.outXTCData. cbv zeta.
  assert (Hlen : length ((Num <$> pre) ++ drop (length pre) (HDC.regDataArray c)) = 14%nat).
  { rewrite length_app, length_fmap, length_drop. lia. }
  change (HDC.regDataTotal (XTC_buffered pre c)) with (Z.of_nat (length pre)).
  change (HDC.regDataArray (XTC_buffered pre c))
    with ((Num <$> pre) ++ drop (length pre) (HDC.regDataArray c)).
  rewrite Hlen.
  destruct (Z.ltb_spec (Z.of_nat (length pre)) (Z.of_nat 14)); [|lia].
  rewrite Nat2Z.id, buffered_snoc by lia.
  cbn [HDC.regDataArray HDC.set_regDataArray HDC.set_regDataTotal HDC.regDataTotal
       HDC.regStatus HDC.set_regStatus].
  rewrite (aget_buffered_0 _ _ bCmd Hhd).
  assert (Hlen' : length ((Num <$> (pre ++ [b]))
                          ++ drop (length (pre ++ [b])) (HDC.regDataArray c)) = 14%nat).
  { rewrite length_app, length_fmap, length_drop, length_app. cbn. lia. }
  rewrite Hlen'.
  assert (Hsnoc : length (pre ++ [b]) = S (length pre)) by (rewrite length_app; cbn; lia).
  unfold XTC_issued, XTC_buffered, XTC_blockLength. cbv zeta. rewrite Hsnoc.
  cbn [HDC.regDataArray HDC.set_regDataArray HDC.set_regDataTotal HDC.regDataTotal
       HDC.regStatus HDC.set_regStatus JS.eqb].
  replace (Z.of_nat (length pre) + 1) with (Z.of_nat (S (length pre))) by lia.
  change (Z.of_nat 14) with 14.
  destruct (Z.eqb_spec (Z.of_nat (S (length pre))) 6) as [E6|E6];
    destruct (Z.eqb_spec bCmd HDC.CMD_INIT_DRIVE) as [->|Hne];
    cbn [HDC.regDataArray HDC.set_regDataArray HDC.set_regDataTotal HDC.regDataTotal
         HDC.regStatus HDC.set_regStatus];
    repeat match goal with
           | |- context [(?a <? ?b)%nat] => destruct (Nat.ltb_spec a b)
           | |- context [(?a <=? ?b)%nat] => destruct (Nat.leb_spec a b)
           | |- context [?a >=? ?b] => destruct (Z.geb_spec a b)
           end; try lia; reflexivity.
Qed.

Lemma outXTCDatas_prefix (c : Controller) (bytes : list Z) (bCmd : Z) :
  c.(HDC.regDataTotal) = 0 ->
  length c.(HDC.regDataArray) = 14%nat ->
  hd_error bytes = Some bCmd ->
  (length bytes <= XTC_blockLength bCmd)%nat ->
  forall k, (k < length bytes)%nat ->
            outXTCDatas (take k bytes) c = Ok (XTC_buffered (take k bytes) c).
Proof.
  intros Ht Harr Hhd Hlen. induction k as [|k IH]; intros Hk.
  - cbn. now rewrite XTC_buffered_nil.
  - destruct (lookup_lt_is_Some_2 bytes k ltac:(lia)) as [b Hb].
    rewrite (take_S_r _ _ _ Hb), outXTCDatas_snoc, IH, bind_Ok by lia.
    assert (Hblock : (XTC_blockLength bCmd <= 14)%nat)
      by (unfold XTC_blockLength; destruct (_ =? _); lia).
    rewrite (outXTCData_buffered c (take k bytes) b bCmd Harr).
    + rewrite length_take. destruct (Nat.ltb_spec (S (k `min` length bytes))
                                       (XTC_blockLength bCmd)); [reflexivity|lia].
    + rewrite length_take. lia.
    + rewrite <- (take_S_r _ _ _ Hb). destruct bytes; [discriminate|exact Hhd].
Qed.

(** X4.  The command block of the XTC.  On a controller whose FIFO of 14
    cells is empty, the bytes of a command block written to the data port
    are only buffered, whatever they are, until the block is complete: 6
    bytes, or 14 when the first byte is INIT_DRIVE.  The byte that
    completes the block runs [doXTC], once, on the controller that holds
    the block, with IOMODE up and REQ down. *)
Theorem X4_XTC_command_block (c : Controller) (bytes : list Z) (bCmd : Z) :
  c.(HDC.regDataTotal) = 0 ->
  length c.(HDC.regDataArray) = 14%nat ->
  hd_error bytes = Some bCmd ->
  length bytes = XTC_blockLength bCmd ->
  (forall k, (k < length bytes)%nat ->
             outXTCDatas (take k bytes) c = Ok (XTC_buffered (take k bytes) c))
  /\ outXTCDatas bytes c = HDC.doXTC (XTC_issued bytes c)
  /\ XTC_block bytes (XTC_issued bytes c).
Proof.
  intros Ht Harr Hhd Hlen. split; [|split].
  - apply (outXTCDatas_prefix c bytes bCmd); auto. lia.
  - assert (Hpos : (0 < length bytes)%nat)
      by (rewrite Hlen; unfold XTC_blockLength; destruct (_ =? _); lia).
    assert (Hblock : (XTC_blockLength bCmd <= 14)%nat)
      by (unfold XTC_blockLength; destruct (_ =? _); lia).
    destruct (lookup_lt_is_Some_2 bytes (length bytes - 1) ltac:(lia)) as [b Hb].
    assert (E : bytes = take (length bytes - 1) bytes ++ [b]).
    { rewrite <- (take_S_r _ _ _ Hb).
      replace (S (length bytes - 1)) with (length bytes) by lia.
      now rewrite take_ge by lia. }
    rewrite E at 1. rewrite outXTCDatas_snoc.
    rewrite (outXTCDatas_prefix c bytes bCmd) by (auto; lia). rewrite bind_Ok.
    rewrite (outXTCData_buffered c (take (length bytes - 1) bytes) b bCmd Harr).
    + rewrite length_take, <- E.
      destruct (Nat.ltb_spec (S ((length bytes - 1) `min` length bytes))
                  (XTC_blockLength bCmd)); [lia|reflexivity].
    + rewrite length_take. lia.
    + now rewrite <- E.
  - unfold XTC_block, XTC_issued, XTC_buffered. cbn. split; [|reflexivity].
    rewrite take_app_length'; [reflexivity|now rewrite length_fmap].
Qed.

(** *** Commands that end with a data status *)

Lemma XTC_block_aget (c : Controller) (bytes : list Z) (k : nat) (b : Z) :
  XTC_block bytes c ->
  bytes !! k = Some b ->
  JS.aget c.(HDC.regDataArray) (Z.of_nat k) = Num b
  /\ Z.of_nat k < c.(HDC.regDataTotal).
Proof.
  intros [Harr Ht] Hb. split.
  - unfold JS.aget. destruct (Z.ltb_spec (Z.of_nat k) 0); [lia|].
    rewrite Nat2Z.id, <- (lookup_take_lt _ (length bytes)), Harr, list_lookup_fmap, Hb
      by (eapply lookup_lt_Some; eauto). reflexivity.
  - rewrite Ht. apply lookup_lt_Some in Hb. lia.
Qed.

(** The six bytes of the block popped by [doXTC]. *)
Lemma popCmd_block (c : Controller) (bCmd b1 b2 b3 b4 b5 : Z) :
  XTC_block [bCmd; b1; b2; b3; b4; b5] c ->
  HDC.popCmd (HDC.set_regDataIndex 0 c) = Ok (HDC.set_regDataIndex 1 c, bCmd)
  /\ HDC.popCmd (HDC.set_regDataIndex 1 c) = Ok (HDC.set_regDataIndex 2 c, b1)
  /\ HDC.popCmd (HDC.set_regDataIndex 2 c) = Ok (HDC.set_regDataIndex 3 c, b2)
  /\ HDC.popCmd (HDC.set_regDataIndex 3 c) = Ok (HDC.set_regDataIndex 4 c, b3)
  /\ HDC.popCmd (HDC.set_regDataIndex 4 c) = Ok (HDC.set_regDataIndex 5 c, b4)
  /\ HDC.popCmd (HDC.set_regDataIndex 5 c) = Ok (HDC.set_regDataIndex 6 c, b5).
Proof.
  intros Hblock.
  repeat split;
    match goal with
    | |- HDC.popCmd (HDC.set_regDataIndex ?k c) = Ok (_, ?b) =>
        destruct (XTC_block_aget c _ (Z.to_nat k) b Hblock eq_refl) as [Ha Hlt];
        exact (popCmd_at c k b Ha Hlt)
    end.
Qed.

(** Reading the only byte of a result: the FIFO is empty again, the
    interrupt request is cleared. *)
Lemma inXTCData_single (c : Controller) (b : Z) :
  XTC_result c b ->
  HDC.inXTCData c
  = Ok (HDC.set_regStatus
          (JS.band (JS.band c.(HDC.regStatus) (JS.bnot HDC.XTC_STATUS_INTERRUPT))
                   (JS.bnot (JS.bor (JS.bor HDC.XTC_STATUS_IOMODE HDC.XTC_STATUS_BUS)
                                    HDC.XTC_STATUS_BUSY)))
          (HDC.set_regDataIndex 0
             (HDC.set_regDataTotal 0
                (HDC.set_chipset (chip (ClearIRR IRQ_XTC) c.(HDC.chipset)) c))), b).
Proof.
  intros (Hb & Hi & Ht). unfold HDC.inXTCData, cell.
  rewrite Hi, Ht, Hb. cbn. rewrite Hi, Ht. reflexivity.
Qed.

Lemma beginResult_shape (c : Controller) (b : Z) :
  HDC.beginResult (Some b) c
  = Ok (HDC.set_regStatus (JS.bor c.(HDC.regStatus) HDC.XTC_STATUS_INTERRUPT)
          (HDC.set_chipset (chip (SetIRR IRQ_XTC) c.(HDC.chipset))
             (HDC.set_regDataTotal 1
                (HDC.set_regDataArray (JS.set c.(HDC.regDataArray) 0 (Num b))
                   (HDC.set_regDataIndex 0 c))))).
Proof. reflexivity. Qed.

Lemma disk_updDrive (c : Controller) (i : nat) (f : HDC.Drive -> HDC.Drive) :
  (forall d, HDC.disk (f d) = HDC.disk d) ->
  HDC.disk <$> HDC.aDrives (HDC.updDrive i f c) = HDC.disk <$> HDC.aDrives c.
Proof.
  intros Hf. unfold HDC.updDrive.
  destruct (HDC.aDrives c !! i) as [d|] eqn:E; [|reflexivity]. cbn.
  etransitivity; [apply list_fmap_insert|]. apply list_insert_id.
  rewrite list_lookup_fmap, E. cbn. f_equal. symmetry. apply Hf.
Qed.

Lemma disk_putDrive (c : Controller) (i : nat) (d d' : HDC.Drive) :
  HDC.getDrive i c = Some d ->
  HDC.disk d' = HDC.disk d ->
  HDC.disk <$> HDC.aDrives (HDC.putDrive i d' c) = HDC.disk <$> HDC.aDrives c.
Proof.
  intros Hd E. unfold HDC.putDrive, HDC.getDrive in *. cbn.
  etransitivity; [apply list_fmap_insert|]. apply list_insert_id.
  rewrite list_lookup_fmap, Hd. cbn. f_equal. symmetry. exact E.
Qed.

(** X5.  The commands of the XTC that end at once.  A command block whose
    first byte is not one of REQUEST_SENSE, INIT_DRIVE, READ_DATA,
    WRITE_DATA and WRITE_BUFFER ends in [doXTC] with one result byte, the
    data status ORed with the unit bit of the block, and an interrupt
    request.  The status is STATUS_OK for the two diagnostics, with or
    without drive, and for TEST_READY, RECALIBRATE and READ_VERF on a
    drive that exists; it is STATUS_ERROR for every other code, and for
    every code but the diagnostics on a unit without drive.  Reading the
    byte from the data port empties the FIFO, and no drive has changed
    its disk. *)
Theorem X5_XTC_data_status (c : Controller) (bCmd b1 b2 b3 b4 b5 : Z) :
  XTC_block [bCmd; b1; b2; b3; b4; b5] c ->
  0 <= bCmd ->
  XTC_special bCmd = false ->
  let bDrive := JS.band b1 0x20 in
  let iDrv := Z.to_nat (JS.shr bDrive 5) in
  exists c1 c2,
    HDC.doXTC c = Ok c1
    /\ HDC.chipset c1 = chip (SetIRR IRQ_XTC) (HDC.chipset c)
    /\ HDC.inXTCData c1
       = Ok (c2, JS.bor (XTC_dataStatus bCmd (is_Some_b (HDC.getDrive iDrv c))) bDrive)
    /\ HDC.regDataIndex c2 = 0 /\ HDC.regDataTotal c2 = 0
    /\ HDC.disk <$> HDC.aDrives c2 = HDC.disk <$> HDC.aDrives c.
Proof.
  intros Hblock Hpos Hspecial bDrive iDrv.
  destruct (popCmd_block c bCmd b1 b2 b3 b4 b5 Hblock) as (P0 & P1 & P2 & P3 & P4 & P5).
  unfold XTC_special in Hspecial.
  apply orb_false_elim in Hspecial as [Hspecial HwB].
  apply orb_false_elim in Hspecial as [Hspecial HwD].
  apply orb_false_elim in Hspecial as [Hspecial HrD].
  apply orb_false_elim in Hspecial as [HrS HiD].
  unfold HDC.doXTC. cbv zeta.
  rewrite P0, bind_Ok. cbv beta iota. rewrite P1, bind_Ok. cbv beta iota.
  rewrite P2, bind_Ok. cbv beta iota. rewrite P3, bind_Ok. cbv beta iota.
  rewrite P4, bind_Ok. cbv beta iota. rewrite P5, bind_Ok. cbv beta iota.
  fold bDrive. fold iDrv. rewrite HrS, HiD.
  match goal with
  | |- context [HDC.updDrive iDrv ?f _] => set (program := f)
  end.
  set (cP := HDC.updDrive iDrv program (HDC.set_regDataIndex 6 c)).
  assert (HdiskP : HDC.disk <$> HDC.aDrives cP = HDC.disk <$> HDC.aDrives c).
  { subst cP. rewrite disk_updDrive; [reflexivity|]. intros d. reflexivity. }
  assert (HcsP : HDC.chipset cP = HDC.chipset c).
  { subst cP. unfold HDC.updDrive. cbn. destruct (HDC.aDrives c !! iDrv); reflexivity. }
  assert (HsomeP : is_Some_b (HDC.getDrive iDrv cP) = is_Some_b (HDC.getDrive iDrv c)).
  { subst cP. unfold HDC.updDrive, HDC.getDrive. cbn.
    destruct (HDC.aDrives c !! iDrv) as [d|] eqn:E; cbn; [|now rewrite E].
    rewrite list_lookup_insert_eq by (eapply lookup_lt_Some; eauto). reflexivity. }
  clearbody cP. clear program.
  assert (Hfinish : forall (c' : Controller) (st : Z),
             HDC.disk <$> HDC.aDrives c' = HDC.disk <$> HDC.aDrives c ->
             HDC.chipset c' = HDC.chipset c ->
             st = XTC_dataStatus bCmd (is_Some_b (HDC.getDrive iDrv c)) ->
             exists c1 c2,
               HDC.beginResult (Some (JS.bor st bDrive)) c' = Ok c1
               /\ HDC.chipset c1 = chip (SetIRR IRQ_XTC) (HDC.chipset c)
               /\ HDC.inXTCData c1
                  = Ok (c2, JS.bor (XTC_dataStatus bCmd
                                      (is_Some_b (HDC.getDrive iDrv c))) bDrive)
               /\ HDC.regDataIndex c2 = 0 /\ HDC.regDataTotal c2 = 0
               /\ HDC.disk <$> HDC.aDrives c2 = HDC.disk <$> HDC.aDrives c).
  { intros c' st Hdisk Hcs ->. rewrite beginResult_shape.
    eexists _, _. split; [reflexivity|]. split; [cbn; now rewrite Hcs|].
    split; [apply inXTCData_single; split; [apply aget_set_0|split; reflexivity]|].
    cbn. auto. }
  destruct ((bCmd =? HDC.CMD_RAM_DIAGNOSTIC) || (bCmd =? HDC.CMD_CTL_DIAGNOSTIC)) eqn:Hdiag.
  { apply Hfinish; auto. unfold XTC_dataStatus. rewrite Hdiag. reflexivity. }
  destruct (Z.geb_spec bCmd 0); [|lia].
  destruct (HDC.getDrive iDrv cP) as [d|] eqn:Hd.
  2:{ apply Hfinish; auto. unfold XTC_dataStatus. rewrite Hdiag, <- HsomeP. reflexivity. }
  cbv zeta.
  set (cQ := HDC.putDrive iDrv _ cP).
  assert (HdiskQ : HDC.disk <$> HDC.aDrives cQ = HDC.disk <$> HDC.aDrives c).
  { subst cQ. rewrite (disk_putDrive cP iDrv d) by (auto; reflexivity). exact HdiskP. }
  assert (Hst : XTC_dataStatus bCmd (is_Some_b (HDC.getDrive iDrv c))
                = if (bCmd =? HDC.CMD_TEST_READY) || (bCmd =? HDC.CMD_RECALIBRATE)
                     || (bCmd =? HDC.CMD_READ_VERF)
                  then HDC.XTC_DATA_STATUS_OK else HDC.XTC_DATA_STATUS_ERROR).
  { unfold XTC_dataStatus. rewrite Hdiag, <- HsomeP. reflexivity. }
  destruct (bCmd =? HDC.CMD_TEST_READY) eqn:E0.
  { apply Hfinish; auto. }
  destruct (bCmd =? HDC.CMD_RECALIBRATE) eqn:E1.
  { apply Hfinish; auto.
    subst cQ. rewrite (disk_putDrive _ iDrv (HDC.set_senseCode 0 (HDC.set_errorCode HDC.ERR_NONE d)));
      [exact HdiskQ| |reflexivity].
    unfold HDC.getDrive, HDC.putDrive. cbn.
    apply list_lookup_insert_eq. unfold HDC.getDrive in Hd. eapply lookup_lt_Some; eauto. }
  destruct (bCmd =? HDC.CMD_READ_VERF) eqn:E5.
  { apply Hfinish; auto. }
  rewrite HrD, HwD, HwB. apply Hfinish; auto.
Qed.

(** *** REQUEST_SENSE *)

(** The closed sums and conversions that index the FIFO. *)
Ltac fifo_consts :=
  repeat match goal with
         | |- context [Z.to_nat (Zpos ?p)] =>
             let n := eval vm_compute in (Z.to_nat (Zpos p)) in
             change (Z.to_nat (Zpos p)) with n
         | |- context [Zpos ?p + Zpos ?q] =>
             let n := eval vm_compute in (Zpos p + Zpos q) in
             change (Zpos p + Zpos q) with n
         | |- context [Zpos ?p <? 0] => change (Zpos p <? 0) with false
         end.

(** Reading the bytes of a result from the data port: they come in the
    order of the FIFO, and the last read empties it. *)
Lemma inXTCDatas_drain (bs : list Z) :
  forall (c : Controller) (k : nat),
    bs <> [] ->
    c.(HDC.regDataIndex) = Z.of_nat k ->
    c.(HDC.regDataTotal) = Z.of_nat (k + length bs) ->
    (forall j b, bs !! j = Some b -> c.(HDC.regDataArray) !! (k + j)%nat = Some (Num b)) ->
    exists c',
      inXTCDatas (length bs) c = Ok (c', bs)
      /\ c'.(HDC.regDataIndex) = 0 /\ c'.(HDC.regDataTotal) = 0
      /\ c'.(HDC.aDrives) = c.(HDC.aDrives).
Proof.
  induction bs as [|b bs IH]; intros c k Hne Hi Ht Hcells; [contradiction|].
  cbn [length inXTCDatas].
  assert (Hb : JS.aget (HDC.regDataArray c) (HDC.regDataIndex c) = Num b).
  { unfold JS.aget. rewrite Hi. destruct (Z.ltb_spec (Z.of_nat k) 0); [lia|].
    rewrite Nat2Z.id. specialize (Hcells 0%nat b eq_refl). rewrite Nat.add_0_r in Hcells.
    now rewrite Hcells. }
  unfold HDC.inXTCData, cell. rewrite Hb.
  destruct (Z.ltb_spec (HDC.regDataIndex c) (HDC.regDataTotal c)); [|cbn [length] in Ht; lia].
  cbn [number mbind result_bind]. cbv zeta.
  cbn [HDC.regDataIndex HDC.regDataTotal HDC.set_regDataIndex HDC.set_regStatus
       HDC.set_chipset].
  destruct bs as [|b' bs].
  - destruct (Z.geb_spec (HDC.regDataIndex c + 1) (HDC.regDataTotal c));
      [|cbn [length] in Ht; lia].
    cbn. eexists. split; [reflexivity|]. cbn. auto.
  - destruct (Z.geb_spec (HDC.regDataIndex c + 1) (HDC.regDataTotal c));
      [cbn [length] in Ht; lia|].
    rewrite bind_Ok. cbv beta iota.
    match goal with
    | |- context [inXTCDatas _ ?c1] =>
        destruct (IH c1 (S k)) as (c' & Hrun & Hi' & Ht' & Hd')
    end.
    + discriminate.
    + cbn. lia.
    + cbn. cbn [length] in Ht. lia.
    + intros j x Hx. specialize (Hcells (S j) x Hx).
      replace (k + S j)%nat with (S k + j)%nat in Hcells by lia. exact Hcells.
    + rewrite Hrun, bind_Ok. cbv beta iota. exists c'. split; [reflexivity|]. cbn in Hd'. auto.
Qed.

(** X6.  REQUEST_SENSE.  The command ends with five bytes to read from the
    data port: the error code of the drive of the unit, or NOT_READY
    when the unit has no drive; the second, third and fourth byte of
    the block as they were written; and the data status STATUS_OK with
    the unit bit.  The fifth read empties the FIFO, and the error code
    of every drive is as it was: sensing does not clear it. *)
Theorem X6_XTC_request_sense (c : Controller) (b1 b2 b3 b4 b5 : Z) :
  XTC_block [HDC.CMD_REQUEST_SENSE; b1; b2; b3; b4; b5] c ->
  let bDrive := JS.band b1 0x20 in
  let iDrv := Z.to_nat (JS.shr bDrive 5) in
  let sense := match HDC.getDrive iDrv c with
               | Some drive => drive.(HDC.errorCode)
               | None => HDC.ERR_NOT_READY
               end in
  exists c1 c2,
    HDC.doXTC c = Ok c1
    /\ inXTCDatas 5 c1
       = Ok (c2, [sense; b1; b2; b3; JS.bor HDC.XTC_DATA_STATUS_OK bDrive])
    /\ HDC.regDataIndex c2 = 0 /\ HDC.regDataTotal c2 = 0
    /\ HDC.errorCode <$> HDC.aDrives c2 = HDC.errorCode <$> HDC.aDrives c.
Proof.
  intros Hblock bDrive iDrv sense.
  destruct (popCmd_block c _ b1 b2 b3 b4 b5 Hblock) as (P0 & P1 & P2 & P3 & P4 & P5).
  unfold HDC.doXTC. cbv zeta.
  rewrite P0, bind_Ok. cbv beta iota. rewrite P1, bind_Ok. cbv beta iota.
  rewrite P2, bind_Ok. cbv beta iota. rewrite P3, bind_Ok. cbv beta iota.
  rewrite P4, bind_Ok. cbv beta iota. rewrite P5, bind_Ok. cbv beta iota.
  fold bDrive. fold iDrv.
  change (HDC.CMD_REQUEST_SENSE =? HDC.CMD_REQUEST_SENSE) with true. cbv iota.
  match goal with
  | |- context [HDC.updDrive iDrv ?f _] => set (program := f)
  end.
  set (cP := HDC.updDrive iDrv program (HDC.set_regDataIndex 6 c)).
  assert (HerrP : HDC.errorCode <$> HDC.aDrives cP = HDC.errorCode <$> HDC.aDrives c).
  { subst cP. unfold HDC.updDrive. cbn.
    destruct (HDC.aDrives c !! iDrv) as [d|] eqn:E; [|reflexivity]. cbn.
    etransitivity; [apply list_fmap_insert|]. apply list_insert_id.
    now rewrite list_lookup_fmap, E. }
  assert (Hsense : match HDC.getDrive iDrv cP with
                   | Some drive => HDC.errorCode drive
                   | None => HDC.ERR_NOT_READY
                   end = sense).
  { subst cP sense. unfold HDC.updDrive, HDC.getDrive. cbn.
    destruct (HDC.aDrives c !! iDrv) as [d|] eqn:E; cbn; [|now rewrite E].
    rewrite list_lookup_insert_eq by (eapply lookup_lt_Some; eauto). reflexivity. }
  assert (HarrP : exists rest, HDC.regDataArray cP
                  = Num HDC.CMD_REQUEST_SENSE :: Num b1 :: Num b2 :: Num b3 :: Num b4
                    :: Num b5 :: rest).
  { destruct Hblock as [Harr _].
    assert (E : HDC.regDataArray cP = HDC.regDataArray c).
    { subst cP. unfold HDC.updDrive. cbn. destruct (HDC.aDrives c !! iDrv); reflexivity. }
    rewrite E. cbn in Harr.
    destruct (HDC.regDataArray c) as [|a0 [|a1 [|a2 [|a3 [|a4 [|a5 rest]]]]]];
      try discriminate Harr.
    cbn in Harr. injection Harr as -> -> -> -> -> ->. now exists rest. }
  destruct HarrP as [rest HarrP].
  rewrite Hsense. clearbody cP. clear program Hsense.
  rewrite beginResult_shape, bind_Ok. rewrite HarrP.
  unfold HDC.pushResult.
  repeat (cbn -[JS.bor JS.band JS.shr JS.bnot]; fifo_consts).
  match goal with
  | |- exists c1 c2, Ok ?x = Ok c1 /\ _ => set (c1 := x)
  end.
  destruct (inXTCDatas_drain
              [sense; b1; b2; b3; JS.bor HDC.XTC_DATA_STATUS_OK bDrive] c1 0)
    as (c2 & Hrun & Hi & Ht & Hd).
  - discriminate.
  - reflexivity.
  - reflexivity.
  - intros j b Hj. cbn.
    destruct j as [|[|[|[|[|j]]]]]; cbn in Hj; try discriminate Hj;
      injection Hj as <-; reflexivity.
  - cbn [length] in Hrun. exists c1, c2. split; [reflexivity|]. split; [exact Hrun|].
    split; [exact Hi|]. split; [exact Ht|]. rewrite Hd. exact HerrP.
Qed.

End XTC_protocol.

(** TEST_READY for drive 0 written to the data port of the XT
    controller: five bytes are buffered, the sixth runs the command. *)
Lemma X4_XTC_command_block_witness :
  outXTCDatas [0x00; 0x00; 0x00; 0x00; 0x00] (Examples.xtc (-1))
  = Ok (XTC_buffered [0x00; 0x00; 0x00; 0x00; 0x00] (Examples.xtc (-1)))
  /\ outXTCDatas [0x00; 0x00; 0x00; 0x00; 0x00; 0x00] (Examples.xtc (-1))
     = HDC.doXTC (XTC_issued [0x00; 0x00; 0x00; 0x00; 0x00; 0x00] (Examples.xtc (-1))).
Proof.
  destruct (X4_XTC_command_block (Examples.xtc (-1))
              [0x00; 0x00; 0x00; 0x00; 0x00; 0x00] 0x00
              eq_refl eq_refl eq_refl eq_refl) as (Hpre & Hrun & _).
  split; [exact (Hpre 5%nat ltac:(cbn; lia))|exact Hrun].
Defined.

(** SEEK, which the controller does not implement, for drive 0, and
    TEST_READY for drive 1, which the controller does not have: the
    data status is STATUS_ERROR, with the unit bit for drive 1. *)
Lemma X5_XTC_data_status_witness :
  (exists c1 c2,
     HDC.doXTC (XTC_issued [0x0B; 0x00; 0x00; 0x00; 0x00; 0x00] (Examples.xtc (-1))) = Ok c1
     /\ HDC.inXTCData c1 = Ok (c2, 0x02))
  /\ (exists c1 c2,
     HDC.doXTC (XTC_issued [0x00; 0x20; 0x00; 0x00; 0x00; 0x00] (Examples.xtc (-1))) = Ok c1
     /\ HDC.inXTCData c1 = Ok (c2, 0x22)).
Proof.
  assert (H1 : XTC_block [0x0B; 0x00; 0x00; 0x00; 0x00; 0x00]
                 (XTC_issued [0x0B; 0x00; 0x00; 0x00; 0x00; 0x00] (Examples.xtc (-1))))
    by (split; vm_compute; reflexivity).
  assert (H2 : XTC_block [0x00; 0x20; 0x00; 0x00; 0x00; 0x00]
                 (XTC_issued [0x00; 0x20; 0x00; 0x00; 0x00; 0x00] (Examples.xtc (-1))))
    by (split; vm_compute; reflexivity).
  split.
  - destruct (X5_XTC_data_status _ _ _ _ _ _ _ H1 ltac:(lia) eq_refl)
      as (c1 & c2 & Hrun & _ & Hin & _).
    exists c1, c2. split; [exact Hrun|exact Hin].
  - destruct (X5_XTC_data_status _ _ _ _ _ _ _ H2 ltac:(lia) eq_refl)
      as (c1 & c2 & Hrun & _ & Hin & _).
    exists c1, c2. split; [exact Hrun|exact Hin].
Defined.

(** REQUEST_SENSE for drive 1, which the XT controller does not have:
    NOT_READY, the three address bytes and the status with the unit
    bit. *)
Lemma X6_XTC_request_sense_witness :
  exists c1 c2,
    HDC.doXTC (XTC_issued [0x03; 0x20; 0x41; 0x32; 0x00; 0x00] (Examples.xtc (-1))) = Ok c1
    /\ inXTCDatas 5 c1 = Ok (c2, [0x04; 0x20; 0x41; 0x32; 0x20]).
Proof.
  assert (H1 : XTC_block [HDC.CMD_REQUEST_SENSE; 0x20; 0x41; 0x32; 0x00; 0x00]
                 (XTC_issued [0x03; 0x20; 0x41; 0x32; 0x00; 0x00] (Examples.xtc (-1))))
    by (split; vm_compute; reflexivity).
  destruct (X6_XTC_request_sense _ _ _ _ _ _ H1) as (c1 & c2 & Hrun & Hin & _).
  exists c1, c2. split; [exact Hrun|exact Hin].
Defined.

(** ** The AT controller *)

Section ATC.

Context {Disk Sector : Type} {DP : DiskPort Disk Sector}.

Local Abbreviation Controller := (@HDC.Controller Disk Sector).
Local Abbreviation Drive := (@HDC.Drive Disk Sector).

Lemma setATCIRR_chipset (c : Controller) (log : list ChipCall) :
  c.(HDC.chipset) = Some log ->
  HDC.chipset (HDC.setATCIRR c)
  = Some (if JS.band c.(HDC.regFDR) HDC.ATC_FDR_INT_DISABLE =? 0
          then SetIRR IRQ_ATC :: log else log).
Proof.
  intros Hcs. unfold HDC.setATCIRR, JS.truthyZ. rewrite Hcs.
  destruct (JS.band _ _ =? 0); cbn; [|exact Hcs]. reflexivity.
Qed.

Lemma setATCIRR_chipset_of (c c1 : Controller) (log : list ChipCall) :
  c1.(HDC.chipset) = Some log ->
  c1.(HDC.regFDR) = c.(HDC.regFDR) ->
  HDC.chipset (HDC.setATCIRR c1)
  = Some (if JS.band c.(HDC.regFDR) HDC.ATC_FDR_INT_DISABLE =? 0
          then SetIRR IRQ_ATC :: log else log).
Proof. intros Hcs <-. now apply setATCIRR_chipset. Qed.

Lemma setATCIRR_regs (c : Controller) :
  HDC.regFDR (HDC.setATCIRR c) = HDC.regFDR c
  /\ HDC.regStatus (HDC.setATCIRR c) = HDC.regStatus c
  /\ HDC.regError (HDC.setATCIRR c) = HDC.regError c
  /\ HDC.regSecCnt (HDC.setATCIRR c) = HDC.regSecCnt c
  /\ HDC.drive (HDC.setATCIRR c) = HDC.drive c.
Proof.
  unfold HDC.setATCIRR. destruct (HDC.chipset c); [|repeat split].
  destruct (negb _); repeat split.
Qed.

(** No value masked with 0xF0 is SETPARMS (0x91). *)
Lemma band_mask_SETPARMS (x : Z) :
  JS.band x HDC.ATC_COMMAND_MASK <> HDC.ATC_COMMAND_SETPARMS.
Proof.
  unfold JS.band. intros E. apply (f_equal (fun z => Z.testbit z 0)) in E.
  rewrite Z.land_spec in E. change (Z.testbit (JS.wrap32 HDC.ATC_COMMAND_MASK) 0) with false in E.
  rewrite andb_false_r in E. discriminate E.
Qed.

(** [readByte] returns on a drive with an image, and keeps the length
    of the transfer. *)
Lemma readByte_returns (drive : Drive) (dk : Disk) (fDone fAutoInc : bool) :
  drive.(HDC.disk) = Some dk ->
  exists drive' b,
    HDC.readByte drive fDone fAutoInc = Ok (drive', b)
    /\ drive'.(HDC.nBytes) = drive.(HDC.nBytes).
Proof.
  intros Hdk. unfold HDC.readByte.
  destruct (JS.truthyZ (HDC.errorCode drive)); [eauto|].
  rewrite Hdk.
  destruct (HDC.sector drive) as [sec|]; cbn [deref mbind result_bind].
  - destruct (disk_read dk sec (HDC.ibSector drive) >=? 0); [eauto|].
    destruct fDone; [|eauto]. cbn [HDC.disk HDC.set_ibSector].
    rewrite Hdk.
    destruct (disk_seek dk _ _ _) as [sec'|]; eexists _, _; (split; [reflexivity|]);
      cbn; rewrite ?advanceSector_nBytes; reflexivity.
  - change (-1 >=? 0) with false. cbv iota.
    destruct fDone; [|eauto]. rewrite Hdk.
    destruct (disk_seek dk _ _ _) as [sec'|]; eexists _, _; (split; [reflexivity|]);
      cbn; rewrite ?advanceSector_nBytes; reflexivity.
Qed.

(** X7.  The interrupt of an ATC command.  [doATC] always returns.  With
    no drive at the unit that the Drive/Head register selects, the
    command does nothing: no drive changes, no drive is left selected
    for the data port, the status is READY and SEEK_OK, the error
    register is clear and no interrupt is requested.  With a drive
    there, the interrupt is requested if and only if interrupts are
    not disabled in the Fixed Disk Register and the command is a
    RESTORE, a READ_VERF or a DIAGNOSE, or a READ_DATA that found its
    first sector (it ends with the status READY and SEEK_OK). *)
Theorem X7_ATC_interrupt (c : Controller) (log : list ChipCall) :
  c.(HDC.chipset) = Some log ->
  exists c',
    HDC.doATC c = Ok c'
    /\ (HDC.getDrive (ATC_selected c) c = None ->
        c'.(HDC.aDrives) = c.(HDC.aDrives) /\ c'.(HDC.drive) = None
        /\ c'.(HDC.regStatus) = JS.bor HDC.ATC_STATUS_READY HDC.ATC_STATUS_SEEK_OK
        /\ c'.(HDC.regError) = HDC.ATC_ERROR_NONE
        /\ c'.(HDC.chipset) = c.(HDC.chipset))
    /\ (is_Some (HDC.getDrive (ATC_selected c) c) ->
        (raised IRQ_ATC (newCalls c.(HDC.chipset) c'.(HDC.chipset)) = true
         <-> JS.band c.(HDC.regFDR) HDC.ATC_FDR_INT_DISABLE = 0
             /\ (ATC_class c = HDC.ATC_COMMAND_RESTORE
                 \/ ATC_class c = HDC.ATC_COMMAND_READ_VERF
                 \/ ATC_class c = HDC.ATC_COMMAND_DIAGNOSE
                 \/ ATC_class c = HDC.ATC_COMMAND_READ_DATA
                    /\ c'.(HDC.regStatus)
                       = JS.bor HDC.ATC_STATUS_READY HDC.ATC_STATUS_SEEK_OK))).
Proof.
  intros Hcs. unfold HDC.doATC. cbv zeta.
  change (if JS.truthyZ (JS.band (HDC.regDrvHd c) HDC.ATC_DRVHD_DRIVE_MASK)
          then 1%nat else 0%nat) with (ATC_selected c).
  set (iDrv := ATC_selected c).
  assert (Hd0 : forall a b, HDC.getDrive iDrv
             (HDC.set_regStatus a (HDC.set_regError b (HDC.set_drive None c)))
             = HDC.getDrive iDrv c) by reflexivity.
  rewrite Hd0.
  destruct (HDC.getDrive iDrv c) as [d|] eqn:Hd.
  2:{ cbv iota beta.
      repeat match goal with
             | |- context [?a =? ?b] =>
                 let v := eval vm_compute in (a =? b) in change (a =? b) with v
             end.
      cbv iota. rewrite bind_Ok. cbv iota beta.
      eexists. split; [reflexivity|]. split.
      - intros _. repeat split.
      - intros [x Hx]. discriminate Hx. }
  cbv iota beta.
  change (JS.band (if HDC.regCommand c >=? HDC.ATC_COMMAND_DIAGNOSE
                   then HDC.regCommand c
                   else JS.band (HDC.regCommand c) HDC.ATC_COMMAND_MASK)
                  HDC.ATC_COMMAND_MASK) with (ATC_class c).
  set (d1 := HDC.set_errorCode 0 _).
  set (sw := ATC_class c).
  assert (Hsw : sw <> HDC.ATC_COMMAND_SETPARMS) by apply band_mask_SETPARMS.
  assert (Hput : forall (x : Drive) (c0 : Controller),
             HDC.aDrives c0 = <[iDrv := x]> (HDC.aDrives c) ->
             HDC.getDrive iDrv c0 = Some x).
  { intros x c0 E. unfold HDC.getDrive in *. rewrite E.
    apply list_lookup_insert_eq. eapply lookup_lt_Some; eauto. }
  set (c0 := HDC.set_drive (Some iDrv) _).
  assert (Hcs0 : HDC.chipset c0 = Some log) by exact Hcs.
  assert (Hfdr0 : HDC.regFDR c0 = HDC.regFDR c) by reflexivity.
  assert (Hraise : forall cs,
             cs = Some (if JS.band (HDC.regFDR c) HDC.ATC_FDR_INT_DISABLE =? 0
                        then SetIRR IRQ_ATC :: log else log) ->
             raised IRQ_ATC (newCalls (HDC.chipset c) cs)
             = (JS.band (HDC.regFDR c) HDC.ATC_FDR_INT_DISABLE =? 0)).
  { intros cs ->. rewrite Hcs.
    destruct (JS.band _ _ =? 0).
    - transitivity (raised IRQ_ATC [SetIRR IRQ_ATC]); [f_equal|reflexivity].
      exact (newCalls_app [SetIRR IRQ_ATC] log).
    - transitivity (raised IRQ_ATC []); [f_equal|reflexivity].
      exact (newCalls_app [] log). }
  assert (Hquiet : raised IRQ_ATC (newCalls (HDC.chipset c) (Some log)) = false).
  { rewrite Hcs. transitivity (raised IRQ_ATC []); [f_equal|reflexivity].
    exact (newCalls_app [] log). }
  destruct (Z.eqb_spec sw HDC.ATC_COMMAND_READ_DATA) as [Erd|Erd].
  { assert (Hg : HDC.getDrive iDrv (HDC.set_regStatus
                   (JS.bor HDC.ATC_STATUS_BUSY HDC.ATC_STATUS_DATA_REQ) c0) = Some d1)
      by (apply Hput; reflexivity).
    rewrite Hg, deref_Some, bind_Ok.
    assert (Hrb : exists d2 b, HDC.readByte d1 true false = Ok (d2, b)).
    { destruct (readByte_nBytes d1 true false eq_refl) as (d2 & b & Hrb & _). eauto. }
    destruct Hrb as (d2 & b & Hrb). rewrite Hrb, bind_Ok. cbv beta iota zeta.
    change (HDC.chipset (HDC.putDrive iDrv d2 (HDC.set_regStatus
              (JS.bor HDC.ATC_STATUS_BUSY HDC.ATC_STATUS_DATA_REQ) c0)))
      with (HDC.chipset c0).
    rewrite Hcs0. cbn [is_Some_b]. rewrite andb_true_r.
    destruct (b >=? 0); rewrite bind_Ok; cbv beta iota;
      (eexists; split; [reflexivity|]); (split; [intros [=]|]); intros _.
    - cbn [HDC.chipset HDC.set_regStatus HDC.regStatus].
      rewrite Hraise by (apply (setATCIRR_chipset_of c); [exact Hcs0|reflexivity]).
      split.
      + intros E. apply Z.eqb_eq in E. split; [exact E|]. right; right; right. auto.
      + intros [E _]. now apply Z.eqb_eq.
    - cbn [HDC.chipset HDC.set_regStatus HDC.set_regError HDC.regStatus HDC.putDrive
           HDC.set_aDrives]. rewrite Hcs0, Hquiet.
      split; [discriminate|].
      intros [_ [E|[E|[E|[_ E]]]]]; try (rewrite Erd in E; discriminate E).
      discriminate E. }
  destruct (Z.eqb_spec sw HDC.ATC_COMMAND_WRITE_DATA) as [Ewd|Ewd].
  { rewrite bind_Ok. cbv beta iota.
    eexists; split; [reflexivity|]; (split; [intros [=]|]); intros _.
    cbn [HDC.chipset HDC.set_regStatus]. rewrite Hcs0, Hquiet.
    split; [discriminate|].
    intros [_ [E|[E|[E|[E _]]]]]; rewrite Ewd in E; discriminate E. }
  destruct (Z.eqb_spec sw HDC.ATC_COMMAND_RESTORE) as [Ers|Ers].
  { rewrite bind_Ok. cbv beta iota.
    eexists; split; [reflexivity|]; (split; [intros [=]|]); intros _.
    rewrite Hraise by (apply (setATCIRR_chipset_of c); [exact Hcs0|reflexivity]).
    split; [intros E; apply Z.eqb_eq in E; auto|intros [E _]; now apply Z.eqb_eq]. }
  destruct (Z.eqb_spec sw HDC.ATC_COMMAND_READ_VERF) as [Erv|Erv].
  { rewrite bind_Ok. cbv beta iota.
    eexists; split; [reflexivity|]; (split; [intros [=]|]); intros _.
    rewrite Hraise by (apply (setATCIRR_chipset_of c); [exact Hcs0|reflexivity]).
    split; [intros E; apply Z.eqb_eq in E; auto|intros [E _]; now apply Z.eqb_eq]. }
  destruct (Z.eqb_spec sw HDC.ATC_COMMAND_DIAGNOSE) as [Edg|Edg].
  { rewrite bind_Ok. cbv beta iota.
    eexists; split; [reflexivity|]; (split; [intros [=]|]); intros _.
    rewrite Hraise by (apply (setATCIRR_chipset_of c); [exact Hcs0|reflexivity]).
    split; [intros E; apply Z.eqb_eq in E; auto 6|intros [E _]; now apply Z.eqb_eq]. }
  destruct (Z.eqb_spec sw HDC.ATC_COMMAND_SETPARMS) as [Esp|Esp]; [contradiction|].
  rewrite bind_Ok. cbv beta iota.
  eexists; split; [reflexivity|]; (split; [intros [=]|]); intros _.
  rewrite Hcs0, Hquiet. split; [discriminate|].
  intros [_ [E|[E|[E|[E _]]]]]; contradiction.
Qed.

(** *** The data port *)

Lemma putDrive_putDrive (c : Controller) (i : nat) (x y : Drive) :
  HDC.putDrive i x (HDC.putDrive i y c) = HDC.putDrive i x c.
Proof. unfold HDC.putDrive. cbn. now rewrite list_insert_insert_eq. Qed.

Lemma putDrive_id (c : Controller) (i : nat) (d : Drive) :
  HDC.getDrive i c = Some d -> HDC.putDrive i d c = c.
Proof. unfold HDC.putDrive, HDC.getDrive. intros Hd. now rewrite list_insert_id. Qed.

Lemma sectorBytes_cons (dk : Disk) (sector : Sector) (k : Z) (n : nat) :
  sectorBytes dk sector k (S n)
  = disk_read dk sector (Num k) :: sectorBytes dk sector (k + 1) n.
Proof.
  unfold sectorBytes. cbn [seq fmap list_fmap]. rewrite Z.add_0_r. f_equal.
  rewrite <- fmap_S_seq, <- list_fmap_compose. apply list_fmap_ext.
  intros _ j _. cbn. do 2 f_equal. lia.
Qed.

Lemma readByte_at (d : Drive) (dk : Disk) (sec : Sector) (k : Z) :
  d.(HDC.errorCode) = 0 -> d.(HDC.disk) = Some dk -> d.(HDC.sector) = Some sec ->
  0 <= disk_read dk sec (Num k) ->
  HDC.readByte (HDC.set_ibSector (Num k) d) false true
  = Ok (HDC.set_ibSector (Num (k + 1)) d, disk_read dk sec (Num k)).
Proof.
  intros Herr Hdk Hsec Hb. unfold HDC.readByte.
  change (HDC.errorCode (HDC.set_ibSector k d)) with (d.(HDC.errorCode)).
  rewrite Herr. change (JS.truthyZ 0) with false. cbv iota zeta.
  change (HDC.sector (HDC.set_ibSector k d)) with (d.(HDC.sector)). rewrite Hsec.
  change (HDC.disk (HDC.set_ibSector k d)) with (d.(HDC.disk)). rewrite Hdk.
  rewrite deref_Some, !bind_Ok. cbv beta iota zeta.
  change (HDC.ibSector (HDC.set_ibSector k d)) with (Num k).
  destruct (Z.geb_spec (disk_read dk sec k) 0) as [_|Hneg]; [|lia].
  reflexivity.
Qed.

Section Read.

Variables (c : Controller) (i : nat) (d : Drive) (dk : Disk) (sec : Sector) (cb n : Z).

Hypothesis Hsel : c.(HDC.drive) = Some i.
Hypothesis Hd : HDC.getDrive i c = Some d.
Hypothesis Herr : d.(HDC.errorCode) = 0.
Hypothesis Hdk : d.(HDC.disk) = Some dk.
Hypothesis Hsec : d.(HDC.sector) = Some sec.
Hypothesis Hcb : d.(HDC.cbSector) = cb.
Hypothesis Hn : d.(HDC.nBytes) = Num n.
Hypothesis Hbytes : forall k, 0 <= k < cb -> 0 <= disk_read dk sec (Num k).


Lemma inATCData_inside (k : Z) :
  0 <= k -> k + 1 < cb ->
  HDC.inATCData (ATC_readAt c i d k) = Ok (ATC_readAt c i d (k + 1), disk_read dk sec (Num k)).
Proof.
  intros Hk Hlt. unfold HDC.inATCData, ATC_readAt.
  change (HDC.drive (HDC.putDrive i (HDC.set_ibSector k d) c)) with (c.(HDC.drive)).
  rewrite Hsel. rewrite (getDrive_putDrive c i d _ Hd), deref_Some, bind_Ok.
  rewrite (readByte_at d dk sec k Herr Hdk Hsec (Hbytes k ltac:(lia))).
  rewrite bind_Ok. cbv beta iota zeta.
  cbn [JS.add HDC.ibSector HDC.set_ibSector JS.eqb HDC.cbSector].
  rewrite putDrive_putDrive.
  change (HDC.set_ibSector (k + 1) (HDC.set_ibSector k d)) with (HDC.set_ibSector (k + 1) d).
  destruct (k + 1 =? 1); [reflexivity|].
  rewrite Hcb. destruct (Z.eqb_spec (k + 1) cb); [lia|reflexivity].
Qed.

Lemma inATCData_last :
  1 < cb ->
  exists c' d',
    HDC.inATCData (ATC_readAt c i d (cb - 1)) = Ok (c', disk_read dk sec (Num (cb - 1)))
    /\ HDC.getDrive i c' = Some d'
    /\ d'.(HDC.nBytes) = Num (n - cb)
    /\ c'.(HDC.regSecCnt) = JS.band (c.(HDC.regSecCnt) - 1) 0xff
    /\ (n - cb < cb ->
        c'.(HDC.regStatus) = JS.bor HDC.ATC_STATUS_READY HDC.ATC_STATUS_SEEK_OK
        /\ c'.(HDC.chipset) = c.(HDC.chipset)
        /\ HDC_position d' = HDC_position d).
Proof.
  intros Hlt. unfold HDC.inATCData, ATC_readAt.
  change (HDC.drive (HDC.putDrive i (HDC.set_ibSector (cb - 1) d) c)) with (c.(HDC.drive)).
  rewrite Hsel. rewrite (getDrive_putDrive c i d _ Hd), deref_Some, bind_Ok.
  rewrite (readByte_at d dk sec (cb - 1) Herr Hdk Hsec (Hbytes (cb - 1) ltac:(lia))).
  rewrite bind_Ok. cbv beta iota zeta.
  cbn [JS.add HDC.ibSector HDC.set_ibSector JS.eqb HDC.cbSector].
  rewrite !putDrive_putDrive.
  replace (cb - 1 + 1) with cb by lia.
  change (HDC.set_ibSector cb (HDC.set_ibSector (cb - 1) d)) with (HDC.set_ibSector cb d).
  destruct (Z.eqb_spec cb 1); [lia|].
  rewrite Hcb, Z.eqb_refl.
  cbn [HDC.nBytes HDC.set_ibSector HDC.set_nBytes HDC.cbSector].
  rewrite Hn, Hcb. cbn [num_sub JS.geb].
  set (d1 := HDC.set_nBytes (Num (n - cb)) (HDC.set_ibSector (Num cb) d)).
  assert (Hg : forall (x : Drive) (c0 : Controller),
             HDC.aDrives c0 = <[i := x]> (HDC.aDrives c) ->
             HDC.getDrive i c0 = Some x).
  { intros x c0 E. unfold HDC.getDrive in *. rewrite E.
    apply list_lookup_insert_eq. eapply lookup_lt_Some; eauto. }
  destruct (Z.geb_spec (n - cb) cb) as [Hmore|Hdone].
  - destruct (readByte_returns d1 dk true false Hdk) as (d2 & b & Hrb & Hnb).
    rewrite Hrb, bind_Ok. cbv beta iota zeta.
    destruct (b >=? 0); eexists _, d2; (split; [reflexivity|]);
      (split; [apply Hg; cbn; rewrite ?aDrives_setATCIRR; cbn;
               now rewrite list_insert_insert_eq|]);
      (split; [exact Hnb|]); (split; [|lia]).
    + etransitivity; [apply setATCIRR_regs|reflexivity].
    + reflexivity.
  - eexists _, d1. split; [reflexivity|].
    split; [apply Hg; reflexivity|]. split; [reflexivity|]. split; [reflexivity|].
    intros _. repeat split.
Qed.

Lemma inATCDatas_run (m : nat) :
  forall k, 0 <= k -> k + Z.of_nat (S m) = cb -> 1 < cb ->
  exists c' d',
    inATCDatas (S m) (ATC_readAt c i d k) = Ok (c', sectorBytes dk sec k (S m))
    /\ HDC.getDrive i c' = Some d'
    /\ d'.(HDC.nBytes) = Num (n - cb)
    /\ c'.(HDC.regSecCnt) = JS.band (c.(HDC.regSecCnt) - 1) 0xff
    /\ (n - cb < cb ->
        c'.(HDC.regStatus) = JS.bor HDC.ATC_STATUS_READY HDC.ATC_STATUS_SEEK_OK
        /\ c'.(HDC.chipset) = c.(HDC.chipset)
        /\ HDC_position d' = HDC_position d).
Proof.
  induction m as [|m IH]; intros k Hk Hend Hlt.
  - assert (E : k = cb - 1) by lia. subst k.
    destruct (inATCData_last Hlt) as (c' & d' & Hrun & Hrest).
    exists c', d'. split; [|exact Hrest].
    cbn [inATCDatas]. rewrite Hrun, !bind_Ok. unfold sectorBytes. cbn.
    change (Z.of_nat 0) with 0. rewrite Z.add_0_r. reflexivity.
  - destruct (IH (k + 1)) as (c' & d' & Hrun & Hrest); [lia|lia|lia|].
    exists c', d'. split; [|exact Hrest].
    change (inATCDatas (S (S m)) (ATC_readAt c i d k))
      with (HDC.inATCData (ATC_readAt c i d k) ≫= fun '(c, b) =>
              inATCDatas (S m) c ≫= fun '(c, bs) => Ok (c, b :: bs)).
    rewrite inATCData_inside by lia. rewrite bind_Ok. cbv beta iota.
    rewrite Hrun, bind_Ok. cbv beta iota. now rewrite (sectorBytes_cons dk sec k (S m)).
Qed.

End Read.

(** X8.  A sector read through the data port of the ATC.  The drive that
    the command selected has located a sector of [cb] bytes and stands
    at its first byte: [cb] reads of the data port return the bytes of
    the sector in order, and the last of them takes the sector off the
    transfer: [nBytes] is down by [cb] and the Sector Count register is
    decremented modulo 256.  When that was the last sector of the
    transfer, the status is READY and SEEK_OK, no interrupt is
    requested and the drive has not moved. *)
Theorem X8_ATC_read_sector (c : Controller) (i : nat) (d : Drive) (dk : Disk)
    (sec : Sector) (cb n : Z) :
  c.(HDC.drive) = Some i ->
  HDC.getDrive i c = Some d ->
  d.(HDC.errorCode) = 0 ->
  d.(HDC.disk) = Some dk ->
  d.(HDC.sector) = Some sec ->
  d.(HDC.ibSector) = Num 0 ->
  d.(HDC.cbSector) = cb ->
  d.(HDC.nBytes) = Num n ->
  1 < cb ->
  (forall k, 0 <= k < cb -> 0 <= disk_read dk sec (Num k)) ->
  exists c' d',
    inATCDatas (Z.to_nat cb) c = Ok (c', sectorBytes dk sec 0 (Z.to_nat cb))
    /\ HDC.getDrive i c' = Some d'
    /\ d'.(HDC.nBytes) = Num (n - cb)
    /\ c'.(HDC.regSecCnt) = JS.band (c.(HDC.regSecCnt) - 1) 0xff
    /\ (n - cb < cb ->
        c'.(HDC.regStatus) = JS.bor HDC.ATC_STATUS_READY HDC.ATC_STATUS_SEEK_OK
        /\ c'.(HDC.chipset) = c.(HDC.chipset)
        /\ HDC_position d' = HDC_position d).
Proof.
  intros Hsel Hd Herr Hdk Hsec Hib Hcb Hn Hlt Hbytes.
  assert (E0 : ATC_readAt c i d 0 = c).
  { unfold ATC_readAt. rewrite <- Hib.
    change (HDC.set_ibSector (HDC.ibSector d) d) with d. now apply putDrive_id. }
  destruct (Z.to_nat cb) as [|m] eqn:Em; [lia|].
  assert (Hrun := inATCDatas_run c i d dk sec cb n Hsel Hd Herr Hdk Hsec Hcb Hn Hbytes m 0
                    ltac:(lia) ltac:(lia) Hlt).
  rewrite E0 in Hrun. exact Hrun.
Qed.

End ATC.

(** RESTORE on the one drive of the AT controller, interrupts enabled:
    the interrupt is requested. *)
Lemma X7_ATC_interrupt_witness :
  exists c',
    HDC.doATC (HDC.set_regCommand 0x10 (Examples.atc 1)) = Ok c'
    /\ raised IRQ_ATC (newCalls (Some []) c'.(HDC.chipset)) = true.
Proof.
  destruct (X7_ATC_interrupt (HDC.set_regCommand 0x10 (Examples.atc 1)) [] eq_refl)
    as (c' & Hrun & _ & Hirq).
  exists c'. split; [exact Hrun|].
  apply Hirq; [eexists; reflexivity|].
  split; [reflexivity|left; reflexivity].
Defined.

(** The first sector of the blank fixed disk, read through the data
    port in a one-sector transfer: 512 bytes, then READY and SEEK_OK. *)
Lemma X8_ATC_read_sector_witness :
  exists c' d',
    inATCDatas (Z.to_nat 512) (ATC_reading (Examples.atc 1) 0 (0, 0, 1) 512)
    = Ok (c', sectorBytes BlankDisk.fixedDisk (0, 0, 1) 0 (Z.to_nat 512))
    /\ HDC.getDrive 0 c' = Some d'
    /\ d'.(HDC.nBytes) = Num 0
    /\ c'.(HDC.regStatus) = 0x50.
Proof.
  destruct (X8_ATC_read_sector (ATC_reading (Examples.atc 1) 0 (0, 0, 1) 512) 0
              (ATC_located (Examples.hdDrive 0 0 0 1) (0, 0, 1) 512)
              BlankDisk.fixedDisk (0, 0, 1) 512 512
              eq_refl eq_refl eq_refl eq_refl eq_refl eq_refl eq_refl eq_refl ltac:(lia))
    as (c' & d' & Hrun & Hd & Hn & _ & Hdone).
  - intros k Hk. cbn. unfold BlankDisk.read, BlankDisk.inSector. cbn.
    destruct (Z.leb_spec 0 k); [|lia]. destruct (Z.ltb_spec k 512); [|lia]. cbn. lia.
  - exists c', d'. split; [exact Hrun|]. split; [exact Hd|]. split; [exact Hn|].
    apply Hdone. lia.
Defined.

(** ** The diskette drives: change line and history *)

Section FDC_media.

Context {Disk Sector : Type} {DP : DiskPort Disk Sector}.

Local Abbreviation Controller := (@FDC.Controller Disk Sector).
Local Abbreviation Drive := (@FDC.Drive Disk Sector).

(** [ToInt32] keeps the low 32 bits. *)
Lemma wrap32_bit (z n : Z) : 0 <= n < 32 -> Z.testbit (JS.wrap32 z) n = Z.testbit z n.
Proof.
  intros Hn. unfold JS.wrap32.
  rewrite <- (Z.mod_pow2_bits_low _ 32 n) by lia.
  rewrite <- (Z.mod_pow2_bits_low z 32 n) by lia.
  f_equal. rewrite Zminus_mod_idemp_l. f_equal. lia.
Qed.

(** A bit that was just set reads as set, one that was just cleared
    reads as clear. *)
Lemma band_bor_bit (x : Z) (k : Z) :
  0 <= k < 31 -> JS.band (JS.bor x (2 ^ k)) (2 ^ k) = 2 ^ k.
Proof.
  intros Hk. unfold JS.band, JS.bor.
  assert (Hw : JS.wrap32 (2 ^ k) = 2 ^ k).
  { unfold JS.wrap32. assert (0 < 2 ^ k < 2 ^ 31) by (split; [lia|apply Z.pow_lt_mono_r; lia]).
    rewrite Z.mod_small; lia. }
  rewrite Hw. apply Z.bits_inj'. intros n Hn.
  rewrite Z.land_spec, Z.pow2_bits_eqb by lia.
  destruct (Z.eqb_spec k n) as [<-|]; [|apply andb_false_r].
  rewrite wrap32_bit by lia. rewrite Z.lor_spec, Z.pow2_bits_eqb, Z.eqb_refl by lia.
  now rewrite orb_true_r.
Qed.

Lemma band_bnot_bit (x : Z) (k : Z) :
  0 <= k < 31 -> JS.band (JS.band x (JS.bnot (2 ^ k))) (2 ^ k) = 0.
Proof.
  intros Hk. unfold JS.band, JS.bnot.
  assert (Hw : JS.wrap32 (2 ^ k) = 2 ^ k).
  { unfold JS.wrap32. assert (0 < 2 ^ k < 2 ^ 31) by (split; [lia|apply Z.pow_lt_mono_r; lia]).
    rewrite Z.mod_small; lia. }
  rewrite Hw. apply Z.bits_inj'. intros n Hn.
  rewrite Z.land_spec, Z.pow2_bits_eqb, Z.bits_0 by lia.
  destruct (Z.eqb_spec k n) as [<-|]; [|apply andb_false_r].
  rewrite wrap32_bit by lia. rewrite Z.land_spec, !wrap32_bit by lia.
  rewrite Z.lnot_spec, Z.pow2_bits_eqb, Z.eqb_refl by lia.
  now rewrite andb_false_r.
Qed.

(** X9.  The disk change line.  Unloading a drive that holds a diskette
    takes the diskette out, clears its name and path, keeps the head
    where it is and everything else of the drive, and raises the change
    line: the next read of the Input
    register has DISK_CHANGE set, and the read after it has the bit
    clear again.  The reads change no drive.  Unloading a drive that is
    empty changes nothing: no change is signalled. *)
Theorem X9_FDC_change_line (c : Controller) (i : Z) (d : Drive) :
  FDC.getDrive i c = Some d ->
  (d.(FDC.disk) = None -> FDC.unloadDrive i c = Ok c)
  /\ (is_Some d.(FDC.disk) ->
      exists c1 d1,
        FDC.unloadDrive i c = Ok c1
        /\ FDC.getDrive i c1 = Some d1
        /\ d1.(FDC.disk) = None
        /\ d1.(FDC.sDisketteName) = Some EmptyString
        /\ d1.(FDC.sDiskettePath) = EmptyString
        /\ FDC_position d1 = FDC_position d
        /\ d1 = FDC_unloaded d
        /\ JS.band (snd (FDC.inFDCInput c1)) FDC.REG_INPUT_DISK_CHANGE
           = FDC.REG_INPUT_DISK_CHANGE
        /\ JS.band (snd (FDC.inFDCInput (fst (FDC.inFDCInput c1)))) FDC.REG_INPUT_DISK_CHANGE
           = 0
        /\ FDC.aDrives (fst (FDC.inFDCInput (fst (FDC.inFDCInput c1)))) = FDC.aDrives c1).
Proof.
  intros Hd. unfold FDC.unloadDrive. rewrite Hd, deref_Some, bind_Ok. split.
  - intros ->. reflexivity.
  - intros [dk Hdk]. rewrite Hdk.
    eexists _, _. split; [reflexivity|].
    split; [eapply FDC_getDrive_put; [exact Hd|reflexivity..]|].
    split; [reflexivity|]. split; [reflexivity|]. split; [reflexivity|].
    split; [reflexivity|]. split; [unfold FDC_unloaded; now rewrite Hdk|].
    split; [|split; [|reflexivity]].
    + cbn [FDC.inFDCInput snd FDC.regInput FDC.set_regInput].
      exact (band_bor_bit _ 7 ltac:(lia)).
    + cbn [FDC.inFDCInput snd fst FDC.regInput FDC.set_regInput].
      exact (band_bnot_bit _ 7 ltac:(lia)).
Qed.

(** *** The history of mounted images *)

Lemma eqStr_refl (p : option string) : FDC.eqStr p p = true.
Proof. destruct p; [apply String.eqb_refl|reflexivity]. Qed.

Lemma updateDiskHistory_length (h : list (option string * option string * jsval))
    (p : option string) (dk : Disk) :
  length (FDC.updateDiskHistory_loop h p dk) = length h.
Proof.
  induction h as [|[[n q] d] h IH]; [reflexivity|]. cbn.
  destruct (FDC.eqStr q p); cbn; [reflexivity|now rewrite IH].
Qed.

(** An image mounted from a path that the history knows is brought up
    to date from the deltas that the last unload of the path saved. *)
Lemma add_after_update (h : list (option string * option string * jsval))
    (n p : option string) (dk dk' : Disk) :
  FDC_known p h = true ->
  FDC.addDiskHistory_loop (FDC.updateDiskHistory_loop h p dk) n p dk'
  = (FDC.updateDiskHistory_loop h p dk, snd (disk_restore dk' (disk_save dk))).
Proof.
  induction h as [|[[m q] d] h IH]; [discriminate|]. cbn.
  destruct (FDC.eqStr q p) eqn:E; cbn; rewrite E; [reflexivity|].
  cbn. intros Hk. now rewrite (IH Hk).
Qed.

(** An image mounted from a path that the history does not know is
    entered at its end, with no deltas, and is not changed. *)
Lemma add_unknown (h : list (option string * option string * jsval))
    (n p : option string) (dk : Disk) :
  FDC_known p h = false ->
  FDC.addDiskHistory_loop h n p dk = (h ++ [(n, p, JArr [])], dk).
Proof.
  induction h as [|[[m q] d] h IH]; [reflexivity|]. cbn.
  destruct (FDC.eqStr q p); [discriminate|]. cbn. intros Hk. now rewrite (IH Hk).
Qed.

(** X10.  A diskette that is taken out and put back.  When the history
    knows the path of the diskette in a drive, unloading the drive and
    then mounting a freshly loaded image of the same path gives the
    drive that image restored from the image state saved at the unload
    ([disk.restore] of [disk.save]); the history keeps its length, the
    drive is not busy and has the path again, and the change line is
    up. *)
Theorem X10_FDC_remount (c : Controller) (i : Z) (d : Drive) (dk dk' : Disk)
    (sName : option string) :
  FDC.getDrive i c = Some d ->
  d.(FDC.disk) = Some dk ->
  FDC_known (Some d.(FDC.sDiskettePath)) c.(FDC.aDiskHistory) = true ->
  exists c1 c2 d2,
    FDC.unloadDrive i c = Ok c1
    /\ FDC.mountDiskette i (Some dk') sName d.(FDC.sDiskettePath) c1 = Ok c2
    /\ FDC.getDrive i c2 = Some d2
    /\ d2.(FDC.disk) = Some (snd (disk_restore dk' (disk_save dk)))
    /\ d2.(FDC.sDiskettePath) = d.(FDC.sDiskettePath)
    /\ d2.(FDC.sDisketteName) = sName
    /\ d2.(FDC.fBusy) = false
    /\ length c2.(FDC.aDiskHistory) = length c.(FDC.aDiskHistory)
    /\ JS.band c2.(FDC.regInput) FDC.REG_INPUT_DISK_CHANGE = FDC.REG_INPUT_DISK_CHANGE.
Proof.
  intros Hd Hdk Hk.
  set (d1 := FDC.set_disk None (FDC.set_sDiskettePath EmptyString
               (FDC.set_sDisketteName (Some EmptyString) d))).
  set (c1 := FDC.set_regInput (JS.bor c.(FDC.regInput) FDC.REG_INPUT_DISK_CHANGE)
               (FDC.putDrive i d1
                  (FDC.updateDiskHistory (Some d.(FDC.sDiskettePath)) dk c))).
  assert (Hun : FDC.unloadDrive i c = Ok c1).
  { unfold FDC.unloadDrive. rewrite Hd, deref_Some, bind_Ok, Hdk. reflexivity. }
  assert (Hg : FDC.getDrive i c1 = Some d1)
    by (apply (FDC_getDrive_put c _ i i d _ Hd); reflexivity).
  exists c1. rewrite Hun. unfold FDC.mountDiskette.
  rewrite Hg, deref_Some, bind_Ok.
  unfold FDC.addDiskHistory.
  change (FDC.aDiskHistory c1)
    with (FDC.updateDiskHistory_loop c.(FDC.aDiskHistory) (Some d.(FDC.sDiskettePath)) dk).
  rewrite (add_after_update _ sName _ dk dk' Hk).
  change (FDC.fAutoMount
            (FDC.set_disk (Some (snd (disk_restore dk' (disk_save dk))))
               (FDC.set_sDiskettePath (FDC.sDiskettePath d)
                  (FDC.set_sDisketteName sName
                     (FDC.set_disk (Some dk') (FDC.set_fBusy false d1))))))
    with (FDC.fAutoMount d).
  destruct (FDC.fAutoMount d); [destruct (negb _)|];
    eexists _, _; (split; [reflexivity|]); (split; [reflexivity|]);
    (split; [apply (FDC_getDrive_put c1 _ i i d1 _ Hg); reflexivity|]);
    (split; [reflexivity|]); (split; [reflexivity|]); (split; [reflexivity|]);
    (split; [reflexivity|]);
    (split; [cbn; apply updateDiskHistory_length|]);
    cbn; exact (band_bor_bit _ 7 ltac:(lia)).
Qed.

(** X11.  The history of mounted images, by path.  Mounting an image
    from a path that the history does not know puts the image in the
    drive as it was loaded and enters the path at the end of the
    history with no deltas; from then on the history knows the path,
    and what it knew of other paths is as before. *)
Theorem X11_FDC_mount_new (c : Controller) (i : Z) (d : Drive) (dk : Disk)
    (sName : option string) (sPath : string) :
  FDC.getDrive i c = Some d ->
  FDC_known (Some sPath) c.(FDC.aDiskHistory) = false ->
  exists c1 d1,
    FDC.mountDiskette i (Some dk) sName sPath c = Ok c1
    /\ FDC.getDrive i c1 = Some d1
    /\ d1.(FDC.disk) = Some dk
    /\ d1.(FDC.sDiskettePath) = sPath
    /\ c1.(FDC.aDiskHistory) = c.(FDC.aDiskHistory) ++ [(sName, Some sPath, JArr [])]
    /\ FDC_known (Some sPath) c1.(FDC.aDiskHistory) = true
    /\ (forall q, FDC.eqStr (Some sPath) q = false ->
                  FDC_known q c1.(FDC.aDiskHistory) = FDC_known q c.(FDC.aDiskHistory)).
Proof.
  intros Hd Hk. unfold FDC.mountDiskette. rewrite Hd, deref_Some, bind_Ok.
  unfold FDC.addDiskHistory. rewrite (add_unknown _ sName _ dk Hk).
  change (FDC.fAutoMount
            (FDC.set_disk (Some dk)
               (FDC.set_sDiskettePath sPath
                  (FDC.set_sDisketteName sName
                     (FDC.set_disk (Some dk) (FDC.set_fBusy false d))))))
    with (FDC.fAutoMount d).
  assert (Hlast : forall q, FDC_known q (c.(FDC.aDiskHistory) ++ [(sName, Some sPath, JArr [])])
                            = FDC_known q c.(FDC.aDiskHistory) || FDC.eqStr (Some sPath) q).
  { intros q. unfold FDC_known. rewrite existsb_app. cbn. now rewrite orb_false_r. }
  destruct (FDC.fAutoMount d); [destruct (negb _)|];
    eexists _, _; (split; [reflexivity|]);
    (split; [apply (FDC_getDrive_put c _ i i d _ Hd); reflexivity|]);
    (split; [reflexivity|]); (split; [reflexivity|]); (split; [reflexivity|]);
    (split; [cbn [FDC.aDiskHistory FDC.putDrive FDC.set_aDrives FDC.set_regInput
                  FDC.set_aDiskHistory FDC.set_cAutoMount FDC.set_fReady];
             rewrite Hlast, eqStr_refl; apply orb_true_r|]);
    intros q Hq;
    cbn [FDC.aDiskHistory FDC.putDrive FDC.set_aDrives FDC.set_regInput
         FDC.set_aDiskHistory FDC.set_cAutoMount FDC.set_fReady];
    rewrite Hlast, Hq; apply orb_false_r.
Qed.

End FDC_media.

(** The diskette of drive 0 is unloaded: the change line reads 0x80
    once. *)
Lemma X9_FDC_change_line_witness :
  exists c1 d1,
    FDC.unloadDrive 0 (Examples.fdc (Some [])) = Ok c1
    /\ FDC.getDrive 0 c1 = Some d1
    /\ d1.(FDC.sDisketteName) = Some EmptyString
    /\ d1.(FDC.sDiskettePath) = EmptyString
    /\ snd (FDC.inFDCInput c1) = 0x80
    /\ snd (FDC.inFDCInput (fst (FDC.inFDCInput c1))) = 0.
Proof.
  destruct (X9_FDC_change_line (Examples.fdc (Some [])) 0 (Examples.fdDrive 0 0 1) eq_refl)
    as (_ & Hrun).
  destruct (Hrun ltac:(eexists; reflexivity)) as (c1 & d1 & Hun & Hd1 & _ & Hname & Hpath & _).
  exists c1, d1. split; [exact Hun|]. split; [exact Hd1|].
  split; [exact Hname|]. split; [exact Hpath|].
  injection Hun as <-. split; reflexivity.
Defined.

(** The blank diskette, known to the history, is taken out of drive 0
    and put back. *)
Lemma X10_FDC_remount_witness :
  exists c1 c2 d2,
    FDC.unloadDrive 0 (FDC.set_aDiskHistory [(Some "blank"%string, Some "blank.json"%string, JArr [])]
                         (Examples.fdc (Some []))) = Ok c1
    /\ FDC.mountDiskette 0 (Some BlankDisk.diskette) (Some "blank"%string) "blank.json" c1 = Ok c2
    /\ FDC.getDrive 0 c2 = Some d2
    /\ d2.(FDC.disk) = Some BlankDisk.diskette.
Proof.
  destruct (X10_FDC_remount
              (FDC.set_aDiskHistory [(Some "blank"%string, Some "blank.json"%string, JArr [])]
                 (Examples.fdc (Some [])))
              0 (Examples.fdDrive 0 0 1) BlankDisk.diskette BlankDisk.diskette
              (Some "blank"%string) eq_refl eq_refl eq_refl)
    as (c1 & c2 & d2 & Hun & Hm & Hg & Hdk & _).
  exists c1, c2, d2. split; [exact Hun|]. split; [exact Hm|]. split; [exact Hg|exact Hdk].
Defined.

(** A second diskette is mounted in the empty drive 1. *)
Lemma X11_FDC_mount_new_witness :
  exists c1,
    FDC.mountDiskette 1 (Some BlankDisk.diskette) (Some "dos"%string) "dos.json"
                      (Examples.fdc (Some [])) = Ok c1
    /\ c1.(FDC.aDiskHistory) = [(Some "dos"%string, Some "dos.json"%string, JArr [])].
Proof.
  destruct (X11_FDC_mount_new (Examples.fdc (Some [])) 1 Examples.fdEmpty BlankDisk.diskette
              (Some "dos"%string) "dos.json" eq_refl eq_refl)
    as (c1 & d1 & Hm & _ & _ & _ & Hh & _).
  exists c1. split; [exact Hm|exact Hh].
Defined.

(** ** The command protocol of the FDC *)

Section FDC_protocol.

Context {Disk Sector : Type} {DP : DiskPort Disk Sector} {M : @FDC.Machine Disk Sector}.

Local Abbreviation Controller := (@FDC.Controller Disk Sector).
Local Abbreviation Drive := (@FDC.Drive Disk Sector).

Lemma outFDCDatas_snoc (pre : list Z) (b : Z) (c : Controller) :
  outFDCDatas (pre ++ [b]) c = outFDCDatas pre c ≫= FDC.outFDCData b.
Proof. unfold outFDCDatas. rewrite fold_left_app. reflexivity. Qed.

Lemma FDC_buffered_nil (c : Controller) :
  c.(FDC.regDataTotal) = 0 -> FDC_buffered [] c = c.
Proof.
  intros Ht. unfold FDC_buffered. cbn. rewrite drop_0.
  change (Z.of_nat 0) with 0. rewrite <- Ht. reflexivity.
Qed.

Lemma band_wrap32_l (a b : Z) : JS.band (JS.wrap32 a) b = JS.band a b.
Proof. unfold JS.band. now rewrite wrap32_idem. Qed.

(** One byte written to the data port while the FIFO has room: it is
    buffered; the command runs when the FIFO holds as many bytes as the
    request of the command in its first cell takes. *)
Lemma outFDCData_buffered (c : Controller) (pre : list Z) (b bCmd : Z) :
  length c.(FDC.regDataArray) = 9%nat ->
  (length pre < 9)%nat ->
  hd_error (pre ++ [b]) = Some bCmd ->
  FDC.outFDCData b (FDC_buffered pre c)
  = match FDC.cbWrite (JS.band bCmd FDC.CMD_MASK) with
    | Some cb => if Z.of_nat (S (length pre)) >=? cb
                 then FDC.doCmd (FDC_buffered (pre ++ [b]) c)
                 else Ok (FDC_buffered (pre ++ [b]) c)
    | None => Ok (FDC_buffered (pre ++ [b]) c)
    end.
Proof.
  intros Harr Hlt Hhd. unfold FDC.outFDCData. cbv zeta.
  assert (Hlen : length ((Num <$> pre) ++ drop (length pre) (FDC.regDataArray c)) = 9%nat).
  { rewrite length_app, length_fmap, length_drop. lia. }
  change (FDC.regDataTotal (FDC_buffered pre c)) with (Z.of_nat (length pre)).
  change (FDC.regDataArray (FDC_buffered pre c))
    with ((Num <$> pre) ++ drop (length pre) (FDC.regDataArray c)).
  rewrite Hlen.
  destruct (Z.ltb_spec (Z.of_nat (length pre)) (Z.of_nat 9)); [|lia].
  rewrite Nat2Z.id, buffered_snoc by lia.
  cbn [FDC.regDataArray FDC.set_regDataArray FDC.set_regDataTotal FDC.regDataTotal].
  rewrite (aget_buffered_0 _ _ bCmd Hhd). cbn [JS.toInt32]. rewrite band_wrap32_l.
  assert (Hsnoc : length (pre ++ [b]) = S (length pre)) by (rewrite length_app; cbn; lia).
  assert (E : FDC.set_regDataTotal (Z.of_nat (length pre) + 1)
                (FDC.set_regDataArray
                   ((Num <$> pre ++ [b]) ++ drop (length (pre ++ [b])) (FDC.regDataArray c))
                   (FDC_buffered pre c))
              = FDC_buffered (pre ++ [b]) c).
  { unfold FDC_buffered. rewrite Hsnoc.
    replace (Z.of_nat (length pre) + 1) with (Z.of_nat (S (length pre))) by lia.
    reflexivity. }
  rewrite E.
  replace (Z.of_nat (length pre) + 1) with (Z.of_nat (S (length pre))) by lia.
  reflexivity.
Qed.

(** A byte written to the data port while the FIFO is full of a request
    that is no command is dropped. *)
Lemma outFDCData_full (c : Controller) (pre : list Z) (b bCmd : Z) :
  length c.(FDC.regDataArray) = 9%nat ->
  length pre = 9%nat ->
  hd_error pre = Some bCmd ->
  FDC.cbWrite (JS.band bCmd FDC.CMD_MASK) = None ->
  FDC.outFDCData b (FDC_buffered pre c) = Ok (FDC_buffered pre c).
Proof.
  intros Harr Hlen Hhd Hno. unfold FDC.outFDCData. cbv zeta.
  assert (Hl : length ((Num <$> pre) ++ drop (length pre) (FDC.regDataArray c)) = 9%nat).
  { rewrite length_app, length_fmap, length_drop. lia. }
  change (FDC.regDataTotal (FDC_buffered pre c)) with (Z.of_nat (length pre)).
  change (FDC.regDataArray (FDC_buffered pre c))
    with ((Num <$> pre) ++ drop (length pre) (FDC.regDataArray c)).
  rewrite Hl. destruct (Z.ltb_spec (Z.of_nat (length pre)) (Z.of_nat 9)); [lia|].
  change (FDC.regDataArray (FDC_buffered pre c))
    with ((Num <$> pre) ++ drop (length pre) (FDC.regDataArray c)).
  rewrite (aget_buffered_0 _ _ bCmd Hhd). cbn [JS.toInt32].
  rewrite band_wrap32_l, Hno. reflexivity.
Qed.

Lemma cbWrite_bound (m n : Z) : FDC.cbWrite m = Some n -> 1 <= n <= 9.
Proof.
  unfold FDC.cbWrite, FDC.aCmdSeqs.
  repeat match goal with
         | |- context [if ?a =? ?b then _ else _] => destruct (a =? b)
         end; cbn; intros [= <-]; lia.
Qed.

Lemma outFDCDatas_prefix (c : Controller) (bytes : list Z) (bCmd n : Z) :
  c.(FDC.regDataTotal) = 0 ->
  length c.(FDC.regDataArray) = 9%nat ->
  hd_error bytes = Some bCmd ->
  FDC.cbWrite (JS.band bCmd FDC.CMD_MASK) = Some n ->
  (length bytes <= Z.to_nat n)%nat ->
  forall k, (k < length bytes)%nat ->
            outFDCDatas (take k bytes) c = Ok (FDC_buffered (take k bytes) c).
Proof.
  intros Ht Harr Hhd Hcb Hlen. pose proof (cbWrite_bound _ _ Hcb) as Hn.
  induction k as [|k IH]; intros Hk.
  - cbn. now rewrite FDC_buffered_nil.
  - destruct (lookup_lt_is_Some_2 bytes k ltac:(lia)) as [b Hb].
    rewrite (take_S_r _ _ _ Hb), outFDCDatas_snoc, IH, bind_Ok by lia.
    rewrite (outFDCData_buffered c (take k bytes) b bCmd Harr).
    + rewrite Hcb, length_take.
      destruct (Z.geb_spec (Z.of_nat (S (k `min` length bytes))) n); [lia|reflexivity].
    + rewrite length_take. lia.
    + rewrite <- (take_S_r _ _ _ Hb). destruct bytes; [discriminate|exact Hhd].
Qed.

Lemma outFDCDatas_unsupported (c : Controller) (bCmd : Z) (bytes : list Z) :
  c.(FDC.regDataTotal) = 0 ->
  length c.(FDC.regDataArray) = 9%nat ->
  FDC.cbWrite (JS.band bCmd FDC.CMD_MASK) = None ->
  outFDCDatas (bCmd :: bytes) c = Ok (FDC_buffered (take 9 (bCmd :: bytes)) c).
Proof.
  intros Ht Harr Hno. induction bytes as [|b bytes IH] using rev_ind.
  - change (outFDCDatas [bCmd] c) with (FDC.outFDCData bCmd c).
    rewrite <- (FDC_buffered_nil c Ht) at 1.
    rewrite (outFDCData_buffered c [] bCmd bCmd Harr) by (cbn; first [lia|reflexivity]).
    now rewrite Hno.
  - change (bCmd :: bytes ++ [b]) with ((bCmd :: bytes) ++ [b]).
    rewrite outFDCDatas_snoc, IH, bind_Ok.
    destruct (Nat.lt_ge_cases (length (bCmd :: bytes)) 9) as [Hlt|Hge].
    + rewrite (take_ge (bCmd :: bytes)) by lia.
      rewrite (outFDCData_buffered c (bCmd :: bytes) b bCmd Harr Hlt eq_refl), Hno.
      rewrite (take_ge ((bCmd :: bytes) ++ [b])); [reflexivity|].
      rewrite length_app. cbn in *. lia.
    + rewrite (take_app_le (bCmd :: bytes) [b]) by lia.
      apply (outFDCData_full c _ b bCmd Harr); [rewrite length_take; lia|reflexivity|exact Hno].
Qed.

(** X12.  The request of an FDC command.  On a controller whose FIFO of
    nine cells is empty, the bytes written to the data port are only
    buffered until there are as many as the command in the first byte
    takes ([cbWrite]); the byte that completes the request runs
    [doCmd], once, on the controller that holds the request.  When the
    first byte is no command of the controller, nothing ever runs:
    the first nine bytes are buffered and the rest is dropped. *)
Theorem X12_FDC_command_bytes (c : Controller) (bytes : list Z) (bCmd : Z) :
  c.(FDC.regDataTotal) = 0 ->
  length c.(FDC.regDataArray) = 9%nat ->
  hd_error bytes = Some bCmd ->
  (forall n, FDC.cbWrite (JS.band bCmd FDC.CMD_MASK) = Some n ->
             length bytes = Z.to_nat n ->
             (forall k, (k < length bytes)%nat ->
                        outFDCDatas (take k bytes) c = Ok (FDC_buffered (take k bytes) c))
             /\ outFDCDatas bytes c = FDC.doCmd (FDC_buffered bytes c))
  /\ (FDC.cbWrite (JS.band bCmd FDC.CMD_MASK) = None ->
      outFDCDatas bytes c = Ok (FDC_buffered (take 9 bytes) c)).
Proof.
  intros Ht Harr Hhd. split.
  - intros n Hcb Hlen. pose proof (cbWrite_bound _ _ Hcb) as Hn. split.
    + apply (outFDCDatas_prefix c bytes bCmd n); auto. lia.
    + destruct (lookup_lt_is_Some_2 bytes (length bytes - 1) ltac:(lia)) as [b Hb].
      assert (E : bytes = take (length bytes - 1) bytes ++ [b]).
      { rewrite <- (take_S_r _ _ _ Hb).
        replace (S (length bytes - 1)) with (length bytes) by lia.
        now rewrite take_ge by lia. }
      rewrite E at 1. rewrite outFDCDatas_snoc.
      rewrite (outFDCDatas_prefix c bytes bCmd n) by (auto; lia). rewrite bind_Ok.
      rewrite (outFDCData_buffered c (take (length bytes - 1) bytes) b bCmd Harr).
      * rewrite Hcb, length_take, <- E.
        destruct (Z.geb_spec (Z.of_nat (S ((length bytes - 1) `min` length bytes))) n);
          [reflexivity|lia].
      * rewrite length_take. lia.
      * now rewrite <- E.
  - intros Hno. destruct bytes as [|b0 bytes]; [discriminate|].
    injection Hhd as ->. now apply outFDCDatas_unsupported.
Qed.

End FDC_protocol.

(** SEEK takes three bytes: two are buffered, the third runs it.  A
    request that starts with 0x0A, which is no command, is buffered
    and never runs. *)
Lemma X12_FDC_command_bytes_witness :
  outFDCDatas [0x0F; 0x00] (Examples.fdc (Some []))
  = Ok (FDC_buffered [0x0F; 0x00] (Examples.fdc (Some [])))
  /\ outFDCDatas [0x0F; 0x00; 0x05] (Examples.fdc (Some []))
     = FDC.doCmd (FDC_buffered [0x0F; 0x00; 0x05] (Examples.fdc (Some [])))
  /\ outFDCDatas [0x0A; 0x00; 0x05] (Examples.fdc (Some []))
     = Ok (FDC_buffered [0x0A; 0x00; 0x05] (Examples.fdc (Some []))).
Proof.
  destruct (X12_FDC_command_bytes (Examples.fdc (Some [])) [0x0F; 0x00; 0x05] 0x0F
              eq_refl eq_refl eq_refl) as (Hcmd & _).
  destruct (Hcmd 3 eq_refl eq_refl) as (Hpre & Hrun).
  destruct (X12_FDC_command_bytes (Examples.fdc (Some [])) [0x0A; 0x00; 0x05] 0x0A
              eq_refl eq_refl eq_refl) as (_ & Hno).
  split; [exact (Hpre 2%nat ltac:(cbn; lia))|]. split; [exact Hrun|exact (Hno eq_refl)].
Defined.

(** ** The Result Phase of the FDC *)

Section FDC_results.

Context {Disk Sector : Type} {DP : DiskPort Disk Sector} {M : @FDC.Machine Disk Sector}.

Local Abbreviation Controller := (@FDC.Controller Disk Sector).
Local Abbreviation Drive := (@FDC.Drive Disk Sector).

Lemma FDC_quiet_refl (c : Controller) : FDC_quiet c c.
Proof. now apply FDC_quiet_eq. Qed.

Lemma FDC_quiet_trans (c c1 c2 : Controller) :
  FDC_quiet c c1 -> FDC_quiet c1 c2 -> FDC_quiet c c2.
Proof.
  intros (Ho1 & calls1 & Hc1 & Hr1) (Ho2 & calls2 & Hc2 & Hr2).
  split; [congruence|]. exists (calls2 ++ calls1). split.
  - rewrite Hc2, Hc1. destruct (FDC.chipset c); cbn; [|reflexivity].
    now rewrite app_assoc.
  - unfold raised in *. rewrite existsb_app, Hr1, Hr2. reflexivity.
Qed.

(** A read of the data port raises no interrupt and changes no drive. *)
Lemma inFDCData_quiet (c : Controller) :
  FDC_quiet c (fst (FDC.inFDCData c))
  /\ FDC.aDrives (fst (FDC.inFDCData c)) = FDC.aDrives c.
Proof.
  unfold FDC.inFDCData. cbv zeta.
  destruct (JS.truthyZ (JS.band (FDC.regOutput c) FDC.REG_OUTPUT_INT_ENABLE));
    match goal with
    | |- context [if ?b then _ else _] => destruct b
    end; cbn [fst]; (split; [|reflexivity]); (split; [reflexivity|]);
    first [ exists []; split; [|reflexivity]; cbn; now destruct (FDC.chipset c)
          | exists [ClearIRR IRQ_FDC]; split; [|reflexivity]; cbn;
            now destruct (FDC.chipset c) ].
Qed.

Lemma inFDCData_byte (c : Controller) :
  snd (FDC.inFDCData c)
  = if c.(FDC.regDataIndex) <? c.(FDC.regDataTotal)
    then JS.aget c.(FDC.regDataArray) c.(FDC.regDataIndex) else Num 0.
Proof.
  unfold FDC.inFDCData. cbv zeta.
  repeat match goal with
         | |- context [if ?x then _ else _] => destruct x
         end; reflexivity.
Qed.

(** Reading the bytes of a response from the data port: they come in
    the order of the FIFO; the last read empties it and takes the
    controller out of the Result Phase. *)
Lemma inFDCDatas_drain (bs : list JS.num) :
  forall (c : Controller) (k : nat),
    bs <> [] ->
    c.(FDC.regDataIndex) = Z.of_nat k ->
    c.(FDC.regDataTotal) = Z.of_nat (k + length bs) ->
    (forall j b, bs !! j = Some b -> JS.aget c.(FDC.regDataArray) (Z.of_nat (k + j)) = b) ->
    let c' := fst (inFDCDatas (length bs) c) in
    snd (inFDCDatas (length bs) c) = bs
    /\ c'.(FDC.regDataIndex) = 0 /\ c'.(FDC.regDataTotal) = 0
    /\ c'.(FDC.regStatus)
       = JS.band c.(FDC.regStatus)
                 (JS.bnot (JS.bor FDC.REG_STATUS_READ_DATA FDC.REG_STATUS_BUSY))
    /\ c'.(FDC.aDrives) = c.(FDC.aDrives)
    /\ FDC_quiet c c'.
Proof.
  induction bs as [|b bs IH]; intros c k Hne Hi Ht Hcells; [congruence|].
  cbn [inFDCDatas length].
  pose proof (inFDCData_quiet c) as [Hq Hdr].
  assert (Hb : snd (FDC.inFDCData c) = b).
  { unfold FDC.inFDCData. cbv zeta. rewrite Hi, Ht.
    destruct (Z.ltb_spec (Z.of_nat k) (Z.of_nat (k + length (b :: bs)))); [|cbn in *; lia].
    specialize (Hcells 0%nat b eq_refl). rewrite Nat.add_0_r in Hcells.
    match goal with
    | |- context [if ?x then _ else _] => destruct x
    end; exact Hcells. }
  destruct bs as [|b' bs].
  - clear IH. revert Hq Hdr Hb. unfold FDC.inFDCData. cbv zeta.
    cbn [FDC.regDataIndex FDC.regDataTotal FDC.set_regDataIndex FDC.set_chipset].
    assert (Hlast : forall x : Controller,
               FDC.regDataIndex x = FDC.regDataIndex c ->
               FDC.regDataTotal x = FDC.regDataTotal c ->
               (FDC.regDataIndex x + 1 >=? FDC.regDataTotal x) = true).
    { intros x -> ->. rewrite Hi, Ht. cbn. apply Z.geb_le. lia. }
    destruct (JS.truthyZ (JS.band (FDC.regOutput c) FDC.REG_OUTPUT_INT_ENABLE));
      cbn [FDC.regDataIndex FDC.regDataTotal FDC.set_regDataIndex FDC.set_chipset];
      rewrite (Hlast c eq_refl eq_refl); cbn; intros Hq Hdr ->; repeat split; auto;
      apply Hq.
  - destruct (FDC.inFDCData c) as [c1 b1] eqn:E1. cbn [fst snd] in *. subst b1.
    assert (Hi1 : c1.(FDC.regDataIndex) = Z.of_nat (S k)
                  /\ c1.(FDC.regDataTotal) = c.(FDC.regDataTotal)
                  /\ c1.(FDC.regDataArray) = c.(FDC.regDataArray)
                  /\ c1.(FDC.regStatus) = c.(FDC.regStatus)).
    { revert E1. unfold FDC.inFDCData. cbv zeta.
      assert (Hmid : forall x : Controller,
                 FDC.regDataIndex x = FDC.regDataIndex c ->
                 FDC.regDataTotal x = FDC.regDataTotal c ->
                 (FDC.regDataIndex x + 1 >=? FDC.regDataTotal x) = false).
      { intros x -> ->. rewrite Hi, Ht. cbn [length].
        destruct (Z.geb_spec (Z.of_nat k + 1) (Z.of_nat (k + S (S (length bs))))); [lia|reflexivity]. }
      destruct (JS.truthyZ (JS.band (FDC.regOutput c) FDC.REG_OUTPUT_INT_ENABLE));
        cbn [FDC.regDataIndex FDC.regDataTotal FDC.set_regDataIndex FDC.set_chipset];
        rewrite (Hmid c eq_refl eq_refl); intros [= <- _]; cbn; rewrite Hi;
        repeat split; lia. }
    destruct Hi1 as (Hi1 & Ht1 & Ha1 & Hs1).
    specialize (IH c1 (S k) ltac:(discriminate) Hi1).
    destruct IH as (Hbs & Hidx & Htot & Hst & Hdrv & Hq').
    { rewrite Ht1, Ht. cbn [length]. lia. }
    { intros j x Hx. rewrite Ha1.
      replace (S k + j)%nat with (k + S j)%nat by lia. now apply Hcells. }
    destruct (inFDCDatas (length (b' :: bs)) c1) as [c2 out] eqn:E2.
    cbn [fst snd] in *. subst out.
    split; [reflexivity|]. split; [exact Hidx|]. split; [exact Htot|].
    split; [now rewrite Hst, Hs1|]. split; [now rewrite Hdrv|].
    eapply FDC_quiet_trans; eauto.
Qed.

(** X13.  The response of a command.  When a command leaves [n] bytes in the
    FIFO, [n] reads of the data port return them in order; the last
    read empties the FIFO and clears READ_DATA and BUSY in the status
    register, so that a further read returns 0.  No read raises an
    interrupt or changes a drive. *)
Theorem X13_FDC_result_bytes (c : Controller) (bs : list JS.num) :
  bs <> [] ->
  c.(FDC.regDataIndex) = 0 ->
  c.(FDC.regDataTotal) = Z.of_nat (length bs) ->
  take (length bs) c.(FDC.regDataArray) = bs ->
  let c' := fst (inFDCDatas (length bs) c) in
  snd (inFDCDatas (length bs) c) = bs
  /\ c'.(FDC.regDataIndex) = 0 /\ c'.(FDC.regDataTotal) = 0
  /\ c'.(FDC.regStatus)
     = JS.band c.(FDC.regStatus)
               (JS.bnot (JS.bor FDC.REG_STATUS_READ_DATA FDC.REG_STATUS_BUSY))
  /\ c'.(FDC.aDrives) = c.(FDC.aDrives)
  /\ FDC_quiet c c'
  /\ snd (FDC.inFDCData c') = Num 0.
Proof.
  intros Hne Hi Ht Harr. cbv zeta.
  destruct (inFDCDatas_drain bs c 0 Hne Hi Ht) as (Hbs & Hidx & Htot & Hst & Hdrv & Hq).
  { intros j b Hb. cbn. unfold JS.aget.
    destruct (Z.ltb_spec (Z.of_nat j) 0); [lia|].
    rewrite Nat2Z.id, <- (lookup_take_lt _ (length bs)), Harr, Hb
      by (eapply lookup_lt_Some; eauto). reflexivity. }
  repeat (split; [assumption|]).
  rewrite inFDCData_byte, Hidx, Htot. reflexivity.
Qed.

(** *** SEEK and SENSE INTERRUPT STATUS *)

Lemma FDC_block_aget (c : Controller) (bytes : list Z) (k : nat) (b : Z) :
  FDC_block bytes c ->
  bytes !! k = Some b ->
  JS.aget c.(FDC.regDataArray) (Z.of_nat k) = Num b.
Proof.
  intros [Harr Ht] Hb. unfold JS.aget. destruct (Z.ltb_spec (Z.of_nat k) 0); [lia|].
  rewrite Nat2Z.id, <- (lookup_take_lt _ (length bytes)), Harr, list_lookup_fmap, Hb
    by (eapply lookup_lt_Some; eauto). reflexivity.
Qed.

Ltac fdc_pop Hblock k b :=
  rewrite (FDC_popCmd_at _ k b)
    by (first [reflexivity | exact (FDC_block_aget _ _ (Z.to_nat k) b Hblock eq_refl)]);
  rewrite bind_Ok; cbv beta iota.

Ltac fdc_push k :=
  rewrite (FDC_pushResult_at _ k) by (cbn; first [reflexivity|lia]);
  rewrite bind_Ok; cbv beta.

(** SENSE INTERRUPT STATUS written to the data port of a controller
    whose FIFO is empty: two bytes to read, ST0 of the selected drive
    and its cylinder; no interrupt, and no drive changes. *)
Lemma outFDCData_INT_STATUS (c : Controller) (d : Drive) :
  length c.(FDC.regDataArray) = 9%nat ->
  c.(FDC.regDataTotal) = 0 ->
  FDC.getDrive c.(FDC.iDrive_sel) c = Some d ->
  exists c2,
    FDC.outFDCData FDC.CMD_INT_STATUS c = Ok c2
    /\ c2.(FDC.regDataIndex) = 0 /\ c2.(FDC.regDataTotal) = 2
    /\ take 2 c2.(FDC.regDataArray)
       = [Num (JS.bor (JS.bor c.(FDC.iDrive_sel) d.(FDC.bHead))
                      (JS.band d.(FDC.errorCode) FDC.ERR_ST0));
          Num d.(FDC.bCylinder)]
    /\ c2.(FDC.regStatus)
       = JS.bor c.(FDC.regStatus) (JS.bor FDC.REG_STATUS_READ_DATA FDC.REG_STATUS_BUSY)
    /\ c2.(FDC.chipset) = c.(FDC.chipset)
    /\ c2.(FDC.aDrives) = c.(FDC.aDrives).
Proof.
  intros Harr Ht Hd.
  assert (E : FDC.outFDCData FDC.CMD_INT_STATUS c
              = FDC.doCmd (FDC_buffered [FDC.CMD_INT_STATUS] c)).
  { pose proof (outFDCData_buffered c [] FDC.CMD_INT_STATUS FDC.CMD_INT_STATUS Harr
                  ltac:(cbn; lia) eq_refl) as H.
    rewrite (FDC_buffered_nil c Ht) in H. exact H. }
  rewrite E. clear E.
  destruct (FDC.regDataArray c) as [|a0 [|a1 arr]] eqn:Ea; [discriminate..|].
  unfold FDC.doCmd. cbv zeta.
  rewrite (FDC_popCmd_at _ 0 FDC.CMD_INT_STATUS) by (cbn; rewrite ?Ea; reflexivity).
  rewrite bind_Ok. cbv beta iota.
  change (JS.band FDC.CMD_INT_STATUS FDC.CMD_MASK) with FDC.CMD_INT_STATUS.
  change (FDC.CMD_INT_STATUS =? FDC.CMD_SPECIFY) with false.
  change (FDC.CMD_INT_STATUS =? FDC.CMD_DRIVE_STATUS) with false.
  change (FDC.CMD_INT_STATUS =? FDC.CMD_WRITE_DATA) with false.
  change (FDC.CMD_INT_STATUS =? FDC.CMD_READ_DATA) with false.
  change (FDC.CMD_INT_STATUS =? FDC.CMD_RECALIBRATE) with false.
  change (FDC.CMD_INT_STATUS =? FDC.CMD_INT_STATUS) with true.
  cbv iota. cbn [orb].
  cbn [FDC.iUnit FDC.set_iUnit FDC.iDrive_sel FDC.set_regDataIndex FDC_buffered
       FDC.set_regDataTotal FDC.set_regDataArray].
  erewrite (FDC_getDrive_congr _ _ _ _ _ Hd) by reflexivity.
  rewrite deref_Some, bind_Ok. cbv beta.
  unfold FDC.pushST0, FDC.beginResult.
  cbn [FDC.iUnit FDC.set_iUnit FDC.iDrive_sel FDC.set_regDataIndex FDC_buffered
       FDC.set_regDataTotal FDC.set_regDataArray].
  erewrite (FDC_getDrive_congr _ _ _ _ _ Hd) by reflexivity.
  rewrite deref_Some, bind_Ok. cbv beta.
  fdc_push 0. fdc_push 1. rewrite bind_Ok. cbv beta iota.
  cbn [FDC.regDataTotal FDC.set_regDataTotal FDC.set_regDataArray FDC.set_regStatus
       FDC.regOutput FDC.set_regDataIndex FDC.set_iUnit].
  change (1 + 1 >? 0) with true. cbv iota.
  cbn [FDC.regOutput FDC.set_regStatus FDC.set_regDataTotal FDC.set_regDataArray
       FDC.set_regDataIndex FDC.set_iUnit mbind option_bind FDC.iUnit].
  erewrite (FDC_getDrive_congr _ _ _ _ _ Hd) by reflexivity.
  rewrite andb_false_r.
  match goal with
  | |- context [if JS.truthyZ ?x then _ else _] => destruct (JS.truthyZ x)
  end;
    eexists; (split; [reflexivity|]); repeat split; cbn; rewrite ?Ea;
    change (Z.to_nat 0) with 0%nat; change (Z.to_nat 1) with 1%nat; reflexivity.
Qed.

(** X14.  SEEK and the sense that follows it.  SEEK for a unit that has a
    drive puts the drive on the cylinder and the head of the request,
    with SEEK_END as its error code, leaves no byte to read and requests
    the interrupt when INT_ENABLE is set.  SENSE INTERRUPT STATUS
    written to the data port next, the unit being the selected drive,
    runs at once and leaves two bytes to read: ST0, which is the unit
    ORed with the head and SEEK_END, and the cylinder of the request.
    The sense raises no interrupt and changes no drive. *)
Theorem X14_FDC_seek_sense (c : Controller) (bCmd bUS NCN : Z) (drive : Drive) :
  let unit := FDC.unitSelect bUS in
  let seeked := FDC.set_errorCode FDC.ERR_SEEK_END
                  (FDC.set_bCylinder NCN (FDC.set_bHead (FDC.headSelect bUS) drive)) in
  length c.(FDC.regDataArray) = 9%nat ->
  JS.band bCmd FDC.CMD_MASK = FDC.CMD_SEEK ->
  FDC_block [bCmd; bUS; NCN] c ->
  FDC.getDrive unit c = Some drive ->
  c.(FDC.iDrive_sel) = unit ->
  exists c1 c2,
    FDC.doCmd c = Ok c1
    /\ FDC.getDrive unit c1 = Some seeked
    /\ c1.(FDC.regDataTotal) = 0
    /\ c1.(FDC.regStatus) = c.(FDC.regStatus)
    /\ c1.(FDC.chipset)
       = (if JS.truthyZ (JS.band c.(FDC.regOutput) FDC.REG_OUTPUT_INT_ENABLE)
          then chip (SetIRR IRQ_FDC) c.(FDC.chipset) else c.(FDC.chipset))
    /\ FDC.outFDCData FDC.CMD_INT_STATUS c1 = Ok c2
    /\ c2.(FDC.regDataIndex) = 0 /\ c2.(FDC.regDataTotal) = 2
    /\ take 2 c2.(FDC.regDataArray)
       = [Num (JS.bor (JS.bor unit (FDC.headSelect bUS)) FDC.ERR_SEEK_END); Num NCN]
    /\ c2.(FDC.chipset) = c1.(FDC.chipset)
    /\ c2.(FDC.aDrives) = c1.(FDC.aDrives).
Proof.
  intros unit seeked Harr Hm Hblock Hd Hsel.
  assert (Hrun : exists c1,
             FDC.doCmd c = Ok c1
             /\ FDC.getDrive unit c1 = Some seeked
             /\ c1.(FDC.regDataTotal) = 0
             /\ c1.(FDC.regStatus) = c.(FDC.regStatus)
             /\ c1.(FDC.chipset)
                = (if JS.truthyZ (JS.band c.(FDC.regOutput) FDC.REG_OUTPUT_INT_ENABLE)
                   then chip (SetIRR IRQ_FDC) c.(FDC.chipset) else c.(FDC.chipset))
             /\ c1.(FDC.iDrive_sel) = c.(FDC.iDrive_sel)
             /\ length c1.(FDC.regDataArray) = 9%nat).
  { unfold FDC.doCmd. cbv zeta.
    assert (Hb : FDC_block [bCmd; bUS; NCN] (FDC.set_regDataIndex 0 c)) by exact Hblock.
    fdc_pop Hblock 0 bCmd. rewrite Hm.
    change (FDC.CMD_SEEK =? FDC.CMD_SPECIFY) with false.
    change (FDC.CMD_SEEK =? FDC.CMD_DRIVE_STATUS) with false.
    change (FDC.CMD_SEEK =? FDC.CMD_WRITE_DATA) with false.
    change (FDC.CMD_SEEK =? FDC.CMD_READ_DATA) with false.
    change (FDC.CMD_SEEK =? FDC.CMD_RECALIBRATE) with false.
    change (FDC.CMD_SEEK =? FDC.CMD_INT_STATUS) with false.
    change (FDC.CMD_SEEK =? FDC.CMD_FORMAT_TRACK) with false.
    change (FDC.CMD_SEEK =? FDC.CMD_SEEK) with true.
    cbv iota. cbn [orb].
    fdc_pop Hblock 1 bUS. fold unit.
    erewrite (FDC_getDrive_congr _ _ _ _ _ Hd) by reflexivity.
    rewrite deref_Some, bind_Ok. cbv beta.
    fdc_pop Hblock 2 NCN. fold seeked. rewrite bind_Ok. cbv beta iota.
    unfold FDC.beginResult.
    cbn [FDC.regDataTotal FDC.set_regDataTotal FDC.set_regDataIndex FDC.putDrive
         FDC.set_aDrives FDC.regOutput FDC.set_iUnit mbind option_bind].
    change (0 >? 0) with false. cbv iota.
    cbn [FDC.regDataTotal FDC.set_regDataTotal FDC.set_regDataIndex FDC.putDrive
         FDC.set_aDrives FDC.regOutput FDC.set_iUnit mbind option_bind].
    match goal with
    | |- context [FDC.getDrive unit ?x] =>
        assert (Hg : FDC.getDrive unit x = Some seeked)
          by (apply (FDC_getDrive_put c _ unit unit drive _ Hd); reflexivity)
    end.
    rewrite Hg.
    change (negb (JS.truthyZ (JS.band (FDC.errorCode seeked) FDC.ERR_NOT_READY)) && true)
      with true. cbv iota.
    destruct (JS.truthyZ (JS.band (FDC.regOutput c) FDC.REG_OUTPUT_INT_ENABLE));
      eexists; (split; [reflexivity|]); (split; [exact Hg|]);
      repeat split; try exact Harr. }
  destruct Hrun as (c1 & Hrun & Hg1 & Ht1 & Hs1 & Hc1 & Hsel1 & Harr1).
  destruct (outFDCData_INT_STATUS c1 seeked Harr1 Ht1) as (c2 & Hout & Hi2 & Ht2 & Hres & _ & Hc2 & Hd2).
  { rewrite Hsel1, Hsel. exact Hg1. }
  exists c1, c2. repeat (split; [assumption|]).
  split; [|split; assumption].
  rewrite Hres, Hsel1, Hsel. reflexivity.
Qed.

(** *** WRITE DATA on a protected diskette *)

Ltac exists_result_wp :=
  eexists _, _; (split; [reflexivity|]);
  (split; [match goal with Hg : FDC.getDrive _ _ = Some _ |- _ =>
             erewrite (FDC_getDrive_congr _ _ _ _ _ Hg) by reflexivity; reflexivity
           end|]);
  (split; [assumption|]); (split; [reflexivity|]);
  (split; [assumption|]); repeat split.

Ltac fdc_pop_at Harr k b :=
  rewrite (FDC_popCmd_at _ k b) by (cbn; rewrite ?Harr; reflexivity);
  rewrite bind_Ok; cbv beta iota.

(** X15.  WRITE DATA for a drive whose diskette is write-protected.  The
    command ends without a transfer: no DMA is connected or requested,
    the diskette is the one that was in the drive, and the error code
    of the drive is NOT_WRITABLE with INCOMPLETE.  The Result Phase has
    its seven bytes: ST0 with INCOMPLETE, ST1 with NOT_WRITABLE, ST2
    clear, then the cylinder, head and sector of the request and its
    size code.  The interrupt is requested when INT_ENABLE is set. *)
Theorem X15_FDC_write_protected (c : Controller)
    (bCmd bUS C H R N EOT GPL DTL : Z) (drive : Drive) (dk : Disk) :
  let unit := FDC.unitSelect bUS in
  JS.band bCmd FDC.CMD_MASK = FDC.CMD_WRITE_DATA ->
  FDC_received [bCmd; bUS; C; H; R; N; EOT; GPL; DTL] c ->
  FDC.getDrive unit c = Some drive ->
  drive.(FDC.disk) = Some dk ->
  disk_fWriteProtected dk = true ->
  exists c' drive',
    FDC.doCmd c = Ok c'
    /\ FDC.getDrive unit c' = Some drive'
    /\ drive'.(FDC.disk) = Some dk
    /\ drive'.(FDC.errorCode) = JS.bor FDC.ERR_NOT_WRITABLE FDC.ERR_INCOMPLETE
    /\ take 7 c'.(FDC.regDataArray)
       = [Num (JS.bor (JS.bor unit (FDC.headSelect bUS)) FDC.ERR_INCOMPLETE);
          Num 0x02; Num 0x00; Num C; Num (FDC.headSelect bUS); Num R; Num N]
    /\ c'.(FDC.regDataIndex) = 0
    /\ c'.(FDC.regDataTotal) = 7
    /\ c'.(FDC.chipset)
       = (if JS.truthyZ (JS.band c.(FDC.regOutput) FDC.REG_OUTPUT_INT_ENABLE)
          then chip (SetIRR IRQ_FDC) c.(FDC.chipset) else c.(FDC.chipset)).
Proof.
  intros unit Hm [Harr Htot] Hd Hdk Hwp.
  set (phase := FDC_commandPhase bUS C R N EOT drive c).
  set (dW := FDC.set_errorCode (JS.bor FDC.ERR_NOT_WRITABLE FDC.ERR_INCOMPLETE)
               (FDC.set_errorCode (JS.bor FDC.ERR_NOT_READY FDC.ERR_INCOMPLETE)
                  (FDC_programmed bUS C R N EOT drive))).
  assert (Hx : FDC.doWrite unit phase = Ok (FDC.putDrive unit dW phase)).
  { unfold FDC.doWrite.
    pose proof (getDrive_commandPhase c bUS C R N EOT drive Hd) as Hp.
    fold unit phase in Hp. rewrite Hp, deref_Some, bind_Ok.
    cbv beta zeta.
    change (FDC.disk (FDC.set_errorCode (JS.bor FDC.ERR_NOT_READY FDC.ERR_INCOMPLETE)
                        (FDC_programmed bUS C R N EOT drive)))
      with (FDC.disk drive).
    rewrite Hdk, Hwp. reflexivity. }
  assert (Hg : FDC.getDrive unit (FDC.putDrive unit dW phase) = Some dW).
  { apply (FDC_getDrive_put c _ unit unit drive _ Hd); [|reflexivity].
    cbn. apply list_insert_insert_eq. }
  unfold FDC.doCmd. cbv zeta.
  fdc_pop_at Harr 0 bCmd. rewrite Hm.
  change (FDC.CMD_WRITE_DATA =? FDC.CMD_SPECIFY) with false.
  change (FDC.CMD_WRITE_DATA =? FDC.CMD_DRIVE_STATUS) with false.
  change (FDC.CMD_WRITE_DATA =? FDC.CMD_WRITE_DATA) with true.
  change (FDC.CMD_WRITE_DATA =? FDC.CMD_READ_DATA) with false.
  cbv iota. cbn [orb].
  fdc_pop_at Harr 1 bUS. fold unit.
  erewrite (FDC_getDrive_congr _ _ _ _ _ Hd) by reflexivity.
  rewrite deref_Some, bind_Ok. cbv beta.
  fdc_pop_at Harr 2 C. fdc_pop_at Harr 3 H. fdc_pop_at Harr 4 R. fdc_pop_at Harr 5 N.
  fdc_pop_at Harr 6 EOT. fdc_pop_at Harr 7 GPL. fdc_pop_at Harr 8 DTL.
  match goal with
  | |- context [FDC.doWrite unit ?x] => change x with phase
  end.
  rewrite Hx, bind_Ok. cbv beta.
  erewrite (FDC_getDrive_congr _ _ _ _ _ Hg) by reflexivity.
  rewrite deref_Some, bind_Ok. cbv beta.
  unfold FDC.pushST0, FDC.pushST1, FDC.pushST2.
  erewrite (FDC_getDrive_congr _ _ _ _ _ Hg) by reflexivity.
  rewrite deref_Some, bind_Ok. cbv beta.
  fdc_push 0. fdc_push 1. fdc_push 2. fdc_push 3. fdc_push 4. fdc_push 5. fdc_push 6.
  rewrite bind_Ok. cbv beta iota.
  match goal with
  | |- context [FDC.regDataTotal ?x >? 0] => set (cR := x)
  end.
  change (FDC.regDataTotal cR >? 0) with true. cbv iota.
  cbn [mbind option_bind].
  erewrite (FDC_getDrive_congr _ _ _ _ _ Hg) by reflexivity.
  change (negb (JS.truthyZ (JS.band (FDC.errorCode dW) FDC.ERR_NOT_READY)) && true)
    with true. cbv iota.
  assert (Hres : take 7 (FDC.regDataArray cR)
                 = [Num (JS.bor (JS.bor unit (FDC.headSelect bUS)) FDC.ERR_INCOMPLETE);
                    Num 0x02; Num 0x00; Num C; Num (FDC.headSelect bUS); Num R; Num N]).
  { subst cR. cbn. rewrite Harr. reflexivity. }
  match goal with
  | |- context [if JS.truthyZ ?x then _ else _] =>
      change x with (JS.band (FDC.regOutput c) FDC.REG_OUTPUT_INT_ENABLE)
  end.
  destruct (JS.truthyZ (JS.band (FDC.regOutput c) FDC.REG_OUTPUT_INT_ENABLE));
    exists_result_wp.
Qed.

End FDC_results.

(** The two bytes of a sense are read; a third read returns 0. *)
Lemma X13_FDC_result_bytes_witness :
  snd (inFDCDatas 2 Runs2.fdcSensed) = [Num 0x20; Num 5]
  /\ snd (FDC.inFDCData (fst (inFDCDatas 2 Runs2.fdcSensed))) = Num 0.
Proof.
  destruct (X13_FDC_result_bytes Runs2.fdcSensed [Num 0x20; Num 5]
              ltac:(discriminate) eq_refl eq_refl eq_refl)
    as (Hbs & _ & _ & _ & _ & _ & Hzero).
  split; [exact Hbs|exact Hzero].
Defined.

(** SEEK to cylinder 5 on drive 0, then the sense: ST0 is 0x20, the
    cylinder is 5. *)
Lemma X14_FDC_seek_sense_witness :
  exists c1 c2,
    FDC.doCmd Runs2.fdcSeek = Ok c1
    /\ FDC.outFDCData 0x08 c1 = Ok c2
    /\ take 2 c2.(FDC.regDataArray) = [Num 0x20; Num 5].
Proof.
  destruct (X14_FDC_seek_sense Runs2.fdcSeek 0x0F 0x00 0x05 (Examples.fdDrive 0 0 1)
              eq_refl eq_refl (conj eq_refl eq_refl) eq_refl eq_refl)
    as (c1 & c2 & Hrun & _ & _ & _ & _ & Hout & _ & _ & Hres & _).
  exists c1, c2. split; [exact Hrun|]. split; [exact Hout|exact Hres].
Defined.

(** WRITE DATA on the protected diskette: ST0 is 0x40, ST1 is 0x02. *)
Lemma X15_FDC_write_protected_witness :
  exists c',
    FDC.doCmd Runs2.fdcWriteProtected = Ok c'
    /\ take 7 c'.(FDC.regDataArray)
       = [Num 0x40; Num 0x02; Num 0x00; Num 0; Num 0; Num 1; Num 2].
Proof.
  destruct (X15_FDC_write_protected (DP := BlankDisk.port) Runs2.fdcWriteProtected
              0x45 0x00 0x00 0x00 0x01 0x02 0x09 0x2A 0xFF
              (FDC.set_disk (Some Runs2.protectedDiskette) (Examples.fdDrive 0 0 1))
              Runs2.protectedDiskette eq_refl (conj eq_refl eq_refl) eq_refl eq_refl eq_refl)
    as (c' & d' & Hrun & _ & _ & _ & Hres & _).
  exists c'. split; [exact Hrun|exact Hres].
Defined.

(** ** Reset of the FDC *)

Section FDC_reset.

Context {Disk Sector : Type} {DP : DiskPort Disk Sector} {M : @FDC.Machine Disk Sector}.

Local Abbreviation Controller := (@FDC.Controller Disk Sector).
Local Abbreviation Drive := (@FDC.Drive Disk Sector).

(** The saved states that the machine writes are marked with a version
    that is not [undefined]. *)
Hypothesis Hversion : JS.seq JUndef FDC.VERSION_102 = false.

Lemma initDrive_default (c : Controller) (i : Z) (d : Drive) :
  FDC.getDrive i c = Some d ->
  FDC.initDrive i JUndef c = Ok (FDC.putDrive i (FDC_resetDrive i d) c, true).
Proof.
  intros Hd. unfold FDC.initDrive. rewrite Hd, deref_Some, bind_Ok. cbv beta zeta.
  cbn [JS.get lookup list_lookup default id from_option
         Codec.toZ Codec.toBool Codec.toStr Codec.toNum].
  rewrite !bind_Ok. cbv beta. rewrite Hversion.
  fold (FDC_resetDrive i d). rewrite bind_Ok. cbv beta iota.
  assert (Hg : FDC.getDrive i (FDC.putDrive i (FDC_resetDrive i d) c)
               = Some (FDC_resetDrive i d))
    by (apply (FDC_getDrive_put c _ i i d _ Hd); reflexivity).
  rewrite Hg, deref_Some, bind_Ok. cbv beta.
  destruct (FDC.disk (FDC_resetDrive i d)); reflexivity.
Qed.

Lemma initDrives_default (n : nat) :
  forall (i : Z) (c : Controller),
    0 <= i ->
    (n + Z.to_nat i = length c.(FDC.aDrives))%nat ->
    exists L,
      FDC.initDrives n i (JArr []) c true = Ok (FDC.set_aDrives L c, true)
      /\ length L = length c.(FDC.aDrives)
      /\ forall j d, c.(FDC.aDrives) !! j = Some d ->
                     L !! j = Some (if (j <? Z.to_nat i)%nat then d
                                    else FDC_resetDrive (Z.of_nat j) d).
Proof.
  induction n as [|n IH]; intros i c Hi Hn.
  - exists c.(FDC.aDrives). split; [reflexivity|]. split; [reflexivity|].
    intros j d Hj. apply lookup_lt_Some in Hj as Hlt.
    destruct (Nat.ltb_spec j (Z.to_nat i)); [exact Hj|lia].
  - cbn [FDC.initDrives item]. rewrite bind_Ok. cbv beta.
    destruct (lookup_lt_is_Some_2 (FDC.aDrives c) (Z.to_nat i) ltac:(lia)) as [d0 Hd0].
    assert (Hg : FDC.getDrive i c = Some d0).
    { unfold FDC.getDrive. destruct (Z.ltb_spec i 0); [lia|exact Hd0]. }
    change (JS.get (JArr []) (Z.to_nat i)) with (default JUndef (@nil jsval !! Z.to_nat i)).
    rewrite lookup_nil. cbn [default id from_option].
    rewrite (initDrive_default c i d0 Hg), bind_Ok. cbv beta iota.
    destruct (IH (i + 1) (FDC.putDrive i (FDC_resetDrive i d0) c) ltac:(lia))
      as (L & Hrun & Hlen & Hget).
    { cbn. rewrite length_insert. lia. }
    exists L. split; [exact Hrun|]. split; [now rewrite Hlen; cbn; rewrite length_insert|].
    intros j d Hj. apply lookup_lt_Some in Hj as Hlt.
    destruct (Nat.eq_dec j (Z.to_nat i)) as [->|Hne].
    + rewrite (Hget (Z.to_nat i) (FDC_resetDrive i d0))
        by (cbn; apply list_lookup_insert_eq; lia).
      destruct (Nat.ltb_spec (Z.to_nat i) (Z.to_nat (i + 1))); [|lia].
      destruct (Nat.ltb_spec (Z.to_nat i) (Z.to_nat i)); [lia|].
      rewrite Hd0 in Hj. injection Hj as ->. now rewrite Z2Nat.id by lia.
    + rewrite (Hget j d) by (cbn; rewrite list_lookup_insert_ne by lia; exact Hj).
      destruct (Nat.ltb_spec j (Z.to_nat (i + 1))), (Nat.ltb_spec j (Z.to_nat i));
        try reflexivity; lia.
Qed.

(** [initController()] without saved state. *)
Lemma initController_default (c : Controller) :
  exists L,
    FDC.initController JUndef c
    = Ok (FDC.set_regControl FDC.REG_CONTROL_RATE500K
            (FDC.set_regInput 0
               (FDC.set_aDrives L
                  (FDC.set_regOutput 0
                     (FDC.set_regDataTotal 0
                        (FDC.set_regDataIndex 0
                           (FDC.set_regDataArray (JS.newArray 9)
                              (FDC.set_regStatus FDC.REG_STATUS_RQM
                                 (FDC.set_iUnit 0 (FDC.set_iDrive_sel 0 c))))))))), true)
    /\ length L = length (FDC_drives c)
    /\ forall j d, FDC_drives c !! j = Some d ->
                   L !! j = Some (FDC_resetDrive (Z.of_nat j) d).
Proof.
  unfold FDC.initController.
  cbn [JS.get lookup list_lookup default id from_option Codec.toZ].
  rewrite !bind_Ok. cbv beta.
  change (Codec.toNums (Codec.ofNums (JS.newArray 9))) with (Ok (A := list JS.num) (JS.newArray 9)).
  rewrite !bind_Ok. cbv beta zeta.
  match goal with
  | |- context [FDC.initDrives _ 0 _ ?x true] => set (c0 := x)
  end.
  destruct (initDrives_default (length (FDC.aDrives c0)) 0 c0 ltac:(lia) ltac:(lia))
    as (L & Hrun & Hlen & Hget).
  exists L. rewrite Hrun, bind_Ok. cbv beta iota.
  cbn [JS.or JS.truthy Codec.toZ]. rewrite !bind_Ok. cbv beta.
  assert (Hdr : FDC.aDrives c0 = FDC_drives c).
  { subst c0. unfold FDC_drives.
    cbn [FDC.aDrives FDC.set_regOutput FDC.set_regDataTotal FDC.set_regDataIndex
         FDC.set_regDataArray FDC.set_regStatus FDC.set_iUnit FDC.set_iDrive_sel].
    destruct (FDC.aDrives c) eqn:E; [reflexivity|exact E]. }
  split; [|split].
  - subst c0.
    cbn [FDC.aDrives FDC.set_regOutput FDC.set_regDataTotal FDC.set_regDataIndex
         FDC.set_regDataArray FDC.set_regStatus FDC.set_iUnit FDC.set_iDrive_sel].
    now destruct (FDC.aDrives c).
  - now rewrite Hlen, Hdr.
  - intros j d Hj. rewrite <- Hdr in Hj. rewrite (Hget j d Hj).
    destruct (Nat.ltb_spec j (Z.to_nat 0)); [lia|reflexivity].
Qed.

Lemma outFDCOutput_reset (c : Controller) (bOut : Z) :
  JS.band bOut FDC.REG_OUTPUT_ENABLE = 0 ->
  exists c',
    FDC.outFDCOutput bOut c = Ok c'
    /\ FDC_registers c'
       = (FDC_selects bOut 0, 0, FDC.REG_STATUS_RQM, JS.newArray 9, 0, 0, bOut, 0,
          FDC.REG_CONTROL_RATE500K)
    /\ c'.(FDC.chipset) = c.(FDC.chipset)
    /\ c'.(FDC.aDiskHistory) = c.(FDC.aDiskHistory)
    /\ length c'.(FDC.aDrives) = length (FDC_drives c)
    /\ forall j d, FDC_drives c !! j = Some d ->
         exists d',
           c'.(FDC.aDrives) !! j = Some d'
           /\ d'.(FDC.disk) = d.(FDC.disk)
           /\ d'.(FDC.sDisketteName) = d.(FDC.sDisketteName)
           /\ d'.(FDC.errorCode) = FDC.ERR_RESET
           /\ FDC_position d' = (Num 0, Num 0, Undef)
           /\ d'.(FDC.sector) = None
           /\ d'.(FDC.iDrive) = Z.of_nat j.
Proof.
  intros Hen. unfold FDC.outFDCOutput, FDC_selects, JS.truthyZ. rewrite Hen.
  cbn [Z.eqb negb].
  destruct (initController_default c) as (L & Hrun & Hlen & Hget).
  rewrite Hrun, !bind_Ok. cbv beta iota zeta.
  destruct (JS.band bOut (JS.shl FDC.REG_OUTPUT_MOTOR_A (JS.band bOut FDC.REG_OUTPUT_SELECT))
            =? 0); cbn [negb];
    eexists; (split; [reflexivity|]); (split; [reflexivity|]);
    (split; [reflexivity|]); (split; [reflexivity|]); (split; [exact Hlen|]);
    intros j d Hj; exists (FDC_resetDrive (Z.of_nat j) d);
    (split; [exact (Hget j d Hj)|]); repeat split.
Qed.

(** X16.  Reset of the FDC.  A byte with ENABLE clear written to the Output
    register resets the controller: the FIFO is empty, the status is
    RQM, the Input register is clear, and no interrupt is requested.
    Every drive keeps its diskette and its name; its error code is
    RESET, its head is at cylinder 0, head 0, and it has no sector
    located.  A controller that had no drives yet has four empty
    ones. *)
Theorem X16_FDC_reset (c : Controller) (bOut : Z) :
  JS.band bOut FDC.REG_OUTPUT_ENABLE = 0 ->
  exists c',
    FDC.outFDCOutput bOut c = Ok c'
    /\ FDC_registers c'
       = (FDC_selects bOut 0, 0, FDC.REG_STATUS_RQM, JS.newArray 9, 0, 0, bOut, 0,
          FDC.REG_CONTROL_RATE500K)
    /\ c'.(FDC.chipset) = c.(FDC.chipset)
    /\ c'.(FDC.aDiskHistory) = c.(FDC.aDiskHistory)
    /\ length c'.(FDC.aDrives) = length (FDC_drives c)
    /\ forall j d, FDC_drives c !! j = Some d ->
         exists d',
           c'.(FDC.aDrives) !! j = Some d'
           /\ d'.(FDC.disk) = d.(FDC.disk)
           /\ d'.(FDC.sDisketteName) = d.(FDC.sDisketteName)
           /\ d'.(FDC.errorCode) = FDC.ERR_RESET
           /\ FDC_position d' = (Num 0, Num 0, Undef)
           /\ d'.(FDC.sector) = None
           /\ d'.(FDC.iDrive) = Z.of_nat j.
Proof. exact (outFDCOutput_reset c bOut). Qed.

Lemma band_3_range (b : Z) : 0 <= JS.band b FDC.REG_OUTPUT_SELECT <= 3.
Proof.
  unfold JS.band. change (JS.wrap32 FDC.REG_OUTPUT_SELECT) with (Z.ones 2).
  rewrite Z.land_ones by lia. pose proof (Z.mod_pos_bound (JS.wrap32 b) (2 ^ 2)). lia.
Qed.

(** X17.  The reset pulse.  The controller is reset by a byte with ENABLE
    clear and released by a byte with ENABLE set, which selects a drive
    whose motor it turns on.  The release requests the interrupt exactly
    when INT_ENABLE was set in the byte that reset the controller.
    SENSE INTERRUPT STATUS written to the data port next leaves two
    bytes to read: ST0, which is the selected drive ORed with RESET
    (0xC0), and cylinder 0. *)
Theorem X17_FDC_reset_pulse (c : Controller) (b0 b1 : Z) :
  length c.(FDC.aDrives) = 4%nat ->
  JS.band b0 FDC.REG_OUTPUT_ENABLE = 0 ->
  JS.band b1 FDC.REG_OUTPUT_ENABLE <> 0 ->
  FDC_selects b1 (-1) = JS.band b1 FDC.REG_OUTPUT_SELECT ->
  exists c1 c2 c3,
    FDC.outFDCOutput b0 c = Ok c1
    /\ FDC.outFDCOutput b1 c1 = Ok c2
    /\ c2.(FDC.chipset)
       = (if JS.truthyZ (JS.band b0 FDC.REG_OUTPUT_INT_ENABLE)
          then chip (SetIRR IRQ_FDC) c.(FDC.chipset) else c.(FDC.chipset))
    /\ c2.(FDC.iDrive_sel) = JS.band b1 FDC.REG_OUTPUT_SELECT
    /\ c2.(FDC.regOutput) = b1
    /\ FDC.outFDCData FDC.CMD_INT_STATUS c2 = Ok c3
    /\ c3.(FDC.regDataTotal) = 2
    /\ take 2 c3.(FDC.regDataArray)
       = [Num (JS.bor (JS.bor (JS.band b1 FDC.REG_OUTPUT_SELECT) 0) FDC.ERR_RESET); Num 0]
    /\ c3.(FDC.chipset) = c2.(FDC.chipset).
Proof.
  intros Hlen Hen0 Hen1 Hsel.
  destruct (outFDCOutput_reset c b0 Hen0) as (c1 & Hrun1 & Hregs & Hcs & Hhist & Hlen1 & Hdrives).
  exists c1.
  injection Hregs as Hsel1 Hunit1 Hst1 Harr1 Hidx1 Htot1 Hout1 Hin1 Hctl1.
  assert (Hrun2 : exists c2,
             FDC.outFDCOutput b1 c1 = Ok c2
             /\ c2.(FDC.chipset)
                = (if JS.truthyZ (JS.band b0 FDC.REG_OUTPUT_INT_ENABLE)
                   then chip (SetIRR IRQ_FDC) c.(FDC.chipset) else c.(FDC.chipset))
             /\ c2.(FDC.iDrive_sel) = JS.band b1 FDC.REG_OUTPUT_SELECT
             /\ c2.(FDC.regOutput) = b1
             /\ c2.(FDC.aDrives) = c1.(FDC.aDrives)
             /\ c2.(FDC.regDataArray) = JS.newArray 9
             /\ c2.(FDC.regDataTotal) = 0).
  { revert Hsel. unfold FDC.outFDCOutput, FDC_selects, JS.truthyZ. rewrite Hout1, Hen0.
    destruct (Z.eqb_spec (JS.band b1 FDC.REG_OUTPUT_ENABLE) 0) as [E|_]; [contradiction|].
    cbn [Z.eqb negb].
    destruct (JS.band b1 (JS.shl FDC.REG_OUTPUT_MOTOR_A (JS.band b1 FDC.REG_OUTPUT_SELECT))
              =? 0); cbn [negb].
    { intros Hs. pose proof (band_3_range b1). lia. }
    intros _.
    destruct (JS.band b0 FDC.REG_OUTPUT_INT_ENABLE =? 0); cbn [negb];
      rewrite bind_Ok; cbv beta zeta;
      eexists; (split; [reflexivity|]); cbn; rewrite ?Hcs; repeat split; assumption. }
  destruct Hrun2 as (c2 & Hrun2 & Hcs2 & Hsel2 & Hout2 & Hdr2 & Harr2 & Htot2).
  exists c2.
  pose proof (band_3_range b1) as Hrange.
  assert (Hlt : (Z.to_nat (JS.band b1 FDC.REG_OUTPUT_SELECT) < length (FDC_drives c))%nat).
  { unfold FDC_drives. destruct (FDC.aDrives c); [discriminate|]. cbn in *. lia. }
  destruct (lookup_lt_is_Some_2 _ _ Hlt) as [d Hd].
  destruct (Hdrives _ d Hd) as (d' & Hd' & _ & _ & Herr & Hpos & _).
  assert (Hg : FDC.getDrive c2.(FDC.iDrive_sel) c2 = Some d').
  { unfold FDC.getDrive. rewrite Hsel2, Hdr2.
    destruct (Z.ltb_spec (JS.band b1 FDC.REG_OUTPUT_SELECT) 0); [lia|exact Hd']. }
  destruct (outFDCData_INT_STATUS c2 d' ltac:(now rewrite Harr2) Htot2 Hg)
    as (c3 & Hrun3 & _ & Htot3 & Hres & _ & Hcs3 & _).
  exists c3. repeat (split; [assumption|]). split; [|exact Hcs3].
  rewrite Hres, Hsel2, Herr. injection Hpos as -> ->. reflexivity.
Qed.

End FDC_reset.

(** The floppy controller is reset by 0x00 written to the Output
    register: the status is RQM and drive 0 keeps the blank diskette,
    with RESET as its error code. *)
Lemma X16_FDC_reset_witness :
  exists c' d',
    FDC.outFDCOutput 0x00 (Examples.fdc (Some [])) = Ok c'
    /\ c'.(FDC.regStatus) = 0x80
    /\ c'.(FDC.aDrives) !! 0%nat = Some d'
    /\ d'.(FDC.disk) = Some BlankDisk.diskette
    /\ d'.(FDC.errorCode) = 0xC0.
Proof.
  destruct (X16_FDC_reset (M := Examples.machine) eq_refl (Examples.fdc (Some [])) 0x00 eq_refl)
    as (c' & Hrun & Hregs & _ & _ & _ & Hdrives).
  destruct (Hdrives 0%nat (Examples.fdDrive 0 0 1) eq_refl)
    as (d' & Hd' & Hdk & _ & Herr & _).
  exists c', d'. split; [exact Hrun|].
  split; [injection Hregs as _ _ Hst _ _ _ _ _ _; exact Hst|].
  split; [exact Hd'|]. split; [exact Hdk|exact Herr].
Defined.

(** The reset pulse 0x08, 0x1C: the interrupt is requested, and the
    sense that follows reads 0xC0 and cylinder 0. *)
Lemma X17_FDC_reset_pulse_witness :
  exists c1 c2 c3,
    FDC.outFDCOutput 0x08 (Examples.fdc (Some [])) = Ok c1
    /\ FDC.outFDCOutput 0x1C c1 = Ok c2
    /\ c2.(FDC.chipset) = Some [SetIRR IRQ_FDC]
    /\ FDC.outFDCData 0x08 c2 = Ok c3
    /\ take 2 c3.(FDC.regDataArray) = [Num 0xC0; Num 0].
Proof.
  destruct (X17_FDC_reset_pulse (M := Examples.machine) eq_refl (Examples.fdc (Some []))
              0x08 0x1C eq_refl eq_refl ltac:(vm_compute; lia) eq_refl)
    as (c1 & c2 & c3 & Hrun1 & Hrun2 & Hcs & _ & _ & Hrun3 & _ & Hres & _).
  exists c1, c2, c3. split; [exact Hrun1|]. split; [exact Hrun2|].
  split; [exact Hcs|]. split; [exact Hrun3|exact Hres].
Defined.

(** ** Reset of the hard disk controller *)

Section HDC_reset.

Context {Disk Sector : Type} {DP : DiskPort Disk Sector}.

Local Abbreviation Controller := (@HDC.Controller Disk Sector).
Local Abbreviation Drive := (@HDC.Drive Disk Sector).

(** [initDrive] without saved state. *)
Lemma HDC_initDrive_default (c : Controller) (cs : ChipSet) (iDrv : nat) (drive : Drive)
    (cfg : option Z) (fHard : bool) :
  exists drive',
    HDC.initDrive c cs iDrv drive cfg JUndef fHard
    = Ok (if fHard then chip (SetCMOSDriveType (Z.of_nat iDrv) (HDC_typeOf c cfg)) cs else cs,
          drive', true)
    /\ HDC_isReset c iDrv cfg drive drive'.
Proof.
  destruct (HDC_typeOf_valid c cfg) as ([cyl heads] & Hty & Hheads). cbn in Hheads.
  unfold HDC.initDrive. cbv zeta.
  cbn [JS.get lookup list_lookup default id from_option
         Codec.toZ Codec.toBool Codec.toNum Codec.toOptNums].
  rewrite toNums_ofNums, !bind_Ok. cbv beta.
  change (match cfg with
          | Some t => if is_Some_b (HDC.aDriveTypes (HDC.iHDC c) t) then t
                      else HDC.iDriveTypeDefault c
          | None => HDC.iDriveTypeDefault c
          end) with (HDC_typeOf c cfg).
  rewrite Hty, deref_Some, bind_Ok. cbv beta.
  unfold HDC.verifyDrive. cbv zeta.
  cbn [HDC.abDriveParms HDC.type HDC.set_nCylinders HDC.set_nHeads].
  change (JS.truthyN (JS.aget (JS.newArray 8) 2)) with false. cbv iota.
  rewrite Hty, deref_Some, !bind_Ok. cbv beta iota.
  assert (Ht : JS.truthyN (Num heads) = true).
  { cbn. unfold JS.truthyZ. destruct (Z.eqb_spec heads 0); [contradiction|reflexivity]. }
  rewrite Ht, bind_Ok. cbv beta.
  cbn [HDC.disk HDC.set_nCylinders HDC.set_nHeads HDC.set_disk HDC.set_ibSector
       HDC.set_sector].
  destruct (HDC.disk drive) as [dk|] eqn:Hdk;
    cbn [HDC.disk HDC.set_nCylinders HDC.set_nHeads HDC.set_disk HDC.set_ibSector
         HDC.set_sector HDC.ibSector andb negb];
    eexists; (split; [reflexivity|]);
    unfold HDC_isReset; cbn; rewrite ?Hdk; repeat split; eauto.
Qed.

(** *** The switch bits of the configuration register *)

(** A value of [ToInt32] extends its sign bit. *)
Lemma wrap32_sign (z n : Z) :
  31 <= n -> Z.testbit (JS.wrap32 z) n = Z.testbit (JS.wrap32 z) 31.
Proof.
  intros Hn.
  assert (Hr : - 2 ^ 31 <= JS.wrap32 z < 2 ^ 31).
  { unfold JS.wrap32. pose proof (Z.mod_pos_bound (z + 2 ^ 31) (2 ^ 32)). lia. }
  set (w := JS.wrap32 z) in *. clearbody w.
  assert (Hbit : forall m, 31 <= m -> Z.testbit w m = (w <? 0)).
  { intros m Hm. destruct (Z.ltb_spec w 0) as [Hneg|Hpos].
    - apply Z.bits_above_log2_neg; [exact Hneg|].
      destruct (Z.eq_dec (Z.pred (- w)) 0) as [->|Hnz]; [cbn; lia|].
      assert (Z.log2 (Z.pred (- w)) < 31); [|lia].
      apply Z.log2_lt_pow2; lia.
    - destruct (Z.eq_dec w 0) as [->|Hnz]; [apply Z.bits_0|].
      apply Z.bits_above_log2; [exact Hpos|].
      assert (Z.log2 w < 31); [|lia].
      apply Z.log2_lt_pow2; lia. }
  rewrite (Hbit n Hn), (Hbit 31 ltac:(lia)). reflexivity.
Qed.

Lemma wrap32_extended (z : Z) :
  (forall n, 31 <= n -> Z.testbit z n = Z.testbit z 31) -> JS.wrap32 z = z.
Proof.
  intros Hz. apply Z.bits_inj'. intros n Hn.
  destruct (Z.lt_ge_cases n 32) as [Hlt|Hge]; [apply wrap32_bit; lia|].
  rewrite wrap32_sign, wrap32_bit by lia. symmetry. apply Hz. lia.
Qed.

Lemma bor_wrapped (x s : Z) : JS.wrap32 (JS.bor x s) = JS.bor x s.
Proof.
  apply wrap32_extended. intros n Hn. unfold JS.bor.
  rewrite !Z.lor_spec, !(wrap32_sign _ n Hn). reflexivity.
Qed.

Lemma bor_wrap32_l (x s : Z) : JS.bor (JS.wrap32 x) s = JS.bor x s.
Proof. unfold JS.bor. now rewrite wrap32_idem. Qed.

Lemma bor_absorb (x s : Z) : JS.bor (JS.bor x s) s = JS.bor x s.
Proof.
  unfold JS.bor at 1. rewrite bor_wrapped. unfold JS.bor.
  now rewrite <- Z.lor_assoc, Z.lor_diag.
Qed.

Lemma bor_keeps (x a b : Z) : JS.bor x a = x -> JS.bor (JS.bor x b) a = JS.bor x b.
Proof.
  intros H. assert (Hw : JS.wrap32 x = x) by (rewrite <- H; apply bor_wrapped).
  unfold JS.bor at 1. rewrite bor_wrapped. unfold JS.bor.
  rewrite <- Z.lor_assoc, (Z.lor_comm (JS.wrap32 b)), Z.lor_assoc.
  change (Z.lor (JS.wrap32 x) (JS.wrap32 a)) with (JS.bor x a). rewrite H.
  now rewrite Hw.
Qed.

(** The loop of [initController] over the drives, without saved state:
    every drive is reset, the switch bits of drives 0 and 1 are ORed
    into [regConfig], and a hard reset tells the CMOS the type of every
    drive. *)
Lemma HDC_initDrives_default (c : Controller) (fHard : bool) :
  forall (drives : list Drive) (iDrv : nat) (cs : ChipSet) (config : JS.num),
    (iDrv + length drives <= length c.(HDC.aDriveConfigs))%nat ->
    exists config' drives',
      HDC.initDrives c (JArr []) fHard iDrv drives cs config true
      = Ok (if fHard then (fun log => HDC_cmosCalls c iDrv (length drives) ++ log) <$> cs
            else cs, config', drives', true)
      /\ length drives' = length drives
      /\ (forall k d, drives !! k = Some d ->
            exists d' cfg,
              drives' !! k = Some d'
              /\ c.(HDC.aDriveConfigs) !! (iDrv + k)%nat = Some cfg
              /\ HDC_isReset c (iDrv + k) cfg d d')
      /\ match config with
         | Undef => config' = Undef
         | NaN => True
         | Num x =>
             exists x',
               config' = Num x'
               /\ (forall s, JS.bor x s = x -> JS.bor x' s = x')
               /\ (drives = [] -> x' = x)
               /\ forall k cfg,
                   (k < length drives)%nat -> (iDrv + k <= 1)%nat ->
                   c.(HDC.aDriveConfigs) !! (iDrv + k)%nat = Some cfg ->
                   JS.bor x' (HDC_switches c (iDrv + k) cfg) = x'
         end.
Proof.
  induction drives as [|d drives IH]; intros iDrv cs config Hn.
  - cbn [HDC.initDrives length HDC_cmosCalls]. exists config, [].
    split; [destruct fHard, cs; reflexivity|]. split; [reflexivity|].
    split; [intros k d Hk; discriminate|].
    destruct config as [| |x]; [reflexivity|exact I|].
    exists x. split; [reflexivity|]. split; [auto|]. split; [reflexivity|].
    intros k cfg Hk. cbn in Hk. lia.
  - cbn [length] in Hn. cbn [HDC.initDrives].
    destruct (lookup_lt_is_Some_2 (HDC.aDriveConfigs c) iDrv ltac:(lia)) as [cfg Hcfg].
    rewrite Hcfg, deref_Some, bind_Ok. cbv beta.
    cbn [item]. rewrite bind_Ok. cbv beta.
    change (JS.get (JArr []) iDrv) with (default JUndef (@nil jsval !! iDrv)).
    rewrite lookup_nil. cbn [default id from_option].
    destruct (HDC_initDrive_default c cs iDrv d cfg fHard) as (d' & Hinit & Hreset).
    rewrite Hinit, bind_Ok. cbv beta iota zeta. cbn [andb].
    assert (Htype : HDC.type d' = HDC_typeOf c cfg) by apply Hreset.
    rewrite Htype. fold (HDC_switches c iDrv cfg).
    assert (Hshape : forall config1 (P : JS.num -> Prop),
               (forall config' drives',
                   length drives' = length drives ->
                   (forall k d, drives !! k = Some d ->
                      exists d' cfg,
                        drives' !! k = Some d'
                        /\ c.(HDC.aDriveConfigs) !! (S iDrv + k)%nat = Some cfg
                        /\ HDC_isReset c (S iDrv + k) cfg d d') ->
                   match config1 with
                   | Undef => config' = Undef
                   | NaN => True
                   | Num x =>
                       exists x',
                         config' = Num x'
                         /\ (forall s, JS.bor x s = x -> JS.bor x' s = x')
                         /\ (drives = [] -> x' = x)
                         /\ forall k cfg,
                             (k < length drives)%nat -> (S iDrv + k <= 1)%nat ->
                             c.(HDC.aDriveConfigs) !! (S iDrv + k)%nat = Some cfg ->
                             JS.bor x' (HDC_switches c (S iDrv + k) cfg) = x'
                   end -> P config') ->
               exists config' drives',
                 (HDC.initDrives c (JArr []) fHard (S iDrv) drives
                    (if fHard
                     then chip (SetCMOSDriveType (Z.of_nat iDrv) (HDC_typeOf c cfg)) cs
                     else cs) config1 true
                  ≫= fun '(cs, config, drives, fSuccess) =>
                       Ok (cs, config, d' :: drives, fSuccess))
                 = Ok (if fHard
                       then (fun log => HDC_cmosCalls c iDrv (length (d :: drives)) ++ log)
                              <$> cs
                       else cs, config', drives', true)
                 /\ length drives' = length (d :: drives)
                 /\ (forall k x, (d :: drives) !! k = Some x ->
                       exists x' cfg,
                         drives' !! k = Some x'
                         /\ c.(HDC.aDriveConfigs) !! (iDrv + k)%nat = Some cfg
                         /\ HDC_isReset c (iDrv + k) cfg x x')
                 /\ P config').
    { intros config1 P HP.
      destruct (IH (S iDrv) (if fHard
                             then chip (SetCMOSDriveType (Z.of_nat iDrv) (HDC_typeOf c cfg)) cs
                             else cs) config1 ltac:(lia))
        as (config' & drives' & Hrec & Hlen & Hdrives & Hconfig).
      rewrite Hrec, bind_Ok. cbv beta iota.
      exists config', (d' :: drives').
      split; [|split; [cbn; now rewrite Hlen|split]].
      - f_equal. f_equal. f_equal. f_equal.
        destruct fHard; [|reflexivity]. destruct cs as [log|]; [|reflexivity].
        cbn [chip fmap option_fmap option_map length HDC_cmosCalls].
        rewrite Hcfg. cbn [default id from_option]. now rewrite <- app_assoc.
      - intros [|k] x Hx.
        + injection Hx as <-. exists d', cfg. rewrite Nat.add_0_r. auto.
        + destruct (Hdrives k x Hx) as (x' & cfg' & H1 & H2 & H3).
          exists x', cfg'. replace (iDrv + S k)%nat with (S iDrv + k)%nat by lia. auto.
      - apply (HP config' drives' Hlen Hdrives Hconfig). }
    destruct config as [| |x].
    + apply Hshape. intros config' drives' _ _ H. exact H.
    + apply Hshape. intros config' drives' _ _ H. exact I.
    + destruct (Nat.leb_spec iDrv 1) as [Hle|Hgt].
      * cbn [JS.toInt32]. rewrite bor_wrap32_l.
        apply Hshape. intros config' drives' _ _ (x' & -> & Hmono & _ & Hsw).
        exists x'. split; [reflexivity|].
        split; [intros s Hs; apply Hmono; now apply bor_keeps|].
        split; [discriminate|].
        intros [|k] cfg' Hk Hle' Hc'.
        -- rewrite Nat.add_0_r in *. rewrite Hcfg in Hc'. injection Hc' as <-.
           apply Hmono. apply bor_absorb.
        -- replace (iDrv + S k)%nat with (S iDrv + k)%nat in * by lia.
           apply (Hsw k cfg'); [cbn in Hk; lia|lia|exact Hc'].
      * apply Hshape. intros config' drives' _ _ (x' & -> & Hmono & _ & Hsw).
        exists x'. split; [reflexivity|]. split; [exact Hmono|]. split; [discriminate|].
        intros k cfg' Hk Hle'. lia.
Qed.


Lemma HDC_cmosCalls_ext (c1 c2 : Controller) (n : nat) :
  c1.(HDC.fATC) = c2.(HDC.fATC) ->
  c1.(HDC.aDriveConfigs) = c2.(HDC.aDriveConfigs) ->
  forall i, HDC_cmosCalls c1 i n = HDC_cmosCalls c2 i n.
Proof.
  intros Hf Hc. induction n as [|n IH]; intros i; [reflexivity|].
  cbn [HDC_cmosCalls]. rewrite IH, Hc.
  unfold HDC_typeOf, HDC.iHDC, HDC.iDriveTypeDefault. now rewrite Hf.
Qed.

(** [initController] without saved state. *)
Lemma HDC_initController_default (c : Controller) (data : jsval) (fHard : bool) :
  data = JUndef \/ data = JNull ->
  c.(HDC.aDrives) = [] \/ length c.(HDC.aDrives) = length c.(HDC.aDriveConfigs) ->
  exists c',
    HDC.initController data fHard c = Ok (c', true)
    /\ (if c.(HDC.fATC)
        then ATC_registers c' = (0, 0, 0, 0, 0, 0, 0, 0, HDC.ATC_STATUS_READY, 0)
        else XTC_registers c'
             = (c'.(HDC.regConfig), HDC.XTC_STATUS_NONE, JS.newArray 14, 0, 0,
                Undef, Undef, Undef, c.(HDC.iDriveAllowFail))
             /\ HDC_configured c'
             /\ exists x, c'.(HDC.regConfig) = Num x)
    /\ length c'.(HDC.aDrives) = length c.(HDC.aDriveConfigs)
    /\ (forall i d, HDC_drives c !! i = Some d ->
          exists d' cfg,
            c'.(HDC.aDrives) !! i = Some d'
            /\ c.(HDC.aDriveConfigs) !! i = Some cfg
            /\ HDC_isReset c i cfg d d')
    /\ c'.(HDC.chipset)
       = (if fHard
          then (fun log => HDC_cmosCalls c 0 (length c.(HDC.aDriveConfigs)) ++ log)
                 <$> c.(HDC.chipset)
          else c.(HDC.chipset))
    /\ c'.(HDC.drive) = c.(HDC.drive)
    /\ c'.(HDC.dmaSession) = c.(HDC.dmaSession)
    /\ c'.(HDC.aDriveConfigs) = c.(HDC.aDriveConfigs)
    /\ c'.(HDC.fATC) = c.(HDC.fATC).
Proof.
  intros Hdata Hdrives0.
  assert (Hlen0 : length (HDC_drives c) = length c.(HDC.aDriveConfigs)).
  { unfold HDC_drives. destruct Hdrives0 as [-> | H].
    - apply length_replicate.
    - destruct (HDC.aDrives c); [cbn in *; rewrite length_replicate; lia|exact H]. }
  unfold HDC.initController.
  destruct (HDC.fATC c) eqn:Hf.
  - assert (E : match data with
                | JUndef | JNull =>
                    JArr [JNum 0; JNum 0; JNum 0; JNum 0; JNum 0; JNum 0; JNum 0; JNum 0;
                          JNum HDC.ATC_STATUS_READY; JNum 0]
                | _ => data
                end
                = JArr [JNum 0; JNum 0; JNum 0; JNum 0; JNum 0; JNum 0; JNum 0; JNum 0;
                        JNum HDC.ATC_STATUS_READY; JNum 0])
      by (destruct Hdata as [-> | ->]; reflexivity).
    cbv zeta. rewrite E.
    cbn [JS.get lookup list_lookup default id from_option Codec.toZ].
    rewrite !bind_Ok. cbv beta iota zeta.
    match goal with
    | |- context [HDC.initDrives ?cr ?dd fHard 0 ?drives ?cs ?config true] =>
        change drives with (HDC_drives c);
        change dd with (JArr []);
        destruct (HDC_initDrives_default cr fHard (HDC_drives c) 0 cs config ltac:(cbn; lia))
          as (config' & drives' & Hrun & Hlen & Hreset & _)
    end.
    rewrite Hrun, bind_Ok. cbv beta iota.
    eexists. split; [reflexivity|]. split; [reflexivity|].
    split; [cbn; lia|]. split; [exact Hreset|].
    split; [|repeat split; first [reflexivity|exact Hf]].
    rewrite <- Hlen0. destruct fHard; [|reflexivity].
    cbn [HDC.chipset HDC.set_aDrives HDC.set_regConfig HDC.set_chipset].
    match goal with
    | |- (fun log => HDC_cmosCalls ?cr 0 ?n ++ log) <$> _ = _ =>
        rewrite (HDC_cmosCalls_ext cr c n eq_refl eq_refl 0)
    end. reflexivity.
  - assert (E : match data with
                | JUndef | JNull =>
                    JArr [JNum 0; JNum HDC.XTC_STATUS_NONE; Codec.ofNums (JS.newArray 14);
                          JNum 0; JNum 0]
                | _ => data
                end
                = JArr [JNum 0; JNum HDC.XTC_STATUS_NONE; Codec.ofNums (JS.newArray 14);
                        JNum 0; JNum 0])
      by (destruct Hdata as [-> | ->]; reflexivity).
    cbv zeta. rewrite E.
    cbn [JS.get lookup list_lookup default id from_option Codec.toZ Codec.toNum].
    rewrite toNums_ofNums, !bind_Ok. cbv beta iota zeta.
    match goal with
    | |- context [HDC.initDrives ?cr ?dd fHard 0 ?drives ?cs ?config true] =>
        change drives with (HDC_drives c);
        change dd with (JArr []);
        change config with (Num 0);
        destruct (HDC_initDrives_default cr fHard (HDC_drives c) 0 cs (Num 0)
                    ltac:(cbn; lia))
          as (config' & drives' & Hrun & Hlen & Hreset & (x' & -> & _ & _ & Hsw))
    end.
    rewrite Hrun, bind_Ok. cbv beta iota.
    eexists. split; [reflexivity|]. split.
    { split; [reflexivity|]. split; [|exists x'; reflexivity].
      unfold HDC_configured. cbn [HDC.regConfig HDC.set_aDrives HDC.set_regConfig].
      intros i cfg Hi Hc. apply (Hsw i cfg); [|exact Hi|exact Hc].
      apply lookup_lt_Some in Hc. cbn in Hc. lia. }
    split; [cbn; lia|]. split; [exact Hreset|].
    split; [|repeat split; first [reflexivity|exact Hf]].
    rewrite <- Hlen0. destruct fHard; [|reflexivity].
    cbn [HDC.chipset HDC.set_aDrives HDC.set_regConfig HDC.set_chipset].
    match goal with
    | |- (fun log => HDC_cmosCalls ?cr 0 ?n ++ log) <$> _ = _ =>
        rewrite (HDC_cmosCalls_ext cr c n eq_refl eq_refl 0)
    end. reflexivity.
Qed.

(** X18.  Reset of the machine.  [reset] of the HDC returns, whatever the
    state of the controller.  Every drive keeps the image it had, or
    gets a new one, and is given the type of its configuration, with
    the cylinders and heads of that type and 17 sectors of 512 bytes;
    it has no error, no position and no sector located.  The CMOS is
    told the type of every drive.  On the ATC the task-file registers
    are zero except the Command register, which holds 0x40 (the
    Status register reads 0); on the XTC the FIFO is empty, the status
    is NONE and the configuration register holds the switch bits of
    drives 0 and 1.  A reset leaves the drive selected for the data
    port and an open DMA session as they were. *)
Theorem X18_HDC_reset (c : Controller) :
  c.(HDC.aDrives) = [] \/ length c.(HDC.aDrives) = length c.(HDC.aDriveConfigs) ->
  exists c',
    HDC.reset c = Ok (c', true)
    /\ (if c.(HDC.fATC)
        then ATC_registers c' = (0, 0, 0, 0, 0, 0, 0, 0, HDC.ATC_STATUS_READY, 0)
        else XTC_registers c'
             = (c'.(HDC.regConfig), HDC.XTC_STATUS_NONE, JS.newArray 14, 0, 0,
                Undef, Undef, Undef, c.(HDC.iDriveAllowFail))
             /\ HDC_configured c'
             /\ exists x, c'.(HDC.regConfig) = Num x)
    /\ length c'.(HDC.aDrives) = length c.(HDC.aDriveConfigs)
    /\ (forall i d, HDC_drives c !! i = Some d ->
          exists d' cfg,
            c'.(HDC.aDrives) !! i = Some d'
            /\ c.(HDC.aDriveConfigs) !! i = Some cfg
            /\ HDC_isReset c i cfg d d')
    /\ c'.(HDC.chipset)
       = (fun log => HDC_cmosCalls c 0 (length c.(HDC.aDriveConfigs)) ++ log)
           <$> c.(HDC.chipset)
    /\ c'.(HDC.drive) = c.(HDC.drive)
    /\ c'.(HDC.dmaSession) = c.(HDC.dmaSession).
Proof.
  intros Hdrives.
  destruct (HDC_initController_default c JNull true (or_intror eq_refl) Hdrives)
    as (c' & Hrun & Hregs & Hlen & Hreset & Hcs & Hsel & Hdma & _).
  exists c'. unfold HDC.reset. auto 10.
Qed.


End HDC_reset.

(** The AT controller is reset: the Command register holds 0x40, the
    Status register 0, and the CMOS is told that drive 0 is of type 2. *)
Lemma X18_HDC_reset_witness :
  exists c',
    HDC.reset (Examples.atc 1) = Ok (c', true)
    /\ c'.(HDC.regStatus) = 0
    /\ c'.(HDC.regCommand) = 0x40
    /\ c'.(HDC.chipset) = Some [SetCMOSDriveType 0 2].
Proof.
  destruct (X18_HDC_reset (Examples.atc 1) (or_intror eq_refl))
    as (c' & Hrun & Hregs & _ & _ & Hcs & _).
  exists c'. split; [exact Hrun|].
  cbn in Hregs. injection Hregs as _ _ _ _ _ _ _ Hst Hcmd _.
  split; [exact Hst|]. split; [exact Hcmd|exact Hcs].
Defined.


(** ** A sector written through the data port of the ATC *)

Section ATC_write.

Context {Disk Sector : Type} {DP : DiskPort Disk Sector}.

Local Abbreviation Controller := (@HDC.Controller Disk Sector).
Local Abbreviation Drive := (@HDC.Drive Disk Sector).

(** [advanceSector] moves the position and nothing else. *)
Lemma advanceSector_keeps (drive : Drive) :
  let drive' := HDC.advanceSector drive in
  drive'.(HDC.errorCode) = drive.(HDC.errorCode)
  /\ drive'.(HDC.sector) = drive.(HDC.sector)
  /\ drive'.(HDC.disk) = drive.(HDC.disk)
  /\ drive'.(HDC.ibSector) = drive.(HDC.ibSector)
  /\ drive'.(HDC.nBytes) = drive.(HDC.nBytes)
  /\ drive'.(HDC.cbSector) = drive.(HDC.cbSector).
Proof.
  unfold HDC.advanceSector. cbv zeta.
  repeat match goal with
         | |- context [if ?b then _ else _] => destruct b
         end; repeat split.
Qed.

(** A byte that the image accepts at the cursor of the sector. *)
Lemma writeByte_loop_inside (fuel : nat) (x : Drive) (sec : Sector) (dk dk' : Disk)
    (k b : Z) :
  x.(HDC.sector) = Some sec -> x.(HDC.disk) = Some dk -> x.(HDC.ibSector) = Num k ->
  disk_write dk sec (Num k) b = (true, dk') ->
  HDC.writeByte_loop (S fuel) x b
  = Ok (HDC.set_ibSector (Num (k + 1)) (HDC.set_disk (Some dk') x), b).
Proof.
  intros Hsec Hdk Hib Hw. cbn [HDC.writeByte_loop].
  rewrite Hsec, Hdk, deref_Some, bind_Ok. cbv beta. rewrite Hib, Hw.
  rewrite bind_Ok. cbv beta iota.
  change (HDC.ibSector (HDC.set_disk (Some dk') x)) with (HDC.ibSector x).
  rewrite Hib. reflexivity.
Qed.

(** The first byte of a transfer: the sector is located, the position
    advances past it, and the byte is written at its start. *)
Lemma writeByte_first (fuel : nat) (d : Drive) (sec : Sector) (dk dk' : Disk) (b : Z) :
  d.(HDC.errorCode) = 0 -> d.(HDC.sector) = None -> d.(HDC.disk) = Some dk ->
  disk_seek dk d.(HDC.wCylinder) d.(HDC.bHead)
            (JS.add d.(HDC.bSector) (Num d.(HDC.bSectorBias))) = Some sec ->
  disk_write dk sec (Num 0) b = (true, dk') ->
  HDC.writeByte (S (S fuel)) d b
  = Ok (HDC.set_ibSector (Num 1) (HDC.set_disk (Some dk') (ATC_writing d sec)), b).
Proof.
  intros Herr Hsec Hdk Hseek Hw. unfold HDC.writeByte. rewrite Herr.
  change (JS.truthyZ 0) with false. cbv iota.
  cbn [HDC.writeByte_loop]. rewrite Hsec, bind_Ok. cbv beta iota.
  rewrite Hdk, Hseek.
  cbn [HDC.sector HDC.set_sector].
  fold (ATC_writing d sec).
  destruct (advanceSector_keeps (HDC.set_ibSector (Num 0) (HDC.set_sector (Some sec) d)))
    as (_ & Hs & Hd & Hi & _).
  fold (ATC_writing d sec) in Hs, Hd, Hi.
  change (HDC.writeByte_loop (S fuel) (ATC_writing d sec) b
          = Ok (HDC.set_ibSector (Num (0 + 1))
                  (HDC.set_disk (Some dk') (ATC_writing d sec)), b)).
  apply (writeByte_loop_inside fuel _ sec dk dk' 0 b); [exact Hs|now rewrite Hd|exact Hi|exact Hw].
Qed.

Lemma outATCDatas_cons (fuel : nat) (b : Z) (bytes : list Z) (c : Controller) :
  outATCDatas fuel (b :: bytes) c = HDC.outATCData fuel b c ≫= outATCDatas fuel bytes.
Proof.
  unfold outATCDatas. cbn [fold_left]. rewrite bind_Ok.
  generalize (HDC.outATCData fuel b c). intros r.
  destruct r as [c1|e]; [now rewrite bind_Ok|].
  rewrite bind_Fail. induction bytes as [|b' bytes IH]; [reflexivity|].
  cbn [fold_left]. rewrite bind_Fail. exact IH.
Qed.

Section Write.

Variables (c : Controller) (i : nat) (d : Drive) (dk : Disk) (sec : Sector)
          (cb n : Z) (fuel : nat) (log : list ChipCall).

Hypothesis Hsel : c.(HDC.drive) = Some i.
Hypothesis Hd : HDC.getDrive i c = Some d.
Hypothesis Herr : d.(HDC.errorCode) = 0.
Hypothesis Hcb : d.(HDC.cbSector) = cb.
Hypothesis Hn : d.(HDC.nBytes) = Num n.
Hypothesis Hlt : 1 < cb.
Hypothesis Hle : cb <= n.
Hypothesis Hcs : c.(HDC.chipset) = Some log.

Lemma ATC_writing_fields :
  (ATC_writing d sec).(HDC.errorCode) = 0
  /\ (ATC_writing d sec).(HDC.sector) = Some sec
  /\ (ATC_writing d sec).(HDC.ibSector) = Num 0
  /\ (ATC_writing d sec).(HDC.nBytes) = Num n
  /\ (ATC_writing d sec).(HDC.cbSector) = cb
  /\ HDC_position (ATC_writing d sec) = HDC_position (HDC.advanceSector d).
Proof.
  destruct (advanceSector_keeps (HDC.set_ibSector (Num 0) (HDC.set_sector (Some sec) d)))
    as (H1 & H2 & _ & H4 & H5 & H6).
  unfold ATC_writing.
  split; [rewrite H1; exact Herr|]. split; [rewrite H2; reflexivity|].
  split; [rewrite H4; reflexivity|]. split; [rewrite H5; exact Hn|].
  split; [rewrite H6; exact Hcb|].
  unfold HDC_position, HDC.advanceSector. cbv zeta.
  cbn [HDC.bSector HDC.bHead HDC.wCylinder HDC.nSectors HDC.nHeads HDC.bSectorBias
       HDC.set_bSector HDC.set_bHead HDC.set_wCylinder HDC.set_ibSector HDC.set_sector].
  repeat match goal with
         | |- context [if ?b then _ else _] => destruct b
         end; reflexivity.
Qed.

(** A byte written inside the sector. *)
Lemma outATCData_inside (dkc dk' : Disk) (k b : Z) :
  1 <= k -> k + 1 < cb -> 0 <= b ->
  disk_write dkc sec (Num k) b = (true, dk') ->
  HDC.outATCData (S fuel) b (ATC_writeAt c i d sec dkc k)
  = Ok (ATC_writeAt c i d sec dk' (k + 1)).
Proof.
  intros Hk Hin Hb Hw. destruct ATC_writing_fields as (He & Hs & _ & Hnb & Hc & _).
  unfold HDC.outATCData, ATC_writeAt.
  change (HDC.drive (HDC.putDrive i _ c)) with (HDC.drive c). rewrite Hsel.
  rewrite (getDrive_putDrive c i d _ Hd), deref_Some, bind_Ok. cbv beta.
  change (HDC.nBytes (HDC.set_ibSector k (HDC.set_disk (Some dkc) (ATC_writing d sec))))
    with (HDC.nBytes (ATC_writing d sec)).
  change (HDC.cbSector (HDC.set_ibSector k (HDC.set_disk (Some dkc) (ATC_writing d sec))))
    with (HDC.cbSector (ATC_writing d sec)).
  rewrite Hnb, Hc. cbn [JS.geb].
  destruct (Z.geb_spec n cb); [|lia].
  unfold HDC.writeByte.
  change (HDC.errorCode (HDC.set_ibSector k (HDC.set_disk (Some dkc) (ATC_writing d sec))))
    with (HDC.errorCode (ATC_writing d sec)).
  rewrite He. change (JS.truthyZ 0) with false. cbv iota.
  rewrite (writeByte_loop_inside fuel
             (HDC.set_ibSector k (HDC.set_disk (Some dkc) (ATC_writing d sec)))
             sec dkc dk' k b Hs eq_refl eq_refl Hw).
  rewrite bind_Ok. cbv beta iota. rewrite putDrive_putDrive.
  destruct (Z.ltb_spec b 0); [lia|].
  cbn [HDC.ibSector HDC.set_ibSector JS.eqb HDC.cbSector HDC.set_disk].
  destruct (Z.eqb_spec (k + 1) 1); [lia|].
  change (HDC.cbSector (HDC.set_disk (Some dk') (HDC.set_ibSector k
            (HDC.set_disk (Some dkc) (ATC_writing d sec)))))
    with (HDC.cbSector (ATC_writing d sec)) || idtac.
  match goal with
  | |- context [if ?a =? ?b then _ else _] =>
      change b with (HDC.cbSector (ATC_writing d sec)); rewrite Hc;
      destruct (Z.eqb_spec (k + 1) cb); [lia|]
  end.
  reflexivity.
Qed.

Hypothesis Hnone : d.(HDC.sector) = None.
Hypothesis Hdk : d.(HDC.disk) = Some dk.
Hypothesis Hseek :
  disk_seek dk d.(HDC.wCylinder) d.(HDC.bHead)
            (JS.add d.(HDC.bSector) (Num d.(HDC.bSectorBias))) = Some sec.

(** The first byte of the transfer. *)
Lemma outATCData_first (dk' : Disk) (b : Z) :
  0 <= b ->
  disk_write dk sec (Num 0) b = (true, dk') ->
  HDC.outATCData (S (S fuel)) b c = Ok (ATC_writeAt c i d sec dk' 1).
Proof.
  intros Hb Hw. unfold HDC.outATCData, ATC_writeAt.
  rewrite Hsel, Hd, deref_Some, bind_Ok. cbv beta.
  rewrite Hn, Hcb. cbn [JS.geb]. destruct (Z.geb_spec n cb); [|lia].
  rewrite (writeByte_first fuel d sec dk dk' b Herr Hnone Hdk Hseek Hw).
  rewrite bind_Ok. cbv beta iota.
  destruct (Z.ltb_spec b 0); [lia|].
  cbn [HDC.ibSector HDC.set_ibSector JS.eqb]. reflexivity.
Qed.

(** The byte that completes the sector. *)
Lemma outATCData_last (dkc dk' : Disk) (b : Z) :
  0 <= b ->
  disk_write dkc sec (Num (cb - 1)) b = (true, dk') ->
  exists c' d',
    HDC.outATCData (S fuel) b (ATC_writeAt c i d sec dkc (cb - 1)) = Ok c'
    /\ c'.(HDC.drive) = Some i
    /\ HDC.getDrive i c' = Some d'
    /\ d'.(HDC.disk) = Some dk'
    /\ d'.(HDC.nBytes) = Num (n - cb)
    /\ d'.(HDC.cbSector) = cb
    /\ HDC_position d' = HDC_position (HDC.advanceSector d)
    /\ c'.(HDC.regSecCnt) = JS.band (c.(HDC.regSecCnt) - 1) 0xff
    /\ c'.(HDC.regStatus)
       = (if n - cb >=? cb
          then JS.bor (JS.bor HDC.ATC_STATUS_READY HDC.ATC_STATUS_SEEK_OK)
                      HDC.ATC_STATUS_DATA_REQ
          else JS.bor HDC.ATC_STATUS_READY HDC.ATC_STATUS_SEEK_OK)
    /\ c'.(HDC.chipset)
       = Some (if JS.band c.(HDC.regFDR) HDC.ATC_FDR_INT_DISABLE =? 0
               then SetIRR IRQ_ATC :: log else log).
Proof.
  intros Hb Hw. destruct ATC_writing_fields as (He & Hs & _ & Hnb & Hc & Hpos).
  unfold HDC.outATCData, ATC_writeAt.
  change (HDC.drive (HDC.putDrive i _ c)) with (HDC.drive c). rewrite Hsel.
  rewrite (getDrive_putDrive c i d _ Hd), deref_Some, bind_Ok. cbv beta.
  change (HDC.nBytes (HDC.set_ibSector (cb - 1)
            (HDC.set_disk (Some dkc) (ATC_writing d sec))))
    with (HDC.nBytes (ATC_writing d sec)).
  change (HDC.cbSector (HDC.set_ibSector (cb - 1)
            (HDC.set_disk (Some dkc) (ATC_writing d sec))))
    with (HDC.cbSector (ATC_writing d sec)).
  rewrite Hnb, Hc. cbn [JS.geb].
  destruct (Z.geb_spec n cb); [|lia].
  unfold HDC.writeByte.
  change (HDC.errorCode (HDC.set_ibSector (cb - 1)
            (HDC.set_disk (Some dkc) (ATC_writing d sec))))
    with (HDC.errorCode (ATC_writing d sec)).
  rewrite He. change (JS.truthyZ 0) with false. cbv iota.
  rewrite (writeByte_loop_inside fuel
             (HDC.set_ibSector (cb - 1) (HDC.set_disk (Some dkc) (ATC_writing d sec)))
             sec dkc dk' (cb - 1) b Hs eq_refl eq_refl Hw).
  rewrite bind_Ok. cbv beta iota. rewrite !putDrive_putDrive.
  destruct (Z.ltb_spec b 0); [lia|].
  replace (cb - 1 + 1) with cb by lia.
  set (x := HDC.set_ibSector cb (HDC.set_disk (Some dk')
              (HDC.set_ibSector (cb - 1) (HDC.set_disk (Some dkc) (ATC_writing d sec))))).
  assert (Hx : x.(HDC.ibSector) = Num cb /\ x.(HDC.cbSector) = cb
               /\ x.(HDC.nBytes) = Num n /\ x.(HDC.disk) = Some dk'
               /\ HDC_position x = HDC_position (HDC.advanceSector d)).
  { subst x. repeat split; first [reflexivity|exact Hc|exact Hnb|exact Hpos]. }
  destruct Hx as (Hxi & Hxc & Hxn & Hxd & Hxp).
  rewrite Hxi, Hxc. cbn [JS.eqb].
  destruct (Z.eqb_spec cb 1); [lia|]. rewrite Z.eqb_refl.
  rewrite ?putDrive_putDrive.
  rewrite Hxn. cbn [num_sub].
  set (y := HDC.set_nBytes (Num (n - cb)) x).
  assert (Hy : y.(HDC.nBytes) = Num (n - cb) /\ y.(HDC.cbSector) = cb
               /\ y.(HDC.disk) = Some dk'
               /\ HDC_position y = HDC_position (HDC.advanceSector d)).
  { subst y. repeat split; assumption. }
  destruct Hy as (Hyn & Hyc & Hyd & Hyp).
  rewrite Hyn, Hyc. cbn [JS.geb].
  set (c1 := HDC.set_regSecCnt (JS.band (HDC.regSecCnt (HDC.putDrive i y c) - 1) 255)
               (HDC.putDrive i y c)).
  assert (Hg : forall c2 : Controller,
             HDC.aDrives c2 = HDC.aDrives (HDC.setATCIRR c1) -> HDC.getDrive i c2 = Some y).
  { intros c2 E. unfold HDC.getDrive. rewrite E, aDrives_setATCIRR.
    apply (getDrive_putDrive c i d y Hd). }
  assert (Hchip : HDC.chipset (HDC.setATCIRR c1)
                  = Some (if JS.band c.(HDC.regFDR) HDC.ATC_FDR_INT_DISABLE =? 0
                          then SetIRR IRQ_ATC :: log else log))
    by (apply (setATCIRR_chipset_of c c1 log Hcs eq_refl)).
  destruct (setATCIRR_regs c1) as (_ & _ & _ & Hcnt & Hdrv).
  destruct (n - cb >=? cb);
    eexists _, y; (split; [reflexivity|]);
    (split; [etransitivity; [exact Hdrv|exact Hsel]|]); (split; [apply Hg; reflexivity|]);
    (split; [exact Hyd|]); (split; [exact Hyn|]); (split; [exact Hyc|]);
    (split; [exact Hyp|]); (split; [exact Hcnt|]); (split; [reflexivity|exact Hchip]).
Qed.

(** The bytes after the first. *)
Lemma outATCDatas_rest (bytes : list Z) :
  forall (dkc : Disk) (k : Z),
    1 <= k -> k + Z.of_nat (length bytes) = cb -> bytes <> [] ->
    Forall (fun b => 0 <= b) bytes ->
    sectorAccepts dkc sec k bytes ->
    exists c' d',
      outATCDatas (S fuel) bytes (ATC_writeAt c i d sec dkc k) = Ok c'
      /\ c'.(HDC.drive) = Some i
      /\ HDC.getDrive i c' = Some d'
      /\ d'.(HDC.disk) = Some (sectorWritten dkc sec k bytes)
      /\ d'.(HDC.nBytes) = Num (n - cb)
      /\ d'.(HDC.cbSector) = cb
      /\ HDC_position d' = HDC_position (HDC.advanceSector d)
      /\ c'.(HDC.regSecCnt) = JS.band (c.(HDC.regSecCnt) - 1) 0xff
      /\ c'.(HDC.regStatus)
         = (if n - cb >=? cb
            then JS.bor (JS.bor HDC.ATC_STATUS_READY HDC.ATC_STATUS_SEEK_OK)
                        HDC.ATC_STATUS_DATA_REQ
            else JS.bor HDC.ATC_STATUS_READY HDC.ATC_STATUS_SEEK_OK)
      /\ c'.(HDC.chipset)
         = Some (if JS.band c.(HDC.regFDR) HDC.ATC_FDR_INT_DISABLE =? 0
                 then SetIRR IRQ_ATC :: log else log).
Proof.
  induction bytes as [|b bytes IH]; intros dkc k Hk Hend Hne Hpos Hacc; [congruence|].
  apply Forall_cons in Hpos as [Hb Hpos].
  cbn [sectorAccepts sectorWritten] in *. destruct Hacc as [Hok Hacc].
  destruct (disk_write dkc sec (Num k) b) as [fOk dk'] eqn:Hw. cbn [fst snd] in *. subst fOk.
  rewrite outATCDatas_cons.
  destruct bytes as [|b' bytes].
  - cbn [length] in Hend. assert (k = cb - 1) by lia. subst k.
    destruct (outATCData_last dkc dk' b Hb Hw) as (c' & d' & Hrun & Hrest).
    exists c', d'. rewrite Hrun, bind_Ok. split; [reflexivity|exact Hrest].
  - cbn [length] in Hend.
    rewrite (outATCData_inside dkc dk' k b Hk ltac:(lia) Hb Hw), bind_Ok.
    apply (IH dk' (k + 1)); [lia|cbn [length]; lia|discriminate|exact Hpos|exact Hacc].
Qed.

End Write.

(** X20.  A sector written through the data port of the ATC.  The drive
    that WRITE_DATA selected has no sector located yet and [n] bytes to
    take, at least one sector of [cb] bytes.  The first byte locates
    the sector at the position of the drive and advances the position
    past it; the [cb] bytes, each one accepted by the image, go to the
    sector in order.  The last of them takes the sector off the
    transfer: [nBytes] is down by [cb], the Sector Count register is
    decremented modulo 256, the interrupt is requested unless disabled
    in the Fixed Disk Register, and the status is READY and SEEK_OK,
    with DATA_REQ when another sector is due.  When none is due, a
    further byte written to the port changes nothing. *)
Theorem X20_ATC_write_sector (c : Controller) (i : nat) (d : Drive) (dk : Disk)
    (sec : Sector) (cb n : Z) (bytes : list Z) (fuel : nat) (log : list ChipCall) :
  c.(HDC.drive) = Some i ->
  HDC.getDrive i c = Some d ->
  d.(HDC.errorCode) = 0 ->
  d.(HDC.cbSector) = cb ->
  d.(HDC.nBytes) = Num n ->
  1 < cb -> cb <= n ->
  c.(HDC.chipset) = Some log ->
  d.(HDC.sector) = None ->
  d.(HDC.disk) = Some dk ->
  disk_seek dk d.(HDC.wCylinder) d.(HDC.bHead)
            (JS.add d.(HDC.bSector) (Num d.(HDC.bSectorBias))) = Some sec ->
  length bytes = Z.to_nat cb ->
  Forall (fun b => 0 <= b) bytes ->
  sectorAccepts dk sec 0 bytes ->
  (2 <= fuel)%nat ->
  exists c' d',
    outATCDatas fuel bytes c = Ok c'
    /\ HDC.getDrive i c' = Some d'
    /\ d'.(HDC.disk) = Some (sectorWritten dk sec 0 bytes)
    /\ d'.(HDC.nBytes) = Num (n - cb)
    /\ HDC_position d' = HDC_position (HDC.advanceSector d)
    /\ c'.(HDC.regSecCnt) = JS.band (c.(HDC.regSecCnt) - 1) 0xff
    /\ c'.(HDC.regStatus)
       = (if n - cb >=? cb
          then JS.bor (JS.bor HDC.ATC_STATUS_READY HDC.ATC_STATUS_SEEK_OK)
                      HDC.ATC_STATUS_DATA_REQ
          else JS.bor HDC.ATC_STATUS_READY HDC.ATC_STATUS_SEEK_OK)
    /\ c'.(HDC.chipset)
       = Some (if JS.band c.(HDC.regFDR) HDC.ATC_FDR_INT_DISABLE =? 0
               then SetIRR IRQ_ATC :: log else log)
    /\ (n - cb < cb -> forall b, HDC.outATCData fuel b c' = Ok c').
Proof.
  intros Hsel Hd Herr Hcb Hn Hlt Hle Hcs Hnone Hdk Hseek Hlen Hpos Hacc Hfuel.
  destruct fuel as [|[|fuel']]; [lia|lia|].
  destruct bytes as [|b bytes]; [cbn in Hlen; lia|].
  apply Forall_cons in Hpos as [Hb Hpos].
  cbn [sectorAccepts sectorWritten] in *. destruct Hacc as [Hok Hacc].
  destruct (disk_write dk sec (Num 0) b) as [fOk dk'] eqn:Hw. cbn [fst snd] in *. subst fOk.
  rewrite outATCDatas_cons.
  rewrite (outATCData_first c i d dk sec cb n fuel' Hsel Hd Herr Hcb Hn Hle Hnone Hdk Hseek
             dk' b Hb Hw), bind_Ok.
  destruct (outATCDatas_rest c i d sec cb n (S fuel') log Hsel Hd Herr Hcb Hn Hlt Hle Hcs
              bytes dk' (0 + 1))
    as (c' & d' & Hrun & Hdrv & Hg & Hdisk & Hnb & Hcbd & Hp & Hcnt & Hst & Hchip);
    [lia|cbn [length] in Hlen; lia| |exact Hpos|exact Hacc|].
  { destruct bytes; [cbn in Hlen; lia|discriminate]. }
  exists c', d'. split; [exact Hrun|]. split; [exact Hg|]. split; [exact Hdisk|].
  split; [exact Hnb|]. split; [exact Hp|]. split; [exact Hcnt|]. split; [exact Hst|].
  split; [exact Hchip|].
  intros Hdone b0. unfold HDC.outATCData.
  rewrite Hdrv, Hg, deref_Some, bind_Ok. cbv beta. rewrite Hnb, Hcbd. cbn [JS.geb].
  destruct (Z.geb_spec (n - cb) cb); [lia|reflexivity].
Qed.

End ATC_write.


(** Four bytes written to the data port complete the one sector of
    the transfer: the interrupt is requested and the status is READY
    and SEEK_OK, without DATA_REQ. *)
Lemma X20_ATC_write_sector_witness :
  exists c',
    outATCDatas 2 [0xE5; 0xE5; 0xE5; 0xE5] Runs2.atcWriting = Ok c'
    /\ c'.(HDC.regStatus) = 0x50
    /\ c'.(HDC.regSecCnt) = 0
    /\ c'.(HDC.chipset) = Some [SetIRR IRQ_ATC].
Proof.
  destruct (X20_ATC_write_sector (DP := BlankDisk.port) Runs2.atcWriting 0 Runs2.smallDrive
              Runs2.smallDisk (0, 0, 1) 4 4 [0xE5; 0xE5; 0xE5; 0xE5] 2 []
              eq_refl eq_refl eq_refl eq_refl eq_refl ltac:(lia) ltac:(lia) eq_refl
              eq_refl eq_refl eq_refl eq_refl
              ltac:(repeat constructor; lia)
              ltac:(vm_compute; repeat split; reflexivity)
              ltac:(lia))
    as (c' & d' & Hrun & _ & _ & _ & _ & Hcnt & Hst & Hchip & _).
  exists c'. split; [exact Hrun|]. split; [exact Hst|]. split; [exact Hcnt|exact Hchip].
Defined.

(** ** A sector read from a diskette *)

Section FDC_read.

Context {Disk Sector : Type} {DP : DiskPort Disk Sector}.

Local Abbreviation Drive := (@FDC.Drive Disk Sector).

Lemma FDC_readByte_inside (fuel : nat) (x : Drive) (dk : Disk) (sec : Sector) (k : Z) :
  x.(FDC.disk) = Some dk -> x.(FDC.errorCode) = 0 ->
  x.(FDC.sector) = Some sec -> x.(FDC.ibSector) = Num k ->
  0 <= disk_read dk sec (Num k) ->
  FDC.readByte (S fuel) x = Ok (FDC.set_ibSector (Num (k + 1)) x, disk_read dk sec (Num k)).
Proof.
  intros Hdk Herr Hsec Hib Hb. unfold FDC.readByte. rewrite Hdk, Herr.
  change (negb (JS.truthyZ 0)) with true. cbv iota.
  cbn [FDC.readByte_loop]. rewrite Hsec, Hib.
  cbn [FDC.sector FDC.set_ibSector is_Some_b andb JS.inc JS.add]. rewrite Hsec.
  cbn [is_Some_b andb].
  destruct (Z.geb_spec (disk_read dk sec k) 0); [reflexivity|lia].
Qed.

Lemma FDC_readByte_first (fuel : nat) (d : Drive) (dk : Disk) (sec : Sector) :
  d.(FDC.disk) = Some dk -> d.(FDC.errorCode) = 0 -> d.(FDC.sector) = None ->
  disk_seek dk (Num d.(FDC.bCylinder)) (Num d.(FDC.bHead)) d.(FDC.bSector) = Some sec ->
  0 <= disk_read dk sec (Num 0) ->
  FDC.readByte (S (S fuel)) d
  = Ok (FDC.set_ibSector (Num 1) (FDC_located d sec), disk_read dk sec (Num 0)).
Proof.
  intros Hdk Herr Hsec Hseek Hb. unfold FDC.readByte. rewrite Hdk, Herr.
  change (negb (JS.truthyZ 0)) with true. cbv iota.
  cbn [FDC.readByte_loop]. rewrite Hsec. cbv beta iota zeta. rewrite Hsec.
  cbn [is_Some_b andb].
  cbn [FDC.bCylinder FDC.bHead FDC.bSector FDC.sector FDC.set_sector]. rewrite Hseek.
  cbn [FDC.sector FDC.set_sector FDC.set_ibSector FDC.set_bSector FDC.ibSector
       is_Some_b andb JS.inc JS.add].
  destruct (Z.geb_spec (disk_read dk sec 0) 0); [reflexivity|lia].
Qed.

Lemma FDC_readByte_end (fuel : nat) (x : Drive) (dk : Disk) (sec : Sector) (k : Z) :
  x.(FDC.disk) = Some dk -> x.(FDC.errorCode) = 0 ->
  x.(FDC.sector) = Some sec -> x.(FDC.ibSector) = Num k ->
  disk_read dk sec (Num k) < 0 ->
  disk_seek dk (Num x.(FDC.bCylinder)) (Num x.(FDC.bHead)) x.(FDC.bSector) = None ->
  FDC.readByte (S fuel) x
  = Ok (FDC.set_errorCode (JS.bor FDC.ERR_NO_DATA FDC.ERR_INCOMPLETE)
          (FDC.set_sector None (FDC.set_ibSector (Num (k + 1)) x)),
        disk_read dk sec (Num k)).
Proof.
  intros Hdk Herr Hsec Hib Hb Hseek. unfold FDC.readByte. rewrite Hdk, Herr.
  change (negb (JS.truthyZ 0)) with true. cbv iota.
  cbn [FDC.readByte_loop]. rewrite Hsec, Hib.
  cbn [FDC.sector FDC.set_ibSector is_Some_b andb JS.inc JS.add]. rewrite Hsec.
  cbn [is_Some_b andb].
  destruct (Z.geb_spec (disk_read dk sec k) 0); [lia|].
  cbn [FDC.bCylinder FDC.bHead FDC.bSector FDC.set_ibSector FDC.sector FDC.set_sector].
  rewrite Hseek. reflexivity.
Qed.

(** The bytes of the sector after the first. *)
Lemma dmaReads_rest (fuel : nat) (d : Drive) (dk : Disk) (sec : Sector) (m : nat) :
  d.(FDC.disk) = Some dk -> d.(FDC.errorCode) = 0 ->
  forall k,
    0 <= k ->
    (forall j, k <= j < k + Z.of_nat m -> 0 <= disk_read dk sec (Num j)) ->
    dmaReads (S fuel) m (FDC.set_ibSector (Num k) (FDC_located d sec))
    = Ok (FDC.set_ibSector (Num (k + Z.of_nat m)) (FDC_located d sec),
          sectorBytes dk sec k m).
Proof.
  intros Hdk Herr. induction m as [|m IH]; intros k Hk Hbytes.
  - cbn [dmaReads]. rewrite Z.add_0_r. reflexivity.
  - cbn [dmaReads]. unfold FDC.dmaRead.
    rewrite (FDC_readByte_inside fuel (FDC.set_ibSector (Num k) (FDC_located d sec))
               dk sec k Hdk Herr eq_refl eq_refl)
      by (apply Hbytes; lia).
    rewrite bind_Ok. cbv beta iota.
    change (FDC.set_ibSector (k + 1) (FDC.set_ibSector k (FDC_located d sec)))
      with (FDC.set_ibSector (k + 1) (FDC_located d sec)).
    rewrite IH by (try lia; intros j Hj; apply Hbytes; lia).
    rewrite bind_Ok. cbv beta iota. rewrite (sectorBytes_cons dk sec k m).
    replace (k + Z.of_nat (S m)) with (k + 1 + Z.of_nat m) by lia. reflexivity.
Qed.

(** X21.  A sector read from a diskette.  The drive that READ DATA has
    programmed has no sector located; the first request of the DMA
    controller locates the sector at the cylinder, head and sector
    number of the drive and counts the sector number up, and the
    requests return the bytes of the sector in order.  The cylinder and
    the head stay.  When the sector is exhausted and the image has no
    sector at the next number, the next request returns a negative
    byte and leaves the error code NO_DATA with INCOMPLETE; from then
    on every request returns -1 and changes nothing. *)
Theorem X21_FDC_read_sector (d : Drive) (dk : Disk) (sec : Sector) (n : Z) (fuel : nat) :
  d.(FDC.disk) = Some dk ->
  d.(FDC.errorCode) = 0 ->
  d.(FDC.sector) = None ->
  disk_seek dk (Num d.(FDC.bCylinder)) (Num d.(FDC.bHead)) d.(FDC.bSector) = Some sec ->
  0 < n ->
  (forall k, 0 <= k < n -> 0 <= disk_read dk sec (Num k)) ->
  (2 <= fuel)%nat ->
  exists d',
    dmaReads fuel (Z.to_nat n) d = Ok (d', sectorBytes dk sec 0 (Z.to_nat n))
    /\ FDC_position d' = (Num d.(FDC.bCylinder), Num d.(FDC.bHead), JS.inc d.(FDC.bSector))
    /\ d'.(FDC.ibSector) = Num n
    /\ d'.(FDC.errorCode) = 0
    /\ d'.(FDC.disk) = Some dk
    /\ (disk_read dk sec (Num n) < 0 ->
        disk_seek dk (Num d.(FDC.bCylinder)) (Num d.(FDC.bHead)) (JS.inc d.(FDC.bSector))
        = None ->
        exists d'' b,
          FDC.dmaRead fuel d' None = Ok (d'', b)
          /\ b < 0
          /\ d''.(FDC.errorCode) = JS.bor FDC.ERR_NO_DATA FDC.ERR_INCOMPLETE
          /\ forall f, FDC.dmaRead f d'' None = Ok (d'', -1)).
Proof.
  intros Hdk Herr Hsec Hseek Hn Hbytes Hfuel.
  destruct fuel as [|[|fuel]]; [lia|lia|].
  destruct (Z.to_nat n) as [|m] eqn:Em; [lia|].
  exists (FDC.set_ibSector (Num n) (FDC_located d sec)). split.
  - cbn [dmaReads]. unfold FDC.dmaRead at 1.
    rewrite (FDC_readByte_first fuel d dk sec Hdk Herr Hsec Hseek) by (apply Hbytes; lia).
    rewrite bind_Ok. cbv beta iota.
    rewrite (dmaReads_rest (S fuel) d dk sec m Hdk Herr 1)
      by (try lia; intros j Hj; apply Hbytes; lia).
    rewrite bind_Ok. cbv beta iota. rewrite (sectorBytes_cons dk sec 0 m).
    replace n with (1 + Z.of_nat m) by lia. reflexivity.
  - split; [reflexivity|]. split; [reflexivity|]. split; [exact Herr|].
    split; [exact Hdk|]. intros Hend Hnext.
    unfold FDC.dmaRead.
    rewrite (FDC_readByte_end (S fuel) (FDC.set_ibSector (Num n) (FDC_located d sec))
               dk sec n Hdk Herr eq_refl eq_refl Hend Hnext).
    eexists _, _. split; [reflexivity|]. split; [exact Hend|]. split; [reflexivity|].
    intros f. unfold FDC.readByte.
    cbn [FDC.disk FDC.errorCode FDC.set_errorCode FDC.set_sector FDC.set_ibSector
         FDC.set_bSector FDC_located].
    rewrite Hdk. reflexivity.
Qed.

End FDC_read.

(** Sector 9, the last of its track on the blank diskette, is read:
    512 zero bytes, and the sector number is 10. *)
Lemma X21_FDC_read_sector_witness :
  exists d',
    dmaReads 2 (Z.to_nat 512) (Examples.fdDrive 0 0 9)
    = Ok (d', sectorBytes BlankDisk.diskette (0, 0, 9) 0 (Z.to_nat 512))
    /\ d'.(FDC.bSector) = Num 10.
Proof.
  destruct (X21_FDC_read_sector (DP := BlankDisk.port) (Examples.fdDrive 0 0 9)
              BlankDisk.diskette (0, 0, 9) 512 2 eq_refl eq_refl eq_refl eq_refl ltac:(lia))
    as (d' & Hrun & Hpos & _).
  - intros k Hk. cbn. unfold BlankDisk.read, BlankDisk.inSector. cbn.
    destruct (Z.leb_spec 0 k); [|lia]. destruct (Z.ltb_spec k 512); [|lia]. cbn. lia.
  - lia.
  - exists d'. split; [exact Hrun|]. injection Hpos as _ _ Hs. exact Hs.
Defined.

(** ** The sector buffer of the XTC *)

Section HDC_buffer.

Context {Disk Sector : Type} {DP : DiskPort Disk Sector}.

Local Abbreviation Drive := (@HDC.Drive Disk Sector).

(** The drive when the bytes [pre] have gone to its sector buffer. *)
Lemma dmaWriteBuffers_run (drive : Drive) (ab : list JS.num) (bytes : list Z) :
  forall pre : list Z,
    (length pre + length bytes <= length ab)%nat ->
    Forall (fun b => 0 <= b) bytes ->
    dmaWriteBuffers bytes
      (HDC.set_ibSector (Num (Z.of_nat (length pre)))
         (HDC.set_abSector (Some ((Num <$> pre) ++ drop (length pre) ab)) drive))
    = Ok (HDC.set_ibSector (Num (Z.of_nat (length (pre ++ bytes))))
            (HDC.set_abSector
               (Some ((Num <$> pre ++ bytes) ++ drop (length (pre ++ bytes)) ab)) drive),
          bytes).
Proof.
  induction bytes as [|b bytes IH]; intros pre Hlen Hpos.
  - cbn [dmaWriteBuffers]. rewrite app_nil_r. reflexivity.
  - apply Forall_cons in Hpos as [Hb Hpos]. cbn [length] in Hlen.
    cbn [dmaWriteBuffers]. unfold HDC.dmaWriteBuffer.
    destruct (Z.geb_spec b 0); [|lia].
    unfold HDC.writeBuffer.
    cbn [HDC.abSector HDC.set_ibSector HDC.set_abSector HDC.ibSector].
    rewrite deref_Some, bind_Ok. cbv beta.
    rewrite length_app, length_fmap, length_drop. cbn [JS.ltb].
    destruct (Z.ltb_spec (Z.of_nat (length pre))
                (Z.of_nat (length pre + (length ab - length pre)))); [|lia].
    cbn [number]. rewrite bind_Ok. cbv beta.
    destruct (Z.ltb_spec (Z.of_nat (length pre)) 0); [lia|].
    rewrite Nat2Z.id, buffered_snoc by lia.
    cbn [HDC.abSector HDC.set_ibSector HDC.set_abSector HDC.ibSector JS.inc JS.add].
    rewrite bind_Ok. cbv beta iota.
    replace (Z.of_nat (length pre) + 1) with (Z.of_nat (length (pre ++ [b])))
      by (rewrite length_app; cbn; lia).
    pose proof (IH (pre ++ [b])
                  ltac:(rewrite length_app; cbn [length]; lia) Hpos) as Hrest.
    rewrite <- app_assoc in Hrest. cbn [app] in Hrest.
    match goal with
    | |- context [dmaWriteBuffers bytes ?x] =>
        match type of Hrest with
        | dmaWriteBuffers bytes ?y = _ => change x with y
        end
    end.
    rewrite Hrest, bind_Ok. cbv beta iota. reflexivity.
Qed.

(** X22.  The sector buffer takes what fits.  On a drive whose sector buffer
    has been set up for a WRITE_BUFFER, with the cursor at its start,
    the bytes that the DMA controller hands over go to the buffer in
    order, each call returning its byte, as long as they fit.  When the
    buffer is full, one more byte is refused: the call returns -1, the
    error code of the drive is NO_SECTOR and the buffer is as it was.
    A call without a byte returns -1 and changes nothing. *)
Theorem X22_HDC_write_buffer (drive : Drive) (ab : list JS.num) (bytes : list Z) :
  drive.(HDC.abSector) = Some ab ->
  drive.(HDC.ibSector) = Num 0 ->
  (length bytes <= length ab)%nat ->
  Forall (fun b => 0 <= b) bytes ->
  exists drive',
    dmaWriteBuffers bytes drive = Ok (drive', bytes)
    /\ drive'.(HDC.abSector) = Some ((Num <$> bytes) ++ drop (length bytes) ab)
    /\ drive'.(HDC.ibSector) = Num (Z.of_nat (length bytes))
    /\ drive'.(HDC.errorCode) = drive.(HDC.errorCode)
    /\ (length bytes = length ab ->
        forall b, 0 <= b ->
          HDC.dmaWriteBuffer drive' (Some b)
          = Ok (HDC.set_errorCode HDC.ERR_NO_SECTOR drive', -1))
    /\ HDC.dmaWriteBuffer drive' None = Ok (drive', -1).
Proof.
  intros Hab Hib Hlen Hpos.
  assert (E : drive = HDC.set_ibSector (Num (Z.of_nat (length (@nil Z))))
                        (HDC.set_abSector (Some ((Num <$> []) ++ drop (length (@nil Z)) ab))
                           drive)).
  { cbn. rewrite drop_0, <- Hab. change (Z.of_nat 0) with 0. rewrite <- Hib. reflexivity. }
  pose proof (dmaWriteBuffers_run drive ab bytes [] ltac:(cbn [length]; lia) Hpos) as Hrun.
  rewrite <- E in Hrun. cbn [app] in Hrun. rewrite Hrun.
  eexists. split; [reflexivity|]. split; [reflexivity|].
  split; [reflexivity|]. split; [reflexivity|]. split; [|reflexivity].
  intros Hfull b Hb. unfold HDC.dmaWriteBuffer, HDC.writeBuffer.
  destruct (Z.geb_spec b 0); [|lia].
  cbn [HDC.abSector HDC.set_ibSector HDC.set_abSector HDC.ibSector].
  rewrite deref_Some, bind_Ok. cbv beta.
  rewrite length_app, length_fmap, length_drop. cbn [JS.ltb].
  destruct (Z.ltb_spec (Z.of_nat (length bytes))
              (Z.of_nat (length bytes + (length ab - length bytes)))); [lia|].
  reflexivity.
Qed.

End HDC_buffer.

(** Two bytes fill a sector buffer of two cells; a third is refused. *)
Lemma X22_HDC_write_buffer_witness :
  exists drive',
    dmaWriteBuffers [0x11; 0x22] Runs2.xtcBuffer = Ok (drive', [0x11; 0x22])
    /\ drive'.(HDC.abSector) = Some [Num 0x11; Num 0x22]
    /\ HDC.dmaWriteBuffer drive' (Some 0x33)
       = Ok (HDC.set_errorCode HDC.ERR_NO_SECTOR drive', -1).
Proof.
  destruct (X22_HDC_write_buffer Runs2.xtcBuffer (JS.newArray 2)
              [0x11; 0x22] eq_refl eq_refl ltac:(cbn; lia) ltac:(repeat constructor; lia))
    as (drive' & Hrun & Hab & _ & _ & Hfull & _).
  exists drive'. split; [exact Hrun|]. split; [exact Hab|].
  apply Hfull; [reflexivity|lia].
Defined.

(** ** All diskettes taken out *)

Section FDC_unload.

Context {Disk Sector : Type} {DP : DiskPort Disk Sector}.

Local Abbreviation Controller := (@FDC.Controller Disk Sector).
Local Abbreviation Drive := (@FDC.Drive Disk Sector).

Lemma updateDiskHistory_entries (h : list (option string * option string * jsval))
    (p : option string) (dk : Disk) :
  fst <$> FDC.updateDiskHistory_loop h p dk = fst <$> h.
Proof.
  induction h as [|[[n q] s] h IH]; [reflexivity|]. cbn [FDC.updateDiskHistory_loop].
  destruct (FDC.eqStr q p); cbn; [reflexivity|]. now rewrite IH.
Qed.

(** One step of the loop of [unloadAllDrives]. *)
Lemma unloadDrive_step (c : Controller) (k : nat) (d : Drive) :
  c.(FDC.aDrives) !! k = Some d ->
  exists c1,
    FDC.unloadDrive (Z.of_nat k) c = Ok c1
    /\ c1.(FDC.aDrives) = <[k := FDC_unloaded d]> c.(FDC.aDrives)
    /\ fst <$> c1.(FDC.aDiskHistory) = fst <$> c.(FDC.aDiskHistory)
    /\ c1.(FDC.regInput)
       = (if FDC_loaded d then JS.bor c.(FDC.regInput) FDC.REG_INPUT_DISK_CHANGE
          else c.(FDC.regInput)).
Proof.
  intros Hd. unfold FDC.unloadDrive, FDC.getDrive, FDC_unloaded, FDC_loaded.
  destruct (Z.ltb_spec (Z.of_nat k) 0); [lia|]. rewrite Nat2Z.id, Hd, deref_Some, bind_Ok.
  destruct (FDC.disk d) as [dk|].
  - eexists. split; [reflexivity|]. split; [cbn; now rewrite Nat2Z.id|].
    split; [cbn; apply updateDiskHistory_entries|reflexivity].
  - exists c. split; [reflexivity|]. split; [now rewrite list_insert_id|]. now split.
Qed.

Lemma unloadDrives_run (n : nat) :
  forall (k : nat) (c : Controller),
    (k + n)%nat = length c.(FDC.aDrives) ->
    exists c',
      fold_left (fun r i => c ← r; FDC.unloadDrive (Z.of_nat i) c) (seq k n) (Ok c) = Ok c'
      /\ c'.(FDC.aDrives)
         = take k c.(FDC.aDrives) ++ (FDC_unloaded <$> drop k c.(FDC.aDrives))
      /\ fst <$> c'.(FDC.aDiskHistory) = fst <$> c.(FDC.aDiskHistory)
      /\ c'.(FDC.regInput)
         = (if existsb FDC_loaded (drop k c.(FDC.aDrives))
            then JS.bor c.(FDC.regInput) FDC.REG_INPUT_DISK_CHANGE
            else c.(FDC.regInput)).
Proof.
  induction n as [|n IH]; intros k c Hlen.
  - exists c. cbn [seq fold_left]. rewrite drop_ge by lia. rewrite take_ge by lia.
    cbn. rewrite app_nil_r. now repeat split.
  - destruct (lookup_lt_is_Some_2 c.(FDC.aDrives) k ltac:(lia)) as [d Hd].
    destruct (unloadDrive_step c k d Hd) as (c1 & Hun & Hdrv & Hhist & Hin).
    cbn [seq fold_left]. rewrite bind_Ok, Hun.
    destruct (IH (S k) c1) as (c' & Hrun & Hdrv' & Hhist' & Hin').
    { rewrite Hdrv, length_insert. lia. }
    exists c'. split; [exact Hrun|].
    rewrite (drop_S _ _ _ Hd). split; [|split].
    + rewrite Hdrv', Hdrv. rewrite drop_insert_lt by lia.
      rewrite (take_S_r _ _ (FDC_unloaded d))
        by (apply list_lookup_insert_eq; eapply lookup_lt_Some; eauto).
      rewrite take_insert_ge by lia.
      rewrite <- app_assoc. reflexivity.
    + now rewrite Hhist'.
    + rewrite Hin', Hin, Hdrv, drop_insert_lt by lia. cbn [existsb].
      destruct (FDC_loaded d), (existsb FDC_loaded (drop (S k) (FDC.aDrives c)));
        cbn [orb]; try reflexivity.
      apply bor_absorb.
Qed.

(** X23.  All diskettes taken out.  [unloadAllDrives] takes the diskette out
    of every drive that has one: such a drive loses its diskette, its
    name and its path and keeps everything else, and a drive without a
    diskette is as it was.  The change line is raised when some drive
    had a diskette, and the Digital Input Register is as it was
    otherwise.  The history loses all its entries when [fDiscard] is
    set, and keeps the names and paths of all its entries otherwise. *)
Theorem X23_FDC_unload_all (c : Controller) (fDiscard : bool) :
  exists c',
    FDC.unloadAllDrives fDiscard c = Ok c'
    /\ c'.(FDC.aDrives) = FDC_unloaded <$> c.(FDC.aDrives)
    /\ Forall (fun d => d.(FDC.disk) = None) c'.(FDC.aDrives)
    /\ fst <$> c'.(FDC.aDiskHistory)
       = (if fDiscard then [] else fst <$> c.(FDC.aDiskHistory))
    /\ c'.(FDC.regInput)
       = (if existsb FDC_loaded c.(FDC.aDrives)
          then JS.bor c.(FDC.regInput) FDC.REG_INPUT_DISK_CHANGE
          else c.(FDC.regInput)).
Proof.
  unfold FDC.unloadAllDrives.
  set (c0 := if fDiscard then FDC.set_aDiskHistory [] c else c).
  assert (Hdrv0 : c0.(FDC.aDrives) = c.(FDC.aDrives)) by (unfold c0; now destruct fDiscard).
  assert (Hin0 : c0.(FDC.regInput) = c.(FDC.regInput)) by (unfold c0; now destruct fDiscard).
  assert (Hh0 : fst <$> c0.(FDC.aDiskHistory)
                = if fDiscard then [] else fst <$> c.(FDC.aDiskHistory))
    by (unfold c0; now destruct fDiscard).
  destruct (unloadDrives_run (length c0.(FDC.aDrives)) 0 c0 eq_refl)
    as (c' & Hrun & Hdrv & Hhist & Hin).
  rewrite drop_0, take_0 in Hdrv. rewrite drop_0 in Hin. cbn [app] in Hdrv.
  exists c'. split; [exact Hrun|]. rewrite Hdrv, Hhist, Hin, Hdrv0, Hin0, Hh0.
  split; [reflexivity|]. split; [|now split].
  apply Forall_fmap, Forall_forall. intros d _. unfold FDC_unloaded. cbn.
  destruct (FDC.disk d) eqn:E; [reflexivity|exact E].
Qed.

End FDC_unload.

(** ** A diskette loaded into a drive *)

Section FDC_load.

Context {Disk Sector : Type} {DP : DiskPort Disk Sector}.

Local Abbreviation Controller := (@FDC.Controller Disk Sector).
Local Abbreviation Drive := (@FDC.Drive Disk Sector).

Lemma unloadDrive_step_Z (c : Controller) (i : Z) (d : Drive) :
  FDC.getDrive i c = Some d ->
  exists c0,
    FDC.unloadDrive i c = Ok c0
    /\ FDC.getDrive i c0 = Some (FDC_unloaded d)
    /\ c0.(FDC.cAutoMount) = c.(FDC.cAutoMount).
Proof.
  intros Hd. unfold FDC.unloadDrive, FDC_unloaded. rewrite Hd, deref_Some, bind_Ok.
  destruct (FDC.disk d).
  - eexists. split; [reflexivity|]. split; [|reflexivity].
    eapply FDC_getDrive_put; [exact Hd|reflexivity|reflexivity].
  - exists c. now repeat split.
Qed.

(** A load on a busy drive without a diskette returns [true] and
    changes nothing. *)
Lemma loadDiskette_busy (c : Controller) (i : Z) (d : Drive) (sName sPath : option string)
    (fAuto : bool) :
  FDC.getDrive i c = Some d -> d.(FDC.disk) = None -> d.(FDC.fBusy) = true ->
  FDC.loadDiskette i sName sPath fAuto c = Ok (c, true).
Proof.
  intros Hd Hdk Hbusy. unfold FDC.loadDiskette. rewrite Hd, deref_Some, bind_Ok.
  destruct sPath as [p|]; [|reflexivity].
  destruct (negb (String.eqb p EmptyString) && negb (String.eqb (FDC.sDiskettePath d) p));
    [|reflexivity].
  unfold FDC.unloadDrive. rewrite Hd, deref_Some, bind_Ok, Hdk, bind_Ok, Hd, deref_Some, bind_Ok.
  now rewrite Hbusy.
Qed.

(** A load of the path that the drive has returns [true] and changes
    nothing. *)
Lemma loadDiskette_same (c : Controller) (i : Z) (d : Drive) (sName : option string)
    (path : string) (fAuto : bool) :
  FDC.getDrive i c = Some d -> d.(FDC.sDiskettePath) = path ->
  FDC.loadDiskette i sName (Some path) fAuto c = Ok (c, true).
Proof.
  intros Hd <-. unfold FDC.loadDiskette. rewrite Hd, deref_Some, bind_Ok.
  now rewrite String.eqb_refl, andb_false_r.
Qed.

(** X24.  A diskette loaded into a drive.  On a drive that is not busy and
    has no auto-mount pending, [loadDiskette] with a path that is not
    empty and is not the path of the drive returns [false]: the drive
    has lost its diskette and is busy, and an auto-mount is counted.
    While the drive is busy every further [loadDiskette] on it returns
    [true] and changes nothing.  When the load completes,
    [mountDiskette] leaves the drive not busy with the new path, the
    count of auto-mounts is what it was before the load (the controller
    is ready when an auto-mount brings it back to zero), and loading
    the same path again returns [true] and changes nothing. *)
Theorem X24_FDC_load_diskette (c : Controller) (i : Z) (d : Drive) (sName : option string)
    (path : string) (fAuto : bool) :
  FDC.getDrive i c = Some d ->
  path <> EmptyString ->
  d.(FDC.sDiskettePath) <> path ->
  d.(FDC.fBusy) = false ->
  d.(FDC.fAutoMount) = false ->
  exists c1 d1,
    FDC.loadDiskette i sName (Some path) fAuto c = Ok (c1, false)
    /\ FDC.getDrive i c1 = Some d1
    /\ d1.(FDC.disk) = None
    /\ d1.(FDC.fBusy) = true
    /\ FDC_position d1 = FDC_position d
    /\ c1.(FDC.cAutoMount) = c.(FDC.cAutoMount) + (if fAuto then 1 else 0)
    /\ (forall sName' sPath' fAuto',
          FDC.loadDiskette i sName' sPath' fAuto' c1 = Ok (c1, true))
    /\ forall dk : Disk,
         exists c2 d2,
           FDC.mountDiskette i (Some dk) sName path c1 = Ok c2
           /\ FDC.getDrive i c2 = Some d2
           /\ d2.(FDC.fBusy) = false
           /\ d2.(FDC.fAutoMount) = false
           /\ d2.(FDC.sDiskettePath) = path
           /\ is_Some_b d2.(FDC.disk) = true
           /\ c2.(FDC.cAutoMount) = c.(FDC.cAutoMount)
           /\ (fAuto = true -> c.(FDC.cAutoMount) = 0 -> c2.(FDC.fReady) = true)
           /\ FDC.loadDiskette i sName (Some path) fAuto c2 = Ok (c2, true).
Proof.
  intros Hd Hpath Hnew Hbusy Hauto.
  apply String.eqb_neq in Hpath, Hnew.
  destruct (unloadDrive_step_Z c i d Hd) as (c0 & Hun & Hg0 & Hcount0).
  set (d0 := FDC_unloaded d) in *.
  assert (Hbusy0 : d0.(FDC.fBusy) = false)
    by (unfold d0, FDC_unloaded; destruct (FDC.disk d); [exact Hbusy|exact Hbusy]).
  assert (Hauto0 : d0.(FDC.fAutoMount) = false)
    by (unfold d0, FDC_unloaded; destruct (FDC.disk d); [exact Hauto|exact Hauto]).
  assert (Hdk0 : d0.(FDC.disk) = None)
    by (unfold d0, FDC_unloaded; destruct (FDC.disk d) eqn:E; [reflexivity|exact E]).
  assert (Hpos0 : FDC_position d0 = FDC_position d)
    by (unfold d0, FDC_unloaded; destruct (FDC.disk d); reflexivity).
  unfold FDC.loadDiskette at 1. rewrite Hd, deref_Some, bind_Ok, Hpath, Hnew.
  cbn [negb andb]. rewrite Hun, bind_Ok, Hg0, deref_Some, bind_Ok, Hbusy0.
  set (d1 := if fAuto then FDC.set_fAutoMount true (FDC.set_fBusy true d0)
             else FDC.set_fBusy true d0).
  set (c1 := FDC.putDrive i d1
               (if fAuto then FDC.set_cAutoMount (c0.(FDC.cAutoMount) + 1) c0 else c0)).
  assert (Hg1 : FDC.getDrive i c1 = Some d1).
  { unfold c1. destruct fAuto;
      (eapply FDC_getDrive_put; [exact Hg0|reflexivity|reflexivity]). }
  exists c1, d1.
  split; [unfold c1, d1; now destruct fAuto|]. split; [exact Hg1|].
  split; [unfold d1; now destruct fAuto|]. split; [unfold d1; now destruct fAuto|].
  split; [rewrite <- Hpos0; unfold d1; now destruct fAuto|].
  assert (Hcount1 : c1.(FDC.cAutoMount) = c.(FDC.cAutoMount) + (if fAuto then 1 else 0)).
  { unfold c1. destruct fAuto; cbn; rewrite Hcount0; [reflexivity|lia]. }
  split; [exact Hcount1|].
  split.
  { intros sName' sPath' fAuto'. apply (loadDiskette_busy c1 i d1); [exact Hg1|..];
      unfold d1; now destruct fAuto. }
  intros dk. unfold FDC.mountDiskette. rewrite Hg1, deref_Some, bind_Ok.
  destruct (FDC.addDiskHistory sName (Some path) dk c1) as [ch dk'] eqn:Hadd.
  assert (Hcounth : ch.(FDC.cAutoMount) = c1.(FDC.cAutoMount))
    by (unfold FDC.addDiskHistory in Hadd;
        destruct (FDC.addDiskHistory_loop _ _ _ _); injection Hadd as <- _; reflexivity).
  assert (Hdrvh : ch.(FDC.aDrives) = c1.(FDC.aDrives))
    by (unfold FDC.addDiskHistory in Hadd;
        destruct (FDC.addDiskHistory_loop _ _ _ _); injection Hadd as <- _; reflexivity).
  cbv beta iota zeta.
  match goal with
  | |- context [FDC.fAutoMount ?x] =>
      change (FDC.fAutoMount x) with (FDC.fAutoMount d1)
  end.
  assert (Hauto1 : FDC.fAutoMount d1 = fAuto)
    by (unfold d1; destruct fAuto; [reflexivity|exact Hauto0]).
  rewrite Hauto1.
  assert (Hput : forall (x : Controller) (y : Drive),
             x.(FDC.aDrives) = c1.(FDC.aDrives) ->
             FDC.getDrive i (FDC.putDrive i y x) = Some y).
  { intros x y Hx. eapply FDC_getDrive_put; [exact Hg1|cbn; now rewrite Hx|reflexivity]. }
  destruct fAuto.
  - cbn [FDC.cAutoMount FDC.set_cAutoMount FDC.set_regInput].
    destruct (negb (JS.truthyZ (FDC.cAutoMount ch - 1))) eqn:Hz;
      eexists _, _; (split; [reflexivity|]);
      (split; [apply Hput; exact Hdrvh|]);
      (split; [reflexivity|]); (split; [reflexivity|]); (split; [reflexivity|]);
      (split; [reflexivity|]);
      (split; [cbn; rewrite Hcounth, Hcount1; lia|]);
      (split; [|eapply loadDiskette_same; [apply Hput; exact Hdrvh|reflexivity]]).
    + reflexivity.
    + intros _ H0. rewrite Hcounth, Hcount1, H0 in Hz. discriminate Hz.
  - eexists _, _; (split; [reflexivity|]);
      (split; [apply Hput; exact Hdrvh|]);
      (split; [reflexivity|]); (split; [exact Hauto1|]); (split; [reflexivity|]);
      (split; [reflexivity|]);
      (split; [cbn; rewrite Hcounth, Hcount1; lia|]);
      (split; [discriminate|]).
    eapply loadDiskette_same; [apply Hput; exact Hdrvh|reflexivity].
Qed.

End FDC_load.

(** Drive 0 of the example controller takes a new diskette. *)
Lemma X24_FDC_load_diskette_witness :
  exists c1 c2,
    FDC.loadDiskette 0 (Some "DOS"%string) (Some "dos.json"%string) true Runs2.fdcIdle
    = Ok (c1, false)
    /\ FDC.mountDiskette 0 (Some BlankDisk.diskette) (Some "DOS"%string) "dos.json"%string c1
       = Ok c2
    /\ c2.(FDC.fReady) = true.
Proof.
  destruct (X24_FDC_load_diskette (DP := BlankDisk.port) Runs2.fdcIdle 0 (Examples.fdDrive 0 0 1) (Some "DOS"%string)
              "dos.json"%string true eq_refl ltac:(discriminate) ltac:(discriminate)
              eq_refl eq_refl)
    as (c1 & d1 & Hload & _ & _ & _ & _ & _ & _ & Hmount).
  destruct (Hmount BlankDisk.diskette) as (c2 & d2 & Hm & _ & _ & _ & _ & _ & _ & Hready & _).
  exists c1, c2. split; [exact Hload|]. split; [exact Hm|].
  apply Hready; reflexivity.
Defined.
